(** * Shallow embedding of the optimal-scheduler utilities

    Source: [src/utils/aiService.ts] (class [AIService]) and
    [src/utils/classUtils.ts] (rule set, statistics, and the multi-phase
    [generateIntelligentSchedule]).

    Conventions of the embedding.
    - JavaScript numbers are exact rationals ([Q]); [participants] is an
      integer ([parseInt] at ingestion).  [toFixed(1)] followed by
      [parseFloat] is rounding to one decimal, half away from zero.
    - JavaScript strings are [string]; [toLowerCase] acts on ASCII letters.
    - Objects used as dictionaries whose key order is observed
      ([Object.entries], [Object.values]) are association lists in insertion
      order; the instructor trackers, only looked up by key, are [gmap]s.
    - A [TypeError] is the result [None]. *)

From Stdlib Require Import QArith Qround Qminmax Qabs ZArith List String Ascii Lia Lqa Bool Permutation Sorted.
From stdpp Require Import base decidable option gmap strings list fin_maps pretty relations.
Import ListNotations.

Local Open Scope string_scope.
Local Open Scope list_scope.
Local Open Scope Q_scope.

(** ** JavaScript string primitives *)

Definition toLowerChar (c : ascii) : ascii :=
  let n := nat_of_ascii c in
  if ((65 <=? n) && (n <=? 90))%nat then ascii_of_nat (n + 32) else c.

Fixpoint toLowerCase (s : string) : string :=
  match s with
  | EmptyString => EmptyString
  | String c r => String (toLowerChar c) (toLowerCase r)
  end.

(** [s.includes(needle)] *)
Fixpoint includes (s needle : string) : bool :=
  String.prefix needle s
  || match s with
     | EmptyString => false
     | String _ r => includes r needle
     end.

(** [s.split(sep)] for a one-character separator. *)
Fixpoint split (sep : ascii) (s : string) : list string :=
  match s with
  | EmptyString => [EmptyString]
  | String c r =>
      if Ascii.eqb c sep then EmptyString :: split sep r
      else match split sep r with
           | w :: ws => String c w :: ws
           | [] => [String c EmptyString]
           end
  end.

(** [l.join(sep)] *)
Fixpoint join (sep : string) (l : list string) : string :=
  match l with
  | [] => EmptyString
  | [w] => w
  | w :: ws => w +:+ sep +:+ join sep ws
  end.

(** [s.slice(0, n)] *)
Definition slice0 (n : nat) (s : string) : string := String.substring 0 n s.

Definition isSpaceChar (c : ascii) : bool :=
  let n := nat_of_ascii c in
  ((n =? 32) || (n =? 9) || (n =? 10) || (n =? 11) || (n =? 12) || (n =? 13))%nat.

Fixpoint trimStart (s : string) : string :=
  match s with
  | String c r => if isSpaceChar c then trimStart r else s
  | EmptyString => EmptyString
  end.

(** [s.trim() === ''] *)
Definition isBlank (s : string) : bool := bool_decide (trimStart s = "").

Definition digitOf (c : ascii) : option Z :=
  let n := nat_of_ascii c in
  if ((48 <=? n) && (n <=? 57))%nat then Some (Z.of_nat (n - 48)) else None.

Fixpoint parseDigits (acc : option Z) (s : string) : option Z :=
  match s with
  | EmptyString => acc
  | String c r =>
      match digitOf c with
      | Some d => parseDigits (Some (10 * default 0%Z acc + d)%Z) r
      | None => acc
      end
  end.

(** [parseInt(s)]: leading blanks, an optional sign, then the longest run of
    decimal digits; [None] is [NaN]. *)
Definition parseInt (s : string) : option Z :=
  match trimStart s with
  | String "-" r => Z.opp <$> parseDigits None r
  | String "+" r => parseDigits None r
  | r => parseDigits None r
  end.

(** ** JavaScript number primitives *)

Definition Qltb (a b : Q) : bool := negb (Qle_bool b a).

(** [parseFloat(x.toFixed(1))] *)
Definition toFixed1 (x : Q) : Q :=
  if Qltb x 0 then - (Qfloor (- x * 10 + (1 # 2)) # 10)
  else Qfloor (x * 10 + (1 # 2)) # 10.

(** [Math.round(x)] *)
Definition Math_round (x : Q) : Z := Qfloor (x + (1 # 2)).

(** [Math.ceil(x)] *)
Definition Math_ceil (x : Q) : Z := Qceiling x.

(** [Math.abs(x)] *)
Definition Math_abs (x : Q) : Q := Qabs x.

(** ** Array primitives *)

Section Arrays.
Context {A : Type}.

(** Insertion of [x] in front of the first element it does not follow. *)
Fixpoint insertBy (cmp : A -> A -> Q) (x : A) (l : list A) : list A :=
  match l with
  | [] => [x]
  | y :: r => if Qle_bool (cmp x y) 0 then x :: l else y :: insertBy cmp x r
  end.

(** [l.sort(cmp)]: the stable sort ECMAScript prescribes, as a stable
    insertion sort; [cmp a b < 0] places [a] before [b]. *)
Definition sortBy (cmp : A -> A -> Q) (l : list A) : list A :=
  fold_right (insertBy cmp) [] l.

(** [a] may stand before [b] under the comparator. *)
Definition precedes (cmp : A -> A -> Q) (a b : A) : Prop := Qle_bool (cmp a b) 0 = true.

(** [l.findIndex(p)]; [None] is [-1]. *)
Fixpoint findIndex (p : A -> bool) (l : list A) : option nat :=
  match l with
  | [] => None
  | x :: r => if p x then Some 0%nat else S <$> findIndex p r
  end.

(** [[...new Set(l)]]: first occurrences, in order. *)
Fixpoint uniq `{EqDecision A} (l : list A) : list A :=
  match l with
  | [] => []
  | x :: r => x :: List.filter (fun y => negb (bool_decide (y = x))) (uniq r)
  end.

(** [acc[k] = f(acc[k])] on a dictionary kept in insertion order. *)
Fixpoint alterKey (f : option A -> A) (k : string) (l : list (string * A))
  : list (string * A) :=
  match l with
  | [] => [(k, f None)]
  | (k', v) :: r =>
      if bool_decide (k = k') then (k', f (Some v)) :: r
      else (k', v) :: alterKey f k r
  end.

(** [l.slice(0, -2)] and [l.slice(-2)] *)
Definition dropLast2 (l : list A) : list A := firstn (length l - 2) l.
Definition last2 (l : list A) : list A := skipn (length l - 2) l.
End Arrays.

(** ** Data model ([src/types]) *)

Record ClassData := {
  location : string;
  dayOfWeek : string;
  classTime : string;
  cleanedClass : string;
  teacherName : string;
  participants : Z;
  totalRevenue : Q
}.

(** The [id] string ends in [Date.now()] and [Math.random()]; the model keeps
    the cell it was created for and a stamp that is fresh at every creation. *)
Definition ClassId : Type := (string * string * string * nat)%type.

Record ScheduledClass := {
  id : ClassId;
  day : string;
  time : string;
  sc_location : string;
  classFormat : string;
  teacherFirstName : string;
  teacherLastName : string;
  duration : Q;            (* [parseFloat(cls.duration)] *)
  sc_participants : Q;
  revenue : Q;
  isTopPerformer : bool;
  isPrivate : bool
}.

Record AIProvider := { provider_name : string; provider_key : string; endpoint : string }.


Record TopPerformingClass := {
  tp_classFormat : string;
  tp_location : string;
  tp_day : string;
  tp_time : string;
  tp_teacher : string;
  tp_avgParticipants : Q;
  tp_avgRevenue : Q;
  tp_frequency : nat
}.

Record CustomTeacher := { firstName : string; lastName : string }.

(** The name a class shows for the teacher [teacher] it was created for:
    [teacher.split(' ')[0]], a blank, and [teacher.split(' ').slice(1).join(' ')]. *)
Definition shownName (teacher : string) : string :=
  hd "" (split " " teacher) +:+ " " +:+ join " " (tl (split " " teacher)).

Fixpoint endsWithSpace (s : string) : bool :=
  match s with
  | EmptyString => false
  | String c EmptyString => Ascii.eqb c " "
  | String _ r => endsWithSpace r
  end.

Fixpoint noSpace (s : string) : bool :=
  match s with
  | EmptyString => true
  | String c r => negb (Ascii.eqb c " ") && noSpace r
  end.

(** [`${cls.teacherFirstName} ${cls.teacherLastName}`] *)
Definition fullName (cls : ScheduledClass) : string :=
  teacherFirstName cls +:+ " " +:+ teacherLastName cls.

(** ** Rule set ([classUtils.ts]) *)

Definition getClassDuration (className : string) : Q :=
  let lowerName := toLowerCase className in
  if includes lowerName "express" then 3 # 4
  else if includes lowerName "recovery" || includes lowerName "sweat in 30" then 1 # 2
  else 1.

Definition isHostedClass (className : string) : bool :=
  includes (toLowerCase className) "hosted".

Definition isClassAllowedAtLocation (classFormat location : string) : bool :=
  let lowerFormat := toLowerCase classFormat in
  if bool_decide (location = "Supreme HQ, Bandra") then
    if includes lowerFormat "amped up" || includes lowerFormat "hiit" then false else true
  else
    if includes lowerFormat "powercycle" || includes lowerFormat "power cycle" then false else true.

Definition getAvailableTimeSlots (day : string) : list string :=
  let morningSlots := ["07:30"; "08:00"; "08:30"; "09:00"; "09:30"; "10:00"; "10:30"; "11:00"; "11:30"] in
  let eveningSlots := ["17:00"; "17:30"; "18:00"; "18:30"; "19:00"; "19:30"] in
  morningSlots ++ eveningSlots.

(** [parseInt(time.split(':')[0])] *)
Definition hourOf (time : string) : option Z := parseInt (hd "" (split ":" time)).

Definition isMorningSlot (time : string) : bool :=
  match hourOf time with Some hour => (hour <? 12)%Z | None => false end.

Definition isEveningSlot (time : string) : bool :=
  match hourOf time with Some hour => (17 <=? hour)%Z | None => false end.

Definition isPeakHour (time : string) : bool :=
  match hourOf time with
  | Some hour => ((7 <=? hour) && (hour <=? 11) || (17 <=? hour) && (hour <=? 19))%Z
  | None => false
  end.

Definition getShiftBalance (scheduledClasses : list ScheduledClass) (loc d : string)
  : nat * nat :=
  let dayClasses :=
    List.filter (fun cls => bool_decide (sc_location cls = loc) && bool_decide (day cls = d))
                scheduledClasses in
  (length (List.filter (fun cls => isMorningSlot (time cls)) dayClasses),
   length (List.filter (fun cls => isEveningSlot (time cls)) dayClasses)).

Record Guidelines := { avoid : list string; guide_priority : list string }.

Definition getDayGuidelines (d : string) : Guidelines :=
  if bool_decide (d = "Monday") then
    {| avoid := ["Studio Recovery"];
       guide_priority := ["Studio Barre 57"; "Studio FIT"; "Studio powerCycle"; "Studio Mat 57"] |}
  else if bool_decide (d = "Tuesday") then
    {| avoid := ["Studio HIIT"; "Studio Amped Up!"];
       guide_priority := ["Studio Barre 57"; "Studio Mat 57"; "Studio Foundations"; "Studio Cardio Barre"] |}
  else if bool_decide (d = "Wednesday") then
    {| avoid := [];
       guide_priority := ["Studio Barre 57"; "Studio FIT"; "Studio powerCycle"; "Studio Mat 57"] |}
  else if bool_decide (d = "Thursday") then
    {| avoid := [];
       guide_priority := ["Studio Recovery"; "Studio Mat 57"; "Studio Cardio Barre"; "Studio Back Body Blaze"] |}
  else if bool_decide (d = "Friday") then
    {| avoid := [];
       guide_priority := ["Studio HIIT"; "Studio Amped Up!"; "Studio FIT"; "Studio Cardio Barre"] |}
  else if bool_decide (d = "Saturday") then
    {| avoid := ["Studio HIIT"];
       guide_priority := ["Studio Barre 57"; "Studio Foundations"; "Studio Recovery"; "Studio Mat 57"] |}
  else if bool_decide (d = "Sunday") then
    {| avoid := ["Studio HIIT"; "Studio Amped Up!"];
       guide_priority := ["Studio Barre 57"; "Studio Recovery"; "Studio Mat 57"] |}
  else {| avoid := []; guide_priority := [] |}.

Record DefaultTopClass := {
  dt_classFormat : string;
  dt_day : string;
  dt_time : string;
  dt_location : string;
  dt_teacher : string;
  dt_avgParticipants : Q
}.

Definition getDefaultTopClasses : list DefaultTopClass :=
  let kh := "Kwality House, Kemps Corner" in
  [ {| dt_classFormat := "Studio Mat 57"; dt_day := "Saturday"; dt_time := "10:15";
       dt_location := kh; dt_teacher := "Karanvir Bhatia"; dt_avgParticipants := 25 |};
    {| dt_classFormat := "Studio FIT"; dt_day := "Tuesday"; dt_time := "19:15";
       dt_location := kh; dt_teacher := "Anisha Shah"; dt_avgParticipants := 919 # 100 |};
    {| dt_classFormat := "Studio Mat 57"; dt_day := "Wednesday"; dt_time := "19:15";
       dt_location := kh; dt_teacher := "Karanvir Bhatia"; dt_avgParticipants := 935 # 100 |};
    {| dt_classFormat := "Studio FIT"; dt_day := "Friday"; dt_time := "09:00";
       dt_location := kh; dt_teacher := "Anisha Shah"; dt_avgParticipants := 1108 # 100 |};
    {| dt_classFormat := "Studio Back Body Blaze"; dt_day := "Wednesday"; dt_time := "09:00";
       dt_location := kh; dt_teacher := "Anisha Shah"; dt_avgParticipants := 1058 # 100 |};
    {| dt_classFormat := "Studio Barre 57"; dt_day := "Sunday"; dt_time := "11:30";
       dt_location := kh; dt_teacher := "Rohan Dahima"; dt_avgParticipants := 98 # 10 |};
    {| dt_classFormat := "Studio Mat 57"; dt_day := "Monday"; dt_time := "08:30";
       dt_location := kh; dt_teacher := "Anisha Shah"; dt_avgParticipants := 1054 # 100 |};
    {| dt_classFormat := "Studio Barre 57"; dt_day := "Monday"; dt_time := "18:45";
       dt_location := kh; dt_teacher := "Pranjali Jain"; dt_avgParticipants := 865 # 100 |};
    {| dt_classFormat := "Studio powerCycle"; dt_day := "Sunday"; dt_time := "10:00";
       dt_location := "Supreme HQ, Bandra"; dt_teacher := "Cauveri Vikrant";
       dt_avgParticipants := 85 # 10 |};
    {| dt_classFormat := "Studio Mat 57"; dt_day := "Tuesday"; dt_time := "11:00";
       dt_location := kh; dt_teacher := "Atulan Purohit"; dt_avgParticipants := 862 # 100 |} ].

(** ** Performance statistics *)

(** [obj[key]] on a dictionary in insertion order. *)
Definition lookupKey {A} (k : string) (l : list (string * A)) : option A :=
  snd <$> List.find (fun kv => bool_decide (fst kv = k)) l.


Record Stats := { st_participants : Z; st_revenue : Q; st_count : nat }.

(** [if (!acc[k]) acc[k] = {participants: 0, revenue: 0, count: 0}] followed by
    the three [+=]. *)
Definition addStats (item : ClassData) (o : option Stats) : Stats :=
  let s := default {| st_participants := 0; st_revenue := 0; st_count := 0 |} o in
  {| st_participants := (st_participants s + participants item)%Z;
     st_revenue := st_revenue s + totalRevenue item;
     st_count := S (st_count s) |}.

(** [data.reduce((acc, item) => { ...; return acc }, {})]: every item updates
    the entry of its key, created on first use. *)
Definition reduceByKey {V} (key : ClassData -> string) (add : ClassData -> option V -> V)
    (data : list ClassData) : list (string * V) :=
  fold_left (fun acc item => alterKey (add item) (key item) acc) data [].

(** What [add] accumulates over a run of items, from no entry. *)
Definition accumulated {V} (add : ClassData -> option V -> V) (items : list ClassData)
  : option V :=
  fold_left (fun o item => Some (add item o)) items None.

Definition groupStats (key : ClassData -> string) (data : list ClassData)
  : list (string * Stats) :=
  reduceByKey key addStats data.

Definition totalParticipants (items : list ClassData) : Z :=
  fold_right (fun item sum => (participants item + sum)%Z) 0%Z items.

(** [stats.participants / stats.count] *)
Definition average (total : Z) (count : nat) : Q :=
  inject_Z total / inject_Z (Z.of_nat count).


(** ** [AIService] ([aiService.ts]) *)




(** [!this.provider || !this.provider.key || this.provider.key.trim() === ''] *)
Definition providerMissing (provider : option AIProvider) : bool :=
  match provider with
  | None => true
  | Some p => bool_decide (provider_key p = "") || isBlank (provider_key p)
  end.




(** ** Top performers ([classUtils.ts]) *)

Record ClassGroup := {
  g_classFormat : string;
  g_location : string;
  g_day : string;
  g_time : string;
  g_teacher : string;
  g_totalParticipants : Z;
  g_totalRevenue : Q;
  g_count : nat
}.

Definition groupKey (includeTeacher : bool) (item : ClassData) : string :=
  if includeTeacher then
    cleanedClass item +:+ "-" +:+ location item +:+ "-" +:+ dayOfWeek item +:+ "-"
      +:+ slice0 5 (classTime item) +:+ "-" +:+ teacherName item
  else
    cleanedClass item +:+ "-" +:+ location item +:+ "-" +:+ dayOfWeek item +:+ "-"
      +:+ slice0 5 (classTime item).

Definition addToGroup (includeTeacher : bool) (item : ClassData) (o : option ClassGroup)
  : ClassGroup :=
  let g := default {| g_classFormat := cleanedClass item; g_location := location item;
                      g_day := dayOfWeek item; g_time := slice0 5 (classTime item);
                      g_teacher := if includeTeacher then teacherName item else "";
                      g_totalParticipants := 0; g_totalRevenue := 0; g_count := 0 |} o in
  {| g_classFormat := g_classFormat g; g_location := g_location g; g_day := g_day g;
     g_time := g_time g; g_teacher := g_teacher g;
     g_totalParticipants := (g_totalParticipants g + participants item)%Z;
     g_totalRevenue := g_totalRevenue g + totalRevenue item;
     g_count := S (g_count g) |}.

Definition classGroups (includeTeacher : bool) (validClasses : list ClassData)
  : list (string * ClassGroup) :=
  reduceByKey (groupKey includeTeacher) (addToGroup includeTeacher) validClasses.

Definition groupToTop (group : ClassGroup) : TopPerformingClass :=
  {| tp_classFormat := g_classFormat group; tp_location := g_location group;
     tp_day := g_day group; tp_time := g_time group; tp_teacher := g_teacher group;
     tp_avgParticipants := toFixed1 (average (g_totalParticipants group) (g_count group));
     tp_avgRevenue := toFixed1 (g_totalRevenue group / inject_Z (Z.of_nat (g_count group)));
     tp_frequency := g_count group |}.

(** The comparator of the top-performer sort. *)
Definition compareTop (a b : TopPerformingClass) : Q :=
  let participantDiff := tp_avgParticipants b - tp_avgParticipants a in
  if Qltb 1 (Math_abs participantDiff) then participantDiff
  else inject_Z (Z.of_nat (tp_frequency b) - Z.of_nat (tp_frequency a)).

Definition defaultToTop (cls : DefaultTopClass) : TopPerformingClass :=
  {| tp_classFormat := dt_classFormat cls; tp_location := dt_location cls;
     tp_day := dt_day cls; tp_time := dt_time cls; tp_teacher := dt_teacher cls;
     tp_avgParticipants := dt_avgParticipants cls; tp_avgRevenue := 0;
     tp_frequency := 10 |}.

Definition sameSlot (cls c : TopPerformingClass) : bool :=
  bool_decide (tp_classFormat c = tp_classFormat cls)
  && bool_decide (tp_location c = tp_location cls)
  && bool_decide (tp_day c = tp_day cls)
  && bool_decide (tp_time c = tp_time cls).

(** [arr.filter((cls, index, arr) => arr.findIndex(sameSlot cls) === index)] *)
Definition uniqueClasses (arr : list TopPerformingClass) : list TopPerformingClass :=
  map snd
    (List.filter (fun ic => bool_decide (findIndex (sameSlot (snd ic)) arr = Some (fst ic)))
                 (imap pair arr)).

Definition validClasses (csvData : list ClassData) : list ClassData :=
  List.filter (fun item => negb (isHostedClass (cleanedClass item))
                           && isClassAllowedAtLocation (cleanedClass item) (location item))
              csvData.

Definition topClasses (csvData : list ClassData) (minAverage : Q) (includeTeacher : bool)
  : list TopPerformingClass :=
  sortBy compareTop
    (List.filter (fun cls => (2 <=? tp_frequency cls)%nat
                             && Qle_bool minAverage (tp_avgParticipants cls))
       (map (fun kg => groupToTop (snd kg)) (classGroups includeTeacher (validClasses csvData)))).

Definition getTopPerformingClasses
    (csvData : list ClassData) (minAverage : Q) (includeTeacher : bool)
  : list TopPerformingClass :=
  let defaultTopClasses := map defaultToTop getDefaultTopClasses in
  let allTopClasses := defaultTopClasses ++ topClasses csvData minAverage includeTeacher in
  uniqueClasses allTopClasses.

Record TeacherStat := { ts_teacher : string; ts_avgParticipants : Q }.

(** [x || null] on a string: the empty string is falsy. *)
Definition truthy (o : option string) : option string :=
  match o with
  | Some s => if bool_decide (s = "") then None else Some s
  | None => None
  end.

Definition getBestTeacherForClass
    (csvData : list ClassData) (format loc d t : string) : option string :=
  let defaultClass :=
    List.find (fun cls => bool_decide (dt_classFormat cls = format)
                          && bool_decide (dt_location cls = loc)
                          && bool_decide (dt_day cls = d)
                          && bool_decide (dt_time cls = t))
              getDefaultTopClasses in
  match defaultClass with
  | Some cls => Some (dt_teacher cls)
  | None =>
      let relevantClasses :=
        List.filter (fun item => bool_decide (cleanedClass item = format)
                                 && bool_decide (location item = loc)
                                 && bool_decide (dayOfWeek item = d)
                                 && includes (classTime item) t
                                 && negb (isHostedClass (cleanedClass item))
                                 && negb (includes (teacherName item) "Nishanth")
                                 && negb (includes (teacherName item) "Saniya"))
                    csvData in
      if (length relevantClasses =? 0)%nat then None
      else
        let teacherStats := groupStats teacherName relevantClasses in
        let ranked :=
          sortBy (fun a b => ts_avgParticipants b - ts_avgParticipants a)
            (map (fun '(teacher, stats) =>
                    {| ts_teacher := teacher;
                       ts_avgParticipants := average (st_participants stats) (st_count stats) |})
                 teacherStats) in
        truthy (ts_teacher <$> head ranked)
  end.

(** [getClassAverageForSlot] without the optional [teacherName]. *)
Definition getClassAverageForSlot
    (csvData : list ClassData) (format loc d t : string) : Q * nat :=
  let relevantClasses :=
    List.filter (fun item => bool_decide (cleanedClass item = format)
                             && bool_decide (location item = loc)
                             && bool_decide (dayOfWeek item = d)
                             && includes (classTime item) t
                             && negb (isHostedClass (cleanedClass item)))
                csvData in
  if (length relevantClasses =? 0)%nat then (0, 0%nat)
  else
    let totalParticipants :=
      fold_left (fun sum item => (sum + participants item)%Z) relevantClasses 0%Z in
    (toFixed1 (average totalParticipants (length relevantClasses)), length relevantClasses).

Record Specialty := {
  sp_classFormat : string;
  sp_avgParticipants : Q;
  sp_classCount : nat
}.

Definition getTeacherSpecialties (csvData : list ClassData)
  : list (string * list Specialty) :=
  let teacherStats : list (string * list (string * Stats)) :=
    fold_left
      (fun acc item =>
         if isHostedClass (cleanedClass item) then acc
         else if includes (teacherName item) "Nishanth" || includes (teacherName item) "Saniya"
         then acc
         else alterKey (fun o => alterKey (addStats item) (cleanedClass item) (default [] o))
                       (teacherName item) acc)
      csvData [] in
  map (fun '(teacher, classes) =>
         (teacher,
          firstn 5
            (sortBy (fun a b =>
                       if negb (sp_classCount b =? sp_classCount a)%nat
                       then inject_Z (Z.of_nat (sp_classCount b) - Z.of_nat (sp_classCount a))
                       else sp_avgParticipants b - sp_avgParticipants a)
               (map (fun '(format, stats) =>
                       {| sp_classFormat := format;
                          sp_avgParticipants :=
                            toFixed1 (average (st_participants stats) (st_count stats));
                          sp_classCount := st_count stats |})
                    classes))))
      teacherStats.

(** ** Manual-scheduling validation *)

Definition newTrainers : list string := ["Kabir"; "Simonelle"].
Definition seniorTrainers : list string :=
  ["Anisha"; "Vivaran"; "Mrigakshi"; "Pranjali"; "Atulan"; "Cauveri"; "Rohan"].
Definition advancedFormats : list string := ["Studio HIIT"; "Studio Amped Up!"].

(** [x.toFixed(1)] as text. *)
Definition toFixed1_string (x : Q) : string :=
  let n := Qfloor (Qabs x * 10 + (1 # 2)) in
  (if Qltb x 0 then "-" else "") +:+ pretty (n / 10)%Z +:+ "." +:+ pretty (n mod 10)%Z.

Record Validation := { isValid : bool; warning : option string; error : option string }.

(** Sum of [parseFloat(cls.duration)] over the classes of [teacherName]. *)
Definition hoursOf (scheduledClasses : list ScheduledClass) (name : string) : Q :=
  fold_left (fun sum cls => sum + duration cls)
    (List.filter (fun cls => bool_decide (fullName cls = name)) scheduledClasses) 0.

Definition validateTeacherHours
    (scheduledClasses : list ScheduledClass) (newClass : ScheduledClass) : Validation :=
  let name := fullName newClass in
  let currentHours := hoursOf scheduledClasses name in
  let newTotal := currentHours + duration newClass in
  let isNewTrainer := existsb (includes name) newTrainers in
  let maxHours : Z := if isNewTrainer then 10%Z else 15%Z in
  if Qltb (inject_Z maxHours) newTotal then
    {| isValid := false; warning := None;
       error := Some ("This would exceed " +:+ name +:+ "'s " +:+ pretty maxHours
                      +:+ "-hour weekly limit (currently " +:+ toFixed1_string currentHours
                      +:+ "h, would be " +:+ toFixed1_string newTotal +:+ "h)") |}
  else if Qltb (inject_Z (maxHours - 3)) newTotal then
    {| isValid := true;
       warning := Some (name +:+ " would have " +:+ toFixed1_string newTotal
                        +:+ "h this week (approaching " +:+ pretty maxHours +:+ "h limit)");
       error := None |}
  else {| isValid := true; warning := None; error := None |}.

(** The default [Array.prototype.sort] order on strings. *)
Definition compareStrings (a b : string) : Q :=
  match String.compare a b with Lt => -1 | Eq => 0 | Gt => 1 end.

Definition getUniqueTeachers
    (csvData : list ClassData) (customTeachers : list CustomTeacher) : list string :=
  let csvTeachers :=
    List.filter (fun teacher => negb (includes teacher "Nishanth")
                                && negb (includes teacher "Saniya"))
                (map teacherName csvData) in
  let customTeacherNames := map (fun t => firstName t +:+ " " +:+ lastName t) customTeachers in
  sortBy compareStrings (uniq (csvTeachers ++ customTeacherNames)).

(** ** The scheduler ([generateIntelligentSchedule]) *)

(** Of the option record only [targetDay] is read. *)
Record Options := { targetDay : option string }.

Definition locations : list string :=
  ["Kwality House, Kemps Corner"; "Supreme HQ, Bandra"; "Kenkere House"].

Definition weekDays : list string :=
  ["Monday"; "Tuesday"; "Wednesday"; "Thursday"; "Friday"; "Saturday"; "Sunday"].

Definition newTrainerFormats : list string :=
  ["Studio Barre 57"; "Studio Barre 57 (Express)"; "Studio powerCycle";
   "Studio powerCycle (Express)"; "Studio Cardio Barre"].

Definition requiredFormats : list string :=
  ["Studio Cardio Barre"; "Studio Mat 57"; "Studio Back Body Blaze"; "Studio Amped Up!"].

(** [l.includes(x)] on an array of strings. *)
Definition elemStr (x : string) (l : list string) : bool :=
  existsb (fun y => bool_decide (y = x)) l.

Definition isNewTrainer (teacherName : string) : bool :=
  existsb (includes teacherName) newTrainers.

Definition isSeniorTrainer (teacherName : string) : bool :=
  existsb (includes teacherName) seniorTrainers.

Definition maxParallel (loc : string) : nat :=
  if bool_decide (loc = "Supreme HQ, Bandra") then 3%nat else 2%nat.

(** The store of one optimisation run: the array under construction, the
    three instructor trackers, Phase 1's counter [classesScheduledForDay], and
    the stamp that stands for the clock and the random number in a new [id]. *)
Record State := {
  optimizedClasses : list ScheduledClass;
  teacherHoursTracker : gmap string Q;
  teacherDailyHours : gmap string (gmap string Q);
  teacherShiftAssignments : gmap string (gmap string (bool * bool));
  classesScheduledForDay : nat;
  stamp : nat
}.

(** *** The state-and-exception monad of the run *)

Definition M (A : Type) : Type := State -> option (A * State).

Definition ret {A} (a : A) : M A := fun s => Some (a, s).

Definition bind {A B} (m : M A) (f : A -> M B) : M B :=
  fun s => match m s with
           | Some (a, s') => f a s'
           | None => None
           end.

Definition get : M State := fun s => Some (s, s).

Definition put (s : State) : M unit := fun _ => Some (tt, s).

Definition liftOption {A} (o : option A) : M A :=
  fun s => match o with
           | Some a => Some (a, s)
           | None => None
           end.

Declare Scope sched_scope.
Delimit Scope sched_scope with sched.
Notation "x <- c1 ;; c2" := (bind c1 (fun x => c2))
  (at level 100, c1 at next level, right associativity) : sched_scope.
Notation "c1 ;; c2" := (bind c1 (fun _ => c2))
  (at level 100, right associativity) : sched_scope.
Local Open Scope sched_scope.

(** [for (const x of l) { body }]; the body answers [true] when it leaves the
    loop with [break], [false] when it ends or [continue]s. *)
Fixpoint forOf {A} (l : list A) (body : A -> M bool) : M unit :=
  match l with
  | [] => ret tt
  | x :: r => b <- body x ;; if b : bool then ret tt else forOf r body
  end.

(** A loop without [break]. *)
Definition forEach {A} (l : list A) (body : A -> M unit) : M unit :=
  forOf l (fun x => body x ;; ret false).

(** [l.find(p)] for a predicate that reads the store and may throw. *)
Fixpoint findM {A} (p : A -> M bool) (l : list A) : M (option A) :=
  match l with
  | [] => ret None
  | x :: r => b <- p x ;; if b : bool then ret (Some x) else findM p r
  end.

(** *** [canAssignTeacher] *)

(** The [return] statement that ends a call of [canAssignTeacher], in source
    order. *)
Inductive Verdict :=
| RejectNewTrainerFormat
| RejectAdvancedFormat
| RejectHourLimit
| RejectDaysOff
| Accept.

Definition workingDays (daily : gmap string Q) : nat :=
  length (List.filter (fun kv : string * Q => Qltb 0 (snd kv)) (map_to_list daily)).

Definition canAssignVerdict (s : State)
    (teacherName d t : string) (dur : Q) (format : string) : option Verdict :=
  let weeklyHours := default 0 (teacherHoursTracker s !! teacherName) in
  let dailyHours := default 0 (teacherDailyHours s !! teacherName ≫= (.!! d)) in
  let classDuration := dur in
  let maxWeeklyHours := if isNewTrainer teacherName then 10 else 15 in
  if isNewTrainer teacherName && negb (elemStr format newTrainerFormats)
  then Some RejectNewTrainerFormat
  else if elemStr format advancedFormats && negb (isSeniorTrainer teacherName)
  then Some RejectAdvancedFormat
  else if Qltb maxWeeklyHours (weeklyHours + classDuration)
          || Qltb 4 (dailyHours + classDuration)
  then Some RejectHourLimit
  else
    (* [Object.keys(teacherDailyHours[teacherName])] throws on [undefined] *)
    match teacherDailyHours s !! teacherName with
    | None => None
    | Some daily =>
        let currentWorkingDays := workingDays daily in
        if (5 <=? currentWorkingDays)%nat
           && match daily !! d with Some h => Qeq_bool h 0 | None => false end
        then Some RejectDaysOff
        else Some Accept
    end.

Definition isAccept (v : Verdict) : bool :=
  match v with Accept => true | _ => false end.

Definition canAssignTeacher (s : State)
    (teacherName d t : string) (dur : Q) (format : string) : option bool :=
  isAccept <$> canAssignVerdict s teacherName d t dur format.

Definition canAssign (teacherName d t : string) (dur : Q) (format : string) : M bool :=
  s <- get ;; liftOption (canAssignTeacher s teacherName d t dur format).

(** *** [assignClass] *)

Record SlotClass := {
  c_classFormat : string;
  c_location : string;
  c_day : string;
  c_time : string;
  c_avgParticipants : Q;
  c_avgRevenue : Q
}.

Definition newClass (classData : SlotClass) (teacher : string) (n : nat) : ScheduledClass :=
  {| id := (c_location classData, c_day classData, c_time classData, n);
     day := c_day classData;
     time := c_time classData;
     sc_location := c_location classData;
     classFormat := c_classFormat classData;
     teacherFirstName := hd "" (split " " teacher);
     teacherLastName := join " " (tl (split " " teacher));
     duration := getClassDuration (c_classFormat classData);
     sc_participants := c_avgParticipants classData;
     revenue := c_avgRevenue classData;
     isTopPerformer := Qltb 6 (c_avgParticipants classData);
     isPrivate := false |}.

(** [teacherShiftAssignments[teacher][day].morning = true] (or [.evening]);
    a missing entry is a [TypeError]. *)
Definition markShift (teacher d t : string)
    (shifts : gmap string (gmap string (bool * bool)))
  : option (gmap string (gmap string (bool * bool))) :=
  if isMorningSlot t then
    perTeacher ← shifts !! teacher;
    flags ← perTeacher !! d;
    Some (<[teacher := <[d := (true, snd flags)]> perTeacher]> shifts)
  else if isEveningSlot t then
    perTeacher ← shifts !! teacher;
    flags ← perTeacher !! d;
    Some (<[teacher := <[d := (fst flags, true)]> perTeacher]> shifts)
  else Some shifts.

Definition assignClass (classData : SlotClass) (teacher : string) : M unit :=
  fun s =>
    let dur := getClassDuration (c_classFormat classData) in
    let d := c_day classData in
    let classes := optimizedClasses s ++ [newClass classData teacher (stamp s)] in
    let hours :=
      <[teacher := toFixed1 (default 0 (teacherHoursTracker s !! teacher) + dur)]>
        (teacherHoursTracker s) in
    daily ← teacherDailyHours s !! teacher;
    let dailyHours :=
      <[teacher := <[d := toFixed1 (default 0 (daily !! d) + dur)]> daily]>
        (teacherDailyHours s) in
    shifts ← markShift teacher d (c_time classData) (teacherShiftAssignments s);
    Some (tt, {| optimizedClasses := classes;
                 teacherHoursTracker := hours;
                 teacherDailyHours := dailyHours;
                 teacherShiftAssignments := shifts;
                 classesScheduledForDay := classesScheduledForDay s;
                 stamp := S (stamp s) |}).

(** *** [getBestClassForSlot] *)

Record RankedFormat := {
  rf_classFormat : string;
  rf_avgParticipants : Q;
  rf_avgRevenue : Q;
  rf_count : nat;
  rf_isPriority : bool
}.

Definition slotData (csvData : list ClassData) (loc d t : string) (guidelines : Guidelines)
  : list ClassData :=
  List.filter (fun item => bool_decide (location item = loc)
                           && bool_decide (dayOfWeek item = d)
                           && includes (classTime item) t
                           && negb (isHostedClass (cleanedClass item))
                           && isClassAllowedAtLocation (cleanedClass item) loc
                           && negb (elemStr (cleanedClass item) (avoid guidelines))
                           && (4 <=? participants item)%Z)
              csvData.

Definition compareRanked (a b : RankedFormat) : Q :=
  if rf_isPriority a && negb (rf_isPriority b) then -1
  else if negb (rf_isPriority a) && rf_isPriority b then 1
  else rf_avgParticipants b - rf_avgParticipants a.

Definition toRanked (guidelines : Guidelines) (kv : string * Stats) : RankedFormat :=
  {| rf_classFormat := fst kv;
     rf_avgParticipants := average (st_participants (snd kv)) (st_count (snd kv));
     rf_avgRevenue := st_revenue (snd kv) / inject_Z (Z.of_nat (st_count (snd kv)));
     rf_count := st_count (snd kv);
     rf_isPriority := elemStr (fst kv) (guide_priority guidelines) |}.

Definition rankedFormats (guidelines : Guidelines) (data : list ClassData)
  : list RankedFormat :=
  sortBy compareRanked (map (toRanked guidelines) (groupStats cleanedClass data)).

Definition getBestClassForSlot
    (csvData : list ClassData) (loc d t : string) (guidelines : Guidelines)
  : option RankedFormat :=
  let data := slotData csvData loc d t guidelines in
  if (length data =? 0)%nat then None else head (rankedFormats guidelines data).

(** *** Phases *)

Definition inCell (loc d t : string) (cls : ScheduledClass) : bool :=
  bool_decide (sc_location cls = loc) && bool_decide (day cls = d)
  && bool_decide (time cls = t).

(** [classes.filter(cls => cls.location === loc && cls.day === d && cls.time === t)] *)
Definition classesInSlot (classes : list ScheduledClass) (loc d t : string)
  : list ScheduledClass :=
  List.filter (inCell loc d t) classes.

Definition setCounter (n : nat) : M unit :=
  fun s => Some (tt, {| optimizedClasses := optimizedClasses s;
                        teacherHoursTracker := teacherHoursTracker s;
                        teacherDailyHours := teacherDailyHours s;
                        teacherShiftAssignments := teacherShiftAssignments s;
                        classesScheduledForDay := n;
                        stamp := stamp s |}).

(** Phase 0: the curated classes. *)
Definition phase0 (options : Options) : M unit :=
  forEach getDefaultTopClasses (fun defaultClass =>
    let skip := match truthy (targetDay options) with
                | Some d => negb (bool_decide (dt_day defaultClass = d))
                | None => false
                end in
    if skip then ret tt
    else
      ok <- canAssign (dt_teacher defaultClass) (dt_day defaultClass) (dt_time defaultClass)
              (getClassDuration (dt_classFormat defaultClass)) (dt_classFormat defaultClass) ;;
      if ok : bool then
        assignClass {| c_classFormat := dt_classFormat defaultClass;
                       c_location := dt_location defaultClass;
                       c_day := dt_day defaultClass;
                       c_time := dt_time defaultClass;
                       c_avgParticipants := dt_avgParticipants defaultClass;
                       c_avgRevenue := 0 |} (dt_teacher defaultClass)
      else ret tt).


(** How many parallel classes Phase 1 aims at in a cell. *)
Definition classesToSchedule (loc t : string) : nat :=
  if bool_decide (loc = "Kwality House, Kemps Corner") then
    if elemStr t ["09:00"; "11:00"; "18:00"; "19:15"] then 2%nat else 1%nat
  else if bool_decide (loc = "Supreme HQ, Bandra") then
    if elemStr t ["08:00"; "09:00"; "10:00"; "18:00"; "19:00"] then 2%nat else 1%nat
  else 1%nat.

(** One turn of Phase 1's innermost loop, for one open parallel sub-slot. *)
Definition phase1_subslot (csvData : list ClassData) (allTeachers : list string)
    (loc d t : string) (guidelines : Guidelines) (isPeak : bool) : M unit :=
  match getBestClassForSlot csvData loc d t guidelines with
  | None => ret tt
  | Some bestClass =>
      s <- get ;;
      let existingFormats := map classFormat (classesInSlot (optimizedClasses s) loc d t) in
      if elemStr (rf_classFormat bestClass) existingFormats then ret tt
      else
        let format := rf_classFormat bestClass in
        let found := getBestTeacherForClass csvData format loc d t in
        unavailable <-
          match found with
          | None => ret true
          | Some teacher =>
              ok <- canAssign teacher d t (getClassDuration format) format ;; ret (negb ok)
          end ;;
        bestTeacher <-
          (if unavailable : bool then
             let candidateTeachers :=
               if isPeak then List.filter isSeniorTrainer allTeachers else allTeachers in
             findM (fun teacher => canAssign teacher d t (getClassDuration format) format)
                   candidateTeachers
           else ret found) ;;
        match truthy bestTeacher with
        | Some teacher =>
            assignClass {| c_classFormat := format; c_location := loc; c_day := d;
                           c_time := t;
                           c_avgParticipants := rf_avgParticipants bestClass;
                           c_avgRevenue := rf_avgRevenue bestClass |} teacher ;;
            s' <- get ;;
            setCounter (S (classesScheduledForDay s'))
        | None => ret tt
        end
  end.

(** Phase 1: fill the available slots. *)
Definition phase1 (csvData : list ClassData) (allTeachers days : list string) : M unit :=
  forEach days (fun d =>
    let guidelines := getDayGuidelines d in
    let availableSlots := getAvailableTimeSlots d in
    let maxClassesForDay :=
      if bool_decide (d = "Sunday") then 5%nat
      else (length availableSlots * length locations)%nat in
    s0 <- get ;;
    setCounter (length (List.filter (fun cls => bool_decide (day cls = d))
                                    (optimizedClasses s0))) ;;
    forEach locations (fun loc =>
      forOf availableSlots (fun t =>
        s <- get ;;
        if (maxClassesForDay <=? classesScheduledForDay s)%nat then ret true
        else
          let isPeak := isPeakHour t in
          let existingClasses := classesInSlot (optimizedClasses s) loc d t in
          let remainingSlots :=
            (Z.of_nat (classesToSchedule loc t) - Z.of_nat (length existingClasses))%Z in
          forEach (seq 0 (Z.to_nat remainingSlots)) (fun i =>
            phase1_subslot csvData allTeachers loc d t guidelines isPeak) ;;
          ret false))).

(** Phase 2: bring every teacher towards the weekly target. *)
Definition phase2 (csvData : list ClassData) (allTeachers days : list string) : M unit :=
  forEach allTeachers (fun teacher =>
    s0 <- get ;;
    let currentHours := default 0 (teacherHoursTracker s0 !! teacher) in
    let targetHours := if isNewTrainer teacher then 10 else 15 in
    if Qltb currentHours targetHours then
      let teacherSpecialties :=
        default [] (lookupKey teacher (getTeacherSpecialties csvData)) in
      forOf (firstn 3 teacherSpecialties) (fun specialty =>
        s1 <- get ;;
        if match teacherHoursTracker s1 !! teacher with
           | Some h => Qle_bool targetHours h
           | None => false
           end
        then ret true
        else
          forEach locations (fun loc =>
            if negb (isClassAllowedAtLocation (sp_classFormat specialty) loc) then ret tt
            else
              forEach days (fun d =>
                s2 <- get ;;
                daily <- liftOption (teacherDailyHours s2 !! teacher) ;;
                if match daily !! d with Some h => Qle_bool 4 h | None => false end
                then ret tt
                else
                  forOf (getAvailableTimeSlots d) (fun t =>
                    s3 <- get ;;
                    let existingClasses := classesInSlot (optimizedClasses s3) loc d t in
                    if (maxParallel loc <=? length existingClasses)%nat then ret false
                    else if existsb (fun cls => bool_decide
                                       (classFormat cls = sp_classFormat specialty))
                                    existingClasses
                    then ret false
                    else
                      ok <- canAssign teacher d t
                              (getClassDuration (sp_classFormat specialty))
                              (sp_classFormat specialty) ;;
                      if ok : bool then
                        assignClass {| c_classFormat := sp_classFormat specialty;
                                       c_location := loc; c_day := d; c_time := t;
                                       c_avgParticipants := sp_avgParticipants specialty;
                                       c_avgRevenue := 0 |} teacher ;;
                        ret true
                      else ret false))) ;;
          ret false)
    else ret tt).

(** Phase 3: at least three classes of each required format. *)
Definition phase3 (csvData : list ClassData) (days : list string) : M unit :=
  forEach requiredFormats (fun format =>
    s0 <- get ;;
    let formatCount :=
      length (List.filter (fun cls => bool_decide (classFormat cls = format))
                          (optimizedClasses s0)) in
    if (formatCount <? 3)%nat then
      forEach locations (fun loc =>
        if negb (isClassAllowedAtLocation format loc) then ret tt
        else
          forEach days (fun d =>
            forOf (getAvailableTimeSlots d) (fun t =>
              s <- get ;;
              let existingClasses := classesInSlot (optimizedClasses s) loc d t in
              if (maxParallel loc <=? length existingClasses)%nat then ret false
              else if existsb (fun cls => bool_decide (classFormat cls = format))
                              existingClasses
              then ret false
              else
                match truthy (getBestTeacherForClass csvData format loc d t) with
                | None => ret false
                | Some bestTeacher =>
                    ok <- canAssign bestTeacher d t (getClassDuration format) format ;;
                    if ok : bool then
                      let classAverage := getClassAverageForSlot csvData format loc d t in
                      assignClass {| c_classFormat := format; c_location := loc;
                                     c_day := d; c_time := t;
                                     c_avgParticipants :=
                                       if Qeq_bool (fst classAverage) 0 then 6
                                       else fst classAverage;
                                     c_avgRevenue := 0 |} bestTeacher ;;
                      ret true
                    else ret false
                end)))
    else ret tt).

(** The array positions, from [i] on, of the classes that satisfy [p]. *)
Fixpoint indicesFrom (i : nat) (p : ScheduledClass -> bool) (classes : list ScheduledClass)
  : list nat :=
  match classes with
  | [] => []
  | cls :: r => if p cls then i :: indicesFrom (S i) p r else indicesFrom (S i) p r
  end.

(** The object references a [filter] snapshot of the array holds: the
    positions of the classes that satisfy [p]. *)
Definition indicesWhere (p : ScheduledClass -> bool) (classes : list ScheduledClass)
  : list nat :=
  indicesFrom 0 p classes.

Definition setTeacher (cls : ScheduledClass) (first last : string) : ScheduledClass :=
  {| id := id cls; day := day cls; time := time cls; sc_location := sc_location cls;
     classFormat := classFormat cls; teacherFirstName := first; teacherLastName := last;
     duration := duration cls; sc_participants := sc_participants cls;
     revenue := revenue cls; isTopPerformer := isTopPerformer cls;
     isPrivate := isPrivate cls |}.

Definition setTime (cls : ScheduledClass) (newTime : string) : ScheduledClass :=
  {| id := id cls; day := day cls; time := newTime; sc_location := sc_location cls;
     classFormat := classFormat cls; teacherFirstName := teacherFirstName cls;
     teacherLastName := teacherLastName cls;
     duration := duration cls; sc_participants := sc_participants cls;
     revenue := revenue cls; isTopPerformer := isTopPerformer cls;
     isPrivate := isPrivate cls |}.

(** Phase 4's update of one class: the new teacher's names, then the four
    tracker adjustments in source order.  An adjustment of an entry that does
    not exist would store [NaN]; every tracker is initialised with all teachers
    and days, and the model reports such an adjustment as a failure. *)
Definition reassignTeacher (classIndex : nat) (teacher target : string)
    (dur : Q) (d : string) : M unit :=
  fun s =>
    let names := split " " target in
    let classes :=
      alter (fun cls => setTeacher cls (hd "" names) (join " " (tl names)))
            classIndex (optimizedClasses s) in
    h ← teacherHoursTracker s !! teacher;
    let hours1 := <[teacher := h - dur]> (teacherHoursTracker s) in
    h' ← hours1 !! target;
    let hours2 := <[target := h' + dur]> hours1 in
    daily ← teacherDailyHours s !! teacher;
    x ← daily !! d;
    let daily1 := <[teacher := <[d := x - dur]> daily]> (teacherDailyHours s) in
    daily' ← daily1 !! target;
    x' ← daily' !! d;
    let daily2 := <[target := <[d := x' + dur]> daily']> daily1 in
    Some (tt, {| optimizedClasses := classes;
                 teacherHoursTracker := hours2;
                 teacherDailyHours := daily2;
                 teacherShiftAssignments := teacherShiftAssignments s;
                 classesScheduledForDay := classesScheduledForDay s;
                 stamp := stamp s |}).

(** Consolidation of one shift of one (location, day); [shiftClasses] are the
    references taken before any reassignment. *)
Definition consolidateShift (shiftClasses : list nat) (d : string) : M unit :=
  s0 <- get ;;
  let names := omap (fun i => fullName <$> optimizedClasses s0 !! i) shiftClasses in
  let shiftTeachers := uniq names in
  if (2 <? length shiftTeachers)%nat then
    let teacherClassCounts :=
      sortBy (fun a b : string * nat => inject_Z (Z.of_nat (snd a) - Z.of_nat (snd b)))
        (map (fun teacher =>
                (teacher,
                 length (List.filter (fun n => bool_decide (n = teacher)) names)))
             shiftTeachers) in
    forEach (dropLast2 teacherClassCounts) (fun tc =>
      let teacher := fst tc in
      s1 <- get ;;
      let teacherClasses :=
        List.filter (fun i => match optimizedClasses s1 !! i with
                              | Some cls => bool_decide (fullName cls = teacher)
                              | None => false
                              end)
                    shiftClasses in
      forEach teacherClasses (fun i =>
        s2 <- get ;;
        cls <- liftOption (optimizedClasses s2 !! i) ;;
        targetTeacher <-
          findM (fun t : string * nat =>
                   canAssign (fst t) d (time cls) (duration cls) (classFormat cls))
                (last2 teacherClassCounts) ;;
        match targetTeacher with
        | Some target =>
            match findIndex (fun c => bool_decide (id c = id cls)) (optimizedClasses s2) with
            | Some classIndex =>
                reassignTeacher classIndex teacher (fst target) (duration cls) d
            | None => ret tt
            end
        | None => ret tt
        end))
  else ret tt.

(** Phase 4: at most two teachers per shift, where reassignment allows. *)
Definition phase4 (days : list string) : M unit :=
  forEach locations (fun loc =>
    forEach days (fun d =>
      s <- get ;;
      let morningClasses :=
        indicesWhere (fun cls => bool_decide (sc_location cls = loc)
                                 && bool_decide (day cls = d)
                                 && isMorningSlot (time cls))
                     (optimizedClasses s) in
      let eveningClasses :=
        indicesWhere (fun cls => bool_decide (sc_location cls = loc)
                                 && bool_decide (day cls = d)
                                 && isEveningSlot (time cls))
                     (optimizedClasses s) in
      consolidateShift morningClasses d ;;
      consolidateShift eveningClasses d)).

(** Phase 5's update: [optimizedClasses[classIndex].time = newTime]. *)
Definition moveClass (classIndex : nat) (newTime : string) : M unit :=
  fun s =>
    Some (tt, {| optimizedClasses :=
                   alter (fun cls => setTime cls newTime) classIndex (optimizedClasses s);
                 teacherHoursTracker := teacherHoursTracker s;
                 teacherDailyHours := teacherDailyHours s;
                 teacherShiftAssignments := teacherShiftAssignments s;
                 classesScheduledForDay := classesScheduledForDay s;
                 stamp := stamp s |}).

(** The slots of the deficit shift. *)
Definition targetSlots (d : string) (deficitMorning : bool) : list string :=
  List.filter (fun t => if deficitMorning then isMorningSlot t else isEveningSlot t)
              (getAvailableTimeSlots d).

(** One turn of Phase 5's slot loop for the class referenced by [i]. *)
Definition tryMove (i : nat) (loc d newTime : string) : M bool :=
  s <- get ;;
  cls <- liftOption (optimizedClasses s !! i) ;;
  let existingClasses := classesInSlot (optimizedClasses s) loc d newTime in
  if (length existingClasses <? maxParallel loc)%nat
     && negb (existsb (fun c => bool_decide (classFormat c = classFormat cls))
                      existingClasses)
  then
    match findIndex (fun c => bool_decide (id c = id cls)) (optimizedClasses s) with
    | Some classIndex => moveClass classIndex newTime ;; ret true
    | None => ret false
    end
  else ret false.

(** Phase 5 for one (location, day). *)
Definition balanceDay (loc d : string) : M unit :=
  s <- get ;;
  let balance := getShiftBalance (optimizedClasses s) loc d in
  let imbalance := Z.abs (Z.of_nat (fst balance) - Z.of_nat (snd balance)) in
  if (2 <? imbalance)%Z then
    let excessMorning := (snd balance <? fst balance)%nat in
    let excessClasses :=
      indicesWhere (fun cls => bool_decide (sc_location cls = loc)
                               && bool_decide (day cls = d)
                               && (if excessMorning then isMorningSlot (time cls)
                                   else isEveningSlot (time cls)))
                   (optimizedClasses s) in
    forEach (firstn (Z.to_nat (Math_ceil (inject_Z imbalance / 2))) excessClasses) (fun i =>
      forOf (targetSlots d (negb excessMorning)) (fun newTime => tryMove i loc d newTime))
  else ret tt.

(** Phase 5: balance morning and evening. *)
Definition phase5 (days : list string) : M unit :=
  forEach locations (fun loc => forEach days (fun d => balanceDay loc d)).

(** *** The run *)

Definition daysOf (options : Options) : list string :=
  match truthy (targetDay options) with
  | Some d => [d]
  | None => weekDays
  end.

Definition allTeachersOf (csvData : list ClassData) : list string :=
  List.filter (fun teacher => negb (includes teacher "Nishanth")
                              && negb (includes teacher "Saniya"))
              (uniq (map teacherName csvData)).

Definition initialState (allTeachers days : list string) : State :=
  {| optimizedClasses := [];
     teacherHoursTracker :=
       fold_left (fun m teacher => <[teacher := 0]> m) allTeachers ∅;
     teacherDailyHours :=
       fold_left (fun m teacher =>
                    <[teacher := fold_left (fun dm d => <[d := 0]> dm) days ∅]> m)
                 allTeachers ∅;
     teacherShiftAssignments :=
       fold_left (fun m teacher =>
                    <[teacher := fold_left (fun dm d => <[d := (false, false)]> dm) days ∅]> m)
                 allTeachers ∅;
     classesScheduledForDay := 0;
     stamp := 0 |}.

Definition runPhases (csvData : list ClassData) (options : Options) : M unit :=
  let days := daysOf options in
  let allTeachers := allTeachersOf csvData in
  phase0 options ;;
  phase1 csvData allTeachers days ;;
  phase2 csvData allTeachers days ;;
  phase3 csvData days ;;
  phase4 days ;;
  phase5 days.

(** [generateIntelligentSchedule]; [customTeachers] is not read.  The closing
    validation only writes to the console.  [None] is a rejected promise. *)
Definition generateIntelligentSchedule
    (csvData : list ClassData) (customTeachers : list CustomTeacher) (options : Options)
  : option (list ScheduledClass) :=
  match runPhases csvData options
          (initialState (allTeachersOf csvData) (daysOf options)) with
  | Some (_, s) => Some (optimizedClasses s)
  | None => None
  end.


(** ** Sample inputs *)

Definition sampleRecord (format teacher loc d t : string) (n : Z) : ClassData :=
  {| location := loc; dayOfWeek := d; classTime := t; cleanedClass := format;
     teacherName := teacher; participants := n; totalRevenue := 100 * inject_Z n |}.

(** [h] hours on each of Monday to Friday, Saturday and Sunday free. *)
Definition fiveDayHours (h : Q) : gmap string Q :=
  <["Monday" := h]> (<["Tuesday" := h]> (<["Wednesday" := h]>
  (<["Thursday" := h]> (<["Friday" := h]> (<["Saturday" := 0]>
  (<["Sunday" := 0]> ∅)))))).

(** A tracker in which Anisha Shah works those hours. *)
Definition fiveDayTracker (h : Q) : State :=
  {| optimizedClasses := [];
     teacherHoursTracker := {[ "Anisha Shah" := 5 * h ]};
     teacherDailyHours := {[ "Anisha Shah" := fiveDayHours h ]};
     teacherShiftAssignments := ∅;
     classesScheduledForDay := 0;
     stamp := 0 |}.




(** ** Notions used in the statements *)


(** The deduplication as a scan: the element at position [i] stays when it is
    the first of [arr] with its slot. *)
Fixpoint keepFirsts (arr : list TopPerformingClass) (i : nat) (l : list TopPerformingClass)
  : list TopPerformingClass :=
  match l with
  | [] => []
  | c :: r =>
      if bool_decide (findIndex (sameSlot c) arr = Some i)
      then c :: keepFirsts arr (S i) r
      else keepFirsts arr (S i) r
  end.


(** The cell of a curated class. *)
Definition defaultCell (cls : DefaultTopClass) : string * string * string :=
  (dt_location cls, dt_day cls, dt_time cls).

(** A name that holds neither of the two excluded first names. *)
Definition notBanned (name : string) : Prop :=
  includes name "Nishanth" = false /\ includes name "Saniya" = false.

(** The weekly cap of [canAssignTeacher]. *)
Definition maxWeekly (teacherName : string) : Q :=
  if isNewTrainer teacherName then 10 else 15.

(** What a class adds to the hours of [name]. *)
Definition contribution (name : string) (cls : ScheduledClass) : Q :=
  if bool_decide (fullName cls = name) then duration cls else 0.

Definition hoursSum (classes : list ScheduledClass) (name : string) : Q :=
  fold_right (fun cls sum => contribution name cls + sum) 0 classes.

(** Every cell is within the capacity of its location and holds a format at
    most once. *)
Definition cellsOK (classes : list ScheduledClass) : Prop :=
  forall loc d t,
    (length (classesInSlot classes loc d t) <= maxParallel loc)%nat
    /\ List.NoDup (map classFormat (classesInSlot classes loc d t)).

(** Ids are pairwise distinct and older than the next stamp. *)
Definition idsOK (s : State) : Prop :=
  List.NoDup (map id (optimizedClasses s))
  /\ forall c, In c (optimizedClasses s) -> (snd (id c) < stamp s)%nat.

Definition namesOK (classes : list ScheduledClass) : Prop :=
  forall c, In c classes -> notBanned (fullName c).

Definition durationsOK (classes : list ScheduledClass) : Prop :=
  forall c, In c classes -> 0 <= duration c.

(** The two hour trackers have the same teachers. *)
Definition sameKeys (s : State) : Prop :=
  forall t, is_Some (teacherHoursTracker s !! t) <-> is_Some (teacherDailyHours s !! t).

Definition keysTrimmed (s : State) : Prop :=
  forall t, is_Some (teacherHoursTracker s !! t) -> endsWithSpace t = false.

(** Every class is shown under the name of a tracked teacher, and the weekly
    tracker of a teacher bounds the hours shown under the teacher's name and
    stays within the cap. *)
Definition hoursOK (s : State) : Prop :=
  (forall c, In c (optimizedClasses s) ->
     exists t, is_Some (teacherHoursTracker s !! t) /\ fullName c = shownName t)
  /\ (forall t h, teacherHoursTracker s !! t = Some h ->
        hoursSum (optimizedClasses s) (shownName t) <= h /\ h <= maxWeekly t).

(** While [assignClass] is the only writer, the weekly trackers are
    non-negative tenths. *)
Definition tenthsOK (s : State) : Prop :=
  forall t h, teacherHoursTracker s !! t = Some h ->
    0 <= h /\ exists n : Z, h == n # 10.

(** Only the teachers of [teachers] are tracked. *)
Definition knownKeys (teachers : list string) (s : State) : Prop :=
  forall t, is_Some (teacherHoursTracker s !! t) -> In t teachers.

(** The invariant of a run over the teachers [teachers]; [rounded] holds up to
    the end of Phase 3. *)
Definition Inv (rounded : bool) (teachers : list string) (s : State) : Prop :=
  cellsOK (optimizedClasses s)
  /\ idsOK s
  /\ namesOK (optimizedClasses s)
  /\ durationsOK (optimizedClasses s)
  /\ sameKeys s
  /\ knownKeys teachers s
  /\ (keysTrimmed s -> hoursOK s /\ (rounded = true -> tenthsOK s)).


(** ** Slot capacity ([classUtils]) *)

Definition getClassesAtTimeSlot (scheduledClasses : list ScheduledClass) (d t loc : string)
  : list ScheduledClass :=
  List.filter (fun cls => bool_decide (day cls = d) && bool_decide (time cls = t)
                          && bool_decide (sc_location cls = loc))
              scheduledClasses.

Definition hasTimeSlotCapacity (scheduledClasses : list ScheduledClass) (d t loc : string)
  : bool :=
  let existingClasses := getClassesAtTimeSlot scheduledClasses d t loc in
  let maxClasses := if bool_decide (loc = "Supreme HQ, Bandra") then 3%nat else 2%nat in
  (length existingClasses <? maxClasses)%nat.

(** ** More sample inputs *)

(** Records under which the six curated teachers are tracked, and two records
    whose teacher names differ by one trailing space. *)
Definition trailingSpaceRecords : list ClassData :=
  [ sampleRecord "Hosted Class" "Karanvir Bhatia" "X" "Monday" "09:00" 10;
    sampleRecord "Hosted Class" "Anisha Shah" "X" "Monday" "09:00" 10;
    sampleRecord "Hosted Class" "Rohan Dahima" "X" "Monday" "09:00" 10;
    sampleRecord "Hosted Class" "Pranjali Jain" "X" "Monday" "09:00" 10;
    sampleRecord "Hosted Class" "Cauveri Vikrant" "X" "Monday" "09:00" 10;
    sampleRecord "Hosted Class" "Atulan Purohit" "X" "Monday" "09:00" 10;
    sampleRecord "Studio Barre 57" "Kabir" "X" "Monday" "09:00" 10;
    sampleRecord "Studio Barre 57" "Kabir " "X" "Monday" "09:00" 10 ].

(** The same records without the untrimmed name. *)
Definition trimmedRecords : list ClassData := firstn 7 trailingSpaceRecords.


(** ** Phase 5 as a sequence of moves *)

(** [a] and [b] agree on every field except [time]. *)
Definition sameButTime (a b : ScheduledClass) : Prop :=
  id a = id b /\ day a = day b /\ sc_location a = sc_location b
  /\ classFormat a = classFormat b
  /\ teacherFirstName a = teacherFirstName b /\ teacherLastName a = teacherLastName b
  /\ duration a = duration b /\ sc_participants a = sc_participants b
  /\ revenue a = revenue b /\ isTopPerformer a = isTopPerformer b
  /\ isPrivate a = isPrivate b.

(** The shift of the slot [t] holds fewer classes of (loc, d) than the other
    shift. *)
Definition underrepresented (classes : list ScheduledClass) (loc d t : string) : Prop :=
  (isMorningSlot t = true
   /\ (fst (getShiftBalance classes loc d) < snd (getShiftBalance classes loc d))%nat)
  \/ (isEveningSlot t = true
      /\ (snd (getShiftBalance classes loc d) < fst (getShiftBalance classes loc d))%nat).

(** One move as the specification words it: the class at position [k] goes to
    a slot of the underrepresented shift of its location and day that is below
    the parallel capacity and does not hold the format of the class; the class
    keeps every field but [time], and every other class and the three
    instructor trackers stay as they are. *)
Definition balancingMove (s s' : State) : Prop :=
  exists k cls cls',
    optimizedClasses s !! k = Some cls
    /\ underrepresented (optimizedClasses s) (sc_location cls) (day cls) (time cls')
    /\ (length (classesInSlot (optimizedClasses s) (sc_location cls) (day cls) (time cls'))
        < maxParallel (sc_location cls))%nat
    /\ ~ In (classFormat cls)
            (map classFormat
               (classesInSlot (optimizedClasses s) (sc_location cls) (day cls) (time cls')))
    /\ sameButTime cls cls'
    /\ optimizedClasses s' = <[k := cls']> (optimizedClasses s)
    /\ teacherHoursTracker s' = teacherHoursTracker s
    /\ teacherDailyHours s' = teacherDailyHours s
    /\ teacherShiftAssignments s' = teacherShiftAssignments s.


(** Three morning classes on Monday at Kwality House and no evening class. *)
Definition morningClass (format t : string) (n : nat) : ScheduledClass :=
  newClass {| c_classFormat := format; c_location := "Kwality House, Kemps Corner";
              c_day := "Monday"; c_time := t;
              c_avgParticipants := 8; c_avgRevenue := 0 |} "Anisha Shah" n.

Definition unbalancedMonday : State :=
  {| optimizedClasses := [ morningClass "Studio Barre 57" "07:30" 0;
                           morningClass "Studio FIT" "08:00" 1;
                           morningClass "Studio Mat 57" "09:00" 2 ];
     teacherHoursTracker := {[ "Anisha Shah" := 3 ]};
     teacherDailyHours := ∅;
     teacherShiftAssignments := ∅;
     classesScheduledForDay := 3;
     stamp := 3 |}.





(** ** More of the rule set ([classUtils.ts]) *)

(** [parseInt(time.split(':')[1])]; a time without a colon has no second
    part, and [parseInt(undefined)] is [NaN]. *)
Definition minuteOf (time : string) : option Z := split ":" time !! 1%nat ≫= parseInt.

(** [hour * 60 + minute], [NaN] when either is. *)
Definition timeInMinutes (time : string) : option Z :=
  hour ← hourOf time; minute ← minuteOf time; Some (hour * 60 + minute)%Z.

Definition isTimeRestricted (time d : string) (isPrivateClass : bool) : bool :=
  let restrictedStart := (12 * 60)%Z in
  let restrictedEnd := (17 * 60)%Z in
  let isInRestrictedPeriod :=
    match timeInMinutes time with
    | Some m => (restrictedStart <=? m)%Z && (m <? restrictedEnd)%Z
    | None => false
    end in
  if isPrivateClass && isInRestrictedPeriod then false else isInRestrictedPeriod.

Definition getRestrictedTimeSlots : list string :=
  ["12:00"; "12:30"; "13:00"; "13:30"; "14:00"; "14:30"; "15:00"; "15:30"; "16:00"; "16:30"].


Definition getTeacherDailyHours
    (scheduledClasses : list ScheduledClass) (teacherName d : string) : Q :=
  fold_left (fun sum cls => sum + duration cls)
    (List.filter (fun cls => bool_decide (fullName cls = teacherName)
                             && bool_decide (day cls = d))
                 scheduledClasses) 0.

Definition canTeacherTakeClass
    (scheduledClasses : list ScheduledClass) (teacherName d : string) (dur : Q) : bool :=
  let currentDailyHours := getTeacherDailyHours scheduledClasses teacherName d in
  Qle_bool (currentDailyHours + dur) 4.

Definition getTeacherDaysOff
    (scheduledClasses : list ScheduledClass) (teacherName : string) : list string :=
  let workingDays :=
    map day (List.filter (fun cls => bool_decide (fullName cls = teacherName))
                         scheduledClasses) in
  List.filter (fun d => negb (elemStr d workingDays)) weekDays.


Definition getLocationAverage (csvData : list ClassData) (loc : string) : Q :=
  let locationData :=
    List.filter (fun item => bool_decide (location item = loc)
                             && negb (isHostedClass (cleanedClass item)))
                csvData in
  if (length locationData =? 0)%nat then 0
  else
    let total := fold_left (fun sum item => (sum + participants item)%Z) locationData 0%Z in
    inject_Z total / inject_Z (Z.of_nat (length locationData)).

(** ** Dictionaries over a schedule *)

(** [items.reduce((acc, x) => { acc[key(x)] = add(x, acc[key(x)]); return acc }, {})] *)
Definition reduceWith {I V} (key : I -> string) (add : I -> option V -> V)
    (items : list I) : list (string * V) :=
  fold_left (fun acc x => alterKey (add x) (key x) acc) items [].

(** What [add] accumulates over a run of items, from no entry. *)
Definition accumulatedWith {I V} (add : I -> option V -> V) (items : list I) : option V :=
  fold_left (fun o x => Some (add x o)) items None.

(** [acc[teacherName] = parseFloat(((acc[teacherName] || 0) + duration).toFixed(1))] *)
Definition calculateTeacherHours (scheduledClasses : list ScheduledClass)
  : list (string * Q) :=
  reduceWith fullName (fun cls o => toFixed1 (default 0 o + duration cls)) scheduledClasses.




(** [getTimeSlotsWithData]: the set, in insertion order. *)
Definition getTimeSlotsWithData (csvData : list ClassData) (loc : string) : list string :=
  uniq (map (fun item => slice0 5 (classTime item))
            (List.filter (fun item => bool_decide (location item = loc)
                                      && negb (isHostedClass (cleanedClass item)))
                         csvData)).


(** ** The run as a sequence of guarded steps *)

Section Steps.
Variables days teachers : list string.

(** A change of the store in Phases 0 to 3, with what the phases have
    tested before they make it. *)
Inductive BuildStep (s s' : State) : Prop :=
| build_assign (classData : SlotClass) (teacher : string) :
    Inv true teachers s ->
    In (c_day classData) days ->
    In (c_location classData) locations ->
    isHostedClass (c_classFormat classData) = false ->
    isClassAllowedAtLocation (c_classFormat classData) (c_location classData) = true ->
    isTimeRestricted (c_time classData) (c_day classData) false = false ->
    isMorningSlot (c_time classData) || isEveningSlot (c_time classData) = true ->
    notBanned teacher ->
    canAssignTeacher s teacher (c_day classData) (c_time classData)
      (getClassDuration (c_classFormat classData)) (c_classFormat classData)
    = Some true ->
    assignClass classData teacher s = Some (tt, s') ->
    BuildStep s s'
| build_counter (n : nat) :
    Inv true teachers s -> setCounter n s = Some (tt, s') -> BuildStep s s'.

(** A change of the store in Phases 4 and 5. *)
Inductive AdjustStep (s s' : State) : Prop :=
| adjust_teacher (k : nat) (cls : ScheduledClass) (target : string) :
    Inv false teachers s ->
    optimizedClasses s !! k = Some cls ->
    In (day cls) days ->
    notBanned target ->
    canAssignTeacher s target (day cls) (time cls) (duration cls) (classFormat cls)
    = Some true ->
    reassignTeacher k (fullName cls) target (duration cls) (day cls) s = Some (tt, s') ->
    AdjustStep s s'
| adjust_time (k : nat) (cls : ScheduledClass) (newTime : string) :
    Inv false teachers s ->
    optimizedClasses s !! k = Some cls ->
    In newTime (getAvailableTimeSlots (day cls)) ->
    moveClass k newTime s = Some (tt, s') ->
    AdjustStep s s'.
End Steps.

(** Reached from [s0] by steps of Phases 0 to 3, resp. of Phases 4 and 5. *)
Definition Built (days teachers : list string) (s0 s : State) : Prop :=
  Inv true teachers s /\ rtc (BuildStep days teachers) s0 s.

Definition Adjusted (days teachers : list string) (s0 s : State) : Prop :=
  Inv false teachers s /\ rtc (AdjustStep days teachers) s0 s.

(** The fields of a class that Phases 4 and 5 never write. *)
Definition rigid (cls : ScheduledClass) : ClassId * string * string * string * Q :=
  (id cls, day cls, sc_location cls, classFormat cls, duration cls).

(** The rules of format, location and time that hold of one class of a
    schedule over [days]. *)
Definition regularClass (days : list string) (cls : ScheduledClass) : Prop :=
  In (day cls) days
  /\ In (sc_location cls) locations
  /\ isHostedClass (classFormat cls) = false
  /\ isClassAllowedAtLocation (classFormat cls) (sc_location cls) = true
  /\ isPrivate cls = false
  /\ isTimeRestricted (time cls) (day cls) false = false
  /\ isMorningSlot (time cls) || isEveningSlot (time cls) = true
  /\ duration cls = getClassDuration (classFormat cls).

(** The two trainer-tier rules of [canAssignTeacher], read off the name a class
    shows. *)
Definition tierRespected (cls : ScheduledClass) : Prop :=
  (isNewTrainer (fullName cls) = true -> In (classFormat cls) newTrainerFormats)
  /\ (In (classFormat cls) advancedFormats -> isSeniorTrainer (fullName cls) = true).

Definition lawful (days : list string) (classes : list ScheduledClass) : Prop :=
  forall cls, In cls classes -> regularClass days cls /\ tierRespected cls.


(** ** Daily hours of a schedule *)

(** What a class adds to the hours of [name] on the day [d]. *)
Definition dailyContribution (name d : string) (cls : ScheduledClass) : Q :=
  if bool_decide (fullName cls = name) && bool_decide (day cls = d)
  then duration cls else 0.

Definition dailySum (classes : list ScheduledClass) (name d : string) : Q :=
  fold_right (fun cls sum => dailyContribution name d cls + sum) 0 classes.



(** The class shows the name of one of [teachers], split at the first blank. *)
Definition shownBy (teachers : list string) (c : ScheduledClass) : Prop :=
  exists t, In t teachers
            /\ teacherFirstName c = hd "" (split " " t)
            /\ teacherLastName c = join " " (tl (split " " t)).


(** ** [AIService]: schedules and suggestions without a provider *)

(** [generateIntelligentLocalSchedule]: the options it hands on carry no
    [targetDay]; [currentSchedule] and [options] (but for [iteration], which
    [generateIntelligentSchedule] does not read) are not used. *)
Definition generateIntelligentLocalSchedule
    (historicData : list ClassData) (currentSchedule : list ScheduledClass)
    (customTeachers : list CustomTeacher) (options : Options)
  : option (list ScheduledClass) :=
  generateIntelligentSchedule historicData customTeachers {| targetDay := None |}.

(** [generateOptimizedSchedule].  As for [generateRecommendations], [aiReply]
    is the outcome of the round trip and of [JSON.parse]: the schedule that
    [parseOptimizedScheduleResponse] builds, or [None] when either throws
    (both [catch] branches run the local generator). *)
Definition generateOptimizedSchedule
    (provider : option AIProvider) (aiReply : option (list ScheduledClass))
    (historicData : list ClassData) (currentSchedule : list ScheduledClass)
    (customTeachers : list CustomTeacher) (options : Options)
  : option (list ScheduledClass) :=
  if providerMissing provider
  then generateIntelligentLocalSchedule historicData currentSchedule customTeachers options
  else match aiReply with
       | Some optimizedSchedule => Some optimizedSchedule
       | None =>
           generateIntelligentLocalSchedule historicData currentSchedule customTeachers
             options
       end.

Inductive SuggestionType := teacher_change | time_change | format_change | new_class.






(** ** Counts of a schedule *)







(** ** Reading [getBestTeacherForClass] *)

(** The records [getBestTeacherForClass] ranks the teachers of a cell by. *)
Definition relevantClasses (csvData : list ClassData) (format loc d t : string)
  : list ClassData :=
  List.filter (fun item => bool_decide (cleanedClass item = format)
                           && bool_decide (location item = loc)
                           && bool_decide (dayOfWeek item = d)
                           && includes (classTime item) t
                           && negb (isHostedClass (cleanedClass item))
                           && negb (includes (teacherName item) "Nishanth")
                           && negb (includes (teacherName item) "Saniya"))
              csvData.



(** ** Reading [getTeacherSpecialties] *)




(** ** The CSV import ([CSVUpload.processCSV]) *)

(** [s.trim()] on the blanks of ASCII. *)
Fixpoint trimEnd (s : string) : string :=
  match s with
  | EmptyString => EmptyString
  | String c r =>
      match trimEnd r with
      | EmptyString => if isSpaceChar c then EmptyString else String c EmptyString
      | r' => String c r'
      end
  end.

Definition trim (s : string) : string := trimEnd (trimStart s).

(** [s.replace(/[^...]/g, '')]: the characters of a class, in order. *)
Fixpoint keepChars (p : ascii -> bool) (s : string) : string :=
  match s with
  | EmptyString => EmptyString
  | String c r => if p c then String c (keepChars p r) else keepChars p r
  end.

Definition isDigit (c : ascii) : bool :=
  match digitOf c with Some _ => true | None => false end.

(** The digits at the front of a string, and what follows them. *)
Fixpoint spanDigits (s : string) : list Z * string :=
  match s with
  | EmptyString => ([], EmptyString)
  | String c r =>
      match digitOf c with
      | Some d => let '(ds, rest) := spanDigits r in (d :: ds, rest)
      | None => ([], s)
      end
  end.

Definition digitsValue (ds : list Z) : Z := fold_left (fun n d => (10 * n + d)%Z) ds 0%Z.

(** The value of [intDigits.fracDigits]. *)
Definition decimalValue (intDigits fracDigits : list Z) : Q :=
  inject_Z (digitsValue intDigits)
  + inject_Z (digitsValue fracDigits) / inject_Z (10 ^ Z.of_nat (length fracDigits)).

(** [parseFloat] on a string of digits, points and minus signs, as the
    clean-up of [parseNumber] leaves it: an optional minus sign and the longest
    decimal literal that follows; [None] is [NaN]. *)
Definition parseUnsigned (s : string) : option Q :=
  let '(intDigits, rest) := spanDigits s in
  match rest with
  | String "." rest' =>
      let '(fracDigits, _) := spanDigits rest' in
      match intDigits, fracDigits with
      | [], [] => None
      | _, _ => Some (decimalValue intDigits fracDigits)
      end
  | _ =>
      match intDigits with
      | [] => None
      | _ => Some (decimalValue intDigits [])
      end
  end.

Definition parseFloat (s : string) : option Q :=
  match s with
  | String "-" r => Qopp <$> parseUnsigned r
  | _ => parseUnsigned s
  end.

(** The two local parsers of a cell; a cell is a string, or [undefined] when
    the line has no such column. *)
Definition parseNumber (value : option string) : Q :=
  match value with
  | None => 0
  | Some s =>
      if bool_decide (s = "") then 0
      else default 0 (parseFloat
                        (keepChars (fun c => isDigit c || Ascii.eqb c "." || Ascii.eqb c "-") s))
  end.

Definition parseCount (value : option string) : Z :=
  match value with
  | None => 0%Z
  | Some s =>
      if bool_decide (s = "") then 0%Z
      else default 0%Z (parseInt (keepChars (fun c => isDigit c || Ascii.eqb c "-") s))
  end.

(** A line of [results.data]: the cells by column header. *)
Definition Row : Type := gmap string string.

(** [String(row[column] || '').trim()] *)
Definition cell (row : Row) (column : string) : string :=
  trim (default "" (row !! column)).

(** What the mapping makes of a line, with the two name parts that the
    validation reads. *)
Record ImportedRow := {
  imp_item : ClassData;
  imp_teacherFirstName : string;
  imp_teacherLastName : string
}.

Definition isEmptyString (s : string) : bool := bool_decide (s = "").

(** The body of [results.data.map]; [None] is [null], a skipped line. *)
Definition importRow (row : Row) : option ImportedRow :=
  let loc := cell row "Location" in
  let cleaned := cell row "Cleaned Class" in
  let dayOfWeek' := cell row "Day of the Week" in
  let teacherFirstName' := cell row "Teacher First Name" in
  let teacherLastName' := cell row "Teacher Last Name" in
  if isEmptyString cleaned || isEmptyString loc || isEmptyString dayOfWeek'
     || isEmptyString teacherFirstName' || isEmptyString teacherLastName'
  then None
  else
    Some {| imp_item :=
              {| location := loc;
                 dayOfWeek := dayOfWeek';
                 classTime := cell row "Class Time";
                 cleanedClass := cleaned;
                 teacherName :=
                   trim (match row !! "Teacher Name" with
                         | Some name =>
                             if isEmptyString name
                             then teacherFirstName' +:+ " " +:+ teacherLastName'
                             else name
                         | None => teacherFirstName' +:+ " " +:+ teacherLastName'
                         end);
                 participants := parseCount (row !! "Participants");
                 totalRevenue := parseNumber (row !! "Total Revenue") |};
            imp_teacherFirstName := teacherFirstName';
            imp_teacherLastName := teacherLastName' |}.

(** The validation after the mapping; [participants] is a number, never
    [NaN]. *)
Definition isValidRow (r : ImportedRow) : bool :=
  negb (isEmptyString (cleanedClass (imp_item r)))
  && negb (isEmptyString (location (imp_item r)))
  && negb (isEmptyString (dayOfWeek (imp_item r)))
  && negb (isEmptyString (imp_teacherFirstName r))
  && negb (isEmptyString (imp_teacherLastName r)).

Definition requiredColumns : list string :=
  ["Variant Name"; "Class date"; "Location"; "Total Revenue"; "Participants";
   "Teacher First Name"; "Teacher Last Name"; "Day of the Week"; "Class Time";
   "Cleaned Class"].

Inductive UploadResult :=
| UploadError (message : string)
| Uploaded (data : list ClassData).

(** The [complete] callback of the parse: [fields] are the trimmed headers,
    [rows] the lines.  [Uploaded data] is the call [onDataUpload(data)]. *)
Definition processParsed (fields : list string) (rows : list Row) : UploadResult :=
  if (length rows =? 0)%nat then UploadError "No data found in CSV file"
  else
    let missingColumns := List.filter (fun col => negb (elemStr col fields)) requiredColumns in
    if (0 <? length missingColumns)%nat
    then UploadError ("Missing required columns: " +:+ join ", " missingColumns)
    else
      let data := map imp_item (List.filter isValidRow (omap importRow rows)) in
      if (length data =? 0)%nat
      then UploadError
             "No valid data found. Please check the CSV format and required columns."
      else Uploaded data.

(** ** Sample lines *)

Definition sampleRow (format first last : string) : Row :=
  list_to_map [("Cleaned Class", format); ("Location", " X"); ("Day of the Week", "Monday");
               ("Teacher First Name", first); ("Teacher Last Name", last +:+ " ");
               ("Class Time", "09:00"); ("Participants", "10"); ("Total Revenue", "1,250.50")].

Definition sampleRows : list Row :=
  [ sampleRow "Hosted Class" "Karanvir" "Bhatia";
    sampleRow "Hosted Class" "Anisha" "Shah";
    sampleRow "Hosted Class" "Rohan" "Dahima";
    sampleRow "Hosted Class" "Pranjali" "Jain";
    sampleRow "Hosted Class" "Cauveri" "Vikrant";
    sampleRow "Hosted Class" "Atulan" "Purohit";
    sampleRow "Studio Barre 57" "Kabir" "Varma" ].


(** ** The handlers of [App] *)

Record AppState := {
  app_scheduledClasses : list ScheduledClass;
  app_teacherHours : list (string * Q);
  app_editingClass : option ScheduledClass;
  app_isModalOpen : bool;
  app_showOptimizer : bool;
  app_showEnhancedOptimizer : bool;
  app_showDailyOptimizer : bool
}.

(** The class [handleAutoPopulateTopClasses] makes of a top performer; [n]
    stands for the clock and the random number of its [id]. *)
Definition topToScheduled (topClass : TopPerformingClass) (n : nat) : ScheduledClass :=
  {| id := (tp_location topClass, tp_day topClass, tp_time topClass, n);
     day := tp_day topClass;
     time := tp_time topClass;
     sc_location := tp_location topClass;
     classFormat := tp_classFormat topClass;
     teacherFirstName := hd "" (split " " (tp_teacher topClass));
     teacherLastName := join " " (tl (split " " (tp_teacher topClass)));
     duration := getClassDuration (tp_classFormat topClass);
     sc_participants := inject_Z (Math_round (tp_avgParticipants topClass));
     revenue := inject_Z (Math_round (tp_avgRevenue topClass));
     isTopPerformer := true;
     isPrivate := false |}.

(** One turn of the loop over the top performers: the classes so far and the
    hours given to each teacher. *)
Definition populateStep (acc : list ScheduledClass * gmap string Q)
    (topClass : TopPerformingClass) : list ScheduledClass * gmap string Q :=
  let '(newScheduledClasses, teacherHoursTracker') := acc in
  let teacherName' := tp_teacher topClass in
  let currentHours := default 0 (teacherHoursTracker' !! teacherName') in
  let classDuration := getClassDuration (tp_classFormat topClass) in
  if Qle_bool (currentHours + classDuration) 15
  then (newScheduledClasses ++ [topToScheduled topClass (length newScheduledClasses)],
        <[teacherName' := currentHours + classDuration]> teacherHoursTracker')
  else acc.

Definition populateTopClasses (data : list ClassData) : list ScheduledClass :=
  let topPerformingClasses := getTopPerformingClasses data 5 true in
  fst (fold_left populateStep (firstn 50 topPerformingClasses) ([], ∅)).

(** [handleAutoPopulateTopClasses(data)]: the new state and the alert. *)
Definition handleAutoPopulateTopClasses (data : list ClassData) (st : AppState)
  : AppState * string :=
  if (length data =? 0)%nat then (st, "Please upload CSV data first")
  else
    let newScheduledClasses := populateTopClasses data in
    if (0 <? length newScheduledClasses)%nat
    then ({| app_scheduledClasses := newScheduledClasses;
             app_teacherHours := calculateTeacherHours newScheduledClasses;
             app_editingClass := app_editingClass st;
             app_isModalOpen := app_isModalOpen st;
             app_showOptimizer := app_showOptimizer st;
             app_showEnhancedOptimizer := app_showEnhancedOptimizer st;
             app_showDailyOptimizer := app_showDailyOptimizer st |},
          "Successfully populated " +:+ pretty (length newScheduledClasses)
            +:+ " top performing classes (average > 5.0 participants)!")
    else (st, "No classes could be scheduled due to teacher hour constraints").



(** What holds of the classes and the tracker of [handleAutoPopulateTopClasses]
    after the loop has gone through the top performers [l]. *)
Definition populated (l : list TopPerformingClass)
    (acc : list ScheduledClass * gmap string Q) : Prop :=
  (length (fst acc) <= length l)%nat
  /\ (forall c, In c (fst acc) -> exists top n, In top l /\ c = topToScheduled top n)
  /\ ((forall top, In top l -> endsWithSpace (tp_teacher top) = false) ->
      forall t, endsWithSpace t = false ->
        hoursSum (fst acc) (shownName t) <= default 0 (snd acc !! t)
        /\ default 0 (snd acc !! t) <= 15).


(** ** The enhanced optimizer ([EnhancedOptimizer]) *)

Module EnhancedOptimizer.

Record DayGuideline := {
  dg_avoid : list string;
  dg_priority : list string;
  maxClasses : nat
}.

Definition DAY_GUIDELINES : list (string * DayGuideline) :=
  [ ("Monday",
     {| dg_avoid := ["Studio Recovery"];
        dg_priority := ["Studio Barre 57"; "Studio FIT"; "Studio powerCycle"; "Studio Mat 57"];
        maxClasses := 12 |});
    ("Tuesday",
     {| dg_avoid := ["Studio HIIT"; "Studio Amped Up!"];
        dg_priority := ["Studio Barre 57"; "Studio Mat 57"; "Studio Foundations";
                        "Studio Cardio Barre"];
        maxClasses := 12 |});
    ("Wednesday",
     {| dg_avoid := [];
        dg_priority := ["Studio Barre 57"; "Studio FIT"; "Studio powerCycle"; "Studio Mat 57"];
        maxClasses := 12 |});
    ("Thursday",
     {| dg_avoid := [];
        dg_priority := ["Studio Recovery"; "Studio Mat 57"; "Studio Cardio Barre";
                        "Studio Back Body Blaze"];
        maxClasses := 10 |});
    ("Friday",
     {| dg_avoid := [];
        dg_priority := ["Studio HIIT"; "Studio Amped Up!"; "Studio FIT"; "Studio Cardio Barre"];
        maxClasses := 12 |});
    ("Saturday",
     {| dg_avoid := ["Studio HIIT"];
        dg_priority := ["Studio Barre 57"; "Studio Foundations"; "Studio Recovery";
                        "Studio Mat 57"];
        maxClasses := 10 |});
    ("Sunday",
     {| dg_avoid := ["Studio HIIT"; "Studio Amped Up!"];
        dg_priority := ["Studio Barre 57"; "Studio Recovery"; "Studio Mat 57"];
        maxClasses := 5 |}) ].

Definition PEAK_HOURS_morning : list string :=
  ["07:00"; "07:30"; "08:00"; "08:30"; "09:00"; "09:30"; "10:00"; "10:30"; "11:00"; "11:30"].
Definition PEAK_HOURS_evening : list string :=
  ["17:30"; "18:00"; "18:30"; "19:00"; "19:30"; "20:00"].

Definition SENIOR_TRAINERS : list string :=
  ["Anisha"; "Vivaran"; "Mrigakshi"; "Pranjali"; "Atulan"; "Cauveri"; "Rohan"].
Definition NEW_TRAINERS : list string := ["Kabir"; "Simonelle"].
Definition ADVANCED_FORMATS : list string := ["Studio HIIT"; "Studio Amped Up!"].

(** [this.locations] and [this.days] *)
Definition locations : list string :=
  ["Kwality House, Kemps Corner"; "Supreme HQ, Bandra"; "Kenkere House"].
Definition days : list string :=
  ["Monday"; "Tuesday"; "Wednesday"; "Thursday"; "Friday"; "Saturday"; "Sunday"].

Inductive Shift := morning | evening.

#[global] Instance Shift_eq_dec : EqDecision Shift.
Proof. solve_decision. Defined.

(** An entry of [trainerTracking]. *)
Record TrainerTrack := {
  totalHours : Q;
  tk_dailyHours : gmap string Q;
  tk_shifts : gmap string (list Shift);
  tk_locations : list string;
  consecutiveClasses : nat
}.

Definition Tracking : Type := gmap string TrainerTrack.

(** The loop state of a generator: the schedule, the tracking and the counter
    of the (location, day) at hand. *)
Record OptState := {
  schedule : list ScheduledClass;
  trainerTracking : Tracking;
  classesScheduled : nat
}.

Definition getClassDuration (className : string) : Q :=
  let lowerName := toLowerCase className in
  if includes lowerName "express" then 3 # 4
  else if includes lowerName "recovery" || includes lowerName "sweat in 30" then 1 # 2
  else 1.

Definition isClassAllowedAtLocation (classFormat loc : string) : bool :=
  let lowerFormat := toLowerCase classFormat in
  if bool_decide (loc = "Supreme HQ, Bandra") then
    if includes lowerFormat "amped up" || includes lowerFormat "hiit" then false else true
  else
    if includes lowerFormat "powercycle" || includes lowerFormat "power cycle" then false
    else true.

Definition getMaxParallelClasses (loc : string) : nat :=
  if bool_decide (loc = "Supreme HQ, Bandra") then 3%nat
  else if bool_decide (loc = "Kwality House, Kemps Corner") then 2%nat
  else 2%nat.

Definition isPeakHour (t : string) : bool :=
  elemStr t PEAK_HOURS_morning || elemStr t PEAK_HOURS_evening.

(** [hour < 14] is false for [NaN]. *)
Definition getShift (t : string) : Shift :=
  match hourOf t with
  | Some hour => if (hour <? 14)%Z then morning else evening
  | None => evening
  end.

Definition generateFlexibleTimeSlots (d loc : string) : list string :=
  let baseSlots :=
    ["07:30"; "08:00"; "08:30"; "09:00"; "09:30"; "10:00"; "10:30"; "11:00"; "11:30";
     "17:30"; "18:00"; "18:30"; "19:00"; "19:30"; "20:00"] in
  let flexibleSlots :=
    ["07:15"; "07:45"; "08:15"; "08:45"; "09:15"; "09:45"; "10:15"; "10:45"; "11:15"; "11:45";
     "17:15"; "17:45"; "18:15"; "18:45"; "19:15"; "19:45"] in
  let allSlots := sortBy compareStrings (baseSlots ++ flexibleSlots) in
  List.filter (fun t =>
                 if bool_decide (loc = "Kwality House, Kemps Corner")
                    && negb (elemStr d ["Saturday"; "Sunday"])
                 then true else true)
              allSlots.

Definition getTrainersInShift (sched : list ScheduledClass) (loc d t : string)
  : list string :=
  let shift := getShift t in
  let shiftStart := match shift with morning => 7%Z | evening => 17%Z end in
  let shiftEnd := match shift with morning => 14%Z | evening => 22%Z end in
  uniq (map fullName
          (List.filter (fun cls =>
                          bool_decide (sc_location cls = loc)
                          && bool_decide (day cls = d)
                          && match hourOf (time cls) with
                             | Some classHour =>
                                 (shiftStart <=? classHour)%Z && (classHour <? shiftEnd)%Z
                             | None => false
                             end)
                       sched)).

(** The classes of the teacher on the day within 90 minutes of the time; a
    time that does not parse gives [NaN], which is within nothing. *)
Definition getConsecutiveClasses (teacher d t : string) (sched : list ScheduledClass)
  : nat :=
  let teacherClasses :=
    sortBy (fun a b => compareStrings (time a) (time b))
      (List.filter (fun cls => bool_decide (fullName cls = teacher)
                               && bool_decide (day cls = d))
                   sched) in
  length (List.filter
            (fun cls =>
               match timeInMinutes t, timeInMinutes (time cls) with
               | Some current, Some other => (Z.abs (current - other) <=? 90)%Z
               | _, _ => false
               end)
            teacherClasses).

Definition allowedFormats : list string :=
  ["Studio Barre 57"; "Studio Barre 57 (Express)"; "Studio powerCycle";
   "Studio powerCycle (Express)"; "Studio Cardio Barre"].

Definition canAssignTeacher (teacher d t classFormat : string)
    (tracking : Tracking) (existingSchedule : list ScheduledClass) : bool :=
  let isNewTrainer := existsb (includes teacher) NEW_TRAINERS in
  if isNewTrainer && negb (elemStr classFormat allowedFormats) then false
  else if elemStr classFormat ADVANCED_FORMATS
          && negb (existsb (includes teacher) SENIOR_TRAINERS)
  then false
  else
    let weeklyHours := default 0 (totalHours <$> tracking !! teacher) in
    let maxWeeklyHours := if isNewTrainer then 10 else 15 in
    if Qle_bool maxWeeklyHours weeklyHours then false
    else
      let dailyHours :=
        default 0 (tracking !! teacher ≫= fun track => tk_dailyHours track !! d) in
      if Qle_bool 4 dailyHours then false
      else
        let consecutive := getConsecutiveClasses teacher d t existingSchedule in
        if (2 <=? consecutive)%nat then false else true.

Definition validateTrainerAssignment (teacher d t loc : string)
    (tracking : Tracking) (existingSchedule : list ScheduledClass) : bool :=
  let dayAssignments :=
    List.filter (fun cls => bool_decide (fullName cls = teacher) && bool_decide (day cls = d))
                existingSchedule in
  if match dayAssignments with
     | first :: _ => negb (bool_decide (sc_location first = loc))
     | [] => false
     end
  then false
  else
    let shift := getShift t in
    let trainerShifts :=
      default [] (tracking !! teacher ≫= fun track => tk_shifts track !! d) in
    if (0 <? length trainerShifts)%nat && negb (bool_decide (shift ∈ trainerShifts))
    then false
    else
      let trainersInShift := getTrainersInShift existingSchedule loc d t in
      let maxTrainersPerShift := if bool_decide (d = "Sunday") then 1%nat else 3%nat in
      if negb (elemStr teacher trainersInShift)
         && (maxTrainersPerShift <=? length trainersInShift)%nat
      then false
      else true.

(** The teachers of the records of the format with more than 5 participants,
    best average first. *)
Definition rankedTeachers (csvData : list ClassData) (classFormat : string)
  : list TeacherStat :=
  sortBy (fun a b => ts_avgParticipants b - ts_avgParticipants a)
    (map (fun '(teacher, stats) =>
            {| ts_teacher := teacher;
               ts_avgParticipants := average (st_participants stats) (st_count stats) |})
         (groupStats teacherName
            (List.filter (fun item => bool_decide (cleanedClass item = classFormat)
                                      && (5 <? participants item)%Z)
                         csvData))).

Definition assignOptimalTeacher (csvData : list ClassData) (classFormat d t : string)
    (tracking : Tracking) (existingSchedule : list ScheduledClass) : option string :=
  let allTeachers := allTeachersOf csvData in
  match List.find (fun teacher => canAssignTeacher teacher d t classFormat tracking
                                    existingSchedule)
                  (map ts_teacher (rankedTeachers csvData classFormat)) with
  | Some teacher => Some teacher
  | None =>
      List.find (fun teacher => canAssignTeacher teacher d t classFormat tracking
                                  existingSchedule)
                allTeachers
  end.

Definition initializeTrainerTracking (csvData : list ClassData) : Tracking :=
  fold_left
    (fun acc teacher =>
       <[teacher := {| totalHours := 0;
                       tk_dailyHours := fold_left (fun m d => <[d := 0]> m) days ∅;
                       tk_shifts := fold_left (fun m d => <[d := []]> m) days ∅;
                       tk_locations := [];
                       consecutiveClasses := 0 |}]> acc)
    (allTeachersOf csvData) ∅.

(** [x += duration] on an entry that may be missing ([undefined + duration] is
    [NaN], which every later comparison takes as not reached; the days of the
    generators are all initialised). *)
Definition updateTrainerTracking (teacher d t loc : string) (tracking : Tracking)
    (dur : Q) : Tracking :=
  match tracking !! teacher with
  | None => tracking
  | Some track =>
      let shift := getShift t in
      let dayShifts := default [] (tk_shifts track !! d) in
      <[teacher :=
          {| totalHours := totalHours track + dur;
             tk_dailyHours :=
               <[d := default 0 (tk_dailyHours track !! d) + dur]> (tk_dailyHours track);
             tk_shifts :=
               if bool_decide (shift ∈ dayShifts) then tk_shifts track
               else <[d := dayShifts ++ [shift]]> (tk_shifts track);
             tk_locations :=
               if elemStr loc (tk_locations track) then tk_locations track
               else tk_locations track ++ [loc];
             consecutiveClasses := consecutiveClasses track |}]> tracking
  end.

(** [createScheduledClass]; [n] stands for the clock and the random number of
    the [id]. *)
Definition createScheduledClass (classData : RankedFormat) (teacher d t loc : string)
    (n : nat) : ScheduledClass :=
  {| id := (loc, d, t, n);
     day := d;
     time := t;
     sc_location := loc;
     classFormat := rf_classFormat classData;
     teacherFirstName := hd "" (split " " teacher);
     teacherLastName := join " " (tl (split " " teacher));
     duration := getClassDuration (rf_classFormat classData);
     sc_participants := inject_Z (Math_round (rf_avgParticipants classData));
     revenue := inject_Z (Math_round (rf_avgRevenue classData));
     isTopPerformer := Qltb 8 (rf_avgParticipants classData);
     isPrivate := false |}.

(** The records the three finders rank the formats of a location and day by. *)
Definition relevantData (csvData : list ClassData) (loc d : string)
    (guidelines : DayGuideline) : list ClassData :=
  List.filter (fun item => bool_decide (location item = loc)
                           && bool_decide (dayOfWeek item = d)
                           && (5 <? participants item)%Z
                           && negb (elemStr (cleanedClass item) (dg_avoid guidelines))
                           && isClassAllowedAtLocation (cleanedClass item) loc)
              csvData.

(** The ranked formats that the cell does not hold yet, by [score]. *)
Definition availableClasses (score : RankedFormat -> Q) (csvData : list ClassData)
    (loc d t : string) (existingSchedule : list ScheduledClass) (guidelines : DayGuideline)
  : list RankedFormat :=
  let classStats := groupStats cleanedClass (relevantData csvData loc d guidelines) in
  let existingFormats :=
    map classFormat
        (List.filter (fun cls => bool_decide (sc_location cls = loc)
                                 && bool_decide (day cls = d)
                                 && bool_decide (time cls = t))
                     existingSchedule) in
  sortBy (fun a b =>
            if rf_isPriority a && negb (rf_isPriority b) then -1
            else if negb (rf_isPriority a) && rf_isPriority b then 1
            else score b - score a)
    (map (fun kv : string * Stats =>
            {| rf_classFormat := fst kv;
               rf_avgParticipants := average (st_participants (snd kv)) (st_count (snd kv));
               rf_avgRevenue := st_revenue (snd kv) / inject_Z (Z.of_nat (st_count (snd kv)));
               rf_count := st_count (snd kv);
               rf_isPriority := elemStr (fst kv) (dg_priority guidelines) |})
         (List.filter (fun kv : string * Stats => negb (elemStr (fst kv) existingFormats))
                      classStats)).

Definition findBest (score : RankedFormat -> Q) (csvData : list ClassData)
    (loc d t : string) (existingSchedule : list ScheduledClass) (guidelines : DayGuideline)
  : option RankedFormat :=
  if (length (relevantData csvData loc d guidelines) =? 0)%nat then None
  else head (availableClasses score csvData loc d t existingSchedule guidelines).

Definition findBestRevenueClass := findBest rf_avgRevenue.
Definition findBestAttendanceClass := findBest rf_avgParticipants.

(** [(avgRevenue / 10000) * 0.4 + (avgParticipants / 20) * 0.6] *)
Definition balanceScore (c : RankedFormat) : Q :=
  rf_avgRevenue c / 10000 * (4 # 10) + rf_avgParticipants c / 20 * (6 # 10).

Definition findBestBalancedClass := findBest balanceScore.

(** The block the three generators share: the teacher for the class found, the
    validation (which the early class of the balanced schedule skips), and
    the three updates. *)
Definition placeClass (validate : bool) (csvData : list ClassData)
    (bestClass : option RankedFormat) (loc d t : string) (s : OptState) : OptState :=
  match bestClass with
  | None => s
  | Some best =>
      match truthy (assignOptimalTeacher csvData (rf_classFormat best) d t
                      (trainerTracking s) (schedule s)) with
      | None => s
      | Some teacher =>
          if negb validate
             || validateTrainerAssignment teacher d t loc (trainerTracking s) (schedule s)
          then
            let scheduledClass :=
              createScheduledClass best teacher d t loc (length (schedule s)) in
            {| schedule := schedule s ++ [scheduledClass];
               trainerTracking :=
                 updateTrainerTracking teacher d t loc (trainerTracking s)
                   (duration scheduledClass);
               classesScheduled := S (classesScheduled s) |}
          else s
      end
  end.

(** A [for] loop whose body may [break]: [None] ends the loop. *)
Fixpoint forBreak {A S} (l : list A) (body : A -> S -> option S) (s : S) : S :=
  match l with
  | [] => s
  | x :: r => match body x s with
              | Some s' => forBreak r body s'
              | None => s
              end
  end.

(** The loops over the locations and days, with the counter reset and the
    guidelines of the day; a day without guidelines is a [TypeError]. *)
Definition overWeek (dayBody : string -> string -> DayGuideline -> OptState -> OptState)
    (csvData : list ClassData) : option (list ScheduledClass) :=
  let start := {| schedule := []; trainerTracking := initializeTrainerTracking csvData;
                  classesScheduled := 0 |} in
  schedule <$>
    fold_left
      (fun o loc =>
         fold_left
           (fun o d =>
              s ← o;
              guidelines ← lookupKey d DAY_GUIDELINES;
              Some (dayBody loc d guidelines
                      {| schedule := schedule s; trainerTracking := trainerTracking s;
                         classesScheduled := 0 |}))
           days o)
      locations (Some start).

(** The schedule of [generateRevenueMaximizer]. *)
Definition generateRevenueMaximizer (csvData : list ClassData)
  : option (list ScheduledClass) :=
  overWeek
    (fun loc d guidelines =>
       forBreak (generateFlexibleTimeSlots d loc)
         (fun t s =>
            if (maxClasses guidelines <=? classesScheduled s)%nat then None
            else
              let isPeak := isPeakHour t in
              let maxParallel := getMaxParallelClasses loc in
              let classesToSchedule :=
                if isPeak then maxParallel else Nat.min 2 maxParallel in
              Some (forBreak (seq 0 classesToSchedule)
                      (fun i s =>
                         if (classesScheduled s <? maxClasses guidelines)%nat
                         then Some (placeClass true csvData
                                      (findBestRevenueClass csvData loc d t (schedule s)
                                         guidelines)
                                      loc d t s)
                         else None)
                      s)))
    csvData.

(** The schedule of [generateAttendanceMaximizer]. *)
Definition generateAttendanceMaximizer (csvData : list ClassData)
  : option (list ScheduledClass) :=
  overWeek
    (fun loc d guidelines =>
       forBreak (generateFlexibleTimeSlots d loc)
         (fun t s =>
            if (maxClasses guidelines <=? classesScheduled s)%nat then None
            else
              let maxParallel := getMaxParallelClasses loc in
              let classesToSchedule :=
                Nat.min maxParallel (maxClasses guidelines - classesScheduled s) in
              Some (fold_left
                      (fun s i =>
                         placeClass true csvData
                           (findBestAttendanceClass csvData loc d t (schedule s) guidelines)
                           loc d t s)
                      (seq 0 classesToSchedule) s)))
    csvData.

(** The schedule of [generateBalancedSchedule]; [continue] is [Some] of the
    state as it is. *)
Definition generateBalancedSchedule (csvData : list ClassData)
  : option (list ScheduledClass) :=
  overWeek
    (fun loc d guidelines s0 =>
       let early :=
         bool_decide (loc = "Kwality House, Kemps Corner")
         && negb (elemStr d ["Saturday"; "Sunday"]) in
       let s1 :=
         if early
         then placeClass false csvData
                (findBestBalancedClass csvData loc d "07:30" (schedule s0) guidelines)
                loc d "07:30" s0
         else s0 in
       forBreak (generateFlexibleTimeSlots d loc)
         (fun t s =>
            if (maxClasses guidelines <=? classesScheduled s)%nat then None
            else if bool_decide (t = "07:30") && early then Some s
            else
              let maxParallel := getMaxParallelClasses loc in
              let trainersInShift := getTrainersInShift (schedule s) loc d t in
              let maxTrainersPerShift := if bool_decide (d = "Sunday") then 1%nat else 3%nat in
              if (maxTrainersPerShift <=? length trainersInShift)%nat then Some s
              else
                let classesToSchedule :=
                  Nat.min maxParallel (maxClasses guidelines - classesScheduled s) in
                Some (fold_left
                        (fun s i =>
                           placeClass true csvData
                             (findBestBalancedClass csvData loc d t (schedule s) guidelines)
                             loc d t s)
                        (seq 0 classesToSchedule) s))
         s1)
    csvData.

(** The schedules of the three iterations of [generateOptimizedSchedules]. *)
Definition generateOptimizedSchedules (csvData : list ClassData)
  : option (list (string * list ScheduledClass)) :=
  revenue ← generateRevenueMaximizer csvData;
  attendance ← generateAttendanceMaximizer csvData;
  balanced ← generateBalancedSchedule csvData;
  Some [("revenue-maximizer", revenue); ("attendance-maximizer", attendance);
        ("balanced-schedule", balanced)].

End EnhancedOptimizer.


(** ** The runs of the enhanced optimizer as guarded placements *)

Module EO := EnhancedOptimizer.

Section OptimizerRuns.
Variable csvData : list ClassData.

(** One class added at a cell, with what the generators have tested before
    they add it; the validation is skipped only for the early class of the
    balanced schedule, the first of its location and day. *)
Inductive Placement (loc d t : string) (g : EO.DayGuideline) (s s' : EO.OptState) : Prop :=
| placement (score : RankedFormat -> Q) (best : RankedFormat) (teacher : string) :
    (EO.classesScheduled s < EO.maxClasses g)%nat ->
    EO.findBest score csvData loc d t (EO.schedule s) g = Some best ->
    EO.canAssignTeacher teacher d t (rf_classFormat best) (EO.trainerTracking s)
      (EO.schedule s) = true ->
    teacher <> "" ->
    (In teacher (map teacherName csvData)) ->
    (EO.validateTrainerAssignment teacher d t loc (EO.trainerTracking s) (EO.schedule s)
     = true
     \/ EO.classesScheduled s = 0%nat) ->
    s' = {| EO.schedule :=
              EO.schedule s
              ++ [EO.createScheduledClass best teacher d t loc (length (EO.schedule s))];
            EO.trainerTracking :=
              EO.updateTrainerTracking teacher d t loc (EO.trainerTracking s)
                (EO.getClassDuration (rf_classFormat best));
            EO.classesScheduled := S (EO.classesScheduled s) |} ->
    Placement loc d t g s s'.

(** At most [n] placements at a cell. *)
Inductive SlotRun (loc d t : string) (g : EO.DayGuideline)
  : nat -> EO.OptState -> EO.OptState -> Prop :=
| slot_stop n s : SlotRun loc d t g n s s
| slot_place n s s1 s2 :
    Placement loc d t g s s1 -> SlotRun loc d t g n s1 s2 ->
    SlotRun loc d t g (S n) s s2.

(** The visits of the slots of a day, each with the placements the
    location has room for. *)
Inductive DayRun (loc d : string) (g : EO.DayGuideline)
  : list string -> EO.OptState -> EO.OptState -> Prop :=
| day_done s : DayRun loc d g [] s s
| day_slot t visits s s1 s2 :
    SlotRun loc d t g (EO.getMaxParallelClasses loc) s s1 ->
    DayRun loc d g visits s1 s2 ->
    DayRun loc d g (t :: visits) s s2.

(** The (location, day) pairs of a week, each with its counter reset, its
    guidelines and the distinct slots it visits. *)
Inductive WeekRun : list (string * string) -> EO.OptState -> EO.OptState -> Prop :=
| week_done s : WeekRun [] s s
| week_day loc d g visits pairs s s1 s2 :
    lookupKey d EO.DAY_GUIDELINES = Some g ->
    List.NoDup visits ->
    (forall t, In t visits -> In t (EO.generateFlexibleTimeSlots d loc)) ->
    DayRun loc d g visits
      {| EO.schedule := EO.schedule s; EO.trainerTracking := EO.trainerTracking s;
         EO.classesScheduled := 0 |} s1 ->
    WeekRun pairs s1 s2 ->
    WeekRun ((loc, d) :: pairs) s s2.
End OptimizerRuns.

(** The (location, day) pairs in the order of the two outer loops. *)
Definition weekPairs : list (string * string) :=
  flat_map (fun loc => map (fun d => (loc, d)) EO.days) EO.locations.

Definition startState (csvData : list ClassData) : EO.OptState :=
  {| EO.schedule := []; EO.trainerTracking := EO.initializeTrainerTracking csvData;
     EO.classesScheduled := 0 |}.

(** The schedules of the three generators. *)
Definition optimizerSchedule (csvData : list ClassData) (sched : list ScheduledClass)
  : Prop :=
  EO.generateRevenueMaximizer csvData = Some sched
  \/ EO.generateAttendanceMaximizer csvData = Some sched
  \/ EO.generateBalancedSchedule csvData = Some sched.

(** The classes of a location on a day. *)
Definition dayClasses (sched : list ScheduledClass) (loc d : string) : list ScheduledClass :=
  List.filter (fun cls => bool_decide (sc_location cls = loc) && bool_decide (day cls = d))
              sched.

(** What the rules of the enhanced optimizer ask of a class: a studio, a day
    and a slot of its lists, a format the location admits and the day does
    not avoid, the duration of the format, and a record of the format at the
    location on the day with more than 5 participants. *)
Definition optimizerClass (csvData : list ClassData) (cls : ScheduledClass) : Prop :=
  In (sc_location cls) EO.locations
  /\ In (day cls) EO.days
  /\ In (time cls) (EO.generateFlexibleTimeSlots (day cls) (sc_location cls))
  /\ EO.isClassAllowedAtLocation (classFormat cls) (sc_location cls) = true
  /\ (forall g, lookupKey (day cls) EO.DAY_GUIDELINES = Some g ->
                ~ In (classFormat cls) (EO.dg_avoid g))
  /\ duration cls = EO.getClassDuration (classFormat cls)
  /\ isPrivate cls = false
  /\ exists item, In item csvData
                  /\ cleanedClass item = classFormat cls
                  /\ location item = sc_location cls
                  /\ dayOfWeek item = day cls
                  /\ (5 < participants item)%Z.

(** The two trainer tiers of [EO.canAssignTeacher], on the name a class
    shows. *)
Definition optimizerTiers (cls : ScheduledClass) : Prop :=
  (existsb (includes (fullName cls)) EO.NEW_TRAINERS = true ->
   In (classFormat cls) EO.allowedFormats)
  /\ (In (classFormat cls) EO.ADVANCED_FORMATS ->
      existsb (includes (fullName cls)) EO.SENIOR_TRAINERS = true).

(** [maxWeeklyHours] of [EO.canAssignTeacher]. *)
Definition optimizerCap (teacher : string) : Q :=
  if existsb (includes teacher) EO.NEW_TRAINERS then 10 else 15.

(** The tracking bounds the hours the schedule shows under each tracked name,
    in the week and on each day. *)
Definition trackingOK (sched : list ScheduledClass) (tracking : EO.Tracking) : Prop :=
  forall teacher track, tracking !! teacher = Some track ->
    hoursSum sched (shownName teacher) <= EO.totalHours track
    /\ EO.totalHours track < optimizerCap teacher + 1
    /\ forall d, dailySum sched (shownName teacher) d
                 <= default 0 (EO.tk_dailyHours track !! d)
                 /\ default 0 (EO.tk_dailyHours track !! d) < 5.

(** [maxTrainersPerShift] of [EO.validateTrainerAssignment] *)
Definition maxTrainersPerShift (d : string) : nat :=
  if bool_decide (d = "Sunday") then 1%nat else 3%nat.

(** No shift of a location and day has more trainers than that. *)
Definition shiftsOK (sched : list ScheduledClass) : Prop :=
  forall loc d t,
    (length (EO.getTrainersInShift sched loc d t) <= maxTrainersPerShift d)%nat.

(** The classes of each location on each day are within the day's maximum. *)
Definition daysOK (sched : list ScheduledClass) : Prop :=
  forall loc d g, lookupKey d EO.DAY_GUIDELINES = Some g ->
    (length (dayClasses sched loc d) <= EO.maxClasses g)%nat.

(** Sample records for the enhanced optimizer: three formats at Kwality House
    on Monday, one of them with a new trainer, and a record of an excluded
    teacher at Supreme HQ on Sunday. *)
Definition optimizerRecords : list ClassData :=
  [ sampleRecord "Studio Barre 57" "Anisha Shah" "Kwality House, Kemps Corner" "Monday"
      "09:00" 12;
    sampleRecord "Studio Mat 57" "Rohan Dahima" "Kwality House, Kemps Corner" "Monday"
      "09:00" 9;
    sampleRecord "Studio HIIT" "Kabir" "Kwality House, Kemps Corner" "Monday" "18:00" 8;
    sampleRecord "Studio Barre 57" "Nishanth Raj" "Supreme HQ, Bandra" "Sunday" "10:00" 15 ].


(** ** The smart optimizer ([SmartOptimizer.generateOptimization]) *)

Module SmartOptimizer.

(** A suggestion, without its two message strings. *)
Record Suggestion := {
  sg_type : SuggestionType;
  sg_originalClass : ScheduledClass;
  sg_suggestedClass : ScheduledClass
}.

Definition days : list string :=
  ["Monday"; "Tuesday"; "Wednesday"; "Thursday"; "Friday"; "Saturday"; "Sunday"].

(** [[...new Set(csvData.map(item => item.location))]] *)
Definition locationsOf (csvData : list ImportedRow) : list string :=
  uniq (map (fun item => location (imp_item item)) csvData).

Definition dayData (csvData : list ImportedRow) (loc d : string) : list ImportedRow :=
  List.filter (fun item => bool_decide (location (imp_item item) = loc)
                           && bool_decide (dayOfWeek (imp_item item) = d))
              csvData.

(** The totals of each [classTime.slice(0, 5)]. *)
Definition timePerformance (data : list ImportedRow) : list (string * Stats) :=
  reduceWith (fun item => slice0 5 (classTime (imp_item item)))
             (fun item => addStats (imp_item item)) data.

(** [Object.entries(timePerformance).sort(...)[0]] *)
Definition bestTime (data : list ImportedRow) : option (string * Stats) :=
  head (sortBy (fun a b : string * Stats =>
                  inject_Z (st_participants (snd b)) - inject_Z (st_participants (snd a)))
               (timePerformance data)).

Definition bestClasses (data : list ImportedRow) (t : string) : list ImportedRow :=
  sortBy (fun a b => inject_Z (participants (imp_item b))
                     - inject_Z (participants (imp_item a)))
         (List.filter (fun item => includes (classTime (imp_item item)) t) data).

(** The class added for a location and day; [n] stands for the clock of the
    [id]. *)
Definition newClass (bestClass : ImportedRow) (loc d t : string) (n : nat)
  : ScheduledClass :=
  {| id := (loc, d, t, n);
     day := d;
     time := t;
     sc_location := loc;
     classFormat := cleanedClass (imp_item bestClass);
     teacherFirstName := imp_teacherFirstName bestClass;
     teacherLastName := imp_teacherLastName bestClass;
     duration := 1;
     sc_participants := inject_Z (participants (imp_item bestClass));
     revenue := totalRevenue (imp_item bestClass);
     isTopPerformer := false;
     isPrivate := false |}.

(** The body of the two nested [forEach] loops, on [newSchedule] and
    [newSuggestions]. *)
Definition addBest (csvData : list ImportedRow) (loc d : string)
    (acc : list ScheduledClass * list Suggestion) : list ScheduledClass * list Suggestion :=
  let data := dayData csvData loc d in
  if (0 <? length data)%nat then
    match bestTime data with
    | Some best =>
        match bestClasses data (fst best) with
        | bestClass :: _ =>
            match List.find (fun cls => bool_decide (sc_location cls = loc)
                                        && bool_decide (day cls = d)
                                        && bool_decide (time cls = fst best))
                            (fst acc) with
            | Some _ => acc
            | None =>
                let cls := newClass bestClass loc d (fst best) (length (fst acc)) in
                (fst acc ++ [cls],
                 snd acc ++ [{| sg_type := format_change;
                                sg_originalClass := cls;
                                sg_suggestedClass := cls |}])
            end
        | [] => acc
        end
    | None => acc
    end
  else acc.

(** The body of [currentSchedule.forEach]. *)
Definition suggestTeacher (csvData : list ImportedRow) (suggestions : list Suggestion)
    (cls : ScheduledClass) : list Suggestion :=
  let historicData :=
    List.filter (fun item => bool_decide (location (imp_item item) = sc_location cls)
                             && bool_decide (dayOfWeek (imp_item item) = day cls)
                             && includes (classTime (imp_item item)) (time cls))
                csvData in
  match sortBy (fun a b => inject_Z (participants (imp_item b))
                           - inject_Z (participants (imp_item a)))
               historicData with
  | bestPerformer :: _ =>
      if bool_decide (teacherName (imp_item bestPerformer) = fullName cls) then suggestions
      else suggestions
           ++ [{| sg_type := teacher_change;
                  sg_originalClass := cls;
                  sg_suggestedClass :=
                    {| id := id cls; day := day cls; time := time cls;
                       sc_location := sc_location cls; classFormat := classFormat cls;
                       teacherFirstName := imp_teacherFirstName bestPerformer;
                       teacherLastName := imp_teacherLastName bestPerformer;
                       duration := duration cls; sc_participants := sc_participants cls;
                       revenue := revenue cls; isTopPerformer := isTopPerformer cls;
                       isPrivate := isPrivate cls |} |}]
  | [] => suggestions
  end.

(** The suggestions and the schedule the timer callback of
    [generateOptimization] stores. *)
Definition generateOptimization (csvData : list ImportedRow)
    (currentSchedule : list ScheduledClass) : list Suggestion * list ScheduledClass :=
  let added :=
    fold_left (fun acc loc => fold_left (fun acc d => addBest csvData loc d acc) days acc)
              (locationsOf csvData) (currentSchedule, []) in
  (fold_left (suggestTeacher csvData) currentSchedule (snd added), fst added).

End SmartOptimizer.


(** The participants of the records of a location and day whose class time
    starts with [t]. *)
Definition timeTotal (csvData : list ImportedRow) (loc d t : string) : Z :=
  totalParticipants
    (map imp_item
       (List.filter (fun item => bool_decide (slice0 5 (classTime (imp_item item)) = t))
                    (SmartOptimizer.dayData csvData loc d))).

(** What [generateOptimization] has tested of a class it adds. *)
Definition smartClass (csvData : list ImportedRow) (cls : ScheduledClass) : Prop :=
  In (day cls) SmartOptimizer.days
  /\ duration cls = 1
  /\ isPrivate cls = false
  /\ (exists item, In item (SmartOptimizer.dayData csvData (sc_location cls) (day cls))
                   /\ slice0 5 (classTime (imp_item item)) = time cls)
  /\ (forall item, In item (SmartOptimizer.dayData csvData (sc_location cls) (day cls)) ->
        (timeTotal csvData (sc_location cls) (day cls) (slice0 5 (classTime (imp_item item)))
         <= timeTotal csvData (sc_location cls) (day cls) (time cls))%Z)
  /\ exists best,
       In best (SmartOptimizer.dayData csvData (sc_location cls) (day cls))
       /\ includes (classTime (imp_item best)) (time cls) = true
       /\ classFormat cls = cleanedClass (imp_item best)
       /\ teacherFirstName cls = imp_teacherFirstName best
       /\ teacherLastName cls = imp_teacherLastName best
       /\ forall other,
            In other (SmartOptimizer.dayData csvData (sc_location cls) (day cls)) ->
            includes (classTime (imp_item other)) (time cls) = true ->
            (participants (imp_item other) <= participants (imp_item best))%Z.

(** Sample records of the import with their name parts: a hosted class of an
    excluded teacher at 13:00. *)
Definition smartRecords : list ImportedRow :=
  [ {| imp_item := sampleRecord "Hosted Class" "Nishanth Raj" "Supreme HQ, Bandra" "Monday"
                     "13:00" 20;
       imp_teacherFirstName := "Nishanth"; imp_teacherLastName := "Raj" |};
    {| imp_item := sampleRecord "Studio Barre 57" "Anisha Shah" "Supreme HQ, Bandra" "Monday"
                     "09:00" 12;
       imp_teacherFirstName := "Anisha"; imp_teacherLastName := "Shah" |} ].

Module SO := SmartOptimizer.


(** ** The class form ([ClassModal.handleSchedule]) *)

Module ClassModal.

Record Slot := { slot_day : string; slot_time : string; slot_location : string }.

(** The form state that [handleSchedule] reads; [form_duration] is the number
    of the duration text (an option of the duration select, the duration of
    the format, or that of the edited class). The cover teacher is left out. *)
Record Form := {
  selectedClass : string;
  selectedTeacher : string;
  selectedTime : string;
  form_duration : Q;
  form_isPrivate : bool;
  expectedParticipants : Z
}.

Inductive Alert :=
| FillRequiredFields
| NotAtSupremeHQ
| OnlyAtSupremeHQ
| NewTrainerFormats
| NewTrainerHours
| ValidationError (message : option string).

(** An alert, a declined confirmation, or the class given to [onSchedule]. *)
Inductive Outcome :=
| Alerted (a : Alert)
| Declined
| Scheduled (cls : ScheduledClass).

(** [getClassAverageForSlot] with its optional [teacherName]; an empty name
    is falsy. *)
Definition getClassAverageForTeacher
    (csvData : list ClassData) (format loc d t name : string) : Q * nat :=
  let relevantClasses :=
    List.filter (fun item => bool_decide (cleanedClass item = format)
                             && bool_decide (location item = loc)
                             && bool_decide (dayOfWeek item = d)
                             && includes (classTime item) t
                             && negb (isHostedClass (cleanedClass item)))
                csvData in
  let relevantClasses :=
    if bool_decide (name = "") then relevantClasses
    else List.filter (fun item => bool_decide (teacherName item = name)) relevantClasses in
  if (length relevantClasses =? 0)%nat then (0, 0%nat)
  else
    let totalParticipants :=
      fold_left (fun sum item => (sum + participants item)%Z) relevantClasses 0%Z in
    (toFixed1 (average totalParticipants (length relevantClasses)), length relevantClasses).

(** The class [getTeacherValidation] makes of an entry of [teacherHours]; its
    [id], which nothing reads, is that of its cell. *)
Definition existingClass (loc : string) (entry : string * Q) : ScheduledClass :=
  {| id := (loc, "Monday", "09:00", 0%nat);
     day := "Monday";
     time := "09:00";
     sc_location := loc;
     classFormat := "Existing";
     teacherFirstName := hd "" (split " " (fst entry));
     teacherLastName := join " " (tl (split " " (fst entry)));
     duration := snd entry;
     sc_participants := 0;
     revenue := 0;
     isTopPerformer := false;
     isPrivate := false |}.

(** [getTeacherValidation] for a name that is not empty. *)
Definition getTeacherValidation (slot : Slot) (teacherHours : list (string * Q))
    (form : Form) (name : string) : Validation :=
  let mockClass :=
    {| id := (slot_location slot, slot_day slot, selectedTime form, 0%nat);
       day := slot_day slot;
       time := selectedTime form;
       sc_location := slot_location slot;
       classFormat := if bool_decide (selectedClass form = "") then "Test Class"
                      else selectedClass form;
       teacherFirstName := hd "" (split " " name);
       teacherLastName := join " " (tl (split " " name));
       duration := form_duration form;
       sc_participants := 0;
       revenue := 0;
       isTopPerformer := false;
       isPrivate := false |} in
  validateTeacherHours (map (existingClass (slot_location slot)) teacherHours) mockClass.

(** The check of the location rules: an alert, or [None] to go on. *)
Definition locationAlert (format loc : string) : option Alert :=
  let lower := toLowerCase format in
  if negb (isClassAllowedAtLocation format loc) then
    if bool_decide (loc = "Supreme HQ, Bandra") then
      if includes lower "amped up" || includes lower "hiit" then Some NotAtSupremeHQ
      else None
    else
      if includes lower "powercycle" || includes lower "power cycle"
      then Some OnlyAtSupremeHQ
      else None
  else None.

(** [handleSchedule]; [proceedHours] and [proceedTeacher] are the answers to
    its two confirmations and [n] stands for the clock of a new [id]. *)
Definition handleSchedule (slot : Slot) (csvData : list ClassData)
    (teacherHours : list (string * Q)) (editingClass : option ScheduledClass)
    (form : Form) (proceedHours proceedTeacher : bool) (n : nat) : Outcome :=
  let loc := slot_location slot in
  if bool_decide (selectedClass form = "") || bool_decide (selectedTeacher form = "")
     || bool_decide (selectedTime form = "")
  then Alerted FillRequiredFields
  else
  match locationAlert (selectedClass form) loc with
  | Some a => Alerted a
  | None =>
    let isNewTrainer := existsb (includes (selectedTeacher form)) newTrainers in
    if isNewTrainer && negb (elemStr (selectedClass form) newTrainerFormats)
    then Alerted NewTrainerFormats
    else if isNewTrainer
            && Qltb 10 (default 0 (lookupKey (selectedTeacher form) teacherHours)
                        + form_duration form)
    then Alerted NewTrainerHours
    else
      let validation := getTeacherValidation slot teacherHours form (selectedTeacher form) in
      if negb (isValid validation) then Alerted (ValidationError (error validation))
      else if match warning validation with Some _ => negb proceedHours | None => false end
      then Declined
      else
        let bestTeacher :=
          getBestTeacherForClass csvData (selectedClass form) loc (slot_day slot)
            (selectedTime form) in
        let classAverage :=
          getClassAverageForSlot csvData (selectedClass form) loc (slot_day slot)
            (selectedTime form) in
        let teacherClassAverage :=
          getClassAverageForTeacher csvData (selectedClass form) loc (slot_day slot)
            (selectedTime form) (selectedTeacher form) in
        if match bestTeacher with
           | Some best =>
               negb (bool_decide (best = selectedTeacher form))
               && Qltb (fst teacherClassAverage) (fst classAverage)
               && negb proceedTeacher
           | None => false
           end
        then Declined
        else
          Scheduled
            {| id := match editingClass with
                     | Some cls => id cls
                     | None => (loc, slot_day slot, selectedTime form, n)
                     end;
               day := slot_day slot;
               time := selectedTime form;
               sc_location := loc;
               classFormat := selectedClass form;
               teacherFirstName := hd "" (split " " (selectedTeacher form));
               teacherLastName := join " " (tl (split " " (selectedTeacher form)));
               duration := form_duration form;
               sc_participants := inject_Z (expectedParticipants form);
               revenue := 0;
               isTopPerformer := false;
               isPrivate := form_isPrivate form |}
  end.

End ClassModal.

Module CM := ClassModal.

(** A form for a class at noon. *)
Definition noonForm : CM.Form :=
  {| CM.selectedClass := "Hosted Class";
     CM.selectedTeacher := "Nishanth Raj";
     CM.selectedTime := "12:00";
     CM.form_duration := 2;
     CM.form_isPrivate := false;
     CM.expectedParticipants := 0 |}.

(** * Properties *)

(** ** Array primitives *)

Section ArrayFacts.
Context {A : Type}.
Implicit Types (cmp : A -> A -> Q) (l : list A).

Lemma insertBy_perm cmp x l : Permutation (insertBy cmp x l) (x :: l).
Proof.
  induction l as [|y r IH]; simpl; [reflexivity|].
  destruct (Qle_bool (cmp x y) 0); [reflexivity|].
  rewrite IH. apply perm_swap.
Qed.

Lemma sortBy_perm cmp l : Permutation (sortBy cmp l) l.
Proof.
  induction l as [|x r IH]; simpl; [reflexivity|].
  rewrite insertBy_perm. now constructor.
Qed.

Lemma sortBy_In cmp l x : In x (sortBy cmp l) <-> In x l.
Proof.
  split; apply Permutation_in; [|symmetry]; apply sortBy_perm.
Qed.

Lemma sortBy_length cmp l : length (sortBy cmp l) = length l.
Proof. apply Permutation_length, sortBy_perm. Qed.

(** With a comparator that is a total preorder, the first element of the
    sorted array precedes every element. *)
Lemma insertBy_head_min cmp x l :
  (forall a b c, precedes cmp a b -> precedes cmp b c -> precedes cmp a c) ->
  (forall a b, precedes cmp a b \/ precedes cmp b a) ->
  (forall h t, l = h :: t -> forall y, In y l -> precedes cmp h y) ->
  forall h t, insertBy cmp x l = h :: t ->
  forall y, In y (x :: l) -> precedes cmp h y.
Proof.
  intros Htrans Htot Hl h t Heq y Hy.
  destruct l as [|z r]; simpl in Heq.
  - injection Heq as <- <-. destruct Hy as [<-|[]].
    destruct (Htot x x); assumption.
  - destruct (Qle_bool (cmp x z) 0) eqn:Hxz.
    + injection Heq as <- <-. destruct Hy as [<-|Hy].
      * destruct (Htot x x); assumption.
      * apply Htrans with z; [exact Hxz|]. eapply Hl; eauto.
    + injection Heq as <- <-.
      assert (Hzx : precedes cmp z x).
      { destruct (Htot z x) as [H|H]; [exact H|]. unfold precedes in H. congruence. }
      destruct Hy as [<-|Hy]; [exact Hzx|]. eapply Hl; eauto.
Qed.

Lemma sortBy_head_min cmp l :
  (forall a b c, precedes cmp a b -> precedes cmp b c -> precedes cmp a c) ->
  (forall a b, precedes cmp a b \/ precedes cmp b a) ->
  forall h t, sortBy cmp l = h :: t -> forall y, In y l -> precedes cmp h y.
Proof.
  intros Htrans Htot. induction l as [|x r IH]; intros h t Heq y Hy; [destruct Hy|].
  simpl in Heq.
  eapply (insertBy_head_min cmp x (sortBy cmp r) Htrans Htot); eauto.
  - intros h' t' Heq' y' Hy'. eapply IH; eauto. now apply sortBy_In in Hy'.
  - destruct Hy as [<-|Hy]; [now left|right; now apply sortBy_In].
Qed.

Lemma In_firstn n l x : In x (firstn n l) -> In x l.
Proof.
  revert l. induction n as [|n IH]; intros [|y r] H; simpl in H; try destruct H.
  - now left.
  - right. now apply IH.
Qed.

Lemma findIndex_Some (p : A -> bool) l i :
  findIndex p l = Some i ->
  exists x, l !! i = Some x /\ p x = true /\
            forall j y, (j < i)%nat -> l !! j = Some y -> p y = false.
Proof.
  revert i. induction l as [|x r IH]; intros i H; simpl in H; [discriminate|].
  destruct (p x) eqn:Hpx.
  - injection H as <-. exists x. repeat split; auto. intros j y Hj. lia.
  - destruct (findIndex p r) as [k|] eqn:Hk; simpl in H; [|discriminate].
    injection H as <-. destruct (IH k eq_refl) as (y & Hy & Hp & Hlt).
    exists y. repeat split; auto.
    intros [|j] z Hj Hz; simpl in Hz; [congruence|]. apply (Hlt j); [lia|exact Hz].
Qed.


Lemma findIndex_first (p : A -> bool) l i x :
  l !! i = Some x -> p x = true ->
  (forall j y, (j < i)%nat -> l !! j = Some y -> p y = false) ->
  findIndex p l = Some i.
Proof.
  revert i. induction l as [|z r IH]; intros i Hi Hp Hlt; [discriminate|].
  simpl. destruct i as [|i]; simpl in Hi.
  - injection Hi as ->. now rewrite Hp.
  - rewrite (Hlt 0%nat z); [|lia|reflexivity].
    rewrite (IH i Hi Hp); [reflexivity|].
    intros j y Hj Hy. apply (Hlt (S j)); [lia|exact Hy].
Qed.

Lemma uniq_In `{EqDecision A} l x : In x (uniq l) <-> In x l.
Proof.
  induction l as [|y r IH]; simpl; [tauto|].
  rewrite filter_In, IH. split.
  - intros [H|[H _]]; auto.
  - intros [H|H]; auto. destruct (decide (x = y)) as [->|Hne]; auto.
    right. split; auto. now rewrite bool_decide_eq_false_2.
Qed.

Lemma uniq_NoDup `{EqDecision A} l : List.NoDup (uniq l).
Proof.
  induction l as [|y r IH]; simpl; constructor.
  - rewrite filter_In. intros [_ H]. now rewrite bool_decide_eq_true_2 in H.
  - now apply List.NoDup_filter.
Qed.
End ArrayFacts.


(** ** String primitives *)

Lemma prefix_refl_app (n b : string) : String.prefix n (n +:+ b) = true.
Proof.
  induction n as [|c n IH]; simpl; [now destruct b|].
  destruct (ascii_dec c c); [exact IH|congruence].
Qed.

Lemma includes_of_prefix (s n : string) : String.prefix n s = true -> includes s n = true.
Proof.
  intros H. destruct s; cbn [includes]; rewrite H; reflexivity.
Qed.

Lemma includes_infix (a n b : string) : includes (a +:+ n +:+ b) n = true.
Proof.
  induction a as [|c a IH].
  - change ("" +:+ n +:+ b) with (n +:+ b).
    apply includes_of_prefix. apply prefix_refl_app.
  - change (includes (String c (a +:+ n +:+ b)) n = true).
    cbn [includes]. rewrite IH. apply orb_true_r.
Qed.

Lemma split_nonempty sep s : split sep s <> [].
Proof.
  destruct s as [|c r]; simpl; [discriminate|].
  destruct (Ascii.eqb c sep); [discriminate|].
  destruct (split sep r); discriminate.
Qed.

Lemma join_split sep s : join (String sep "") (split sep s) = s.
Proof.
  induction s as [|c r IH]; simpl; [reflexivity|].
  destruct (Ascii.eqb c sep) eqn:E.
  - apply Ascii.eqb_eq in E. subst c.
    destruct (split sep r) as [|w ws] eqn:Hs; [now apply split_nonempty in Hs|].
    simpl. simpl in IH. now rewrite IH.
  - destruct (split sep r) as [|w ws] eqn:Hs; [now apply split_nonempty in Hs|].
    simpl in *. destruct ws; simpl in *; now rewrite <- IH.
Qed.

Lemma split_head_noSpace s : noSpace (hd "" (split " " s)) = true.
Proof.
  induction s as [|c r IH]; simpl; [reflexivity|].
  destruct (Ascii.eqb c " ") eqn:E; [reflexivity|].
  destruct (split " " r) as [|w ws] eqn:Hs; [now apply split_nonempty in Hs|].
  simpl in *. now rewrite E, IH.
Qed.

(** The shown name is the teacher's name when that has a blank, and the name
    followed by a blank otherwise. *)
Lemma shownName_cases t :
  shownName t = t \/ (shownName t = t +:+ " " /\ noSpace t = true).
Proof.
  unfold shownName. pose proof (join_split " " t) as Hj.
  pose proof (split_head_noSpace t) as Hh.
  destruct (split " " t) as [|w ws] eqn:Hs; [now apply split_nonempty in Hs|].
  simpl in *. destruct ws as [|w' ws].
  - right. subst w. split; [reflexivity|exact Hh].
  - left. exact Hj.
Qed.

Lemma endsWithSpace_app_space s : endsWithSpace (s +:+ " ") = true.
Proof.
  induction s as [|c r IH]; [reflexivity|].
  simpl. destruct (r +:+ " ") eqn:E; [now destruct r|exact IH].
Qed.

Lemma app_space_inj (s s' : string) : s +:+ " " = s' +:+ " " -> s = s'.
Proof.
  revert s'. induction s as [|c r IH]; intros [|c' r'] H; simpl in *; try reflexivity.
  - injection H as _ H. now destruct r'.
  - injection H as _ H. now destruct r.
  - injection H as -> H. f_equal. now apply IH.
Qed.

Lemma shownName_inj t t' :
  endsWithSpace t = false -> endsWithSpace t' = false ->
  shownName t = shownName t' -> t = t'.
Proof.
  intros Ht Ht' H.
  destruct (shownName_cases t) as [E|[E _]], (shownName_cases t') as [E'|[E' _]];
    rewrite E, E' in H.
  - exact H.
  - subst t. now rewrite endsWithSpace_app_space in Ht.
  - subst t'. now rewrite endsWithSpace_app_space in Ht'.
  - now apply app_space_inj.
Qed.

Lemma prefix_app_space n u :
  noSpace n = true -> n <> "" -> String.prefix n (u +:+ " ") = String.prefix n u.
Proof.
  revert u. induction n as [|c n IH]; intros u Hn Hne; [congruence|].
  simpl in Hn. apply andb_true_iff in Hn as [Hc Hn].
  destruct u as [|d u]; simpl.
  - destruct (ascii_dec c " ") as [->|]; [discriminate|reflexivity].
  - destruct (ascii_dec c d); [|reflexivity].
    destruct n as [|c2 n]; [now destruct u|].
    apply IH; [exact Hn|discriminate].
Qed.

Lemma includes_app_space s n :
  noSpace n = true -> n <> "" -> includes (s +:+ " ") n = includes s n.
Proof.
  intros Hn Hne. induction s as [|c r IH];
    [|change (includes (String c (r +:+ " ")) n = includes (String c r) n);
      cbn [includes]].
  - destruct n as [|c n]; [congruence|]. simpl in *.
    apply andb_true_iff in Hn as [Hc _].
    destruct (ascii_dec c " ") as [->|]; [discriminate|]. reflexivity.
  - rewrite IH. f_equal.
    apply (prefix_app_space n (String c r)); assumption.
Qed.

Lemma includes_shownName t n :
  noSpace n = true -> n <> "" -> includes (shownName t) n = includes t n.
Proof.
  intros Hn Hne. destruct (shownName_cases t) as [-> | [-> _]]; [reflexivity|].
  now apply includes_app_space.
Qed.

(** A shown name has a blank, and showing it again changes nothing. *)
Lemma shownName_idem t : shownName (shownName t) = shownName t.
Proof.
  destruct (shownName_cases (shownName t)) as [E|[_ E]]; [exact E|].
  exfalso. unfold shownName in E.
  assert (H : forall a b, noSpace (a +:+ " " +:+ b) = false).
  { intros a b. induction a as [|c a IH]; simpl; [reflexivity|].
    rewrite IH. apply andb_false_r. }
  now rewrite H in E.
Qed.

(** ** Number primitives *)

Lemma Qltb_iff a b : Qltb a b = true <-> a < b.
Proof.
  unfold Qltb. rewrite negb_true_iff. split.
  - intros H. apply Qnot_le_lt. intros Hle. apply Qle_bool_iff in Hle. congruence.
  - intros H. destruct (Qle_bool b a) eqn:E; [|reflexivity].
    apply Qle_bool_iff in E. apply Qle_not_lt in E. contradiction.
Qed.

Lemma Qltb_false_iff a b : Qltb a b = false <-> b <= a.
Proof.
  unfold Qltb. rewrite negb_false_iff. apply Qle_bool_iff.
Qed.

(** Rounding to one decimal yields tenths. *)
Lemma toFixed1_tenths x : exists n : Z, toFixed1 x = n # 10.
Proof.
  unfold toFixed1. destruct (Qltb x 0); eexists; reflexivity.
Qed.

(** On twentieths (sums of tenths and quarter-hour multiples that are
    twentieths) rounding never goes down. *)
Lemma toFixed1_ge x (k : Z) : (0 <= k)%Z -> x == k # 20 -> x <= toFixed1 x.
Proof.
  intros Hk Hx. unfold toFixed1.
  assert (Hx0 : 0 <= x) by (rewrite Hx; unfold Qle; simpl; lia).
  destruct (Qltb x 0) eqn:E; [apply Qltb_iff in E; lra|].
  assert (Hfl : Qfloor (x * 10 + (1 # 2)) = ((k + 1) / 2)%Z).
  { assert (H : x * 10 + (1 # 2) == (k + 1) # 2).
    { rewrite Hx. unfold Qeq, Qplus, Qmult; simpl. lia. }
    rewrite H. reflexivity. }
  rewrite Hfl, Hx. unfold Qle; simpl.
  pose proof (Z.div_mod (k + 1) 2 ltac:(lia)) as Hd.
  pose proof (Z.mod_pos_bound (k + 1) 2 ltac:(lia)) as Hm. lia.
Qed.

(** Rounding stays below an integer bound. *)
Lemma toFixed1_le x (cap : Z) : 0 <= x -> x <= inject_Z cap -> toFixed1 x <= inject_Z cap.
Proof.
  intros Hx0 Hx. unfold toFixed1.
  destruct (Qltb x 0) eqn:E; [apply Qltb_iff in E; lra|].
  assert (H : (Qfloor (x * 10 + (1 # 2)) <= cap * 10)%Z).
  { assert (Hlt : x * 10 + (1 # 2) < inject_Z (cap * 10 + 1)).
    { rewrite inject_Z_plus, inject_Z_mult.
      change (inject_Z 10) with 10. change (inject_Z 1) with 1. lra. }
    pose proof (Qfloor_le (x * 10 + (1 # 2))) as Hf.
    assert (Hz : inject_Z (Qfloor (x * 10 + (1 # 2))) < inject_Z (cap * 10 + 1)) by lra.
    rewrite <- Zlt_Qlt in Hz. lia. }
  set (f := Qfloor (x * 10 + (1 # 2))) in *.
  unfold Qle, inject_Z; cbn [Qnum Qden]. lia.
Qed.

Lemma toFixed1_nonneg x : 0 <= x -> 0 <= toFixed1 x.
Proof.
  intros Hx. unfold toFixed1.
  destruct (Qltb x 0) eqn:E; [apply Qltb_iff in E; lra|].
  assert (H : (0 <= Qfloor (x * 10 + (1 # 2)))%Z).
  { change 0%Z with (Qfloor 0). apply Qfloor_resp_le. lra. }
  set (f := Qfloor (x * 10 + (1 # 2))) in *.
  unfold Qle; cbn [Qnum Qden]. lia.
Qed.

Lemma getClassDuration_cases format :
  getClassDuration format = 3 # 4 \/ getClassDuration format = 1 # 2
  \/ getClassDuration format = 1.
Proof.
  unfold getClassDuration.
  destruct (includes _ "express"); [now left|].
  destruct (includes _ "recovery" || includes _ "sweat in 30"); auto.
Qed.

Lemma getClassDuration_twentieths format :
  exists m : Z, (0 < m)%Z /\ getClassDuration format == m # 20.
Proof.
  destruct (getClassDuration_cases format) as [-> | [-> | ->]];
    [exists 15%Z|exists 10%Z|exists 20%Z]; split; try lia; reflexivity.
Qed.



(** ** Manual-scheduling validation *)



(** ** Dictionaries in insertion order *)

Section Dictionaries.
Context {V : Type}.
Implicit Types (l : list (string * V)).

Lemma lookupKey_alterKey (f : option V -> V) k k' l :
  lookupKey k (alterKey f k' l)
  = if bool_decide (k = k') then Some (f (lookupKey k l)) else lookupKey k l.
Proof.
  unfold lookupKey. induction l as [|[k0 v] r IH]; simpl.
  - destruct (decide (k = k')) as [->|Hne].
    + now rewrite !bool_decide_eq_true_2.
    + rewrite (bool_decide_eq_false_2 (k = k')) by auto.
      rewrite bool_decide_eq_false_2 by auto. reflexivity.
  - destruct (decide (k' = k0)) as [->|Hne].
    + rewrite (bool_decide_eq_true_2 (k0 = k0)) by auto. simpl.
      destruct (decide (k = k0)) as [->|Hne'].
      * now rewrite !bool_decide_eq_true_2.
      * rewrite (bool_decide_eq_false_2 (k = k0)) by auto.
        rewrite (bool_decide_eq_false_2 (k0 = k)) by auto. reflexivity.
    + rewrite (bool_decide_eq_false_2 (k' = k0)) by auto. simpl.
      destruct (decide (k0 = k)) as [->|Hne'].
      * rewrite (bool_decide_eq_true_2 (k = k)) by auto.
        rewrite (bool_decide_eq_false_2 (k = k')) by auto. reflexivity.
      * rewrite (bool_decide_eq_false_2 (k0 = k)) by auto. exact IH.
Qed.

Lemma alterKey_keys (f : option V -> V) k l x :
  In x (map fst (alterKey f k l)) <-> x = k \/ In x (map fst l).
Proof.
  induction l as [|[k0 v] r IH]; simpl; [intuition|].
  destruct (decide (k = k0)) as [->|Hne].
  - rewrite bool_decide_eq_true_2 by auto. simpl. intuition.
  - rewrite bool_decide_eq_false_2 by auto. simpl. rewrite IH. intuition.
Qed.

Lemma alterKey_NoDup (f : option V -> V) k l :
  List.NoDup (map fst l) -> List.NoDup (map fst (alterKey f k l)).
Proof.
  induction l as [|[k0 v] r IH]; simpl; intros H.
  - constructor; [intros []|constructor].
  - inversion H as [|? ? Hnin Hnd]; subst.
    destruct (decide (k = k0)) as [->|Hne].
    + rewrite bool_decide_eq_true_2 by auto. simpl. now constructor.
    + rewrite bool_decide_eq_false_2 by auto. simpl. constructor; [|auto].
      rewrite alterKey_keys. intros [E|E]; [congruence|contradiction].
Qed.

Lemma lookupKey_In k v l :
  List.NoDup (map fst l) -> (In (k, v) l <-> lookupKey k l = Some v).
Proof.
  unfold lookupKey. induction l as [|[k0 v0] r IH]; simpl; intros H.
  - split; [intros []|discriminate].
  - inversion H as [|? ? Hnin Hnd]; subst.
    destruct (decide (k0 = k)) as [->|Hne].
    + rewrite bool_decide_eq_true_2 by auto. simpl. split.
      * intros [E|E]; [congruence|]. exfalso. apply Hnin.
        apply in_map_iff. now exists (k, v).
      * intros E. left. congruence.
    + rewrite bool_decide_eq_false_2 by auto. rewrite <- (IH Hnd). split.
      * intros [E|E]; [congruence|exact E].
      * auto.
Qed.

Lemma reduceByKey_snoc key (add : ClassData -> option V -> V) data item :
  reduceByKey key add (data ++ [item])
  = alterKey (add item) (key item) (reduceByKey key add data).
Proof. unfold reduceByKey. now rewrite fold_left_app. Qed.

Lemma accumulated_snoc (add : ClassData -> option V -> V) items item :
  accumulated add (items ++ [item]) = Some (add item (accumulated add items)).
Proof. unfold accumulated. now rewrite fold_left_app. Qed.

Lemma reduceByKey_NoDup key (add : ClassData -> option V -> V) data :
  List.NoDup (map fst (reduceByKey key add data)).
Proof.
  induction data as [|item data IH] using rev_ind; [constructor|].
  rewrite reduceByKey_snoc. now apply alterKey_NoDup.
Qed.

(** The entry of a key is what [add] accumulates over the items of that key,
    in input order. *)
Lemma reduceByKey_lookup key (add : ClassData -> option V -> V) data k :
  lookupKey k (reduceByKey key add data)
  = accumulated add (List.filter (fun item => bool_decide (key item = k)) data).
Proof.
  induction data as [|item data IH] using rev_ind; [reflexivity|].
  rewrite reduceByKey_snoc, lookupKey_alterKey, List.filter_app. simpl.
  destruct (decide (key item = k)) as [<-|Hne].
  - rewrite !bool_decide_eq_true_2 by auto.
    now rewrite accumulated_snoc, IH.
  - rewrite (bool_decide_eq_false_2 (key item = k)) by auto.
    rewrite (bool_decide_eq_false_2 (k = key item)) by auto.
    now rewrite app_nil_r.
Qed.

Lemma accumulated_None (add : ClassData -> option V -> V) items :
  accumulated add items = None <-> items = [].
Proof.
  destruct items as [|item items _] using rev_ind; [tauto|].
  rewrite accumulated_snoc. split; [discriminate|]. now destruct items.
Qed.

Lemma reduceByKey_In key (add : ClassData -> option V -> V) data k v :
  In (k, v) (reduceByKey key add data)
  <-> accumulated add (List.filter (fun item => bool_decide (key item = k)) data)
      = Some v.
Proof.
  rewrite lookupKey_In by apply reduceByKey_NoDup. now rewrite reduceByKey_lookup.
Qed.

Lemma reduceByKey_In_item key (add : ClassData -> option V -> V) data k v :
  In (k, v) (reduceByKey key add data) -> exists item, In item data /\ key item = k.
Proof.
  rewrite reduceByKey_In. intros H.
  destruct (List.filter (fun item => bool_decide (key item = k)) data) as [|item r] eqn:E.
  - discriminate.
  - exists item. assert (Hin : In item (item :: r)) by now left.
    rewrite <- E in Hin. apply filter_In in Hin as [Hin Hk].
    apply bool_decide_eq_true in Hk. auto.
Qed.

End Dictionaries.

Lemma accumulated_addStats items st :
  accumulated addStats items = Some st ->
  st_count st = length items /\ st_participants st = totalParticipants items.
Proof.
  revert st. induction items as [|item items IH] using rev_ind; intros st H;
    [discriminate|].
  rewrite accumulated_snoc in H. injection H as <-.
  rewrite length_app, Nat.add_comm. simpl.
  assert (Ht : forall l, totalParticipants (l ++ [item])
                         = (totalParticipants l + participants item)%Z).
  { induction l as [|x l IHl]; simpl; [lia|]. rewrite IHl. lia. }
  rewrite Ht.
  destruct (accumulated addStats items) as [st0|] eqn:E.
  - destruct (IH st0 eq_refl) as [H1 H2]. simpl. rewrite H1, H2. split; reflexivity.
  - apply accumulated_None in E. subst items. split; reflexivity.
Qed.


(** ** Recommendations without an external provider *)









(** ** The days-off rule of [canAssignTeacher] *)

(** C7 (amended). In a tracker where the teacher has hours on five (or more)
    days, [canAssignTeacher] answers [false] for every candidate on a tracked
    day without hours, whatever the hour budgets.  The days-off test comes
    after the tier and hour tests: the call ends at the days-off [return]
    exactly when those tests have passed. *)
Theorem canAssignTeacher_days_off
    (s : State) (teacherName d t : string) (dur : Q) (format : string)
    (daily : gmap string Q) (h : Q) :
  teacherDailyHours s !! teacherName = Some daily ->
  (5 <= workingDays daily)%nat ->
  daily !! d = Some h -> h == 0 ->
  canAssignTeacher s teacherName d t dur format = Some false
  /\ (canAssignVerdict s teacherName d t dur format = Some RejectDaysOff
      <-> (isNewTrainer teacherName && negb (elemStr format newTrainerFormats) = false)
          /\ (elemStr format advancedFormats && negb (isSeniorTrainer teacherName) = false)
          /\ default 0 (teacherHoursTracker s !! teacherName) + dur
             <= (if isNewTrainer teacherName then 10 else 15)
          /\ h + dur <= 4).
Proof.
  intros Hd Hw Hday Hh.
  unfold canAssignTeacher, canAssignVerdict. rewrite Hd.
  cbn [mbind option_bind]. rewrite Hday. cbn [default from_option Datatypes.id].
  apply Nat.leb_le in Hw. rewrite Hw.
  apply Qeq_bool_iff in Hh. rewrite Hh. cbn [andb].
  destruct (isNewTrainer teacherName && negb (elemStr format newTrainerFormats));
    [split; [reflexivity|split; [discriminate|intros [? _]; discriminate]]|].
  destruct (elemStr format advancedFormats && negb (isSeniorTrainer teacherName));
    [split; [reflexivity|split; [discriminate|intros (_ & ? & _); discriminate]]|].
  destruct (Qltb _ (_ + dur)) eqn:E1; cbn [orb fmap option_fmap option_map isAccept].
  - apply Qltb_iff in E1. split; [reflexivity|].
    split; [discriminate|]. intros (_ & _ & H & _). lra.
  - apply Qltb_false_iff in E1.
    destruct (Qltb 4 (h + dur)) eqn:E2; cbn [orb fmap option_fmap option_map isAccept].
    + apply Qltb_iff in E2. split; [reflexivity|].
      split; [discriminate|]. intros (_ & _ & _ & H). lra.
    + apply Qltb_false_iff in E2. split; [reflexivity|]. split; auto.
Qed.

Lemma canAssignTeacher_days_off_witness :
  canAssignTeacher (fiveDayTracker 2) "Anisha Shah" "Saturday" "09:00" 1 "Studio FIT"
  = Some false
  /\ (canAssignVerdict (fiveDayTracker 2) "Anisha Shah" "Saturday" "09:00" 1 "Studio FIT"
      = Some RejectDaysOff
      <-> (isNewTrainer "Anisha Shah" && negb (elemStr "Studio FIT" newTrainerFormats) = false)
          /\ (elemStr "Studio FIT" advancedFormats && negb (isSeniorTrainer "Anisha Shah")
              = false)
          /\ default 0 (teacherHoursTracker (fiveDayTracker 2) !! "Anisha Shah") + 1
             <= (if isNewTrainer "Anisha Shah" then 10 else 15)
          /\ 0 + 1 <= 4).
Proof.
  apply (canAssignTeacher_days_off (fiveDayTracker 2) "Anisha Shah" "Saturday" "09:00" 1
           "Studio FIT" (fiveDayHours 2) 0).
  - reflexivity.
  - vm_compute. lia.
  - reflexivity.
  - reflexivity.
Defined.

(** With fifteen weekly hours on five days, a candidate on the free Saturday
    is turned down by the hour test: the days-off test is not reached. *)
Lemma canAssignTeacher_hour_check_first :
  (5 <= workingDays (fiveDayHours 3))%nat
  /\ canAssignVerdict (fiveDayTracker 3) "Anisha Shah" "Saturday" "09:00" 1 "Studio FIT"
     = Some RejectHourLimit
  /\ canAssignVerdict (fiveDayTracker 3) "Anisha Shah" "Saturday" "09:00" 1 "Studio FIT"
     <> Some RejectDaysOff.
Proof.
  split; [vm_compute; lia|]. split; [reflexivity|discriminate].
Qed.


(** ** The monad of the run *)

Lemma bind_inv {A B} (m : M A) (f : A -> M B) s b s' :
  bind m f s = Some (b, s') ->
  exists a s1, m s = Some (a, s1) /\ f a s1 = Some (b, s').
Proof.
  unfold bind. destruct (m s) as [[a s1]|]; [|discriminate]. eauto.
Qed.

Lemma get_inv s a s' : get s = Some (a, s') -> a = s /\ s' = s.
Proof. unfold get. intros H. injection H as <- <-. auto. Qed.

Lemma ret_inv {A} (x : A) s a s' : ret x s = Some (a, s') -> a = x /\ s' = s.
Proof. unfold ret. intros H. injection H as <- <-. auto. Qed.

Lemma liftOption_inv {A} (o : option A) s a s' :
  liftOption o s = Some (a, s') -> o = Some a /\ s' = s.
Proof. unfold liftOption. destruct o; [|discriminate]. intros H. injection H as <- <-. auto. Qed.

Lemma canAssign_inv teacherName d t dur format s b s' :
  canAssign teacherName d t dur format s = Some (b, s') ->
  canAssignTeacher s teacherName d t dur format = Some b /\ s' = s.
Proof.
  unfold canAssign. intros H.
  apply bind_inv in H as (a & s1 & Hg & H). apply get_inv in Hg as [-> ->].
  now apply liftOption_inv in H.
Qed.

Lemma setCounter_inv n s a s' :
  setCounter n s = Some (a, s') ->
  optimizedClasses s' = optimizedClasses s
  /\ teacherHoursTracker s' = teacherHoursTracker s
  /\ teacherDailyHours s' = teacherDailyHours s
  /\ teacherShiftAssignments s' = teacherShiftAssignments s
  /\ stamp s' = stamp s.
Proof. unfold setCounter. intros H. injection H as _ <-. simpl. auto. Qed.

(** [find] with a predicate that only reads the store. *)
Lemma findM_inv {A} (p : A -> M bool) (q : State -> A -> option bool) l s r s' :
  (forall x s0 b s1, p x s0 = Some (b, s1) -> q s0 x = Some b /\ s1 = s0) ->
  findM p l s = Some (r, s') ->
  s' = s /\ match r with
            | Some x => In x l /\ q s x = Some true
            | None => True
            end.
Proof.
  intros Hp. induction l as [|x l IH]; simpl; intros H.
  - apply ret_inv in H as [-> ->]. auto.
  - apply bind_inv in H as (b & s1 & Hx & H). apply Hp in Hx as [Hq ->].
    destruct b.
    + apply ret_inv in H as [-> ->]. auto.
    + destruct (IH H) as [-> Hr]. split; [reflexivity|].
      destruct r; [|exact I]. tauto.
Qed.

Lemma assignClass_inv classData teacher s a s' :
  assignClass classData teacher s = Some (a, s') ->
  exists daily shifts,
    teacherDailyHours s !! teacher = Some daily
    /\ markShift teacher (c_day classData) (c_time classData) (teacherShiftAssignments s)
       = Some shifts
    /\ s' = {| optimizedClasses :=
                 optimizedClasses s ++ [newClass classData teacher (stamp s)];
               teacherHoursTracker :=
                 <[teacher := toFixed1 (default 0 (teacherHoursTracker s !! teacher)
                                        + getClassDuration (c_classFormat classData))]>
                   (teacherHoursTracker s);
               teacherDailyHours :=
                 <[teacher := <[c_day classData :=
                                  toFixed1 (default 0 (daily !! c_day classData)
                                            + getClassDuration (c_classFormat classData))]>
                                daily]>
                   (teacherDailyHours s);
               teacherShiftAssignments := shifts;
               classesScheduledForDay := classesScheduledForDay s;
               stamp := S (stamp s) |}.
Proof.
  unfold assignClass. intros H.
  destruct (teacherDailyHours s !! teacher) as [daily|]; [|discriminate].
  cbn [mbind option_bind] in H.
  destruct (markShift _ _ _ _) as [shifts|]; [|discriminate].
  cbn [mbind option_bind] in H. injection H as _ <-. eauto.
Qed.

(** Loops keep what every turn keeps. *)
Lemma forOf_preserves {A} (I : State -> Prop) (l : list A) (body : A -> M bool) :
  (forall x s b s', In x l -> I s -> body x s = Some (b, s') -> I s') ->
  forall s a s', I s -> forOf l body s = Some (a, s') -> I s'.
Proof.
  induction l as [|x l IH]; intros Hb s a s' HI H; simpl in H.
  - apply ret_inv in H as [_ ->]. exact HI.
  - apply bind_inv in H as (b & s1 & Hx & H).
    assert (HI1 : I s1) by (eapply Hb; eauto; now left).
    destruct b.
    + apply ret_inv in H as [_ ->]. exact HI1.
    + eapply IH; eauto. intros y s2 b2 s3 Hy. apply Hb. now right.
Qed.

Lemma forEach_preserves {A} (I : State -> Prop) (l : list A) (body : A -> M unit) :
  (forall x s b s', In x l -> I s -> body x s = Some (b, s') -> I s') ->
  forall s a s', I s -> forEach l body s = Some (a, s') -> I s'.
Proof.
  intros Hb. unfold forEach. apply forOf_preserves.
  intros x s b s' Hx HI H. apply bind_inv in H as (u & s1 & Hx1 & H).
  apply ret_inv in H as [_ ->]. eapply Hb; eauto.
Qed.

(** A loop without [break] whose invariant follows the turns already made. *)
Lemma forEach_prefix {A} (I : list A -> State -> Prop) (l : list A) (body : A -> M unit) :
  (forall pre x post s b s', l = pre ++ x :: post -> I pre s ->
     body x s = Some (b, s') -> I (pre ++ [x]) s') ->
  forall s a s', I [] s -> forEach l body s = Some (a, s') -> I l s'.
Proof.
  intros Hb.
  assert (H : forall post pre s a s', l = pre ++ post -> I pre s ->
            forEach post body s = Some (a, s') -> I l s').
  { induction post as [|x post IH]; intros pre s a s' El HI H.
    - apply ret_inv in H as [_ ->]. now rewrite El, app_nil_r.
    - unfold forEach in H. simpl in H.
      apply bind_inv in H as (b & s1 & Hx & H).
      apply bind_inv in Hx as (u & s2 & Hx & Hr). apply ret_inv in Hr as [-> ->].
      apply (IH (pre ++ [x]) s2 a s').
      + now rewrite <- app_assoc.
      + eapply Hb; eauto.
      + exact H. }
  intros s a s'. now apply (H l []).
Qed.


(** ** Phase 1: the format of a slot *)



Lemma slotData_In csvData loc d t guidelines item :
  In item (slotData csvData loc d t guidelines)
  <-> In item csvData /\ location item = loc /\ dayOfWeek item = d
      /\ includes (classTime item) t = true
      /\ isHostedClass (cleanedClass item) = false
      /\ isClassAllowedAtLocation (cleanedClass item) loc = true
      /\ elemStr (cleanedClass item) (avoid guidelines) = false
      /\ (4 <= participants item)%Z.
Proof.
  unfold slotData. rewrite filter_In, !andb_true_iff, !negb_true_iff,
    !bool_decide_eq_true, Z.leb_le. tauto.
Qed.

Lemma rankedFormats_In guidelines data best :
  In best (rankedFormats guidelines data) ->
  let records :=
    List.filter (fun item => bool_decide (cleanedClass item = rf_classFormat best)) data in
  records <> []
  /\ rf_avgParticipants best = average (totalParticipants records) (length records)
  /\ rf_isPriority best = elemStr (rf_classFormat best) (guide_priority guidelines).
Proof.
  intros H records. unfold records. clear records. unfold rankedFormats in H.
  apply sortBy_In, in_map_iff in H as ([k st] & <- & Hin). simpl.
  apply reduceByKey_In in Hin.
  destruct (accumulated_addStats _ _ Hin) as [Hc Hp]. rewrite Hc, Hp.
  split; [|split; reflexivity].
  intros E. rewrite E in Hin. discriminate.
Qed.


Lemma phase1_subslot_inv csvData allTeachers loc d t guidelines isPeak s a s' :
  phase1_subslot csvData allTeachers loc d t guidelines isPeak s = Some (a, s') ->
  s' = s
  \/ exists best teacher s1,
       getBestClassForSlot csvData loc d t guidelines = Some best
       /\ elemStr (rf_classFormat best)
            (map classFormat (classesInSlot (optimizedClasses s) loc d t)) = false
       /\ canAssignTeacher s teacher d t (getClassDuration (rf_classFormat best))
            (rf_classFormat best) = Some true
       /\ (getBestTeacherForClass csvData (rf_classFormat best) loc d t = Some teacher
           \/ In teacher allTeachers)
       /\ assignClass {| c_classFormat := rf_classFormat best; c_location := loc;
                         c_day := d; c_time := t;
                         c_avgParticipants := rf_avgParticipants best;
                         c_avgRevenue := rf_avgRevenue best |} teacher s
          = Some (tt, s1)
       /\ setCounter (S (classesScheduledForDay s1)) s1 = Some (tt, s').
Proof.
  unfold phase1_subslot. intros H.
  destruct (getBestClassForSlot csvData loc d t guidelines) as [best|];
    [|apply ret_inv in H as [_ ->]; now left].
  apply bind_inv in H as (s0 & s1 & Hg & H). apply get_inv in Hg as [-> ->].
  destruct (elemStr (rf_classFormat best) _) eqn:Hfmt;
    [apply ret_inv in H as [_ ->]; now left|].
  apply bind_inv in H as (unavailable & s1 & Hu & H).
  assert (Hu' : s1 = s /\
            (unavailable = false ->
             exists teacher,
               getBestTeacherForClass csvData (rf_classFormat best) loc d t = Some teacher
               /\ canAssignTeacher s teacher d t (getClassDuration (rf_classFormat best))
                    (rf_classFormat best) = Some true)).
  { destruct (getBestTeacherForClass csvData (rf_classFormat best) loc d t) as [teacher|].
    - apply bind_inv in Hu as (ok & s2 & Hc & Hr). apply canAssign_inv in Hc as [Hc ->].
      apply ret_inv in Hr as [-> ->]. split; [reflexivity|].
      intros E. apply negb_false_iff in E. subst ok. eauto.
    - apply ret_inv in Hu as [-> ->]. split; [reflexivity|discriminate]. }
  destruct Hu' as [-> Hu'].
  apply bind_inv in H as (bestTeacher & s2 & Hb & H).
  assert (Hb' : s2 = s /\
            forall teacher, truthy bestTeacher = Some teacher ->
              canAssignTeacher s teacher d t (getClassDuration (rf_classFormat best))
                (rf_classFormat best) = Some true
              /\ (getBestTeacherForClass csvData (rf_classFormat best) loc d t = Some teacher
                  \/ In teacher allTeachers)).
  { destruct unavailable.
    - apply (findM_inv _ (fun s0 teacher =>
               canAssignTeacher s0 teacher d t (getClassDuration (rf_classFormat best))
                 (rf_classFormat best))) in Hb;
        [|intros x s0 b s3; apply canAssign_inv].
      destruct Hb as [-> Hb]. split; [reflexivity|].
      intros teacher Ht. destruct bestTeacher as [x|]; [|discriminate].
      simpl in Ht. destruct (bool_decide (x = "")); [discriminate|]. injection Ht as ->.
      destruct Hb as [Hin Hc]. split; [exact Hc|]. right.
      destruct isPeak; [now apply filter_In in Hin as [Hin _]|exact Hin].
    - apply ret_inv in Hb as [-> ->]. split; [reflexivity|].
      destruct (Hu' eq_refl) as (teacher' & Hbt & Hc). rewrite Hbt.
      intros teacher Ht. simpl in Ht.
      destruct (bool_decide (teacher' = "")); [discriminate|]. injection Ht as ->. auto. }
  destruct Hb' as [-> Hb'].
  destruct (truthy bestTeacher) as [teacher|]; [|apply ret_inv in H as [_ ->]; now left].
  destruct (Hb' teacher eq_refl) as [Hc Hsrc].
  apply bind_inv in H as ([] & s1 & Ha & H).
  apply bind_inv in H as (s2 & s3 & Hg & H). apply get_inv in Hg as [-> ->].
  destruct a. right. exists best, teacher, s1. auto 10.
Qed.




(** ** Top performers *)




Lemma uniqueClasses_keepFirsts arr : uniqueClasses arr = keepFirsts arr 0 arr.
Proof.
  unfold uniqueClasses.
  assert (H : forall l (f : nat -> TopPerformingClass -> nat * TopPerformingClass) i,
            (forall j c, f j c = ((i + j)%nat, c)) ->
            map snd (List.filter
                       (fun ic : nat * TopPerformingClass =>
                          bool_decide (findIndex (sameSlot (snd ic)) arr = Some (fst ic)))
                       (imap f l))
            = keepFirsts arr i l).
  { induction l as [|c r IH]; intros f i Hf; [reflexivity|].
    cbn [imap]. rewrite Hf, Nat.add_0_r. cbn [List.filter fst snd keepFirsts].
    assert (Hr : map snd (List.filter
                       (fun ic : nat * TopPerformingClass =>
                          bool_decide (findIndex (sameSlot (snd ic)) arr = Some (fst ic)))
                       (imap (f ∘ S) r)) = keepFirsts arr (S i) r).
    { apply IH. intros j x. unfold compose. rewrite Hf. f_equal. lia. }
    destruct (bool_decide (findIndex (sameSlot c) arr = Some i)); cbn [map snd];
      now rewrite Hr. }
  apply (H arr pair 0%nat). reflexivity.
Qed.




Lemma keepFirsts_sublist arr i l : sublist (keepFirsts arr i l) l.
Proof.
  revert i. induction l as [|c r IH]; intros i; simpl; [constructor|].
  destruct (bool_decide _); constructor; apply IH.
Qed.






Lemma accumulated_addToGroup includeTeacher items g :
  accumulated (addToGroup includeTeacher) items = Some g ->
  g_count g = length items /\ g_totalParticipants g = totalParticipants items.
Proof.
  revert g. induction items as [|item items IH] using rev_ind; intros g H;
    [discriminate|].
  rewrite accumulated_snoc in H. injection H as <-.
  rewrite length_app, Nat.add_comm. simpl.
  assert (Ht : forall l, totalParticipants (l ++ [item])
                         = (totalParticipants l + participants item)%Z).
  { induction l as [|x l IHl]; simpl; [lia|]. rewrite IHl. lia. }
  rewrite Ht.
  destruct (accumulated (addToGroup includeTeacher) items) as [g0|] eqn:E.
  - destruct (IH g0 eq_refl) as [H1 H2]. simpl. rewrite H1, H2. split; reflexivity.
  - apply accumulated_None in E. subst items. split; reflexivity.
Qed.



Section SortedFacts.
Context {A : Type} (cmp : A -> A -> Q).
Hypothesis cmp_total : forall a b, precedes cmp a b \/ precedes cmp b a.


End SortedFacts.

Lemma topClasses_In csvData minAverage includeTeacher c :
  In c (topClasses csvData minAverage includeTeacher)
  <-> exists key group,
        let records :=
          List.filter (fun item => bool_decide (groupKey includeTeacher item = key))
                      (validClasses csvData) in
        accumulated (addToGroup includeTeacher) records = Some group
        /\ c = groupToTop group
        /\ (2 <= length records)%nat
        /\ minAverage <= toFixed1 (average (totalParticipants records) (length records)).
Proof.
  unfold topClasses. rewrite sortBy_In, filter_In, in_map_iff, andb_true_iff,
    Nat.leb_le, Qle_bool_iff.
  split.
  - intros [([key group] & <- & Hin) [Hf Ha]]. simpl in *.
    apply reduceByKey_In in Hin. exists key, group. cbv zeta.
    destruct (accumulated_addToGroup _ _ _ Hin) as [Hc Hp].
    rewrite <- Hc, <- Hp. auto.
  - intros (key & group & Hin & -> & Hf & Ha).
    destruct (accumulated_addToGroup _ _ _ Hin) as [Hc Hp].
    split; [exists (key, group); split; [reflexivity|now apply reduceByKey_In]|].
    simpl. rewrite Hc, Hp. auto.
Qed.




(** ** Hours shown under a name *)

Lemma fold_left_durations (l : list ScheduledClass) (a : Q) :
  fold_left (fun sum cls => sum + duration cls) l a
  == a + fold_right (fun cls sum => duration cls + sum) 0 l.
Proof.
  revert a. induction l as [|c l IH]; intros a; simpl; [ring|].
  rewrite IH. ring.
Qed.

Lemma hoursOf_hoursSum classes name : hoursOf classes name == hoursSum classes name.
Proof.
  unfold hoursOf. rewrite fold_left_durations.
  induction classes as [|c l IH]; simpl; [reflexivity|].
  unfold contribution at 1. destruct (bool_decide (fullName c = name)); simpl.
  - rewrite <- IH. ring.
  - rewrite <- IH. ring.
Qed.

Lemma hoursSum_app l1 l2 name :
  hoursSum (l1 ++ l2) name == hoursSum l1 name + hoursSum l2 name.
Proof.
  induction l1 as [|c l IH]; simpl; [ring|]. rewrite IH. ring.
Qed.

Lemma hoursSum_nonneg classes name : durationsOK classes -> 0 <= hoursSum classes name.
Proof.
  intros Hd. induction classes as [|c l IH]; simpl; [lra|].
  assert (0 <= contribution name c).
  { unfold contribution. destruct (bool_decide _); [apply Hd; now left|lra]. }
  assert (0 <= hoursSum l name) by (apply IH; intros x Hx; apply Hd; now right).
  lra.
Qed.

(** Replacing one class changes the sum by the difference of contributions. *)
Lemma hoursSum_alter (f : ScheduledClass -> ScheduledClass) k classes c0 name :
  classes !! k = Some c0 ->
  hoursSum (alter f k classes) name
  == hoursSum classes name - contribution name c0 + contribution name (f c0).
Proof.
  change (alter f k classes) with (list_alter f k classes).
  revert k. induction classes as [|c l IH]; intros k Hk; [discriminate|].
  destruct k as [|k]; simpl in *.
  - injection Hk as ->. ring.
  - rewrite (IH k Hk). ring.
Qed.

Lemma alter_ext_map {A B} (g : A -> B) (f : A -> A) k (l : list A) :
  (forall x, g (f x) = g x) -> map g (alter f k l) = map g l.
Proof.
  intros H. change (alter f k l) with (list_alter f k l).
  revert k. induction l as [|x l IH]; intros k; [reflexivity|].
  destruct k as [|k]; simpl; [now rewrite H|now rewrite IH].
Qed.

Lemma In_alter {A} (f : A -> A) k (l : list A) y :
  In y (alter f k l) -> In y l \/ exists x, l !! k = Some x /\ y = f x.
Proof.
  change (alter f k l) with (list_alter f k l).
  revert k. induction l as [|x l IH]; intros k H; [destruct H|].
  destruct k as [|k]; simpl in *.
  - destruct H as [<-|H]; [right; eauto|left; now right].
  - destruct H as [<-|H]; [left; now left|].
    destruct (IH k H) as [Hin|Hx]; [left; now right|now right].
Qed.

Lemma alter_middle {A} (f : A -> A) k (l : list A) x :
  l !! k = Some x ->
  exists l1 l2, l = l1 ++ x :: l2 /\ alter f k l = l1 ++ f x :: l2.
Proof.
  change (alter f k l) with (list_alter f k l).
  revert k. induction l as [|y l IH]; intros k Hk; [discriminate|].
  destruct k as [|k]; simpl in *.
  - injection Hk as ->. now exists [], l.
  - destruct (IH k Hk) as (l1 & l2 & -> & E). exists (y :: l1), l2.
    split; [reflexivity|]. simpl. now rewrite E.
Qed.

(** ** Cells *)

Lemma inCell_true loc d t cls :
  inCell loc d t cls = true <-> sc_location cls = loc /\ day cls = d /\ time cls = t.
Proof.
  unfold inCell. rewrite !andb_true_iff, !bool_decide_eq_true. tauto.
Qed.

Lemma classesInSlot_app l1 l2 loc d t :
  classesInSlot (l1 ++ l2) loc d t = classesInSlot l1 loc d t ++ classesInSlot l2 loc d t.
Proof. apply List.filter_app. Qed.

Lemma NoDup_snoc {A} (l : list A) x : List.NoDup l -> ~ In x l -> List.NoDup (l ++ [x]).
Proof.
  intros Hl Hx. apply (Permutation_NoDup (l := x :: l)).
  - apply Permutation_cons_append.
  - now constructor.
Qed.

Lemma cellsOK_snoc classes c :
  cellsOK classes ->
  (length (classesInSlot classes (sc_location c) (day c) (time c))
   < maxParallel (sc_location c))%nat ->
  ~ In (classFormat c)
       (map classFormat (classesInSlot classes (sc_location c) (day c) (time c))) ->
  cellsOK (classes ++ [c]).
Proof.
  intros Hok Hcap Hfmt loc d t. rewrite classesInSlot_app.
  destruct (Hok loc d t) as [Hlen Hnd]. unfold classesInSlot at 2 4. simpl.
  destruct (inCell loc d t c) eqn:E.
  - apply inCell_true in E as (<- & <- & <-).
    rewrite length_app, map_app. simpl. split; [lia|]. now apply NoDup_snoc.
  - now rewrite app_nil_r.
Qed.

Lemma classesInSlot_alter_formats (f : ScheduledClass -> ScheduledClass) k classes loc d t :
  (forall c, sc_location (f c) = sc_location c /\ day (f c) = day c
             /\ time (f c) = time c /\ classFormat (f c) = classFormat c) ->
  map classFormat (classesInSlot (alter f k classes) loc d t)
  = map classFormat (classesInSlot classes loc d t).
Proof.
  intros Hf. change (alter f k classes) with (list_alter f k classes).
  revert k. induction classes as [|c l IH]; intros k; [reflexivity|].
  assert (Hc : inCell loc d t (f c) = inCell loc d t c).
  { unfold inCell. destruct (Hf c) as (-> & -> & -> & _). reflexivity. }
  destruct k as [|k]; unfold classesInSlot in *; simpl.
  - rewrite Hc. destruct (inCell loc d t c); simpl; [|reflexivity].
    destruct (Hf c) as (_ & _ & _ & ->). reflexivity.
  - destruct (inCell loc d t c); simpl; now rewrite IH.
Qed.

Lemma cellsOK_alter (f : ScheduledClass -> ScheduledClass) k classes :
  (forall c, sc_location (f c) = sc_location c /\ day (f c) = day c
             /\ time (f c) = time c /\ classFormat (f c) = classFormat c) ->
  cellsOK classes -> cellsOK (alter f k classes).
Proof.
  intros Hf Hok loc d t. destruct (Hok loc d t) as [Hlen Hnd].
  rewrite <- (length_map classFormat), (classesInSlot_alter_formats f k classes loc d t Hf).
  now rewrite length_map.
Qed.

Lemma NoDup_remove_middle {A} (l1 l2 : list A) x :
  List.NoDup (l1 ++ x :: l2) -> List.NoDup (l1 ++ l2).
Proof. intros H. now apply NoDup_remove_1 in H. Qed.

Lemma classesInSlot_middle l1 c l2 loc d t :
  classesInSlot (l1 ++ c :: l2) loc d t
  = classesInSlot l1 loc d t
    ++ (if inCell loc d t c then c :: classesInSlot l2 loc d t
        else classesInSlot l2 loc d t).
Proof. rewrite classesInSlot_app. reflexivity. Qed.

(** Moving a class of a cell to a time at which the cell has room and does
    not hold its format. *)
Lemma cellsOK_move classes k c0 newTime :
  cellsOK classes ->
  classes !! k = Some c0 ->
  (length (classesInSlot classes (sc_location c0) (day c0) newTime)
   < maxParallel (sc_location c0))%nat ->
  ~ In (classFormat c0)
       (map classFormat (classesInSlot classes (sc_location c0) (day c0) newTime)) ->
  cellsOK (alter (fun cls => setTime cls newTime) k classes).
Proof.
  intros Hok Hk Hcap Hfmt loc d t.
  destruct (alter_middle (fun cls => setTime cls newTime) k classes c0 Hk)
    as (l1 & l2 & -> & ->).
  destruct (Hok loc d t) as [Hlen Hnd].
  rewrite classesInSlot_middle in Hlen, Hnd, Hcap, Hfmt |- *.
  destruct (inCell loc d t (setTime c0 newTime)) eqn:E.
  - apply inCell_true in E as (E1 & E2 & E3). simpl in E1, E2, E3. subst loc d t.
    destruct (inCell (sc_location c0) (day c0) newTime c0) eqn:Hnot.
    { exfalso. apply Hfmt. rewrite map_app. apply in_or_app. right. now left. }
    rewrite length_app in *. cbn [length]. split; [lia|].
    rewrite map_app in *. cbn [map].
    eapply Permutation_NoDup; [apply Permutation_middle|]. now constructor.
  - destruct (inCell loc d t c0).
    + rewrite length_app in *. cbn [length] in Hlen. split; [lia|].
      rewrite map_app in *. cbn [map] in Hnd. now apply NoDup_remove_middle in Hnd.
    + auto.
Qed.


(** ** Names *)

Lemma notBanned_shownName t : notBanned t -> notBanned (shownName t).
Proof.
  intros [H1 H2]. split; rewrite includes_shownName; auto; discriminate.
Qed.

Lemma isNewTrainer_shownName t : isNewTrainer (shownName t) = isNewTrainer t.
Proof.
  unfold isNewTrainer, newTrainers. simpl.
  rewrite !includes_shownName; auto; discriminate.
Qed.


Lemma maxWeekly_cases t : maxWeekly t = inject_Z 10 \/ maxWeekly t = inject_Z 15.
Proof. unfold maxWeekly. destruct (isNewTrainer t); auto. Qed.

Lemma fullName_shown cls : shownName (fullName cls) = fullName cls.
Proof.
  destruct (shownName_cases (fullName cls)) as [E|[_ E]]; [exact E|exfalso].
  unfold fullName in E.
  assert (H : forall a b, noSpace (a +:+ " " +:+ b) = false).
  { intros a b. induction a as [|c a IH]; simpl; [reflexivity|].
    rewrite IH. apply andb_false_r. }
  now rewrite H in E.
Qed.

Lemma fullName_newClass classData teacher n :
  fullName (newClass classData teacher n) = shownName teacher.
Proof. reflexivity. Qed.

Lemma fullName_setTeacher cls target :
  fullName (setTeacher cls (hd "" (split " " target)) (join " " (tl (split " " target))))
  = shownName target.
Proof. reflexivity. Qed.

(** ** What an accepted candidate guarantees *)

Lemma canAssignTeacher_true s teacher d t dur format :
  canAssignTeacher s teacher d t dur format = Some true ->
  is_Some (teacherDailyHours s !! teacher)
  /\ default 0 (teacherHoursTracker s !! teacher) + dur <= maxWeekly teacher.
Proof.
  unfold canAssignTeacher, canAssignVerdict, maxWeekly.
  destruct (isNewTrainer teacher && negb (elemStr format newTrainerFormats));
    [discriminate|].
  destruct (elemStr format advancedFormats && negb (isSeniorTrainer teacher));
    [discriminate|].
  destruct (Qltb _ (_ + dur)) eqn:E1; [discriminate|].
  apply Qltb_false_iff in E1. cbn [orb].
  destruct (Qltb 4 _); [discriminate|].
  destruct (teacherDailyHours s !! teacher); [|discriminate]. eauto.
Qed.

(** ** [assignClass] keeps the invariant *)

Lemma assignClass_Inv teachers classData teacher s a s' :
  Inv true teachers s ->
  (length (classesInSlot (optimizedClasses s) (c_location classData) (c_day classData)
             (c_time classData))
   < maxParallel (c_location classData))%nat ->
  ~ In (c_classFormat classData)
       (map classFormat (classesInSlot (optimizedClasses s) (c_location classData)
                           (c_day classData) (c_time classData))) ->
  notBanned teacher ->
  canAssignTeacher s teacher (c_day classData) (c_time classData)
    (getClassDuration (c_classFormat classData)) (c_classFormat classData) = Some true ->
  assignClass classData teacher s = Some (a, s') ->
  Inv true teachers s'.
Proof.
  intros (Hcells & [Hnd Hst] & Hnames & Hdur & Hkeys & Hknown & Hhours)
    Hcap Hfmt Hban Hcan Ha.
  apply assignClass_inv in Ha as (daily & shifts & Hdaily & _ & ->).
  apply canAssignTeacher_true in Hcan as [_ Hcap'].
  set (dur := getClassDuration (c_classFormat classData)) in *.
  assert (Hkey : is_Some (teacherHoursTracker s !! teacher)).
  { apply Hkeys. eauto. }
  destruct Hkey as [h0 Hh0].
  assert (Hdom : forall t v, is_Some (<[teacher := v]> (teacherHoursTracker s) !! t)
                             <-> is_Some (teacherHoursTracker s !! t)).
  { intros t v. rewrite lookup_insert_is_Some. split.
    - intros [<-|[_ H]]; eauto.
    - intros H. destruct (decide (teacher = t)); auto. }
  unfold Inv. cbn [optimizedClasses teacherHoursTracker teacherDailyHours stamp].
  split; [|split; [|split; [|split; [|split; [|split]]]]].
  - apply cellsOK_snoc; assumption.
  - split; cbn [optimizedClasses stamp].
    + rewrite map_app. apply NoDup_snoc; [exact Hnd|].
      intros Hin. apply in_map_iff in Hin as (x & Hx & Hin).
      apply Hst in Hin. rewrite Hx in Hin. simpl in Hin. lia.
    + intros x Hx. apply in_app_or in Hx as [Hx|[<-|[]]]; [apply Hst in Hx; lia|].
      simpl. lia.
  - intros x Hx. apply in_app_or in Hx as [Hx|[<-|[]]]; [now apply Hnames|].
    rewrite fullName_newClass. now apply notBanned_shownName.
  - intros x Hx. apply in_app_or in Hx as [Hx|[<-|[]]]; [now apply Hdur|].
    simpl. destruct (getClassDuration_cases (c_classFormat classData)) as [-> | [-> | ->]];
      unfold Qle; simpl; lia.
  - intros t. unfold sameKeys in Hkeys. cbn [teacherHoursTracker teacherDailyHours].
    rewrite Hdom, lookup_insert_is_Some, Hkeys. split.
    + intros H. destruct (decide (teacher = t)); auto.
    + intros [<-|[_ H]]; eauto.
  - intros t Ht. cbn [teacherHoursTracker] in Ht. apply Hknown. now apply Hdom in Ht.
  - intros Htrim.
    assert (Htrim0 : keysTrimmed s).
    { intros t Ht. apply Htrim. cbn [teacherHoursTracker]. now apply Hdom. }
    destruct (Hhours Htrim0) as [[Hshown Hbound] Hten]. specialize (Hten eq_refl).
    destruct (Hten teacher h0 Hh0) as [Hh0pos [n Hn]].
    destruct (getClassDuration_twentieths (c_classFormat classData)) as (m & Hm & Hdm).
    fold dur in Hdm. rewrite Hh0 in Hcap'. cbn [default from_option Datatypes.id] in Hcap'.
    assert (Hsum : h0 + dur == (2 * n + m) # 20).
    { rewrite Hn, Hdm. unfold Qeq, Qplus; simpl. lia. }
    assert (Hn0 : (0 <= n)%Z).
    { rewrite Hn in Hh0pos. unfold Qle in Hh0pos; simpl in Hh0pos. lia. }
    assert (Hsum0 : 0 <= h0 + dur).
    { rewrite Hsum. unfold Qle; simpl. lia. }
    assert (Hge : h0 + dur <= toFixed1 (h0 + dur)).
    { apply (toFixed1_ge _ (2 * n + m)%Z); [lia|exact Hsum]. }
    assert (Hle : toFixed1 (h0 + dur) <= maxWeekly teacher).
    { destruct (maxWeekly_cases teacher) as [E|E]; rewrite E in Hcap' |- *;
        now apply toFixed1_le. }
    split; [split|].
    + intros x Hx. cbn [optimizedClasses] in Hx.
      apply in_app_or in Hx as [Hx|[<-|[]]].
      * destruct (Hshown x Hx) as (t & Ht & Hf). exists t. split; [|exact Hf].
        cbn [teacherHoursTracker]. now apply Hdom.
      * exists teacher. split; [|apply fullName_newClass].
        cbn [teacherHoursTracker]. apply Hdom. eauto.
    + intros t h Hth. cbn [teacherHoursTracker optimizedClasses] in *.
      rewrite hoursSum_app. cbn [hoursSum fold_right]. unfold contribution at 1.
      rewrite fullName_newClass.
      destruct (decide (teacher = t)) as [<-|Hne].
      * rewrite lookup_insert_eq in Hth. injection Hth as <-.
        rewrite Hh0. cbn [default from_option Datatypes.id].
        rewrite bool_decide_eq_true_2 by reflexivity.
        destruct (Hbound teacher h0 Hh0) as [Hb _].
        change (duration (newClass classData teacher (stamp s))) with dur.
        split; [lra|exact Hle].
      * rewrite lookup_insert_ne in Hth by exact Hne.
        rewrite bool_decide_eq_false_2.
        2:{ intros E. apply Hne. apply shownName_inj; [| |exact E].
            - apply Htrim0. eauto.
            - apply Htrim0. eauto. }
        destruct (Hbound t h Hth) as [Hb Hb']. split; [lra|exact Hb'].
    + intros _ t h Hth. cbn [teacherHoursTracker] in Hth.
      destruct (decide (teacher = t)) as [<-|Hne].
      * rewrite lookup_insert_eq in Hth. injection Hth as <-.
        rewrite Hh0. cbn [default from_option Datatypes.id].
        split; [now apply toFixed1_nonneg|]. destruct (toFixed1_tenths (h0 + dur)) as [z ->].
        exists z. reflexivity.
      * rewrite lookup_insert_ne in Hth by exact Hne. exact (Hten t h Hth).
Qed.


Lemma Inv_weaken teachers s : Inv true teachers s -> Inv false teachers s.
Proof.
  intros (H1 & H2 & H3 & H4 & H5 & H7 & H6).
  split; [exact H1|]. split; [exact H2|]. split; [exact H3|]. split; [exact H4|].
  split; [exact H5|]. split; [exact H7|]. intros Ht. destruct (H6 Ht) as [Ha _]. split; [exact Ha|discriminate].
Qed.

Lemma Inv_setCounter rounded teachers n s a s' :
  Inv rounded teachers s -> setCounter n s = Some (a, s') -> Inv rounded teachers s'.
Proof.
  unfold setCounter. intros H E. injection E as _ <-. exact H.
Qed.

(** ** Phase 4's reassignment keeps the invariant *)

Lemma reassignTeacher_inv classIndex teacher target dur d s a s' :
  reassignTeacher classIndex teacher target dur d s = Some (a, s') ->
  exists h h',
    teacherHoursTracker s !! teacher = Some h
    /\ <[teacher := h - dur]> (teacherHoursTracker s) !! target = Some h'
    /\ optimizedClasses s'
       = alter (fun cls => setTeacher cls (hd "" (split " " target))
                             (join " " (tl (split " " target))))
               classIndex (optimizedClasses s)
    /\ teacherHoursTracker s'
       = <[target := h' + dur]> (<[teacher := h - dur]> (teacherHoursTracker s))
    /\ (forall t, is_Some (teacherDailyHours s' !! t)
                  <-> is_Some (teacherDailyHours s !! t))
    /\ stamp s' = stamp s.
Proof.
  unfold reassignTeacher. intros H.
  destruct (teacherHoursTracker s !! teacher) as [h|] eqn:Hh; [|discriminate].
  cbn [mbind option_bind] in H.
  destruct (<[teacher := h - dur]> (teacherHoursTracker s) !! target) as [h'|] eqn:Hh';
    [|discriminate].
  cbn [mbind option_bind] in H.
  destruct (teacherDailyHours s !! teacher) as [daily|] eqn:Hd; [|discriminate].
  cbn [mbind option_bind] in H.
  destruct (daily !! d) as [x|]; [|discriminate].
  cbn [mbind option_bind] in H.
  destruct (<[teacher := <[d := x - dur]> daily]> (teacherDailyHours s) !! target)
    as [daily'|] eqn:Hd'; [|discriminate].
  cbn [mbind option_bind] in H.
  destruct (daily' !! d) as [x'|]; [|discriminate].
  cbn [mbind option_bind] in H. injection H as _ <-.
  exists h, h'. cbn [optimizedClasses teacherHoursTracker teacherDailyHours stamp].
  split; [reflexivity|]. split; [exact Hh'|]. split; [reflexivity|].
  split; [reflexivity|]. split; [|reflexivity].
  intros t. rewrite !lookup_insert_is_Some. split.
  - intros [<-|[_ [<-|[_ H]]]]; eauto.
    apply lookup_insert_Some in Hd' as [[<- _]|[_ Hd']]; eauto.
  - intros H. destruct (decide (target = t)); [auto|]. right. split; [assumption|].
    destruct (decide (teacher = t)); auto.
Qed.

Lemma reassignTeacher_Inv teachers k teacher target dur d t format c0 s a s' :
  Inv false teachers s ->
  optimizedClasses s !! k = Some c0 ->
  fullName c0 = teacher ->
  dur = duration c0 ->
  notBanned target ->
  canAssignTeacher s target d t dur format = Some true ->
  reassignTeacher k teacher target dur d s = Some (a, s') ->
  Inv false teachers s'.
Proof.
  intros (Hcells & [Hnd Hst] & Hnames & Hdur & Hkeys & Hknown & Hhours)
    Hk Hname Hd Hban Hcan Hr.
  apply reassignTeacher_inv in Hr as (h & h' & Hh & Hh' & Hcl & Hhr & Hdl & Hstamp).
  apply canAssignTeacher_true in Hcan as [_ Hcap].
  set (f := fun cls => setTeacher cls (hd "" (split " " target))
                         (join " " (tl (split " " target)))) in *.
  assert (Hkt : is_Some (teacherHoursTracker s !! target)).
  { apply lookup_insert_Some in Hh' as [[<- _]|[_ Hh']]; eauto. }
  assert (Hdom : forall x, is_Some (teacherHoursTracker s' !! x)
                           <-> is_Some (teacherHoursTracker s !! x)).
  { intros x. rewrite Hhr, !lookup_insert_is_Some. split.
    - intros [<-|[_ [<-|[_ H]]]]; eauto.
    - intros H. destruct (decide (target = x)); [auto|]. right. split; [assumption|].
      destruct (decide (teacher = x)); auto. }
  assert (Hc0 : In c0 (optimizedClasses s)).
  { apply list_elem_of_In. eapply list_elem_of_lookup_2; eauto. }
  assert (Hdur0 : 0 <= dur) by (subst dur; now apply Hdur).
  unfold Inv. rewrite Hcl.
  split; [|split; [|split; [|split; [|split; [|split]]]]].
  - apply cellsOK_alter; [|exact Hcells]. intros c. simpl. auto.
  - split.
    + rewrite Hcl, (alter_ext_map id f); [exact Hnd|reflexivity].
    + rewrite Hcl, Hstamp. intros c Hc.
      apply In_alter in Hc as [Hc|(x & Hx & ->)]; [now apply Hst|].
      simpl. apply Hst. apply list_elem_of_In. eapply list_elem_of_lookup_2; eauto.
  - intros c Hc. apply In_alter in Hc as [Hc|(x & Hx & ->)]; [now apply Hnames|].
    unfold f. rewrite fullName_setTeacher. now apply notBanned_shownName.
  - intros c Hc. apply In_alter in Hc as [Hc|(x & Hx & ->)]; [now apply Hdur|].
    simpl. apply Hdur. apply list_elem_of_In. eapply list_elem_of_lookup_2; eauto.
  - intros x. rewrite Hdom, Hdl. apply Hkeys.
  - intros x Hx. apply Hknown. now apply Hdom.
  - intros Htrim.
    assert (Htrim0 : keysTrimmed s).
    { intros x Hx. apply Htrim. now apply Hdom. }
    destruct (Hhours Htrim0) as [[Hshown Hbound] _].
    split; [split|discriminate].
    + intros c Hc. rewrite Hcl in Hc. apply In_alter in Hc as [Hc|(x & Hx & ->)].
      * destruct (Hshown c Hc) as (y & Hy & Hf). exists y. split; [now apply Hdom|exact Hf].
      * exists target. split; [now apply Hdom|]. unfold f. apply fullName_setTeacher.
    + intros x hx Hx. rewrite Hcl. rewrite (hoursSum_alter f k _ c0 _ Hk).
      assert (Hcon0 : contribution (shownName x) c0
                      = if bool_decide (teacher = x) then dur else 0).
      { unfold contribution. rewrite Hname, <- Hd.
        destruct (decide (teacher = x)) as [<-|Hne].
        - rewrite <- Hname, fullName_shown. now rewrite !bool_decide_eq_true_2.
        - rewrite (bool_decide_eq_false_2 (teacher = x)) by exact Hne.
          rewrite bool_decide_eq_false_2; [reflexivity|].
          intros E. apply Hne. apply shownName_inj.
          + apply Htrim0. eauto.
          + apply Htrim0. apply Hdom. eauto.
          + rewrite <- E, <- Hname. apply fullName_shown. }
      assert (Hcon1 : contribution (shownName x) (f c0)
                      = if bool_decide (target = x) then dur else 0).
      { unfold contribution, f. rewrite fullName_setTeacher.
        change (duration (setTeacher c0 _ _)) with (duration c0). rewrite <- Hd.
        destruct (decide (target = x)) as [<-|Hne].
        - now rewrite !bool_decide_eq_true_2.
        - rewrite (bool_decide_eq_false_2 (target = x)) by exact Hne.
          rewrite bool_decide_eq_false_2; [reflexivity|].
          intros E. apply Hne. apply shownName_inj; [| |exact E].
          + now apply Htrim0.
          + apply Htrim0. apply Hdom. eauto. }
      rewrite Hcon0, Hcon1. rewrite Hhr in Hx.
      destruct (Hbound teacher h Hh) as [Hb1 Hb2].
      destruct (decide (target = x)) as [<-|Hne1].
      * rewrite lookup_insert_eq in Hx. injection Hx as <-.
        rewrite (bool_decide_eq_true_2 (target = target)) by reflexivity.
        destruct (decide (teacher = target)) as [->|Hne2].
        -- rewrite (bool_decide_eq_true_2 (target = target)) by reflexivity.
           rewrite lookup_insert_eq in Hh'. injection Hh' as <-. split; lra.
        -- rewrite (bool_decide_eq_false_2 (teacher = target)) by exact Hne2.
           rewrite lookup_insert_ne in Hh' by exact Hne2.
           rewrite Hh' in Hcap. cbn [default from_option Datatypes.id] in Hcap.
           destruct (Hbound target h' Hh') as [Hb3 _]. split; lra.
      * rewrite lookup_insert_ne in Hx by exact Hne1.
        rewrite (bool_decide_eq_false_2 (target = x)) by exact Hne1.
        destruct (decide (teacher = x)) as [<-|Hne2].
        -- rewrite lookup_insert_eq in Hx. injection Hx as <-.
           rewrite (bool_decide_eq_true_2 (teacher = teacher)) by reflexivity.
           split; lra.
        -- rewrite lookup_insert_ne in Hx by exact Hne2.
           rewrite (bool_decide_eq_false_2 (teacher = x)) by exact Hne2.
           destruct (Hbound x hx Hx) as [Hb3 Hb4]. split; lra.
Qed.

(** ** Phase 5's move keeps the invariant *)

Lemma moveClass_Inv teachers k newTime c0 s a s' :
  Inv false teachers s ->
  optimizedClasses s !! k = Some c0 ->
  (length (classesInSlot (optimizedClasses s) (sc_location c0) (day c0) newTime)
   < maxParallel (sc_location c0))%nat ->
  ~ In (classFormat c0)
       (map classFormat (classesInSlot (optimizedClasses s) (sc_location c0) (day c0)
                           newTime)) ->
  moveClass k newTime s = Some (a, s') ->
  Inv false teachers s'.
Proof.
  intros (Hcells & [Hnd Hst] & Hnames & Hdur & Hkeys & Hknown & Hhours) Hk Hcap Hfmt Hm.
  unfold moveClass in Hm. injection Hm as _ <-.
  set (f := fun cls => setTime cls newTime).
  assert (Hin : forall c, In c (alter f k (optimizedClasses s)) ->
            exists x, In x (optimizedClasses s) /\ fullName c = fullName x
                      /\ duration c = duration x /\ id c = id x).
  { intros c Hc. apply In_alter in Hc as [Hc|(x & Hx & ->)]; [eauto|].
    exists x. split; [|auto]. apply list_elem_of_In. eapply list_elem_of_lookup_2; eauto. }
  unfold Inv. cbn [optimizedClasses teacherHoursTracker teacherDailyHours stamp].
  split; [|split; [|split; [|split; [|split; [|split]]]]].
  - eapply cellsOK_move; eauto.
  - split; cbn [optimizedClasses stamp].
    + rewrite (alter_ext_map id f); [exact Hnd|reflexivity].
    + intros c Hc. destruct (Hin c Hc) as (x & Hx & _ & _ & ->). now apply Hst.
  - intros c Hc. destruct (Hin c Hc) as (x & Hx & -> & _). now apply Hnames.
  - intros c Hc. destruct (Hin c Hc) as (x & Hx & _ & -> & _). now apply Hdur.
  - exact Hkeys.
  - exact Hknown.
  - intros Htrim. destruct (Hhours Htrim) as [[Hshown Hbound] _].
    split; [split|discriminate]; cbn [optimizedClasses teacherHoursTracker].
    + intros c Hc. destruct (Hin c Hc) as (x & Hx & -> & _). now apply Hshown.
    + intros x hx Hx. rewrite (hoursSum_alter f k _ c0 _ Hk).
      change (contribution (shownName x) (f c0)) with (contribution (shownName x) c0).
      destruct (Hbound x hx Hx) as [Hb1 Hb2]. split; lra.
Qed.


(** ** Teachers the phases can choose *)

Lemma defaultTeachers_notBanned cls :
  In cls getDefaultTopClasses -> notBanned (dt_teacher cls).
Proof.
  intros H.
  assert (Hall : forallb (fun c => negb (includes (dt_teacher c) "Nishanth")
                                   && negb (includes (dt_teacher c) "Saniya"))
                         getDefaultTopClasses = true) by (vm_compute; reflexivity).
  rewrite forallb_forall in Hall. specialize (Hall cls H).
  apply andb_true_iff in Hall as [H1 H2]. apply negb_true_iff in H1, H2. now split.
Qed.

Lemma allTeachersOf_notBanned csvData teacher :
  In teacher (allTeachersOf csvData) -> notBanned teacher.
Proof.
  unfold allTeachersOf. rewrite filter_In, andb_true_iff, !negb_true_iff.
  intros [_ [H1 H2]]. now split.
Qed.

Lemma allTeachersOf_In csvData teacher :
  In teacher (allTeachersOf csvData) ->
  exists item, In item csvData /\ teacherName item = teacher.
Proof.
  unfold allTeachersOf. rewrite filter_In, uniq_In, in_map_iff.
  intros [(item & Hn & Hin) _]. eauto.
Qed.

Lemma truthy_Some o s : truthy o = Some s -> o = Some s.
Proof.
  destruct o as [x|]; [|discriminate]. simpl.
  destruct (bool_decide (x = "")); [discriminate|]. congruence.
Qed.

Lemma getBestTeacherForClass_notBanned csvData format loc d t teacher :
  getBestTeacherForClass csvData format loc d t = Some teacher -> notBanned teacher.
Proof.
  unfold getBestTeacherForClass.
  destruct (List.find _ getDefaultTopClasses) as [cls|] eqn:Hfind.
  - intros H. injection H as <-. apply find_some in Hfind as [Hin _].
    now apply defaultTeachers_notBanned.
  - destruct (length _ =? 0)%nat; [discriminate|]. intros H.
    apply truthy_Some in H.
    destruct (sortBy _ _) as [|r rs] eqn:Hs; [discriminate|].
    simpl in H. injection H as <-.
    assert (Hr : In r (r :: rs)) by now left.
    rewrite <- Hs in Hr. apply sortBy_In, in_map_iff in Hr as ([k st] & <- & Hin).
    apply reduceByKey_In_item in Hin as (item & Hitem & <-).
    apply filter_In in Hitem as [_ Hf].
    rewrite !andb_true_iff, !negb_true_iff in Hf. simpl. split; tauto.
Qed.

Lemma maxParallel_ge_2 loc : (2 <= maxParallel loc)%nat.
Proof. unfold maxParallel. destruct (bool_decide _); lia. Qed.

Lemma classesToSchedule_le_2 loc t : (classesToSchedule loc t <= 2)%nat.
Proof.
  unfold classesToSchedule.
  repeat match goal with |- context [if ?c then _ else _] => destruct c end; lia.
Qed.

(** ** The phases keep the invariant *)

Ltac minv :=
  repeat (cbv beta in *;
          match goal with
          | H : bind _ _ _ = Some _ |- _ =>
              let a := fresh "a" in
              let s := fresh "s" in
              let Hm := fresh "Hm" in
              apply bind_inv in H as (a & s & Hm & H)
          | H : get _ = Some (_, _) |- _ => apply get_inv in H as [? ?]; subst
          | H : ret _ _ = Some (_, _) |- _ => apply ret_inv in H as [? ?]; subst
          | H : liftOption _ _ = Some (_, _) |- _ =>
              apply liftOption_inv in H as [H ?]; subst
          | H : canAssign _ _ _ _ _ _ = Some (_, _) |- _ =>
              apply canAssign_inv in H as [H ?]; subst
          end).

Lemma existsb_format_false format classes :
  existsb (fun cls => bool_decide (classFormat cls = format)) classes = false ->
  ~ In format (map classFormat classes).
Proof.
  intros H Hin. apply in_map_iff in Hin as (c & Hc & Hin).
  assert (E : existsb (fun cls => bool_decide (classFormat cls = format)) classes = true).
  { apply existsb_exists. exists c. split; [exact Hin|]. now apply bool_decide_eq_true_2. }
  congruence.
Qed.

Lemma elemStr_false x l : elemStr x l = false -> ~ In x l.
Proof.
  intros H Hin.
  assert (E : elemStr x l = true).
  { apply existsb_exists. exists x. split; [exact Hin|]. now apply bool_decide_eq_true_2. }
  congruence.
Qed.

Ltac done_inv :=
  match goal with
  | HI : Inv ?r ?ts ?s |- Inv ?r ?ts ?s => exact HI
  end.

Ltac by_loop :=
  match goal with
  | HI : Inv ?r ?ts ?s, H : forEach ?l ?body ?s = Some (?a, ?s') |- Inv ?r ?ts ?s' =>
      refine (forEach_preserves _ _ _ _ _ _ _ HI H); clear H; intros ? ? ? ? ? ? ?
  | HI : Inv ?r ?ts ?s, H : forOf ?l ?body ?s = Some (?a, ?s') |- Inv ?r ?ts ?s' =>
      refine (forOf_preserves _ _ _ _ _ _ _ HI H); clear H; intros ? ? ? ? ? ? ?
  end.

Ltac mcase :=
  match goal with
  | H : (if ?c then _ else _) _ = Some _ |- _ => destruct c eqn:?
  | H : (match ?o with Some _ => _ | None => _ end) _ = Some _ |- _ => destruct o eqn:?
  end.

Ltac walk := repeat first [progress minv | done_inv | by_loop | mcase].

Ltac assign_leaf :=
  match goal with
  | HI : Inv true ?ts ?s,
    Hc : canAssignTeacher ?s _ _ _ _ _ = Some true,
    Ha : assignClass _ _ ?s = Some _ |- Inv true ?ts _ =>
      refine (assignClass_Inv _ _ _ _ _ _ HI _ _ _ _ Ha);
      [ | | |exact Hc]; cbn [c_location c_day c_time c_classFormat]
  end.

Section Phases.
Variable csvData : list ClassData.
Variable teachers : list string.

Lemma phase2_Inv allTeachers days s a s' :
  (forall teacher, In teacher allTeachers -> notBanned teacher) ->
  Inv true teachers s -> phase2 csvData allTeachers days s = Some (a, s') ->
  Inv true teachers s'.
Proof.
  intros Hall HI H. unfold phase2 in H. walk. assign_leaf.
  - match goal with H : (_ <=? _)%nat = false |- _ => apply Nat.leb_gt in H; exact H end.
  - now apply existsb_format_false.
  - now apply Hall.
Qed.

Lemma phase3_Inv days s a s' :
  Inv true teachers s -> phase3 csvData days s = Some (a, s') -> Inv true teachers s'.
Proof.
  intros HI H. unfold phase3 in H. walk. assign_leaf.
  - match goal with H : (_ <=? _)%nat = false |- _ => apply Nat.leb_gt in H; exact H end.
  - now apply existsb_format_false.
  - match goal with H : truthy _ = Some _ |- _ => apply truthy_Some in H end.
    eapply getBestTeacherForClass_notBanned; eauto.
Qed.
End Phases.


Lemma defaultCells_NoDup : List.NoDup (map defaultCell getDefaultTopClasses).
Proof.
  repeat (constructor; [simpl; intuition discriminate|]). constructor.
Qed.

Lemma classesInSlot_nil_of_cells classes loc d t :
  (forall c, In c classes -> (sc_location c, day c, time c) <> (loc, d, t)) ->
  classesInSlot classes loc d t = [].
Proof.
  intros H. unfold classesInSlot.
  induction classes as [|c l IH]; [reflexivity|]. simpl.
  destruct (inCell loc d t c) eqn:E.
  - apply inCell_true in E as (E1 & E2 & E3). exfalso.
    apply (H c); [now left|]. now rewrite E1, E2, E3.
  - apply IH. intros x Hx. apply H. now right.
Qed.

Section Phases01.
Variable csvData : list ClassData.
Variable teachers : list string.

Lemma phase0_Inv options s a s' :
  Inv true teachers s -> optimizedClasses s = [] ->
  phase0 options s = Some (a, s') -> Inv true teachers s'.
Proof.
  intros HI Hnil H. unfold phase0 in H.
  enough (HJ : Inv true teachers s'
               /\ forall c, In c (optimizedClasses s') ->
                    In (sc_location c, day c, time c)
                       (map defaultCell getDefaultTopClasses)) by apply HJ.
  refine (forEach_prefix
            (fun pre st => Inv true teachers st
                           /\ forall c, In c (optimizedClasses st) ->
                                In (sc_location c, day c, time c) (map defaultCell pre))
            _ _ _ _ _ _ _ H); clear H.
  - intros pre x post st b st' El [HIst Hcells] H.
    assert (Hgrow : forall c, In c (optimizedClasses st) ->
              In (sc_location c, day c, time c) (map defaultCell (pre ++ [x]))).
    { intros c Hc. rewrite map_app. apply in_or_app. left. now apply Hcells. }
    destruct (match truthy (targetDay options) with Some _ => _ | None => _ end);
      [minv; now split|].
    minv. destruct a0; [|minv; now split]. minv.
    assert (Hfresh : ~ In (defaultCell x) (map defaultCell pre)).
    { pose proof defaultCells_NoDup as Hnd. rewrite El, map_app in Hnd. simpl in Hnd.
      apply NoDup_remove_2 in Hnd. intros Hin. apply Hnd. apply in_or_app. now left. }
    assert (Hempty : classesInSlot (optimizedClasses st) (dt_location x) (dt_day x)
                       (dt_time x) = []).
    { apply classesInSlot_nil_of_cells. intros c Hc E. apply Hfresh.
      change (defaultCell x) with (dt_location x, dt_day x, dt_time x).
      rewrite <- E. now apply Hcells. }
    split.
    + refine (assignClass_Inv _ _ _ _ _ _ HIst _ _ _ _ H);
        [ | | |exact Hm]; cbn [c_location c_day c_time c_classFormat].
      * rewrite Hempty. simpl. pose proof (maxParallel_ge_2 (dt_location x)). lia.
      * rewrite Hempty. intros [].
      * apply defaultTeachers_notBanned. rewrite El. apply in_or_app. right. now left.
    + apply assignClass_inv in H as (daily & shifts & _ & _ & ->).
      cbn [optimizedClasses]. intros c Hc.
      apply in_app_or in Hc as [Hc|[<-|[]]]; [now apply Hgrow|].
      rewrite map_app. apply in_or_app. right. now left.
  - split; [exact HI|]. rewrite Hnil. intros c [].
Qed.

(** The sub-slot loop of a cell with room for every turn. *)
Lemma phase1_slot_Inv allTeachers loc d t guidelines isPeak (l : list nat) :
  (forall teacher, In teacher allTeachers -> notBanned teacher) ->
  forall s a s',
    Inv true teachers s ->
    (length (classesInSlot (optimizedClasses s) loc d t) + length l
     <= maxParallel loc)%nat ->
    forEach l (fun i => phase1_subslot csvData allTeachers loc d t guidelines isPeak) s
    = Some (a, s') ->
    Inv true teachers s'.
Proof.
  intros Hall. induction l as [|i l IH]; intros s a s' HI Hroom H.
  - unfold forEach in H. simpl in H. minv. exact HI.
  - unfold forEach in H. simpl in H. minv.
    fold (forEach l (fun i => phase1_subslot csvData allTeachers loc d t guidelines
                                isPeak)) in H.
    match goal with
    | Hs : phase1_subslot _ _ _ _ _ _ _ _ = Some _ |- _ =>
        apply phase1_subslot_inv in Hs
          as [->|(best & teacher & sA & Hbest & Hfmt & Hcan & Hsrc & Ha & Hc)]
    end.
    + eapply IH; [exact HI| |exact H]. simpl in Hroom. lia.
    + assert (HI1 : Inv true teachers sA).
      { refine (assignClass_Inv _ _ _ _ _ _ HI _ _ _ _ Ha);
          [ | | |exact Hcan]; cbn [c_location c_day c_time c_classFormat].
        - simpl in Hroom. lia.
        - now apply elemStr_false.
        - destruct Hsrc as [Hsrc|Hsrc];
            [eapply getBestTeacherForClass_notBanned; eauto|now apply Hall]. }
      eapply IH; [eapply Inv_setCounter; [exact HI1|exact Hc]| |exact H].
      apply setCounter_inv in Hc as (-> & _).
      apply assignClass_inv in Ha as (daily & shifts & _ & _ & ->).
      cbn [optimizedClasses]. rewrite classesInSlot_app. unfold classesInSlot at 2.
      simpl. unfold inCell. simpl. rewrite !bool_decide_eq_true_2 by reflexivity.
      simpl. rewrite length_app. simpl in *. lia.
Qed.

Lemma phase1_Inv allTeachers days s a s' :
  (forall teacher, In teacher allTeachers -> notBanned teacher) ->
  Inv true teachers s -> phase1 csvData allTeachers days s = Some (a, s') ->
  Inv true teachers s'.
Proof.
  intros Hall HI H. unfold phase1 in H.
  by_loop. minv.
  match goal with
  | HI : Inv true teachers ?st, Hc : setCounter _ ?st = Some (_, ?st') |- _ =>
      assert (HI' : Inv true teachers st') by (eapply Inv_setCounter; eauto)
  end.
  by_loop. by_loop. minv. mcase; [minv; done_inv|]. minv.
  match goal with
  | HI : Inv true teachers ?st, Hl : forEach (seq 0 _) _ ?st = Some _ |- _ =>
      refine (phase1_slot_Inv _ _ _ _ _ _ _ Hall _ _ _ HI _ Hl)
  end.
  rewrite length_seq.
  match goal with
  | HI : Inv true teachers ?st |- context [classesInSlot (optimizedClasses ?st) ?loc ?d ?t] =>
      destruct HI as (Hcells & _); destruct (Hcells loc d t) as [Hlen _];
      pose proof (classesToSchedule_le_2 loc t); pose proof (maxParallel_ge_2 loc)
  end.
  lia.
Qed.
End Phases01.


(** ** References into the array *)

Lemma indicesFrom_In i p classes k :
  In k (indicesFrom i p classes) ->
  (i <= k)%nat /\ exists c, classes !! (k - i)%nat = Some c /\ p c = true.
Proof.
  revert i. induction classes as [|c l IH]; intros i H; [destruct H|]. simpl in H.
  assert (Hrec : In k (indicesFrom (S i) p l) ->
                 (i <= k)%nat /\ exists x, (c :: l) !! (k - i)%nat = Some x /\ p x = true).
  { intros Hk. destruct (IH _ Hk) as [Hle (x & Hx & Hp)]. split; [lia|].
    exists x. split; [|exact Hp]. replace (k - i)%nat with (S (k - S i)) by lia. exact Hx. }
  destruct (p c) eqn:E; [|now apply Hrec].
  destruct H as [<-|H]; [|now apply Hrec].
  split; [lia|]. exists c. rewrite Nat.sub_diag. auto.
Qed.

Lemma indicesFrom_NoDup i p classes : List.NoDup (indicesFrom i p classes).
Proof.
  revert i. induction classes as [|c l IH]; intros i; simpl; [constructor|].
  destruct (p c); [|apply IH]. constructor; [|apply IH].
  intros H. apply indicesFrom_In in H as [H _]. lia.
Qed.

Lemma indicesWhere_In p classes k :
  In k (indicesWhere p classes) -> exists c, classes !! k = Some c /\ p c = true.
Proof.
  intros H. apply indicesFrom_In in H as [_ (c & Hc & Hp)].
  rewrite Nat.sub_0_r in Hc. eauto.
Qed.

Lemma NoDup_map_lookup {A B} (f : A -> B) (l : list A) i j x y :
  List.NoDup (map f l) -> l !! i = Some x -> l !! j = Some y -> f x = f y -> i = j.
Proof.
  revert i j. induction l as [|a l IH]; intros i j Hnd Hi Hj E; [destruct i; discriminate|].
  simpl in Hnd. apply NoDup_cons_iff in Hnd as [Hnot Hnd].
  assert (Hmem : forall k z, l !! k = Some z -> f z <> f a).
  { intros k z Hz Ez. apply Hnot. rewrite <- Ez. apply in_map.
    apply list_elem_of_In. eapply list_elem_of_lookup_2; eauto. }
  destruct i as [|i], j as [|j]; simpl in Hi, Hj.
  - reflexivity.
  - injection Hi as <-. exfalso. eapply Hmem; eauto.
  - injection Hj as <-. exfalso. eapply Hmem; eauto.
  - f_equal. eapply IH; eauto.
Qed.

Lemma findIndex_id classes i k cls :
  List.NoDup (map id classes) -> classes !! i = Some cls ->
  findIndex (fun c => bool_decide (id c = id cls)) classes = Some k -> k = i.
Proof.
  intros Hnd Hi Hk. apply findIndex_Some in Hk as (x & Hx & Hid & _).
  apply bool_decide_eq_true in Hid.
  eapply (NoDup_map_lookup id); eauto.
Qed.

Lemma In_drop {A} (x : A) n l : In x (skipn n l) -> In x l.
Proof.
  revert l. induction n as [|n IH]; intros [|y l] H; simpl in H; auto.
  right. now apply IH.
Qed.

Section Phases45.
Variable teachers : list string.

Lemma consolidateShift_Inv shiftClasses d s a s' :
  Inv false teachers s -> List.NoDup shiftClasses ->
  consolidateShift shiftClasses d s = Some (a, s') -> Inv false teachers s'.
Proof.
  intros HI Hnd H. unfold consolidateShift in H. minv.
  mcase; [|minv; exact HI].
  set (names := omap (fun i => fullName <$> optimizedClasses s !! i) shiftClasses) in *.
  set (counts := sortBy _ _) in *.
  assert (Hnames : forall tc, In tc counts -> notBanned (fst tc)).
  { intros tc Htc. unfold counts in Htc.
    apply (proj1 (sortBy_In _ _ _)) in Htc.
    apply in_map_iff in Htc as (n & <- & Hn). simpl.
    apply (proj1 (uniq_In _ _)) in Hn. unfold names in Hn.
    apply list_elem_of_In, list_elem_of_omap in Hn as (i & _ & Hi).
    destruct (optimizedClasses s !! i) as [c|] eqn:Hc; [|discriminate].
    injection Hi as <-. destruct HI as (_ & _ & Hok & _). apply Hok.
    apply list_elem_of_In. eapply list_elem_of_lookup_2; eauto. }
  refine (forEach_preserves _ _ _ _ _ _ _ HI H). clear H.
  intros tc s1 b s1' Htc HI1 H. minv.
  set (teacher := fst tc) in *.
  set (teacherClasses := List.filter _ shiftClasses) in *.
  assert (Hnd' : List.NoDup teacherClasses) by now apply List.NoDup_filter.
  enough (HJ : Inv false teachers s1'
               /\ forall i, In i teacherClasses -> ~ In i teacherClasses ->
                    exists c, optimizedClasses s1' !! i = Some c /\ fullName c = teacher)
    by apply HJ.
  refine (forEach_prefix
            (fun pre st => Inv false teachers st
                           /\ forall i, In i teacherClasses -> ~ In i pre ->
                                exists c, optimizedClasses st !! i = Some c
                                          /\ fullName c = teacher)
            _ _ _ _ _ _ _ H); clear H.
  - intros pre i post st b0 st' El [HIst Hrest] H.
    assert (Hi : ~ In i pre).
    { rewrite El in Hnd'. apply NoDup_remove_2 in Hnd'. intros Hin. apply Hnd'.
      apply in_or_app. now left. }
    assert (Hkeep : forall j, In j teacherClasses -> ~ In j (pre ++ [i]) ->
               exists c, optimizedClasses st !! j = Some c /\ fullName c = teacher).
    { intros j Hj Hnj. apply Hrest; [exact Hj|]. intros Hin. apply Hnj.
      apply in_or_app. now left. }
    minv.
    match goal with
    | Hl : optimizedClasses st !! i = Some ?c0,
      Hf : findM _ _ st = Some (?r, _) |- _ =>
        rename c0 into cls; rename r into targetTeacher; rename Hl into Hcls;
        apply (findM_inv _ (fun s0 (t : string * nat) =>
                 canAssignTeacher s0 (fst t) d (time cls) (duration cls)
                                  (classFormat cls)))
          in Hf as [-> Hfound]; [|intros x0 s0 b1 s2; apply canAssign_inv]
    end.
    destruct targetTeacher as [target|]; [|minv; now split].
    destruct Hfound as [Htarget Hcan].
    mcase; [|minv; now split].
    assert (Hin_i : In i teacherClasses) by (rewrite El; apply in_or_app; right; now left).
    destruct (Hrest i Hin_i Hi) as (c & Hc & Hname).
    rewrite Hcls in Hc. injection Hc as <-.
    match goal with
    | Hfi : findIndex _ _ = Some ?k |- _ =>
        assert (Hk : k = i)
          by (destruct HIst as (_ & [Hndi _] & _); eapply findIndex_id; eauto);
        subst k
    end.
    assert (HIst' : Inv false teachers st').
    { eapply (reassignTeacher_Inv teachers i teacher (fst target) (duration cls) d
                (time cls) (classFormat cls) cls); eauto.
      apply Hnames. unfold last2 in Htarget. eapply In_drop. exact Htarget. }
    split; [exact HIst'|].
    intros j Hj Hnj. destruct (Hkeep j Hj Hnj) as (c & Hc & Hcn).
    apply reassignTeacher_inv in H as (_ & _ & _ & _ & Hcl & _). rewrite Hcl.
    assert (Hji : i <> j).
    { intros ->. apply Hnj. apply in_or_app. right. now left. }
    rewrite list_lookup_alter_ne by exact Hji. eauto.
  - split; [exact HI1|]. intros i Hi _. unfold teacherClasses in Hi.
    apply filter_In in Hi as [_ Hi].
    destruct (optimizedClasses s1 !! i) as [c|]; [|discriminate].
    apply bool_decide_eq_true in Hi. eauto.
Qed.

Lemma phase4_Inv days s a s' :
  Inv false teachers s -> phase4 days s = Some (a, s') -> Inv false teachers s'.
Proof.
  intros HI H. unfold phase4 in H. by_loop. by_loop. minv.
  match goal with
  | HI : Inv false teachers ?st,
    Hm : consolidateShift _ _ ?st = Some (_, ?st1),
    He : consolidateShift _ _ ?st1 = Some _ |- _ =>
      eapply consolidateShift_Inv; [| |exact He];
      [eapply consolidateShift_Inv; [exact HI| |exact Hm]|];
      apply indicesFrom_NoDup
  end.
Qed.

Lemma tryMove_Inv (refs : list nat) i loc d newTime s b s' :
  In i refs ->
  (Inv false teachers s
   /\ forall j, In j refs ->
        exists c, optimizedClasses s !! j = Some c /\ sc_location c = loc /\ day c = d) ->
  tryMove i loc d newTime s = Some (b, s') ->
  Inv false teachers s'
  /\ forall j, In j refs ->
       exists c, optimizedClasses s' !! j = Some c /\ sc_location c = loc /\ day c = d.
Proof.
  intros Hi [HI Hrefs] H. unfold tryMove in H. minv.
  mcase; [|minv; now split].
  mcase; [|minv; now split]. minv.
  match goal with
  | Hc : _ && _ = true |- _ => apply andb_true_iff in Hc as [Hcap Hfmt]
  end.
  apply Nat.ltb_lt in Hcap. apply negb_true_iff in Hfmt.
  destruct (Hrefs i Hi) as (c & Hc & Hloc & Hday).
  match goal with
  | Hl : optimizedClasses s !! i = Some ?x |- _ => rewrite Hl in Hc; injection Hc as <-
  end.
  match goal with
  | Hfi : findIndex _ _ = Some ?k |- _ =>
      assert (Hk : k = i)
        by (destruct HI as (_ & [Hndi _] & _); eapply findIndex_id; eauto);
      subst k
  end.
  split.
  - eapply moveClass_Inv; [exact HI|eassumption| | |eassumption].
    + now rewrite Hloc, Hday.
    + rewrite Hloc, Hday. now apply existsb_format_false.
  - intros j Hj. destruct (Hrefs j Hj) as (c & Hc & Hl & Hd).
    match goal with
    | Hmv : moveClass _ _ _ = Some _ |- _ => unfold moveClass in Hmv; injection Hmv as _ <-
    end.
    cbn [optimizedClasses].
    rewrite list_lookup_alter.
    destruct (decide (i = j)); subst; rewrite Hc;
      eexists; (split; [reflexivity|]); simpl; auto.
Qed.

Lemma balanceDay_Inv loc d s a s' :
  Inv false teachers s -> balanceDay loc d s = Some (a, s') -> Inv false teachers s'.
Proof.
  intros HI H. unfold balanceDay in H. minv.
  mcase; [|minv; exact HI].
  set (refs := indicesWhere _ (optimizedClasses s)) in *.
  enough (HJ : Inv false teachers s'
               /\ forall j, In j refs ->
                    exists c, optimizedClasses s' !! j = Some c
                              /\ sc_location c = loc /\ day c = d) by apply HJ.
  refine (forEach_preserves
            (fun st => Inv false teachers st
                       /\ forall j, In j refs ->
                            exists c, optimizedClasses st !! j = Some c
                                      /\ sc_location c = loc /\ day c = d)
            _ _ _ _ _ _ _ H); clear H.
  - intros i st b st' Hi HJ H. apply In_firstn in Hi.
    refine (forOf_preserves
              (fun st => Inv false teachers st
                         /\ forall j, In j refs ->
                              exists c, optimizedClasses st !! j = Some c
                                        /\ sc_location c = loc /\ day c = d)
              _ _ _ _ _ _ HJ H). clear H.
    intros newTime st1 b1 st1' _ HJ1 H. eapply tryMove_Inv; eauto.
  - split; [exact HI|]. intros j Hj. unfold refs in Hj.
    apply indicesWhere_In in Hj as (c & Hc & Hp).
    rewrite !andb_true_iff, !bool_decide_eq_true in Hp. exists c. tauto.
Qed.

Lemma phase5_Inv days s a s' :
  Inv false teachers s -> phase5 days s = Some (a, s') -> Inv false teachers s'.
Proof.
  intros HI H. unfold phase5 in H. by_loop. by_loop.
  eapply balanceDay_Inv; eauto.
Qed.
End Phases45.


(** ** The run *)

Lemma fold_insert_is_Some {V} (f : string -> V) (l : list string) (m : gmap string V) t :
  is_Some (fold_left (fun m k => <[k := f k]> m) l m !! t) <-> In t l \/ is_Some (m !! t).
Proof.
  revert m. induction l as [|k l IH]; intros m; simpl; [tauto|].
  rewrite IH, lookup_insert_is_Some. destruct (decide (k = t)) as [->|Hne]; [tauto|].
  split; [intros [H|[H|[_ H]]]|intros [[H|H]|H]]; auto; congruence.
Qed.

Lemma fold_insert_value {V} (v : V) (l : list string) (m : gmap string V) t h :
  fold_left (fun m k => <[k := v]> m) l m !! t = Some h -> h = v \/ m !! t = Some h.
Proof.
  revert m. induction l as [|k l IH]; intros m H; simpl in H; [now right|].
  apply IH in H as [H|H]; [now left|].
  destruct (decide (k = t)) as [->|Hne].
  - rewrite lookup_insert_eq in H. left. congruence.
  - rewrite lookup_insert_ne in H by exact Hne. now right.
Qed.

Lemma initialState_Inv teachers days : Inv true teachers (initialState teachers days).
Proof.
  unfold Inv, initialState. cbn [optimizedClasses].
  split; [intros loc d t; simpl; split; [lia|constructor]|].
  split; [split; [constructor|intros c []]|].
  split; [intros c []|]. split; [intros c []|].
  split.
  { intros t. unfold sameKeys. cbn [teacherHoursTracker teacherDailyHours].
    rewrite (fold_insert_is_Some (fun _ => 0)).
    rewrite (fold_insert_is_Some (fun _ => fold_left (fun dm d => <[d := 0]> dm) days ∅)).
    rewrite !lookup_empty.
    split; (intros [H|H]; [now left|now apply is_Some_None in H]). }
  split.
  { intros t. cbn [teacherHoursTracker]. rewrite (fold_insert_is_Some (fun _ => 0)).
    rewrite lookup_empty. intros [H|H]; [exact H|]. now apply is_Some_None in H. }
  intros _. split; [split|intros _].
  - intros c [].
  - intros t h H. cbn [teacherHoursTracker optimizedClasses] in *.
    apply fold_insert_value in H as [->|H]; [|now rewrite lookup_empty in H].
    cbn [hoursSum fold_right]. split; [lra|].
    destruct (maxWeekly_cases t) as [E|E]; rewrite E; unfold Qle; simpl; lia.
  - intros t h H. cbn [teacherHoursTracker] in H.
    apply fold_insert_value in H as [->|H]; [|now rewrite lookup_empty in H].
    split; [lra|]. exists 0%Z. reflexivity.
Qed.

Lemma runPhases_Inv csvData options a s' :
  runPhases csvData options (initialState (allTeachersOf csvData) (daysOf options))
  = Some (a, s') ->
  Inv false (allTeachersOf csvData) s'.
Proof.
  intros H. unfold runPhases in H.
  pose proof (initialState_Inv (allTeachersOf csvData) (daysOf options)) as HI.
  pose proof (allTeachersOf_notBanned csvData) as Hall.
  apply bind_inv in H as (a0 & s0 & H0 & H).
  apply bind_inv in H as (a1 & s1 & H1 & H).
  apply bind_inv in H as (a2 & s2 & H2 & H).
  apply bind_inv in H as (a3 & s3 & H3 & H).
  apply bind_inv in H as (a4 & s4 & H4 & H).
  eapply phase5_Inv; [|exact H].
  eapply phase4_Inv; [|exact H4].
  apply Inv_weaken.
  eapply phase3_Inv; [|exact H3].
  eapply phase2_Inv; [exact Hall| |exact H2].
  eapply phase1_Inv; [exact Hall| |exact H1].
  eapply phase0_Inv; [exact HI|reflexivity|exact H0].
Qed.

Lemma generateIntelligentSchedule_Inv csvData customTeachers options classes :
  generateIntelligentSchedule csvData customTeachers options = Some classes ->
  exists s, optimizedClasses s = classes /\ Inv false (allTeachersOf csvData) s.
Proof.
  unfold generateIntelligentSchedule.
  destruct (runPhases _ _ _) as [[a s]|] eqn:H; [|discriminate].
  intros E. injection E as <-. exists s. split; [reflexivity|].
  eapply runPhases_Inv; eauto.
Qed.

Lemma hoursSum_cases classes name :
  hoursSum classes name == 0 \/ exists c, In c classes /\ fullName c = name.
Proof.
  induction classes as [|c l IH]; [left; reflexivity|]. simpl. unfold contribution at 1.
  destruct (bool_decide (fullName c = name)) eqn:E.
  - right. exists c. apply bool_decide_eq_true in E. auto.
  - destruct IH as [IH|(x & Hx & Hn)]; [left; rewrite IH; ring|right; eauto].
Qed.

Lemma getClassesAtTimeSlot_classesInSlot classes d t loc :
  getClassesAtTimeSlot classes d t loc = classesInSlot classes loc d t.
Proof.
  unfold getClassesAtTimeSlot, classesInSlot. apply filter_ext. intros c. unfold inCell.
  destruct (bool_decide (day c = d)), (bool_decide (time c = t)),
    (bool_decide (sc_location c = loc)); reflexivity.
Qed.



(** ** Weekly hours, cells and excluded teachers of a generated schedule *)




(** C2.  In every schedule that [generateIntelligentSchedule] returns, every
    cell (location, day, time) holds at most 3 classes at 'Supreme HQ, Bandra'
    and at most 2 at any other location, which is the capacity
    [hasTimeSlotCapacity] tests, and no two classes of a cell have the same
    class format. *)
Theorem generateIntelligentSchedule_cells csvData customTeachers options classes :
  generateIntelligentSchedule csvData customTeachers options = Some classes ->
  forall loc d t,
    (length (getClassesAtTimeSlot classes d t loc)
     <= (if bool_decide (loc = "Supreme HQ, Bandra") then 3 else 2))%nat
    /\ (length (getClassesAtTimeSlot classes d t loc) <= 3)%nat
    /\ (hasTimeSlotCapacity classes d t loc = false ->
        length (getClassesAtTimeSlot classes d t loc)
        = if bool_decide (loc = "Supreme HQ, Bandra") then 3%nat else 2%nat)
    /\ List.NoDup (map classFormat (getClassesAtTimeSlot classes d t loc)).
Proof.
  intros H loc d t. apply generateIntelligentSchedule_Inv in H as (s & <- & HI).
  destruct HI as (Hcells & _). destruct (Hcells loc d t) as [Hlen Hnd].
  rewrite getClassesAtTimeSlot_classesInSlot.
  unfold hasTimeSlotCapacity. rewrite getClassesAtTimeSlot_classesInSlot.
  unfold maxParallel in Hlen.
  split; [exact Hlen|]. split; [destruct (bool_decide _); lia|]. split; [|exact Hnd].
  intros Hfull. apply Nat.ltb_ge in Hfull. lia.
Qed.

Lemma generateIntelligentSchedule_cells_witness :
  exists classes,
    generateIntelligentSchedule trimmedRecords [] {| targetDay := Some "Monday" |}
    = Some classes
    /\ length (getClassesAtTimeSlot classes "Monday" "07:30" "Supreme HQ, Bandra") = 1%nat
    /\ List.NoDup (map classFormat
                     (getClassesAtTimeSlot classes "Monday" "07:30" "Supreme HQ, Bandra")).
Proof.
  destruct (generateIntelligentSchedule trimmedRecords [] {| targetDay := Some "Monday" |})
    as [classes|] eqn:E; [|vm_compute in E; discriminate].
  exists classes. split; [reflexivity|].
  split; [vm_compute in E; injection E as <-; reflexivity|].
  apply (generateIntelligentSchedule_cells
           trimmedRecords [] {| targetDay := Some "Monday" |} classes E
           "Supreme HQ, Bandra" "Monday" "07:30").
Defined.

Lemma getUniqueTeachers_In csvData customTeachers teacher :
  In teacher (getUniqueTeachers csvData customTeachers) ->
  (In teacher (map teacherName csvData) /\ notBanned teacher)
  \/ exists custom, In custom customTeachers
                    /\ teacher = firstName custom +:+ " " +:+ lastName custom.
Proof.
  unfold getUniqueTeachers. intros H.
  apply (proj1 (sortBy_In _ _ _)) in H. apply (proj1 (uniq_In _ _)) in H.
  apply in_app_or in H as [H|H].
  - left. apply filter_In in H as [Hin Hok].
    apply andb_true_iff in Hok as [H1 H2]. apply negb_true_iff in H1, H2.
    split; [exact Hin|now split].
  - right. apply in_map_iff in H as (custom & <- & Hin). eauto.
Qed.

(** C10 (amended).  No class of a schedule that [generateIntelligentSchedule]
    returns shows a teacher name with Nishanth or Saniya in it, and
    [getBestTeacherForClass] chooses no such teacher; [getUniqueTeachers]
    returns no such name from the historic records, and returns the names of
    the custom teachers as they are. *)
Theorem excluded_teachers_spec :
  (forall csvData customTeachers options classes cls,
     generateIntelligentSchedule csvData customTeachers options = Some classes ->
     In cls classes ->
     includes (fullName cls) "Nishanth" = false /\ includes (fullName cls) "Saniya" = false)
  /\ (forall csvData format loc d t teacher,
        getBestTeacherForClass csvData format loc d t = Some teacher ->
        includes teacher "Nishanth" = false /\ includes teacher "Saniya" = false)
  /\ (forall csvData customTeachers teacher,
        In teacher (getUniqueTeachers csvData customTeachers) ->
        (includes teacher "Nishanth" = false /\ includes teacher "Saniya" = false)
        \/ exists custom, In custom customTeachers
                          /\ teacher = firstName custom +:+ " " +:+ lastName custom)
  /\ (forall csvData teacher,
        In teacher (getUniqueTeachers csvData []) ->
        includes teacher "Nishanth" = false /\ includes teacher "Saniya" = false).
Proof.
  split; [|split; [|split]].
  - intros csvData customTeachers options classes cls H Hin.
    apply generateIntelligentSchedule_Inv in H as (s & <- & HI).
    destruct HI as (_ & _ & Hnames & _). exact (Hnames cls Hin).
  - intros csvData format loc d t teacher H.
    exact (getBestTeacherForClass_notBanned _ _ _ _ _ _ H).
  - intros csvData customTeachers teacher H.
    apply getUniqueTeachers_In in H as [[_ H]|H]; [left; exact H|right; exact H].
  - intros csvData teacher H.
    apply getUniqueTeachers_In in H as [[_ H]|(custom & [] & _)]. exact H.
Qed.

(** A custom teacher named Nishanth Raj is in the list of [getUniqueTeachers]. *)
Lemma getUniqueTeachers_custom_teacher :
  getUniqueTeachers [] [ {| firstName := "Nishanth"; lastName := "Raj" |} ]
  = ["Nishanth Raj"]
  /\ includes "Nishanth Raj" "Nishanth" = true.
Proof. split; vm_compute; reflexivity. Qed.


(** ** Phase 5: moves *)

Lemma forOf_break {A} (I Q : State -> Prop) (l : list A) (body : A -> M bool) :
  (forall x s b s', In x l -> I s -> body x s = Some (b, s') -> if b then Q s' else I s') ->
  forall s a s', I s -> forOf l body s = Some (a, s') -> I s' \/ Q s'.
Proof.
  induction l as [|x l IH]; intros Hb s a s' HI H; simpl in H.
  - apply ret_inv in H as [_ ->]. now left.
  - apply bind_inv in H as (b & s1 & Hx & H).
    pose proof (Hb x s b s1 (or_introl eq_refl) HI Hx) as Hs1.
    destruct b.
    + apply ret_inv in H as [_ ->]. now right.
    + eapply IH; eauto. intros y s2 b2 s3 Hy. apply Hb. now right.
Qed.

Lemma filter_filter_and {A} (r q : A -> bool) l :
  List.filter q (List.filter r l) = List.filter (fun x => r x && q x) l.
Proof.
  induction l as [|x l IH]; [reflexivity|]. simpl.
  destruct (r x); simpl; [destruct (q x)|]; now rewrite IH.
Qed.

Lemma count_alter {A} (p : A -> bool) (f : A -> A) (l : list A) k c :
  l !! k = Some c ->
  (length (List.filter p (alter f k l)) + (if p c then 1 else 0)
   = length (List.filter p l) + (if p (f c) then 1 else 0))%nat.
Proof.
  change (alter f k l) with (list_alter f k l).
  revert k. induction l as [|x l IH]; intros [|k] H; try discriminate; simpl in *.
  - injection H as ->. destruct (p c), (p (f c)); simpl; lia.
  - specialize (IH k H). destruct (p x); simpl; lia.
Qed.

Lemma alter_insert {A} (f : A -> A) (l : list A) k c :
  l !! k = Some c -> alter f k l = <[k := f c]> l.
Proof.
  change (alter f k l) with (list_alter f k l).
  revert k. induction l as [|x l IH]; intros [|k] H; try discriminate; simpl in *.
  - now injection H as ->.
  - f_equal. now apply IH.
Qed.

Lemma map_id_alter_setTime classes k newTime :
  map id (alter (fun cls => setTime cls newTime) k classes) = map id classes.
Proof.
  change (alter (fun cls => setTime cls newTime) k classes)
    with (list_alter (fun cls => setTime cls newTime) k classes).
  revert k. induction classes as [|x l IH]; intros [|k]; simpl; auto. now rewrite IH.
Qed.

Lemma morning_not_evening t : isMorningSlot t = true -> isEveningSlot t = false.
Proof.
  unfold isMorningSlot, isEveningSlot. destruct (hourOf t) as [h|]; [|discriminate].
  intros H. apply Z.ltb_lt in H. apply Z.leb_gt. lia.
Qed.

Lemma evening_not_morning t : isEveningSlot t = true -> isMorningSlot t = false.
Proof.
  destruct (isMorningSlot t) eqn:E; [|reflexivity].
  apply morning_not_evening in E. congruence.
Qed.

Lemma getShiftBalance_move classes k c newTime :
  classes !! k = Some c ->
  let after := alter (fun cls => setTime cls newTime) k classes in
  (fst (getShiftBalance after (sc_location c) (day c))
   + (if isMorningSlot (time c) then 1 else 0)
   = fst (getShiftBalance classes (sc_location c) (day c))
     + (if isMorningSlot newTime then 1 else 0))%nat
  /\ (snd (getShiftBalance after (sc_location c) (day c))
      + (if isEveningSlot (time c) then 1 else 0)
      = snd (getShiftBalance classes (sc_location c) (day c))
        + (if isEveningSlot newTime then 1 else 0))%nat.
Proof.
  intros Hk after. unfold getShiftBalance. cbn [fst snd]. rewrite !filter_filter_and.
  split.
  - pose proof (count_alter
                  (fun x => bool_decide (sc_location x = sc_location c)
                            && bool_decide (day x = day c) && isMorningSlot (time x))
                  (fun cls => setTime cls newTime) classes k c Hk) as H.
    cbn [setTime sc_location day time] in H.
    rewrite !bool_decide_eq_true_2 in H by reflexivity. exact H.
  - pose proof (count_alter
                  (fun x => bool_decide (sc_location x = sc_location c)
                            && bool_decide (day x = day c) && isEveningSlot (time x))
                  (fun cls => setTime cls newTime) classes k c Hk) as H.
    cbn [setTime sc_location day time] in H.
    rewrite !bool_decide_eq_true_2 in H by reflexivity. exact H.
Qed.

Lemma sameButTime_setTime cls newTime : sameButTime cls (setTime cls newTime).
Proof. repeat split. Qed.

Lemma ceil_half (z : Z) : (2 * Math_ceil (inject_Z z / 2) <= z + 1)%Z.
Proof.
  unfold Math_ceil. pose proof (Qceiling_lt (inject_Z z / 2)) as H.
  set (c := Qceiling (inject_Z z / 2)) in *.
  unfold Qlt in H. cbn [Qnum Qden inject_Z Qdiv Qmult Qinv] in H. lia.
Qed.


Lemma tryMove_spec i loc d newTime s b s' cls :
  List.NoDup (map id (optimizedClasses s)) ->
  optimizedClasses s !! i = Some cls ->
  tryMove i loc d newTime s = Some (b, s') ->
  if b then
    (length (classesInSlot (optimizedClasses s) loc d newTime) < maxParallel loc)%nat
    /\ ~ In (classFormat cls)
            (map classFormat (classesInSlot (optimizedClasses s) loc d newTime))
    /\ optimizedClasses s'
       = alter (fun c => setTime c newTime) i (optimizedClasses s)
    /\ teacherHoursTracker s' = teacherHoursTracker s
    /\ teacherDailyHours s' = teacherDailyHours s
    /\ teacherShiftAssignments s' = teacherShiftAssignments s
  else s' = s.
Proof.
  intros Hnd Hi H. unfold tryMove in H. minv.
  match goal with
  | Hl : optimizedClasses s !! i = Some ?x |- _ => rewrite Hl in Hi; injection Hi as ->
  end.
  mcase; [|minv; reflexivity].
  mcase; [|minv; reflexivity]. minv.
  match goal with
  | Hc : _ && _ = true |- _ => apply andb_true_iff in Hc as [Hcap Hfmt]
  end.
  apply Nat.ltb_lt in Hcap. apply negb_true_iff in Hfmt.
  match goal with
  | Hfi : findIndex _ _ = Some ?k |- _ =>
      assert (Hk : k = i) by (eapply findIndex_id; eauto); subst k
  end.
  match goal with
  | Hmv : moveClass _ _ _ = Some _ |- _ => unfold moveClass in Hmv; injection Hmv as _ <-
  end.
  cbn [optimizedClasses teacherHoursTracker teacherDailyHours teacherShiftAssignments].
  split; [exact Hcap|]. split; [now apply existsb_format_false|]. auto.
Qed.

Section BalanceLoop.
Variables loc d : string.
Variables pE pD : string -> bool.
Variables cE cD : list ScheduledClass -> nat.

Hypothesis Hcount : forall classes k c newTime,
  classes !! k = Some c -> sc_location c = loc -> day c = d ->
  pE (time c) = true -> pD newTime = true ->
  (cE (alter (fun cls => setTime cls newTime) k classes) + 1 = cE classes)%nat
  /\ cD (alter (fun cls => setTime cls newTime) k classes) = (cD classes + 1)%nat.

Hypothesis Hunder : forall classes t,
  pD t = true -> (cD classes < cE classes)%nat -> underrepresented classes loc d t.

Lemma balance_loop (refs : list nat) (slots : list string) s a s' :
  List.NoDup refs ->
  (forall t, In t slots -> pD t = true) ->
  List.NoDup (map id (optimizedClasses s)) ->
  (forall j, In j refs ->
     exists c, optimizedClasses s !! j = Some c
               /\ sc_location c = loc /\ day c = d /\ pE (time c) = true) ->
  (2 * length refs + cD (optimizedClasses s) <= cE (optimizedClasses s) + 1)%nat ->
  forEach refs (fun i => forOf slots (fun newTime => tryMove i loc d newTime)) s
  = Some (a, s') ->
  List.NoDup (map id (optimizedClasses s')) /\ rtc balancingMove s s'.
Proof.
  intros Hrefs Hslots Hnd Hexcess Hgap H.
  pose (I := fun (pre : list nat) (st : State) =>
    List.NoDup (map id (optimizedClasses st))
    /\ rtc balancingMove s st
    /\ (forall j, In j refs -> ~ In j pre ->
          exists c, optimizedClasses st !! j = Some c
                    /\ sc_location c = loc /\ day c = d /\ pE (time c) = true)
    /\ (2 * length refs + cD (optimizedClasses st)
        <= cE (optimizedClasses st) + 1 + 2 * length pre)%nat).
  enough (HI : I refs s') by (destruct HI as (H1 & H2 & _); now split).
  refine (forEach_prefix I _ _ _ _ _ _ _ H); clear H.
  - intros pre i post st b st' El (Hnd1 & Hrtc & Hrest & Hgap1) H.
    assert (Hlen : (length pre + 1 <= length refs)%nat).
    { rewrite El, length_app. simpl. lia. }
    assert (Hi : ~ In i pre).
    { rewrite El in Hrefs. apply NoDup_remove_2 in Hrefs. intros Hin. apply Hrefs.
      apply in_or_app. now left. }
    assert (Hin_i : In i refs) by (rewrite El; apply in_or_app; right; now left).
    destruct (Hrest i Hin_i Hi) as (cls & Hcls & Hloc & Hday & HpE).
    assert (Hweak : I (pre ++ [i]) st).
    { split; [exact Hnd1|]. split; [exact Hrtc|]. split.
      - intros j Hj Hnj. apply Hrest; [exact Hj|]. intros Hp. apply Hnj.
        apply in_or_app. now left.
      - rewrite length_app. simpl. lia. }
    enough (HJ : st' = st \/ I (pre ++ [i]) st') by (destruct HJ as [->|HJ]; assumption).
    refine (forOf_break (fun x => x = st) (I (pre ++ [i])) _ _ _ _ _ _ eq_refl H).
    clear H. intros newTime st0 b0 st1 Ht -> H.
    pose proof (tryMove_spec _ _ _ _ _ _ _ cls Hnd1 Hcls H) as Hspec.
    destruct b0; [|exact Hspec].
    destruct Hspec as (Hcap & Hfmt & Hcl & Hh & Hdh & Hsh).
    apply Hslots in Ht.
    destruct (Hcount _ _ _ newTime Hcls Hloc Hday HpE Ht) as [HcE HcD].
    split; [rewrite Hcl, map_id_alter_setTime; exact Hnd1|].
    split.
    { eapply rtc_r; [exact Hrtc|].
      exists i, cls, (setTime cls newTime). cbn [setTime time].
      rewrite Hloc, Hday.
      split; [exact Hcls|]. split; [apply Hunder; [exact Ht|lia]|].
      split; [exact Hcap|]. split; [exact Hfmt|].
      split; [apply sameButTime_setTime|].
      split; [rewrite Hcl; exact (alter_insert (fun c => setTime c newTime) _ _ _ Hcls)|].
      auto. }
    split.
    { intros j Hj Hnj. rewrite Hcl.
      assert (Hji : i <> j).
      { intros ->. apply Hnj. apply in_or_app. right. now left. }
      rewrite list_lookup_alter_ne by exact Hji. apply Hrest; [exact Hj|].
      intros Hp. apply Hnj. apply in_or_app. now left. }
    rewrite Hcl, HcD, length_app. simpl. lia.
  - split; [exact Hnd|]. split; [apply rtc_refl|]. split.
    + intros j Hj _. now apply Hexcess.
    + simpl. lia.
Qed.
End BalanceLoop.


Lemma NoDup_take {A} n (l : list A) : List.NoDup l -> List.NoDup (firstn n l).
Proof.
  revert n. induction l as [|x l IH]; intros [|n] H; simpl; try constructor.
  - apply NoDup_cons_iff in H as [Hx _]. intros Hin. apply Hx. eapply In_firstn. exact Hin.
  - apply NoDup_cons_iff in H as [_ H]. now apply IH.
Qed.

Lemma balanceDay_moves loc d s a s' :
  List.NoDup (map id (optimizedClasses s)) ->
  balanceDay loc d s = Some (a, s') ->
  List.NoDup (map id (optimizedClasses s')) /\ rtc balancingMove s s'.
Proof.
  intros Hnd H. unfold balanceDay in H. minv.
  mcase; [|minv; split; [exact Hnd|apply rtc_refl]].
  match goal with Hb : (2 <? _)%Z = true |- _ => apply Z.ltb_lt in Hb; rename Hb into Himb end.
  pose proof (ceil_half (Z.abs (Z.of_nat (fst (getShiftBalance (optimizedClasses s) loc d))
                                - Z.of_nat (snd (getShiftBalance (optimizedClasses s) loc d)))))
    as Hceil.
  set (n := Z.to_nat _) in H.
  assert (Hn : (2 * Z.of_nat n
                <= Z.abs (Z.of_nat (fst (getShiftBalance (optimizedClasses s) loc d))
                          - Z.of_nat (snd (getShiftBalance (optimizedClasses s) loc d))) + 1)%Z).
  { unfold n. lia. }
  clearbody n. clear Hceil.
  destruct (snd (getShiftBalance (optimizedClasses s) loc d)
            <? fst (getShiftBalance (optimizedClasses s) loc d))%nat eqn:Ex.
  - apply Nat.ltb_lt in Ex.
    refine (balance_loop loc d isMorningSlot isEveningSlot
              (fun cl => fst (getShiftBalance cl loc d))
              (fun cl => snd (getShiftBalance cl loc d))
              _ _ _ _ _ _ _ _ _ _ _ _ H); clear H.
    + intros classes k c newTime Hk <- <- HE HD.
      destruct (getShiftBalance_move classes k c newTime Hk) as [H1 H2].
      rewrite HE, (evening_not_morning _ HD) in H1.
      rewrite HD, (morning_not_evening _ HE) in H2. lia.
    + intros classes t Ht Hlt. right. now split.
    + apply NoDup_take, indicesFrom_NoDup.
    + intros t Ht. unfold targetSlots in Ht. apply filter_In in Ht as [_ Ht]. exact Ht.
    + exact Hnd.
    + intros j Hj. apply In_firstn, indicesWhere_In in Hj as (c & Hc & Hp).
      rewrite !andb_true_iff, !bool_decide_eq_true in Hp. exists c. tauto.
    + pose proof (length_firstn n
                    (indicesWhere
                       (fun cls => bool_decide (sc_location cls = loc)
                                   && bool_decide (day cls = d)
                                   && isMorningSlot (time cls))
                       (optimizedClasses s))) as Hl.
      cbv beta. lia.
  - apply Nat.ltb_ge in Ex.
    refine (balance_loop loc d isEveningSlot isMorningSlot
              (fun cl => snd (getShiftBalance cl loc d))
              (fun cl => fst (getShiftBalance cl loc d))
              _ _ _ _ _ _ _ _ _ _ _ _ H); clear H.
    + intros classes k c newTime Hk <- <- HE HD.
      destruct (getShiftBalance_move classes k c newTime Hk) as [H1 H2].
      rewrite HD, (evening_not_morning _ HE) in H1.
      rewrite HE, (morning_not_evening _ HD) in H2. lia.
    + intros classes t Ht Hlt. left. now split.
    + apply NoDup_take, indicesFrom_NoDup.
    + intros t Ht. unfold targetSlots in Ht. apply filter_In in Ht as [_ Ht]. exact Ht.
    + exact Hnd.
    + intros j Hj. apply In_firstn, indicesWhere_In in Hj as (c & Hc & Hp).
      rewrite !andb_true_iff, !bool_decide_eq_true in Hp. exists c. tauto.
    + pose proof (length_firstn n
                    (indicesWhere
                       (fun cls => bool_decide (sc_location cls = loc)
                                   && bool_decide (day cls = d)
                                   && isEveningSlot (time cls))
                       (optimizedClasses s))) as Hl.
      cbv beta. lia.
Qed.

Lemma sameButTime_refl a : sameButTime a a.
Proof. repeat split. Qed.

Lemma sameButTime_trans a b c : sameButTime a b -> sameButTime b c -> sameButTime a c.
Proof.
  unfold sameButTime. intros H1 H2.
  repeat match goal with H : _ /\ _ |- _ => destruct H end.
  repeat split; congruence.
Qed.

Lemma Forall2_sameButTime_refl l : Forall2 sameButTime l l.
Proof. induction l; constructor; auto using sameButTime_refl. Qed.

Lemma Forall2_sameButTime_trans l1 l2 l3 :
  Forall2 sameButTime l1 l2 -> Forall2 sameButTime l2 l3 -> Forall2 sameButTime l1 l3.
Proof.
  intros H. revert l3. induction H as [|a b l1 l2 Hab _ IH]; intros l3 H3.
  - inversion H3. constructor.
  - inversion H3 as [|b' c l2' l3' Hbc Hr]; subst. constructor.
    + eapply sameButTime_trans; eauto.
    + now apply IH.
Qed.

Lemma Forall2_sameButTime_insert l k c c' :
  l !! k = Some c -> sameButTime c c' -> Forall2 sameButTime l (<[k := c']> l).
Proof.
  change (<[k := c']> l) with (list_insert k c' l).
  revert k. induction l as [|x l IH]; intros [|k] H Hs; try discriminate; simpl in *.
  - injection H as ->. constructor; [exact Hs|apply Forall2_sameButTime_refl].
  - constructor; [apply sameButTime_refl|now apply IH].
Qed.

Lemma balancingMove_frame s s' :
  rtc balancingMove s s' ->
  Forall2 sameButTime (optimizedClasses s) (optimizedClasses s')
  /\ teacherHoursTracker s' = teacherHoursTracker s
  /\ teacherDailyHours s' = teacherDailyHours s
  /\ teacherShiftAssignments s' = teacherShiftAssignments s.
Proof.
  induction 1 as [s|s s1 s' Hm _ IH].
  - split; [apply Forall2_sameButTime_refl|auto].
  - destruct Hm as (k & cls & cls' & Hk & _ & _ & _ & Hsame & Hcl & Hh & Hd & Hs).
    destruct IH as (IH1 & IH2 & IH3 & IH4).
    split; [|repeat split; congruence].
    eapply Forall2_sameButTime_trans; [|exact IH1].
    rewrite Hcl. eapply Forall2_sameButTime_insert; eauto.
Qed.

Lemma phase5_run days s a s' :
  List.NoDup (map id (optimizedClasses s)) ->
  phase5 days s = Some (a, s') ->
  rtc balancingMove s s'.
Proof.
  intros Hnd H. unfold phase5 in H.
  enough (HI : List.NoDup (map id (optimizedClasses s')) /\ rtc balancingMove s s')
    by apply HI.
  refine (forEach_preserves
            (fun st => List.NoDup (map id (optimizedClasses st)) /\ rtc balancingMove s st)
            _ _ _ _ _ _ _ H); clear H; [|split; [exact Hnd|apply rtc_refl]].
  intros loc st b st' _ HI H.
  refine (forEach_preserves
            (fun st => List.NoDup (map id (optimizedClasses st)) /\ rtc balancingMove s st)
            _ _ _ _ _ _ HI H); clear H.
  intros d st0 b0 st1 _ [Hnd0 Hr0] H.
  apply balanceDay_moves in H as [Hnd1 Hr1]; [|exact Hnd0].
  split; [exact Hnd1|]. etrans; eauto.
Qed.


(** *** Phase 5 ends *)

Lemma forOf_total {A} (I : State -> Prop) (l : list A) (body : A -> M bool) :
  (forall x s, In x l -> I s -> exists b s', body x s = Some (b, s') /\ I s') ->
  forall s, I s -> exists s', forOf l body s = Some (tt, s') /\ I s'.
Proof.
  induction l as [|x l IH]; intros Hb s HI; simpl.
  - exists s. now split.
  - destruct (Hb x s (or_introl eq_refl) HI) as (b & s1 & E & HI1).
    unfold bind at 1. rewrite E. destruct b.
    + exists s1. now split.
    + apply IH; [|exact HI1]. intros y s2 Hy. apply Hb. now right.
Qed.

Lemma forEach_total {A} (I : State -> Prop) (l : list A) (body : A -> M unit) :
  (forall x s, In x l -> I s -> exists s', body x s = Some (tt, s') /\ I s') ->
  forall s, I s -> exists s', forEach l body s = Some (tt, s') /\ I s'.
Proof.
  intros Hb. unfold forEach. apply forOf_total. intros x s Hx HI.
  destruct (Hb x s Hx HI) as (s1 & E & HI1). exists false, s1.
  unfold bind. rewrite E. now split.
Qed.

Lemma tryMove_total i loc d newTime s :
  (i < length (optimizedClasses s))%nat ->
  exists b s', tryMove i loc d newTime s = Some (b, s')
               /\ length (optimizedClasses s') = length (optimizedClasses s).
Proof.
  intros Hi. apply lookup_lt_is_Some_2 in Hi as [cls Hc].
  unfold tryMove, bind, get, liftOption. rewrite Hc.
  destruct (_ && _); [|exists false, s; now split].
  destruct (findIndex _ _) as [k|]; [|exists false, s; now split].
  unfold moveClass, ret. eexists true, _. split; [reflexivity|].
  cbn [optimizedClasses]. apply length_alter.
Qed.

Lemma balanceDay_total loc d s :
  exists s', balanceDay loc d s = Some (tt, s')
             /\ length (optimizedClasses s') = length (optimizedClasses s).
Proof.
  unfold balanceDay, bind, get.
  destruct (2 <? _)%Z; [|exists s; now split].
  apply (forEach_total
           (fun st => length (optimizedClasses st) = length (optimizedClasses s)));
    [|reflexivity].
  intros i st Hi Hlen. apply In_firstn, indicesWhere_In in Hi as (c & Hc & _).
  apply lookup_lt_Some in Hc.
  apply (forOf_total
           (fun st => length (optimizedClasses st) = length (optimizedClasses s)));
    [|exact Hlen].
  intros newTime st0 _ Hlen0.
  destruct (tryMove_total i loc d newTime st0) as (b & st1 & E & Hl); [lia|].
  exists b, st1. split; [exact E|congruence].
Qed.

Lemma phase5_total days s : exists s', phase5 days s = Some (tt, s').
Proof.
  unfold phase5.
  destruct (forEach_total (fun _ => True) locations
              (fun loc => forEach days (fun d => balanceDay loc d))) with (s := s)
    as (s' & E & _); [|exact I|eauto].
  intros loc st _ _. apply (forEach_total (fun _ => True)); [|exact I].
  intros d st0 _ _. destruct (balanceDay_total loc d st0) as (st1 & E & _). eauto.
Qed.

Lemma phase5_of_distinct_ids days s :
  List.NoDup (map id (optimizedClasses s)) ->
  exists s',
    phase5 days s = Some (tt, s')
    /\ rtc balancingMove s s'
    /\ Forall2 sameButTime (optimizedClasses s) (optimizedClasses s')
    /\ teacherHoursTracker s' = teacherHoursTracker s
    /\ teacherDailyHours s' = teacherDailyHours s
    /\ teacherShiftAssignments s' = teacherShiftAssignments s.
Proof.
  intros Hnd. destruct (phase5_total days s) as (s' & E). exists s'.
  split; [exact E|]. pose proof (phase5_run _ _ _ _ Hnd E) as Hr.
  split; [exact Hr|]. now apply balancingMove_frame.
Qed.

Lemma runPhases_phase5_entry csvData options a s' :
  runPhases csvData options (initialState (allTeachersOf csvData) (daysOf options))
  = Some (a, s') ->
  exists s4,
    (phase0 options ;;
     phase1 csvData (allTeachersOf csvData) (daysOf options) ;;
     phase2 csvData (allTeachersOf csvData) (daysOf options) ;;
     phase3 csvData (daysOf options) ;;
     phase4 (daysOf options))
      (initialState (allTeachersOf csvData) (daysOf options)) = Some (tt, s4)
    /\ List.NoDup (map id (optimizedClasses s4))
    /\ phase5 (daysOf options) s4 = Some (a, s').
Proof.
  intros H. unfold runPhases in H.
  pose proof (initialState_Inv (allTeachersOf csvData) (daysOf options)) as HI.
  pose proof (allTeachersOf_notBanned csvData) as Hall.
  apply bind_inv in H as ([] & s0 & H0 & H).
  apply bind_inv in H as ([] & s1 & H1 & H).
  apply bind_inv in H as ([] & s2 & H2 & H).
  apply bind_inv in H as ([] & s3 & H3 & H).
  apply bind_inv in H as ([] & s4 & H4 & H).
  exists s4. split; [|split; [|exact H]].
  - unfold bind. now rewrite H0, H1, H2, H3.
  - assert (HI4 : Inv false (allTeachersOf csvData) s4).
    { eapply phase4_Inv; [|exact H4]. apply Inv_weaken.
      eapply phase3_Inv; [|exact H3].
      eapply phase2_Inv; [exact Hall| |exact H2].
      eapply phase1_Inv; [exact Hall| |exact H1].
      eapply phase0_Inv; [exact HI|reflexivity|exact H0]. }
    destruct HI4 as (_ & [Hnd _] & _). exact Hnd.
Qed.

(** C9.  On a store whose class ids are pairwise distinct Phase 5 ends, and
    what it does is a sequence of moves, each of which gives one class a new
    time in the shift that then has fewer classes at the location and day of
    the class, in a slot below the parallel capacity of the location that does
    not hold the format of the class; the moved class keeps every other field,
    every other class stays as it is, and the hour and shift trackers of the
    instructors are those of the start.  In every run of
    [generateIntelligentSchedule] that returns, the store that Phases 0 to 4
    hand to Phase 5 has pairwise distinct ids, and the schedule returned is
    the one those moves leave. *)
Theorem phase5_moves :
  (forall days s,
     List.NoDup (map id (optimizedClasses s)) ->
     exists s',
       phase5 days s = Some (tt, s')
       /\ rtc balancingMove s s'
       /\ Forall2 sameButTime (optimizedClasses s) (optimizedClasses s')
       /\ teacherHoursTracker s' = teacherHoursTracker s
       /\ teacherDailyHours s' = teacherDailyHours s
       /\ teacherShiftAssignments s' = teacherShiftAssignments s)
  /\ (forall csvData customTeachers options classes,
        generateIntelligentSchedule csvData customTeachers options = Some classes ->
        exists s4 s5,
          (phase0 options ;;
           phase1 csvData (allTeachersOf csvData) (daysOf options) ;;
           phase2 csvData (allTeachersOf csvData) (daysOf options) ;;
           phase3 csvData (daysOf options) ;;
           phase4 (daysOf options))
            (initialState (allTeachersOf csvData) (daysOf options)) = Some (tt, s4)
          /\ List.NoDup (map id (optimizedClasses s4))
          /\ phase5 (daysOf options) s4 = Some (tt, s5)
          /\ optimizedClasses s5 = classes
          /\ rtc balancingMove s4 s5).
Proof.
  split; [exact phase5_of_distinct_ids|].
  intros csvData customTeachers options classes H.
  unfold generateIntelligentSchedule in H.
  destruct (runPhases _ _ _) as [[[] s5]|] eqn:E; [|discriminate].
  injection H as <-.
  apply runPhases_phase5_entry in E as (s4 & Hpre & Hnd & H5).
  exists s4, s5. split; [exact Hpre|]. split; [exact Hnd|]. split; [exact H5|].
  split; [reflexivity|]. eapply phase5_run; eauto.
Qed.

Lemma phase5_moves_witness :
  exists s',
    phase5 ["Monday"] unbalancedMonday = Some (tt, s')
    /\ rtc balancingMove unbalancedMonday s'
    /\ map time (optimizedClasses s') = ["17:00"; "17:00"; "09:00"].
Proof.
  destruct (proj1 phase5_moves ["Monday"] unbalancedMonday) as (s' & E & Hr & _).
  { repeat (constructor; [simpl; intuition discriminate|]). constructor. }
  exists s'. split; [exact E|]. split; [exact Hr|].
  vm_compute in E. injection E as <-. reflexivity.
Defined.


(** ** The fallback ranker on sample records *)






(** ** A curated teacher without records *)

Lemma initialState_untracked teachers days t :
  ~ In t teachers ->
  teacherHoursTracker (initialState teachers days) !! t = None
  /\ teacherDailyHours (initialState teachers days) !! t = None.
Proof.
  intros Hnot. unfold initialState. cbn [teacherHoursTracker teacherDailyHours].
  split; apply eq_None_not_Some; intros H.
  - apply (fold_insert_is_Some (fun _ => 0)) in H as [H|H]; [contradiction|].
    rewrite lookup_empty in H. now apply is_Some_None in H.
  - apply (fold_insert_is_Some
             (fun _ => fold_left (fun dm d => <[d := 0]> dm) days ∅)) in H as [H|H];
      [contradiction|].
    rewrite lookup_empty in H. now apply is_Some_None in H.
Qed.

(** The first curated class is taught by Karanvir Bhatia.  When no historic
    record names that teacher, the teacher has no tracker entry, the days-off
    test of [canAssignTeacher] reads the keys of [undefined], and the
    full-week run of [generateIntelligentSchedule] ends with that
    [TypeError]. *)
Theorem generateIntelligentSchedule_untracked_curated_teacher csvData customTeachers :
  (forall item, In item csvData -> teacherName item <> "Karanvir Bhatia") ->
  generateIntelligentSchedule csvData customTeachers {| targetDay := None |} = None.
Proof.
  intros Hnot.
  assert (Hin : ~ In "Karanvir Bhatia" (allTeachersOf csvData)).
  { intros H. apply allTeachersOf_In in H as (item & Hitem & Hn). now apply (Hnot item). }
  destruct (initialState_untracked _ weekDays _ Hin) as [Hh Hd].
  unfold generateIntelligentSchedule, runPhases.
  change (daysOf {| targetDay := None |}) with weekDays.
  set (s0 := initialState (allTeachersOf csvData) weekDays) in *.
  assert (Hv : canAssignTeacher s0 "Karanvir Bhatia" "Saturday" "10:15"
                 (getClassDuration "Studio Mat 57") "Studio Mat 57" = None).
  { unfold canAssignTeacher, canAssignVerdict. rewrite Hh, Hd. reflexivity. }
  assert (H0 : phase0 {| targetDay := None |} s0 = None).
  { unfold phase0, forEach, getDefaultTopClasses. cbn [forOf].
    unfold bind at 1. unfold bind at 1. unfold bind at 1.
    cbn [targetDay truthy dt_day dt_teacher dt_time dt_classFormat].
    unfold canAssign at 1. unfold bind at 1, get at 1. unfold liftOption at 1.
    cbv beta iota. rewrite Hv. reflexivity. }
  unfold bind at 1. now rewrite H0.
Qed.

Lemma generateIntelligentSchedule_untracked_curated_teacher_witness :
  generateIntelligentSchedule [] [] {| targetDay := None |} = None.
Proof.
  apply (generateIntelligentSchedule_untracked_curated_teacher [] []).
  intros item [].
Defined.


(** * More of the rule set *)

(** ** Restricted hours *)

Lemma availableSlots_unrestricted :
  forallb (fun t => negb (isTimeRestricted t "" false)
                    && (isMorningSlot t || isEveningSlot t))
          (getAvailableTimeSlots "") = true.
Proof. vm_compute. reflexivity. Qed.

Lemma restrictedSlots_restricted :
  forallb (fun t => isTimeRestricted t "" false
                    && negb (elemStr t (getAvailableTimeSlots "")))
          getRestrictedTimeSlots = true.
Proof. vm_compute. reflexivity. Qed.

(** A private class is never time-restricted.  Every slot that
    [getAvailableTimeSlots] offers is unrestricted for a regular class and is
    a morning or an evening slot; every slot of [getRestrictedTimeSlots] is
    restricted for a regular class and is not offered.  A restricted time
    whose minutes are between 0 and 59 is neither a morning nor an evening
    slot. *)
Theorem isTimeRestricted_spec :
  (forall time d, isTimeRestricted time d true = false)
  /\ (forall d d' t,
        In t (getAvailableTimeSlots d) ->
        isTimeRestricted t d' false = false
        /\ (isMorningSlot t = true \/ isEveningSlot t = true))
  /\ (forall d d' t,
        In t getRestrictedTimeSlots ->
        isTimeRestricted t d' false = true /\ ~ In t (getAvailableTimeSlots d))
  /\ (forall time d m,
        minuteOf time = Some m -> (0 <= m < 60)%Z ->
        isTimeRestricted time d false = true ->
        isMorningSlot time = false /\ isEveningSlot time = false).
Proof.
  split; [|split; [|split]].
  - intros time d. unfold isTimeRestricted. cbv zeta.
    destruct (timeInMinutes time) as [m|]; [|reflexivity].
    now destruct ((12 * 60 <=? m)%Z && (m <? 17 * 60)%Z).
  - intros d d' t Hin.
    pose proof availableSlots_unrestricted as H. rewrite forallb_forall in H.
    apply H in Hin. apply andb_true_iff in Hin as [H1 H2].
    apply negb_true_iff in H1. apply orb_true_iff in H2. now split.
  - intros d d' t Hin.
    pose proof restrictedSlots_restricted as H. rewrite forallb_forall in H.
    apply H in Hin. apply andb_true_iff in Hin as [H1 H2].
    apply negb_true_iff in H2. split; [exact H1|].
    intros Hav. unfold elemStr in H2.
    assert (E : existsb (fun y => bool_decide (y = t)) (getAvailableTimeSlots "") = true).
    { apply existsb_exists. exists t. split; [exact Hav|now apply bool_decide_eq_true_2]. }
    congruence.
  - intros time d m Hm Hrange H. unfold isTimeRestricted in H. cbv zeta in H.
    unfold timeInMinutes in H. rewrite Hm in H.
    unfold isMorningSlot, isEveningSlot.
    destruct (hourOf time) as [h|]; [|discriminate]. simpl in H.
    apply andb_true_iff in H as [H1 H2].
    apply Z.leb_le in H1. apply Z.ltb_lt in H2.
    split; [apply Z.ltb_ge|apply Z.leb_gt]; lia.
Qed.

Lemma isTimeRestricted_spec_witness :
  isMorningSlot "12:30" = false /\ isEveningSlot "12:30" = false.
Proof.
  apply (proj2 (proj2 (proj2 isTimeRestricted_spec)) "12:30" "Monday" 30%Z);
    [reflexivity|lia|reflexivity].
Defined.

(** ** Shift balance *)




(** * The run as guarded steps *)

(** ** Where the formats of the phases come from *)

Lemma lookupKey_Some_In {V} k (v : V) l : lookupKey k l = Some v -> In (k, v) l.
Proof.
  unfold lookupKey. destruct (List.find _ l) as [[k0 v0]|] eqn:E; [|discriminate].
  intros H. injection H as <-. apply find_some in E as [Hin Hk].
  apply bool_decide_eq_true in Hk. simpl in Hk. now subst k0.
Qed.

Lemma alterKey_In_inv {V} (f : option V -> V) k k' v l :
  In (k, v) (alterKey f k' l) -> In (k, v) l \/ (k = k' /\ v = f (lookupKey k' l)).
Proof.
  unfold lookupKey. induction l as [|[k0 v0] r IH]; simpl.
  - intros [E|[]]. injection E as <- <-. now right.
  - destruct (decide (k' = k0)) as [->|Hne].
    + rewrite !bool_decide_eq_true_2 by reflexivity. simpl.
      intros [E|H]; [injection E as <- <-; now right|auto].
    + rewrite (bool_decide_eq_false_2 (k' = k0)) by exact Hne.
      rewrite (bool_decide_eq_false_2 (k0 = k')) by congruence. simpl.
      intros [E|H]; [auto|]. destruct (IH H) as [H'|H']; auto.
Qed.

Lemma lookupKey_map {V W} (g : string * V -> string * W) k w (l : list (string * V)) :
  (forall kv, fst (g kv) = fst kv) ->
  lookupKey k (map g l) = Some w ->
  exists v, In (k, v) l /\ snd (g (k, v)) = w.
Proof.
  intros Hg. unfold lookupKey. induction l as [|[k0 v0] r IH]; [discriminate|]. simpl.
  destruct (bool_decide (fst (g (k0, v0)) = k)) eqn:E.
  - apply bool_decide_eq_true in E. rewrite Hg in E. simpl in E. subst k0.
    simpl. intros H. injection H as <-. eauto.
  - intros H. destruct (IH H) as (v & Hv & Hw). eauto.
Qed.

(** A specialty of a teacher comes from a record of the teacher that is not
    hosted. *)
Lemma getTeacherSpecialties_In csvData teacher specialties specialty :
  lookupKey teacher (getTeacherSpecialties csvData) = Some specialties ->
  In specialty specialties ->
  exists item, In item csvData /\ teacherName item = teacher
               /\ cleanedClass item = sp_classFormat specialty
               /\ isHostedClass (cleanedClass item) = false
               /\ notBanned teacher.
Proof.
  unfold getTeacherSpecialties. cbv zeta.
  set (step := fun (acc : list (string * list (string * Stats))) (item : ClassData) => _).
  assert (Hfold : forall data t classes f st,
             In (t, classes) (fold_left step data []) -> In (f, st) classes ->
             exists item, In item data /\ teacherName item = t /\ cleanedClass item = f
                          /\ isHostedClass (cleanedClass item) = false /\ notBanned t).
  { induction data as [|item data IH] using rev_ind; [intros t classes f st []|].
    intros t classes f st Hin Hf. rewrite fold_left_app in Hin. simpl in Hin.
    assert (Hold : forall t classes f st,
               In (t, classes) (fold_left step data []) -> In (f, st) classes ->
               exists item0, In item0 (data ++ [item]) /\ teacherName item0 = t
                             /\ cleanedClass item0 = f
                             /\ isHostedClass (cleanedClass item0) = false /\ notBanned t).
    { intros t' c' f' st' H1 H2. destruct (IH t' c' f' st' H1 H2) as (x & Hx & Hr).
      exists x. split; [apply in_or_app; now left|exact Hr]. }
    unfold step at 1 in Hin.
    destruct (isHostedClass (cleanedClass item)) eqn:Hh; [eauto|].
    destruct (includes (teacherName item) "Nishanth" || includes (teacherName item) "Saniya")
      eqn:Hb; [eauto|].
    apply orb_false_iff in Hb as [Hb1 Hb2].
    apply alterKey_In_inv in Hin as [Hin|[-> ->]]; [eauto|].
    apply alterKey_In_inv in Hf as [Hf|[-> _]].
    - destruct (lookupKey (teacherName item) (fold_left step data [])) as [old|] eqn:E;
        [|destruct Hf].
      apply lookupKey_Some_In in E. eauto.
    - exists item. split; [apply in_or_app; right; now left|]. repeat split; auto. }
  intros Hl Hin.
  apply lookupKey_map in Hl as (classes & E & Hs); [|now intros [t c]].
  simpl in Hs. subst specialties.
  apply In_firstn in Hin. apply (proj1 (sortBy_In _ _ _)) in Hin.
  apply in_map_iff in Hin as ([f st] & <- & Hf). simpl.
  eapply Hfold; eauto.
Qed.

Lemma getBestClassForSlot_format csvData loc d t guidelines best :
  getBestClassForSlot csvData loc d t guidelines = Some best ->
  isHostedClass (rf_classFormat best) = false
  /\ isClassAllowedAtLocation (rf_classFormat best) loc = true.
Proof.
  unfold getBestClassForSlot. cbv zeta.
  destruct (length _ =? 0)%nat; [discriminate|].
  destruct (rankedFormats guidelines _) as [|r rest] eqn:E; [discriminate|].
  intros H. injection H as ->.
  assert (Hin : In best (rankedFormats guidelines (slotData csvData loc d t guidelines)))
    by (rewrite E; now left).
  apply rankedFormats_In in Hin as (Hne & _).
  destruct (List.filter _ _) as [|item l] eqn:Ef; [congruence|].
  assert (Hi : In item (item :: l)) by now left.
  rewrite <- Ef in Hi. apply filter_In in Hi as [Hi Hk].
  apply bool_decide_eq_true in Hk. apply slotData_In in Hi.
  rewrite <- Hk. tauto.
Qed.

Lemma defaults_regular :
  forallb (fun x => negb (isHostedClass (dt_classFormat x))
                    && isClassAllowedAtLocation (dt_classFormat x) (dt_location x)
                    && negb (isTimeRestricted (dt_time x) (dt_day x) false)
                    && (isMorningSlot (dt_time x) || isEveningSlot (dt_time x))
                    && elemStr (dt_day x) weekDays
                    && elemStr (dt_location x) locations)
          getDefaultTopClasses = true.
Proof. vm_compute. reflexivity. Qed.

Lemma requiredFormats_not_hosted :
  forallb (fun f => negb (isHostedClass f)) requiredFormats = true.
Proof. vm_compute. reflexivity. Qed.

Lemma elemStr_In x l : elemStr x l = true -> In x l.
Proof.
  unfold elemStr. intros H. apply existsb_exists in H as (y & Hy & E).
  apply bool_decide_eq_true in E. now subst y.
Qed.

Lemma availableSlot_regular d d' t :
  In t (getAvailableTimeSlots d) ->
  isTimeRestricted t d' false = false /\ isMorningSlot t || isEveningSlot t = true.
Proof.
  intros Hin. pose proof availableSlots_unrestricted as H. rewrite forallb_forall in H.
  apply H in Hin. apply andb_true_iff in Hin as [H1 H2].
  apply negb_true_iff in H1. now split.
Qed.


(** ** Phases 0 to 3 as steps *)

Ltac done_B :=
  match goal with
  | HI : Built ?d ?ts ?s0 ?s |- Built ?d ?ts ?s0 ?s => exact HI
  end.

Ltac by_loopB :=
  match goal with
  | HI : Built ?d ?ts ?s0 ?s, H : forEach ?l ?body ?s = Some (?a, ?s')
    |- Built ?d ?ts ?s0 ?s' =>
      refine (forEach_preserves _ _ _ _ _ _ _ HI H); clear H; intros ? ? ? ? ? ? ?
  | HI : Built ?d ?ts ?s0 ?s, H : forOf ?l ?body ?s = Some (?a, ?s')
    |- Built ?d ?ts ?s0 ?s' =>
      refine (forOf_preserves _ _ _ _ _ _ _ HI H); clear H; intros ? ? ? ? ? ? ?
  end.

Ltac walkB := repeat first [progress minv | done_B | by_loopB | mcase].

Section BuildSteps.
Variable csvData : list ClassData.
Variables days teachers : list string.
Variable s0 : State.

Lemma Built_refl : Inv true teachers s0 -> Built days teachers s0 s0.
Proof. intros H. split; [exact H|apply rtc_refl]. Qed.

Lemma Built_assign s classData teacher a s' :
  Built days teachers s0 s ->
  (length (classesInSlot (optimizedClasses s) (c_location classData) (c_day classData)
             (c_time classData))
   < maxParallel (c_location classData))%nat ->
  ~ In (c_classFormat classData)
       (map classFormat (classesInSlot (optimizedClasses s) (c_location classData)
                           (c_day classData) (c_time classData))) ->
  In (c_day classData) days ->
  In (c_location classData) locations ->
  isHostedClass (c_classFormat classData) = false ->
  isClassAllowedAtLocation (c_classFormat classData) (c_location classData) = true ->
  (isTimeRestricted (c_time classData) (c_day classData) false = false
   /\ isMorningSlot (c_time classData) || isEveningSlot (c_time classData) = true) ->
  notBanned teacher ->
  canAssignTeacher s teacher (c_day classData) (c_time classData)
    (getClassDuration (c_classFormat classData)) (c_classFormat classData) = Some true ->
  assignClass classData teacher s = Some (a, s') ->
  Built days teachers s0 s'.
Proof.
  intros [HI Hr] Hcap Hfmt Hday Hloc Hh Hal [Ht1 Ht2] Hban Hcan Ha. destruct a. split.
  - eapply assignClass_Inv; eauto.
  - eapply rtc_r; [exact Hr|]. eapply build_assign; eauto.
Qed.

Lemma Built_counter s n a s' :
  Built days teachers s0 s -> setCounter n s = Some (a, s') -> Built days teachers s0 s'.
Proof.
  intros [HI Hr] Hc. destruct a. split; [eapply Inv_setCounter; eauto|].
  eapply rtc_r; [exact Hr|]. eapply build_counter; eauto.
Qed.

Lemma phase2_steps allTeachers s a s' :
  (forall teacher, In teacher allTeachers -> notBanned teacher) ->
  Built days teachers s0 s -> phase2 csvData allTeachers days s = Some (a, s') ->
  Built days teachers s0 s'.
Proof.
  intros Hall HI H. unfold phase2 in H. walkB.
  match goal with
  | HB : Built _ _ _ ?st, Ha : assignClass _ _ ?st = Some _ |- _ =>
      refine (Built_assign _ _ _ _ _ HB _ _ _ _ _ _ _ _ _ Ha);
        cbn [c_location c_day c_time c_classFormat]
  end.
  - match goal with H : (_ <=? _)%nat = false |- _ => apply Nat.leb_gt in H; exact H end.
  - now apply existsb_format_false.
  - assumption.
  - assumption.
  - match goal with
    | Hs : In ?sp (firstn 3 (default [] (lookupKey ?t (getTeacherSpecialties csvData))))
      |- _ =>
        apply In_firstn in Hs;
        destruct (lookupKey t (getTeacherSpecialties csvData)) as [specs|] eqn:El;
        [|destruct Hs];
        destruct (getTeacherSpecialties_In _ _ _ _ El Hs) as (item & _ & _ & <- & Hh & _)
    end.
    exact Hh.
  - match goal with H : negb (isClassAllowedAtLocation _ _) = false |- _ =>
      now apply negb_false_iff in H end.
  - eapply availableSlot_regular; eassumption.
  - now apply Hall.
  - assumption.
Qed.

Lemma phase3_steps s a s' :
  Built days teachers s0 s -> phase3 csvData days s = Some (a, s') ->
  Built days teachers s0 s'.
Proof.
  intros HI H. unfold phase3 in H. walkB.
  match goal with
  | HB : Built _ _ _ ?st, Ha : assignClass _ _ ?st = Some _ |- _ =>
      refine (Built_assign _ _ _ _ _ HB _ _ _ _ _ _ _ _ _ Ha);
        cbn [c_location c_day c_time c_classFormat]
  end.
  - match goal with H : (_ <=? _)%nat = false |- _ => apply Nat.leb_gt in H; exact H end.
  - now apply existsb_format_false.
  - assumption.
  - assumption.
  - pose proof requiredFormats_not_hosted as Hr. rewrite forallb_forall in Hr.
    match goal with Hf : In ?f requiredFormats |- isHostedClass ?f = false =>
      apply Hr in Hf; now apply negb_true_iff in Hf end.
  - match goal with H : negb (isClassAllowedAtLocation _ _) = false |- _ =>
      now apply negb_false_iff in H end.
  - eapply availableSlot_regular; eassumption.
  - match goal with H : truthy _ = Some _ |- _ => apply truthy_Some in H end.
    eapply getBestTeacherForClass_notBanned; eauto.
  - assumption.
Qed.
End BuildSteps.


Section BuildSteps01.
Variable csvData : list ClassData.
Variables days teachers : list string.
Variable s0 : State.

Lemma default_regular x :
  In x getDefaultTopClasses ->
  isHostedClass (dt_classFormat x) = false
  /\ isClassAllowedAtLocation (dt_classFormat x) (dt_location x) = true
  /\ (isTimeRestricted (dt_time x) (dt_day x) false = false
      /\ isMorningSlot (dt_time x) || isEveningSlot (dt_time x) = true)
  /\ In (dt_day x) weekDays /\ In (dt_location x) locations.
Proof.
  intros Hin. pose proof defaults_regular as H. rewrite forallb_forall in H.
  apply H in Hin. rewrite !andb_true_iff, !negb_true_iff in Hin.
  destruct Hin as (((((H1 & H2) & H3) & H4) & H5) & H6).
  apply elemStr_In in H5, H6. tauto.
Qed.

Lemma phase0_steps options a s' :
  days = daysOf options ->
  Inv true teachers s0 -> optimizedClasses s0 = [] ->
  phase0 options s0 = Some (a, s') -> Built days teachers s0 s'.
Proof.
  intros Hdays HI Hnil H. unfold phase0 in H.
  enough (HJ : Built days teachers s0 s'
               /\ forall c, In c (optimizedClasses s') ->
                    In (sc_location c, day c, time c)
                       (map defaultCell getDefaultTopClasses)) by apply HJ.
  refine (forEach_prefix
            (fun pre st => Built days teachers s0 st
                           /\ forall c, In c (optimizedClasses st) ->
                                In (sc_location c, day c, time c) (map defaultCell pre))
            _ _ _ _ _ _ _ H); clear H.
  - intros pre x post st b st' El [HIst Hcells] H.
    assert (Hgrow : forall c, In c (optimizedClasses st) ->
              In (sc_location c, day c, time c) (map defaultCell (pre ++ [x]))).
    { intros c Hc. rewrite map_app. apply in_or_app. left. now apply Hcells. }
    assert (Hx : In x getDefaultTopClasses).
    { rewrite El. apply in_or_app. right. now left. }
    destruct (default_regular x Hx) as (Hh & Hal & Htime & Hweek & Hloc).
    assert (Hday : (match truthy (targetDay options) with
                    | Some d => negb (bool_decide (dt_day x = d))
                    | None => false
                    end) = false -> In (dt_day x) days).
    { rewrite Hdays. unfold daysOf. destruct (truthy (targetDay options)) as [d|].
      - intros E. apply negb_false_iff, bool_decide_eq_true in E. now left.
      - intros _. exact Hweek. }
    destruct (match truthy (targetDay options) with Some _ => _ | None => _ end);
      [minv; now split|].
    specialize (Hday eq_refl).
    minv. destruct a0; [|minv; now split]. minv.
    assert (Hfresh : ~ In (defaultCell x) (map defaultCell pre)).
    { pose proof defaultCells_NoDup as Hnd. rewrite El, map_app in Hnd. simpl in Hnd.
      apply NoDup_remove_2 in Hnd. intros Hin. apply Hnd. apply in_or_app. now left. }
    assert (Hempty : classesInSlot (optimizedClasses st) (dt_location x) (dt_day x)
                       (dt_time x) = []).
    { apply classesInSlot_nil_of_cells. intros c Hc E. apply Hfresh.
      change (defaultCell x) with (dt_location x, dt_day x, dt_time x).
      rewrite <- E. now apply Hcells. }
    split.
    + refine (Built_assign _ _ _ _ _ _ _ _ HIst _ _ _ _ _ _ _ _ _ H);
        cbn [c_location c_day c_time c_classFormat].
      * rewrite Hempty. simpl. pose proof (maxParallel_ge_2 (dt_location x)). lia.
      * rewrite Hempty. intros [].
      * exact Hday.
      * exact Hloc.
      * exact Hh.
      * exact Hal.
      * exact Htime.
      * now apply defaultTeachers_notBanned.
      * exact Hm.
    + apply assignClass_inv in H as (daily & shifts & _ & _ & ->).
      cbn [optimizedClasses]. intros c Hc.
      apply in_app_or in Hc as [Hc|[<-|[]]]; [now apply Hgrow|].
      rewrite map_app. apply in_or_app. right. now left.
  - split; [now apply Built_refl|]. rewrite Hnil. intros c [].
Qed.

Lemma phase1_slot_steps allTeachers loc d t guidelines isPeak (l : list nat) :
  (forall teacher, In teacher allTeachers -> notBanned teacher) ->
  In d days -> In loc locations -> In t (getAvailableTimeSlots d) ->
  forall s a s',
    Built days teachers s0 s ->
    (length (classesInSlot (optimizedClasses s) loc d t) + length l
     <= maxParallel loc)%nat ->
    forEach l (fun i => phase1_subslot csvData allTeachers loc d t guidelines isPeak) s
    = Some (a, s') ->
    Built days teachers s0 s'.
Proof.
  intros Hall Hd Hloc Ht. induction l as [|i l IH]; intros s a s' HI Hroom H.
  - unfold forEach in H. simpl in H. minv. exact HI.
  - unfold forEach in H. simpl in H. minv.
    fold (forEach l (fun i => phase1_subslot csvData allTeachers loc d t guidelines
                                isPeak)) in H.
    match goal with
    | Hs : phase1_subslot _ _ _ _ _ _ _ _ = Some _ |- _ =>
        apply phase1_subslot_inv in Hs
          as [->|(best & teacher & sA & Hbest & Hfmt & Hcan & Hsrc & Ha & Hc)]
    end.
    + eapply IH; [exact HI| |exact H]. simpl in Hroom. lia.
    + destruct (getBestClassForSlot_format _ _ _ _ _ _ Hbest) as [Hh Hal].
      assert (HI1 : Built days teachers s0 sA).
      { refine (Built_assign _ _ _ _ _ _ _ _ HI _ _ _ _ _ _ _ _ _ Ha);
          cbn [c_location c_day c_time c_classFormat].
        - simpl in Hroom. lia.
        - now apply elemStr_false.
        - exact Hd.
        - exact Hloc.
        - exact Hh.
        - exact Hal.
        - eapply availableSlot_regular; exact Ht.
        - destruct Hsrc as [Hsrc|Hsrc];
            [eapply getBestTeacherForClass_notBanned; eauto|now apply Hall].
        - exact Hcan. }
      eapply IH; [eapply Built_counter; [exact HI1|exact Hc]| |exact H].
      apply setCounter_inv in Hc as (-> & _).
      apply assignClass_inv in Ha as (daily & shifts & _ & _ & ->).
      cbn [optimizedClasses]. rewrite classesInSlot_app. unfold classesInSlot at 2.
      simpl. unfold inCell. simpl. rewrite !bool_decide_eq_true_2 by reflexivity.
      simpl. rewrite length_app. simpl in *. lia.
Qed.

Lemma phase1_steps allTeachers s a s' :
  (forall teacher, In teacher allTeachers -> notBanned teacher) ->
  Built days teachers s0 s -> phase1 csvData allTeachers days s = Some (a, s') ->
  Built days teachers s0 s'.
Proof.
  intros Hall HI H. unfold phase1 in H.
  by_loopB. minv.
  match goal with
  | HI : Built _ _ _ ?st, Hc : setCounter _ ?st = Some (_, ?st') |- _ =>
      assert (HI' : Built days teachers s0 st') by (eapply Built_counter; eauto)
  end.
  by_loopB. by_loopB. minv. mcase; [minv; done_B|]. minv.
  match goal with
  | HI : Built _ _ _ ?st, Hl : forEach (seq 0 _) _ ?st = Some _ |- _ =>
      refine (phase1_slot_steps _ _ _ _ _ _ _ Hall _ _ _ _ _ _ HI _ Hl);
        [assumption|assumption|assumption|]
  end.
  rewrite length_seq.
  match goal with
  | HI : Built _ _ _ ?st |- context [classesInSlot (optimizedClasses ?st) ?loc ?d ?t] =>
      destruct HI as ((Hcells & _) & _); destruct (Hcells loc d t) as [Hlen _];
      pose proof (classesToSchedule_le_2 loc t); pose proof (maxParallel_ge_2 loc)
  end.
  lia.
Qed.
End BuildSteps01.


(** ** Phases 4 and 5 as steps *)

Lemma map_alter_same {A B} (f : A -> B) (g : A -> A) k (l : list A) :
  (forall x, f (g x) = f x) -> map f (alter g k l) = map f l.
Proof.
  intros Hg. change (alter g k l) with (list_alter g k l).
  revert k. induction l as [|x l IH]; intros [|k]; simpl; auto; now rewrite ?Hg, ?IH.
Qed.

Lemma lookup_map {A B} (f : A -> B) (l : list A) i : map f l !! i = f <$> l !! i.
Proof.
  revert i. induction l as [|x l IH]; intros [|i]; simpl; auto.
Qed.

Lemma map_lookup_same {A B} (f : A -> B) (l l' : list A) i c :
  map f l' = map f l -> l !! i = Some c -> exists c', l' !! i = Some c' /\ f c' = f c.
Proof.
  intros E Hi. assert (H : map f l' !! i = Some (f c)) by now rewrite E, lookup_map, Hi.
  rewrite lookup_map in H. destruct (l' !! i) as [c'|]; [|discriminate].
  injection H as H. eauto.
Qed.

Lemma reassignTeacher_rigid k teacher target dur d s a s' :
  reassignTeacher k teacher target dur d s = Some (a, s') ->
  map rigid (optimizedClasses s') = map rigid (optimizedClasses s).
Proof.
  intros H. apply reassignTeacher_inv in H as (_ & _ & _ & _ & -> & _).
  now apply map_alter_same.
Qed.

Lemma moveClass_rigid k newTime s a s' :
  moveClass k newTime s = Some (a, s') ->
  map rigid (optimizedClasses s') = map rigid (optimizedClasses s).
Proof.
  unfold moveClass. intros H. injection H as _ <-. cbn [optimizedClasses].
  now apply map_alter_same.
Qed.

Lemma AdjustStep_rigid days teachers s s' :
  rtc (AdjustStep days teachers) s s' ->
  map rigid (optimizedClasses s') = map rigid (optimizedClasses s).
Proof.
  induction 1 as [s|s s1 s' Hstep _ IH]; [reflexivity|]. rewrite IH.
  destruct Hstep as [k cls target _ _ _ _ _ H|k cls newTime _ _ _ H].
  - eapply reassignTeacher_rigid; eauto.
  - eapply moveClass_rigid; eauto.
Qed.

Lemma tryMove_inv i loc d newTime s b s' cls :
  List.NoDup (map id (optimizedClasses s)) ->
  optimizedClasses s !! i = Some cls ->
  tryMove i loc d newTime s = Some (b, s') ->
  (b = false /\ s' = s) \/ (b = true /\ moveClass i newTime s = Some (tt, s')).
Proof.
  intros Hnd Hi H. unfold tryMove in H. minv.
  match goal with
  | Hl : optimizedClasses s !! i = Some ?x |- _ => rewrite Hl in Hi; injection Hi as ->
  end.
  mcase; [|minv; now left].
  mcase; [|minv; now left]. minv.
  match goal with
  | Hfi : findIndex _ _ = Some ?k |- _ =>
      assert (Hk : k = i) by (eapply findIndex_id; eauto); subst k
  end.
  right. split; [reflexivity|].
  match goal with Hmv : moveClass _ _ _ = Some (?u, _) |- _ => destruct u; exact Hmv end.
Qed.

Section AdjustSteps.
Variables days teachers : list string.

Lemma Adjusted_refl s : Inv false teachers s -> Adjusted days teachers s s.
Proof. intros H. split; [exact H|apply rtc_refl]. Qed.

Lemma Adjusted_trans s0 s s' :
  Adjusted days teachers s0 s -> Adjusted days teachers s s' ->
  Adjusted days teachers s0 s'.
Proof. intros [_ H1] [HI H2]. split; [exact HI|]. etrans; eauto. Qed.

Lemma Adjusted_day s0 s i c d :
  Adjusted days teachers s0 s -> optimizedClasses s0 !! i = Some c -> day c = d ->
  exists c', optimizedClasses s !! i = Some c' /\ day c' = d.
Proof.
  intros [_ Hr] Hi Hd. apply AdjustStep_rigid in Hr.
  destruct (map_lookup_same rigid _ _ i c Hr Hi) as (c' & Hc' & E).
  exists c'. split; [exact Hc'|]. unfold rigid in E. congruence.
Qed.

Lemma consolidateShift_steps shiftClasses d s a s' :
  Inv false teachers s -> In d days -> List.NoDup shiftClasses ->
  (forall i, In i shiftClasses ->
     exists c, optimizedClasses s !! i = Some c /\ day c = d) ->
  consolidateShift shiftClasses d s = Some (a, s') -> Adjusted days teachers s s'.
Proof.
  intros HI Hd Hnd Hrefs H. unfold consolidateShift in H. minv.
  mcase; [|minv; now apply Adjusted_refl].
  set (names := omap (fun i => fullName <$> optimizedClasses s !! i) shiftClasses) in *.
  set (counts := sortBy _ _) in *.
  assert (Hnames : forall tc, In tc counts -> notBanned (fst tc)).
  { intros tc Htc. unfold counts in Htc.
    apply (proj1 (sortBy_In _ _ _)) in Htc.
    apply in_map_iff in Htc as (n & <- & Hn). simpl.
    apply (proj1 (uniq_In _ _)) in Hn. unfold names in Hn.
    apply list_elem_of_In, list_elem_of_omap in Hn as (i & _ & Hi).
    destruct (optimizedClasses s !! i) as [c|] eqn:Hc; [|discriminate].
    injection Hi as <-. destruct HI as (_ & _ & Hok & _). apply Hok.
    apply list_elem_of_In. eapply list_elem_of_lookup_2; eauto. }
  refine (forEach_preserves _ _ _ _ _ _ _ (Adjusted_refl _ HI) H). clear H.
  intros tc s1 b s1' Htc HI1 H. minv.
  set (teacher := fst tc) in *.
  set (teacherClasses := List.filter _ shiftClasses) in *.
  assert (Hnd' : List.NoDup teacherClasses) by now apply List.NoDup_filter.
  enough (HJ : Adjusted days teachers s s1'
               /\ forall i, In i teacherClasses -> ~ In i teacherClasses ->
                    exists c, optimizedClasses s1' !! i = Some c /\ fullName c = teacher)
    by apply HJ.
  refine (forEach_prefix
            (fun pre st => Adjusted days teachers s st
                           /\ forall i, In i teacherClasses -> ~ In i pre ->
                                exists c, optimizedClasses st !! i = Some c
                                          /\ fullName c = teacher)
            _ _ _ _ _ _ _ H); clear H.
  - intros pre i post st b0 st' El [HIst Hrest] H.
    assert (Hi : ~ In i pre).
    { rewrite El in Hnd'. apply NoDup_remove_2 in Hnd'. intros Hin. apply Hnd'.
      apply in_or_app. now left. }
    assert (Hkeep : forall j, In j teacherClasses -> ~ In j (pre ++ [i]) ->
               exists c, optimizedClasses st !! j = Some c /\ fullName c = teacher).
    { intros j Hj Hnj. apply Hrest; [exact Hj|]. intros Hin. apply Hnj.
      apply in_or_app. now left. }
    minv.
    match goal with
    | Hl : optimizedClasses st !! i = Some ?c0,
      Hf : findM _ _ st = Some (?r, _) |- _ =>
        rename c0 into cls; rename r into targetTeacher; rename Hl into Hcls;
        apply (findM_inv _ (fun s0 (t : string * nat) =>
                 canAssignTeacher s0 (fst t) d (time cls) (duration cls)
                                  (classFormat cls)))
          in Hf as [-> Hfound]; [|intros x0 s0 b1 s2; apply canAssign_inv]
    end.
    destruct targetTeacher as [target|]; [|minv; now split].
    destruct Hfound as [Htarget Hcan].
    mcase; [|minv; now split].
    assert (Hin_i : In i teacherClasses) by (rewrite El; apply in_or_app; right; now left).
    destruct (Hrest i Hin_i Hi) as (c & Hc & Hname).
    rewrite Hcls in Hc. injection Hc as <-.
    match goal with
    | Hfi : findIndex _ _ = Some ?k |- _ =>
        assert (Hk : k = i)
          by (destruct HIst as ((_ & [Hndi _] & _) & _); eapply findIndex_id; eauto);
        subst k
    end.
    assert (Hday : day cls = d).
    { assert (Hsh : In i shiftClasses) by (apply filter_In in Hin_i; tauto).
      destruct (Hrefs i Hsh) as (c & Hc & Hcd).
      destruct (Adjusted_day _ _ _ _ _ HIst Hc Hcd) as (c' & Hc' & Hd').
      rewrite Hcls in Hc'. now injection Hc' as <-. }
    assert (Hban : notBanned (fst target)).
    { apply Hnames. unfold last2 in Htarget. eapply In_drop. exact Htarget. }
    assert (HIst' : Adjusted days teachers s st').
    { destruct HIst as [HIst Hr]. destruct b0. split.
      - eapply (reassignTeacher_Inv teachers i teacher (fst target) (duration cls) d
                  (time cls) (classFormat cls) cls); eauto.
      - eapply rtc_r; [exact Hr|].
        eapply (adjust_teacher days teachers st st' i cls (fst target)); eauto.
        + now rewrite Hday.
        + now rewrite Hday.
        + rewrite Hname, Hday. exact H. }
    split; [exact HIst'|].
    intros j Hj Hnj. destruct (Hkeep j Hj Hnj) as (c & Hc & Hcn).
    apply reassignTeacher_inv in H as (_ & _ & _ & _ & Hcl & _). rewrite Hcl.
    assert (Hji : i <> j).
    { intros ->. apply Hnj. apply in_or_app. right. now left. }
    rewrite list_lookup_alter_ne by exact Hji. eauto.
  - split; [exact HI1|]. intros i Hi _. unfold teacherClasses in Hi.
    apply filter_In in Hi as [_ Hi].
    destruct (optimizedClasses s1 !! i) as [c|]; [|discriminate].
    apply bool_decide_eq_true in Hi. eauto.
Qed.
End AdjustSteps.


Section AdjustSteps45.
Variables days teachers : list string.

Lemma phase4_steps s a s' :
  Inv false teachers s -> phase4 days s = Some (a, s') -> Adjusted days teachers s s'.
Proof.
  intros HI H. unfold phase4 in H.
  refine (forEach_preserves _ _ _ _ _ _ _ (Adjusted_refl days teachers _ HI) H). clear H.
  intros loc st b st' _ HA H.
  refine (forEach_preserves _ _ _ _ _ _ _ HA H). clear H.
  intros d st0 b0 st1 Hd HA0 H. minv.
  match goal with
  | Hm : consolidateShift (indicesWhere ?p (optimizedClasses ?x)) d ?x = Some (_, ?y),
    He : consolidateShift (indicesWhere ?q (optimizedClasses ?x)) d ?y = Some _ |- _ =>
      assert (H1 : Adjusted days teachers x y);
      [eapply (consolidateShift_steps days teachers _ d x); [apply HA0|exact Hd| | |exact Hm]
      |assert (H2 : Adjusted days teachers y st1);
       [eapply (consolidateShift_steps days teachers _ d y);
        [apply H1|exact Hd| | |exact He]|]]
  end.
  - apply indicesFrom_NoDup.
  - intros i Hi. apply indicesWhere_In in Hi as (c & Hc & Hp).
    rewrite !andb_true_iff, !bool_decide_eq_true in Hp. exists c. tauto.
  - apply indicesFrom_NoDup.
  - intros i Hi. apply indicesWhere_In in Hi as (c & Hc & Hp).
    rewrite !andb_true_iff, !bool_decide_eq_true in Hp.
    eapply Adjusted_day; [exact H1|exact Hc|tauto].
  - eapply Adjusted_trans; [exact HA0|]. eapply Adjusted_trans; eauto.
Qed.

Lemma tryMove_steps (refs : list nat) i loc d newTime s0 s b s' :
  In i refs -> In newTime (getAvailableTimeSlots d) ->
  (Adjusted days teachers s0 s
   /\ forall j, In j refs ->
        exists c, optimizedClasses s !! j = Some c /\ sc_location c = loc /\ day c = d) ->
  tryMove i loc d newTime s = Some (b, s') ->
  Adjusted days teachers s0 s'
  /\ forall j, In j refs ->
       exists c, optimizedClasses s' !! j = Some c /\ sc_location c = loc /\ day c = d.
Proof.
  intros Hi Ht [[HI Hr] Hrefs] H.
  destruct (tryMove_Inv teachers refs i loc d newTime s b s' Hi (conj HI Hrefs) H)
    as [HI' Hrefs'].
  split; [|exact Hrefs']. split; [exact HI'|].
  destruct (Hrefs i Hi) as (c & Hc & _ & Hday).
  assert (Hnd : List.NoDup (map id (optimizedClasses s)))
    by (destruct HI as (_ & [Hnd _] & _); exact Hnd).
  destruct (tryMove_inv _ _ _ _ _ _ _ c Hnd Hc H) as [[_ ->]|[_ Hmv]]; [exact Hr|].
  eapply rtc_r; [exact Hr|].
  eapply (adjust_time days teachers s s' i c newTime); eauto.
Qed.

Lemma balanceDay_steps loc d s a s' :
  Inv false teachers s -> balanceDay loc d s = Some (a, s') ->
  Adjusted days teachers s s'.
Proof.
  intros HI H. unfold balanceDay in H. minv.
  mcase; [|minv; now apply Adjusted_refl].
  set (refs := indicesWhere _ (optimizedClasses s)) in *.
  enough (HJ : Adjusted days teachers s s'
               /\ forall j, In j refs ->
                    exists c, optimizedClasses s' !! j = Some c
                              /\ sc_location c = loc /\ day c = d) by apply HJ.
  refine (forEach_preserves
            (fun st => Adjusted days teachers s st
                       /\ forall j, In j refs ->
                            exists c, optimizedClasses st !! j = Some c
                                      /\ sc_location c = loc /\ day c = d)
            _ _ _ _ _ _ _ H); clear H.
  - intros i st b st' Hi HJ H. apply In_firstn in Hi.
    refine (forOf_preserves
              (fun st => Adjusted days teachers s st
                         /\ forall j, In j refs ->
                              exists c, optimizedClasses st !! j = Some c
                                        /\ sc_location c = loc /\ day c = d)
              _ _ _ _ _ _ HJ H). clear H.
    intros newTime st1 b1 st1' Ht HJ1 H.
    eapply tryMove_steps; [exact Hi| |exact HJ1|exact H].
    unfold targetSlots in Ht. now apply filter_In in Ht as [Ht _].
  - split; [now apply Adjusted_refl|]. intros j Hj. unfold refs in Hj.
    apply indicesWhere_In in Hj as (c & Hc & Hp).
    rewrite !andb_true_iff, !bool_decide_eq_true in Hp. exists c. tauto.
Qed.

Lemma phase5_steps s a s' :
  Inv false teachers s -> phase5 days s = Some (a, s') -> Adjusted days teachers s s'.
Proof.
  intros HI H. unfold phase5 in H.
  refine (forEach_preserves _ _ _ _ _ _ _ (Adjusted_refl days teachers _ HI) H). clear H.
  intros loc st b st' _ HA H.
  refine (forEach_preserves _ _ _ _ _ _ _ HA H). clear H.
  intros d st0 b0 st1 _ HA0 H.
  eapply Adjusted_trans; [exact HA0|]. eapply balanceDay_steps; [apply HA0|exact H].
Qed.
End AdjustSteps45.

(** Every run that returns is a sequence of steps of Phases 0 to 3 followed
    by a sequence of steps of Phases 4 and 5. *)
Lemma runPhases_steps csvData options a s' :
  runPhases csvData options (initialState (allTeachersOf csvData) (daysOf options))
  = Some (a, s') ->
  exists s3,
    Built (daysOf options) (allTeachersOf csvData)
      (initialState (allTeachersOf csvData) (daysOf options)) s3
    /\ Adjusted (daysOf options) (allTeachersOf csvData) s3 s'.
Proof.
  intros H. unfold runPhases in H.
  pose proof (initialState_Inv (allTeachersOf csvData) (daysOf options)) as HI.
  pose proof (allTeachersOf_notBanned csvData) as Hall.
  apply bind_inv in H as (a0 & s0 & H0 & H).
  apply bind_inv in H as (a1 & s1 & H1 & H).
  apply bind_inv in H as (a2 & s2 & H2 & H).
  apply bind_inv in H as (a3 & s3 & H3 & H).
  apply bind_inv in H as (a4 & s4 & H4 & H).
  assert (HB : Built (daysOf options) (allTeachersOf csvData)
                 (initialState (allTeachersOf csvData) (daysOf options)) s3).
  { eapply phase3_steps; [|exact H3].
    eapply phase2_steps; [exact Hall| |exact H2].
    eapply phase1_steps; [exact Hall| |exact H1].
    eapply phase0_steps; [reflexivity|exact HI|reflexivity|exact H0]. }
  exists s3. split; [exact HB|].
  destruct HB as [HI3 _]. apply Inv_weaken in HI3.
  eapply Adjusted_trans; [eapply phase4_steps; [exact HI3|exact H4]|].
  eapply phase5_steps; [|exact H].
  eapply phase4_Inv; eauto.
Qed.


(** ** The rules every class of a generated schedule obeys *)

Lemma isSeniorTrainer_shownName t : isSeniorTrainer (shownName t) = isSeniorTrainer t.
Proof.
  unfold isSeniorTrainer, seniorTrainers. simpl.
  rewrite !includes_shownName; auto; discriminate.
Qed.

Lemma In_elemStr x l : In x l -> elemStr x l = true.
Proof.
  intros H. destruct (elemStr x l) eqn:E; [reflexivity|].
  now apply elemStr_false in E.
Qed.

Lemma canAssignTeacher_tier s teacher d t dur format :
  canAssignTeacher s teacher d t dur format = Some true ->
  (isNewTrainer teacher = true -> In format newTrainerFormats)
  /\ (In format advancedFormats -> isSeniorTrainer teacher = true).
Proof.
  unfold canAssignTeacher, canAssignVerdict.
  destruct (isNewTrainer teacher) eqn:En; cbn [andb].
  - destruct (elemStr format newTrainerFormats) eqn:Ef; [|discriminate]. cbn [negb].
    destruct (elemStr format advancedFormats && negb (isSeniorTrainer teacher)) eqn:Ea;
      [discriminate|].
    intros _. split; [intros _; now apply elemStr_In|].
    intros Hin. apply In_elemStr in Hin. rewrite Hin in Ea.
    now destruct (isSeniorTrainer teacher).
  - destruct (elemStr format advancedFormats && negb (isSeniorTrainer teacher)) eqn:Ea;
      [discriminate|].
    intros _. split; [discriminate|].
    intros Hin. apply In_elemStr in Hin. rewrite Hin in Ea.
    now destruct (isSeniorTrainer teacher).
Qed.

Lemma BuildStep_lawful days teachers s s' :
  BuildStep days teachers s s' ->
  lawful days (optimizedClasses s) -> lawful days (optimizedClasses s').
Proof.
  intros [classData teacher _ Hday Hloc Hh Hal Ht1 Ht2 _ Hcan Ha|n _ Hc] Hl.
  - apply assignClass_inv in Ha as (daily & shifts & _ & _ & ->).
    cbn [optimizedClasses]. intros cls Hin.
    apply in_app_or in Hin as [Hin|[<-|[]]]; [now apply Hl|].
    split.
    + unfold regularClass. cbn [newClass day sc_location classFormat time isPrivate duration].
      tauto.
    + unfold tierRespected. rewrite fullName_newClass, isNewTrainer_shownName,
        isSeniorTrainer_shownName. cbn [newClass classFormat].
      exact (canAssignTeacher_tier _ _ _ _ _ _ Hcan).
  - apply setCounter_inv in Hc as (-> & _). exact Hl.
Qed.

Lemma AdjustStep_lawful days teachers s s' :
  AdjustStep days teachers s s' ->
  lawful days (optimizedClasses s) -> lawful days (optimizedClasses s').
Proof.
  intros [k c0 target _ Hk Hday _ Hcan Hr|k c0 newTime _ Hk Hnew Hm] Hl.
  - apply reassignTeacher_inv in Hr as (_ & _ & _ & _ & -> & _).
    intros cls Hin. apply In_alter in Hin as [Hin|(x & Hx & ->)]; [now apply Hl|].
    rewrite Hk in Hx. injection Hx as <-.
    apply list_elem_of_lookup_2, list_elem_of_In in Hk.
    destruct (Hl c0 Hk) as [Hreg _]. split; [exact Hreg|].
    unfold tierRespected. rewrite fullName_setTeacher, isNewTrainer_shownName,
      isSeniorTrainer_shownName.
    exact (canAssignTeacher_tier _ _ _ _ _ _ Hcan).
  - unfold moveClass in Hm. injection Hm as <-. cbn [optimizedClasses].
    intros cls Hin. apply In_alter in Hin as [Hin|(x & Hx & ->)]; [now apply Hl|].
    rewrite Hk in Hx. injection Hx as <-.
    apply list_elem_of_lookup_2, list_elem_of_In in Hk.
    destruct (Hl c0 Hk) as [(H1 & H2 & H3 & H4 & H5 & H6 & H7 & H8) Htier].
    destruct (availableSlot_regular _ (day c0) _ Hnew) as [Hr1 Hr2].
    split; [|exact Htier].
    unfold regularClass. cbn [setTime day sc_location classFormat time isPrivate duration].
    tauto.
Qed.

Lemma rtc_preserves {A} (R : relation A) (P : A -> Prop) :
  (forall x y, R x y -> P x -> P y) -> forall x y, rtc R x y -> P x -> P y.
Proof.
  intros Hstep x y H. induction H as [x|x y z Hxy _ IH]; [auto|].
  intros Hx. apply IH. eapply Hstep; eauto.
Qed.

Lemma runPhases_lawful csvData options a s' :
  runPhases csvData options (initialState (allTeachersOf csvData) (daysOf options))
  = Some (a, s') ->
  lawful (daysOf options) (optimizedClasses s').
Proof.
  intros H. apply runPhases_steps in H as (s3 & [_ HB] & [_ HA]).
  refine (rtc_preserves _ (fun s => lawful (daysOf options) (optimizedClasses s))
            (AdjustStep_lawful _ _) _ _ HA _).
  refine (rtc_preserves _ (fun s => lawful (daysOf options) (optimizedClasses s))
            (BuildStep_lawful _ _) _ _ HB _).
  intros cls [].
Qed.

Lemma generateIntelligentSchedule_lawful csvData customTeachers options classes :
  generateIntelligentSchedule csvData customTeachers options = Some classes ->
  lawful (daysOf options) classes.
Proof.
  unfold generateIntelligentSchedule. intros H.
  destruct (runPhases _ _ _) as [[a s]|] eqn:E; [|discriminate].
  injection H as <-. exact (runPhases_lawful _ _ _ _ E).
Qed.

(** Every class of a schedule returned by [generateIntelligentSchedule] is on a
    day of the run and at one of the three studios, is not a hosted class, has
    a format allowed at its location, is not private, lies outside the restricted
    period of 12:00 to 17:00 in a morning or evening slot, and lasts what
    [getClassDuration] gives for its format. *)
Theorem generateIntelligentSchedule_rules csvData customTeachers options classes cls :
  generateIntelligentSchedule csvData customTeachers options = Some classes ->
  In cls classes ->
  regularClass (daysOf options) cls.
Proof.
  intros H Hin. exact (proj1 (generateIntelligentSchedule_lawful _ _ _ _ H cls Hin)).
Qed.

Lemma generateIntelligentSchedule_rules_witness :
  exists classes cls,
    generateIntelligentSchedule trimmedRecords [] {| targetDay := Some "Monday" |}
    = Some classes
    /\ head classes = Some cls
    /\ regularClass ["Monday"] cls.
Proof.
  destruct (generateIntelligentSchedule trimmedRecords [] {| targetDay := Some "Monday" |})
    as [classes|] eqn:E; [|vm_compute in E; discriminate].
  destruct classes as [|cls l]; [vm_compute in E; discriminate|].
  exists (cls :: l), cls. split; [reflexivity|]. split; [reflexivity|].
  apply (generateIntelligentSchedule_rules
           trimmedRecords [] {| targetDay := Some "Monday" |} (cls :: l) cls E).
  now left.
Defined.

(** In a schedule returned by [generateIntelligentSchedule], a class shown
    under a name that holds Kabir or Simonelle has one of the five formats
    open to new trainers, and a class of an advanced format (Studio HIIT,
    Studio Amped Up!) is shown under the name of a senior trainer. *)
Theorem generateIntelligentSchedule_trainer_tiers
    csvData customTeachers options classes cls :
  generateIntelligentSchedule csvData customTeachers options = Some classes ->
  In cls classes ->
  tierRespected cls.
Proof.
  intros H Hin. exact (proj2 (generateIntelligentSchedule_lawful _ _ _ _ H cls Hin)).
Qed.

Lemma generateIntelligentSchedule_trainer_tiers_witness :
  exists classes cls,
    generateIntelligentSchedule trimmedRecords [] {| targetDay := Some "Monday" |}
    = Some classes
    /\ head classes = Some cls
    /\ tierRespected cls.
Proof.
  destruct (generateIntelligentSchedule trimmedRecords [] {| targetDay := Some "Monday" |})
    as [classes|] eqn:E; [|vm_compute in E; discriminate].
  destruct classes as [|cls l]; [vm_compute in E; discriminate|].
  exists (cls :: l), cls. split; [reflexivity|]. split; [reflexivity|].
  apply (generateIntelligentSchedule_trainer_tiers
           trimmedRecords [] {| targetDay := Some "Monday" |} (cls :: l) cls E).
  now left.
Defined.


(** ** Daily hours *)

Lemma getTeacherDailyHours_dailySum classes name d :
  getTeacherDailyHours classes name d == dailySum classes name d.
Proof.
  unfold getTeacherDailyHours. rewrite fold_left_durations.
  induction classes as [|c l IH]; simpl; [reflexivity|].
  unfold dailyContribution at 1.
  destruct (bool_decide (fullName c = name) && bool_decide (day c = d)); simpl.
  - rewrite <- IH. ring.
  - rewrite <- IH. ring.
Qed.

Lemma dailySum_app l1 l2 name d :
  dailySum (l1 ++ l2) name d == dailySum l1 name d + dailySum l2 name d.
Proof.
  induction l1 as [|c l IH]; simpl; [ring|]. rewrite IH. ring.
Qed.




(** ** Working days of a daily tracker *)





(** ** The daily tracker along the steps of a run *)








Section DailySteps.
Variables days teachers : list string.
Hypothesis trimmed : forall t, In t teachers -> endsWithSpace t = false.




End DailySteps.


Section DailyReassign.
Variables days teachers : list string.
Hypothesis trimmed : forall t, In t teachers -> endsWithSpace t = false.

End DailyReassign.


Section DailyRun.
Variables days teachers : list string.
Hypothesis trimmed : forall t, In t teachers -> endsWithSpace t = false.


End DailyRun.

Lemma allTeachersOf_trimmed csvData :
  forallb (fun item => negb (endsWithSpace (teacherName item))) csvData = true ->
  forall t, In t (allTeachersOf csvData) -> endsWithSpace t = false.
Proof.
  intros Htrim t Ht. apply allTeachersOf_In in Ht as (item & Hin & <-).
  rewrite forallb_forall in Htrim. apply Htrim in Hin. now apply negb_true_iff in Hin.
Qed.









Lemma weekDays_NoDup : List.NoDup weekDays.
Proof.
  repeat (constructor; [simpl; intuition discriminate|]). constructor.
Qed.






(** ** The teachers of a generated schedule *)

Lemma canAssignTeacher_known rounded teachers s teacher d t dur format :
  Inv rounded teachers s ->
  canAssignTeacher s teacher d t dur format = Some true ->
  In teacher teachers.
Proof.
  intros (_ & _ & _ & _ & Hsame & Hknown & _) Hcan.
  apply canAssignTeacher_true in Hcan as [Hd _]. apply Hknown. now apply Hsame.
Qed.

Lemma BuildStep_shown days teachers s s' :
  BuildStep days teachers s s' ->
  (forall c, In c (optimizedClasses s) -> shownBy teachers c) ->
  forall c, In c (optimizedClasses s') -> shownBy teachers c.
Proof.
  intros [classData teacher HI _ _ _ _ _ _ _ Hcan Ha|n _ Hc] H.
  - apply assignClass_inv in Ha as (daily & shifts & _ & _ & ->).
    cbn [optimizedClasses]. intros c Hin.
    apply in_app_or in Hin as [Hin|[<-|[]]]; [now apply H|].
    exists teacher. split; [|split; reflexivity].
    exact (canAssignTeacher_known _ _ _ _ _ _ _ _ HI Hcan).
  - apply setCounter_inv in Hc as (-> & _). exact H.
Qed.

Lemma AdjustStep_shown days teachers s s' :
  AdjustStep days teachers s s' ->
  (forall c, In c (optimizedClasses s) -> shownBy teachers c) ->
  forall c, In c (optimizedClasses s') -> shownBy teachers c.
Proof.
  intros [k c0 target HI Hk _ _ Hcan Hr|k c0 newTime _ Hk _ Hm] H.
  - apply reassignTeacher_inv in Hr as (_ & _ & _ & _ & -> & _).
    intros c Hin. apply In_alter in Hin as [Hin|(x & Hx & ->)]; [now apply H|].
    exists target. split; [|split; reflexivity].
    exact (canAssignTeacher_known _ _ _ _ _ _ _ _ HI Hcan).
  - unfold moveClass in Hm. injection Hm as <-. cbn [optimizedClasses].
    intros c Hin. apply In_alter in Hin as [Hin|(x & Hx & ->)]; [now apply H|].
    rewrite Hk in Hx. injection Hx as <-.
    apply list_elem_of_lookup_2, list_elem_of_In in Hk.
    destruct (H c0 Hk) as (t & Ht & H1 & H2). exists t. auto.
Qed.

(** Every class of a schedule returned by [generateIntelligentSchedule] is
    shown under the name of a teacher of the historic records: the teacher
    name of some record, with neither Nishanth nor Saniya in it, split at the
    first blank into first and last name.  The curated classes of Phase 0 and
    the required formats of Phase 3 are no exception. *)
Theorem generateIntelligentSchedule_known_teachers
    csvData customTeachers options classes cls :
  generateIntelligentSchedule csvData customTeachers options = Some classes ->
  In cls classes ->
  exists item,
    In item csvData
    /\ notBanned (teacherName item)
    /\ teacherFirstName cls = hd "" (split " " (teacherName item))
    /\ teacherLastName cls = join " " (tl (split " " (teacherName item))).
Proof.
  unfold generateIntelligentSchedule. intros H Hin.
  destruct (runPhases _ _ _) as [[a s]|] eqn:E; [|discriminate].
  injection H as <-. apply runPhases_steps in E as (s3 & [_ HB] & [_ HA]).
  assert (Hshown : forall c, In c (optimizedClasses s) ->
            shownBy (allTeachersOf csvData) c).
  { refine (rtc_preserves _
              (fun st => forall c, In c (optimizedClasses st) ->
                 shownBy (allTeachersOf csvData) c)
              (AdjustStep_shown _ _) _ _ HA _).
    refine (rtc_preserves _
              (fun st => forall c, In c (optimizedClasses st) ->
                 shownBy (allTeachersOf csvData) c)
              (BuildStep_shown _ _) _ _ HB _).
    intros c []. }
  destruct (Hshown cls Hin) as (t & Ht & Hname).
  pose proof (allTeachersOf_notBanned _ _ Ht) as Hban.
  apply allTeachersOf_In in Ht as (item & Hitem & <-).
  exists item. split; [exact Hitem|]. split; [exact Hban|exact Hname].
Qed.

Lemma generateIntelligentSchedule_known_teachers_witness :
  exists classes cls,
    generateIntelligentSchedule trimmedRecords [] {| targetDay := Some "Monday" |}
    = Some classes
    /\ head classes = Some cls
    /\ exists item,
         In item trimmedRecords
         /\ notBanned (teacherName item)
         /\ teacherFirstName cls = hd "" (split " " (teacherName item))
         /\ teacherLastName cls = join " " (tl (split " " (teacherName item))).
Proof.
  destruct (generateIntelligentSchedule trimmedRecords [] {| targetDay := Some "Monday" |})
    as [classes|] eqn:E; [|vm_compute in E; discriminate].
  destruct classes as [|cls l]; [vm_compute in E; discriminate|].
  exists (cls :: l), cls. split; [reflexivity|]. split; [reflexivity|].
  apply (generateIntelligentSchedule_known_teachers
           trimmedRecords [] {| targetDay := Some "Monday" |} (cls :: l) cls E).
  now left.
Defined.


(** ** Dictionaries over any items *)

Section ItemDictionaries.
Context {I V : Type}.
Implicit Types (key : I -> string) (add : I -> option V -> V).

Lemma reduceWith_snoc key add items x :
  reduceWith key add (items ++ [x]) = alterKey (add x) (key x) (reduceWith key add items).
Proof. unfold reduceWith. now rewrite fold_left_app. Qed.

Lemma accumulatedWith_snoc add items x :
  accumulatedWith add (items ++ [x]) = Some (add x (accumulatedWith add items)).
Proof. unfold accumulatedWith. now rewrite fold_left_app. Qed.

Lemma reduceWith_NoDup key add items : List.NoDup (map fst (reduceWith key add items)).
Proof.
  induction items as [|x items IH] using rev_ind; [constructor|].
  rewrite reduceWith_snoc. now apply alterKey_NoDup.
Qed.

(** The entry of a key is what [add] accumulates over the items of that key,
    in input order. *)
Lemma reduceWith_lookup key add items k :
  lookupKey k (reduceWith key add items)
  = accumulatedWith add (List.filter (fun x => bool_decide (key x = k)) items).
Proof.
  induction items as [|x items IH] using rev_ind; [reflexivity|].
  rewrite reduceWith_snoc, lookupKey_alterKey, List.filter_app. simpl.
  destruct (decide (key x = k)) as [<-|Hne].
  - rewrite !bool_decide_eq_true_2 by auto.
    now rewrite accumulatedWith_snoc, IH.
  - rewrite (bool_decide_eq_false_2 (key x = k)) by auto.
    rewrite (bool_decide_eq_false_2 (k = key x)) by auto.
    now rewrite app_nil_r.
Qed.

Lemma reduceWith_In key add items k v :
  In (k, v) (reduceWith key add items)
  <-> accumulatedWith add (List.filter (fun x => bool_decide (key x = k)) items) = Some v.
Proof.
  rewrite lookupKey_In by apply reduceWith_NoDup. now rewrite reduceWith_lookup.
Qed.
End ItemDictionaries.










(** ** Hours per name: exact and rounded sums *)










(** ** Suggestions without a provider *)







(** ** The schedule without a provider *)

(** Without a provider, or when the round trip fails, [generateOptimizedSchedule]
    is a full-week run of [generateIntelligentSchedule]: it reads neither the
    current schedule nor the options, so a [targetDay] in them has no effect
    and the classes of the result are spread over the week days. *)
Theorem generateOptimizedSchedule_local
    provider aiReply historicData currentSchedule customTeachers options :
  providerMissing provider = true \/ aiReply = None ->
  generateOptimizedSchedule provider aiReply historicData currentSchedule customTeachers
    options
  = generateIntelligentSchedule historicData customTeachers {| targetDay := None |}
  /\ (forall currentSchedule' options',
        generateOptimizedSchedule provider aiReply historicData currentSchedule'
          customTeachers options'
        = generateOptimizedSchedule provider aiReply historicData currentSchedule
            customTeachers options)
  /\ (forall classes cls,
        generateOptimizedSchedule provider aiReply historicData currentSchedule
          customTeachers options = Some classes ->
        In cls classes -> regularClass weekDays cls).
Proof.
  intros Hp.
  assert (E : forall cs o,
            generateOptimizedSchedule provider aiReply historicData cs customTeachers o
            = generateIntelligentSchedule historicData customTeachers
                {| targetDay := None |}).
  { intros cs o. unfold generateOptimizedSchedule, generateIntelligentLocalSchedule.
    destruct Hp as [-> | ->]; [reflexivity|now destruct (providerMissing provider)]. }
  split; [apply E|]. split; [intros; now rewrite !E|].
  intros classes cls H Hin. rewrite E in H.
  exact (proj1 (generateIntelligentSchedule_lawful _ _ _ _ H cls Hin)).
Qed.

Lemma generateOptimizedSchedule_local_witness :
  generateOptimizedSchedule None None [] [] [] {| targetDay := Some "Monday" |}
  = generateIntelligentSchedule [] [] {| targetDay := None |}.
Proof.
  exact (proj1 (generateOptimizedSchedule_local None None [] [] []
                  {| targetDay := Some "Monday" |} (or_introl eq_refl))).
Defined.


(** ** The teacher chosen for a class *)



(** ** The specialties of a teacher *)


Lemma accumulatedWith_None {I V} (add : I -> option V -> V) items :
  accumulatedWith add items = None <-> items = [].
Proof.
  destruct items as [|x items _] using rev_ind; [tauto|].
  rewrite accumulatedWith_snoc. split; [discriminate|]. now destruct items.
Qed.











(** ** The daily rule and the days off of a manual schedule *)

Lemma dailySum_snoc classes cls name d :
  dailySum (classes ++ [cls]) name d
  == dailySum classes name d + dailyContribution name d cls.
Proof. rewrite dailySum_app. simpl. ring. Qed.

Lemma getTeacherDaysOff_In classes name d :
  In d (getTeacherDaysOff classes name)
  <-> In d weekDays /\ forall c, In c classes -> fullName c = name -> day c <> d.
Proof.
  unfold getTeacherDaysOff. rewrite filter_In, negb_true_iff. split.
  - intros [Hd Hoff]. split; [exact Hd|]. intros c Hc Hn Hday.
    apply elemStr_false in Hoff. apply Hoff. apply in_map_iff. exists c.
    split; [exact Hday|]. apply filter_In. split; [exact Hc|].
    now apply bool_decide_eq_true_2.
  - intros [Hd Hoff]. split; [exact Hd|].
    destruct (elemStr d _) eqn:E; [|reflexivity]. exfalso.
    apply elemStr_In, in_map_iff in E as (c & Hday & Hc).
    apply filter_In in Hc as [Hc Hn]. apply bool_decide_eq_true in Hn.
    exact (Hoff c Hc Hn Hday).
Qed.

(** [canTeacherTakeClass] accepts a class for a teacher and day exactly when
    [getTeacherDailyHours] of the schedule with the class added stays within 4
    hours; adding a class leaves the daily hours of every other name or day
    as they are.  A day is among [getTeacherDaysOff] exactly when it is a week
    day without a class under the name, and adding a class takes the day of
    the class, and no other day, out of the days off of its teacher. *)
Theorem canTeacherTakeClass_spec classes cls :
  (canTeacherTakeClass classes (fullName cls) (day cls) (duration cls) = true
   <-> getTeacherDailyHours (classes ++ [cls]) (fullName cls) (day cls) <= 4)
  /\ (forall name d, name <> fullName cls \/ d <> day cls ->
        getTeacherDailyHours (classes ++ [cls]) name d
        == getTeacherDailyHours classes name d)
  /\ (forall name d,
        In d (getTeacherDaysOff classes name)
        <-> In d weekDays /\ forall c, In c classes -> fullName c = name -> day c <> d)
  /\ (forall d,
        In d (getTeacherDaysOff (classes ++ [cls]) (fullName cls))
        <-> In d (getTeacherDaysOff classes (fullName cls)) /\ d <> day cls).
Proof.
  split; [|split; [|split]].
  - unfold canTeacherTakeClass. rewrite Qle_bool_iff.
    rewrite !getTeacherDailyHours_dailySum, dailySum_snoc.
    unfold dailyContribution. rewrite !bool_decide_eq_true_2 by reflexivity.
    cbn [andb]. reflexivity.
  - intros name d Hne. rewrite !getTeacherDailyHours_dailySum, dailySum_snoc.
    unfold dailyContribution.
    destruct Hne as [Hne|Hne].
    + rewrite (bool_decide_eq_false_2 (fullName cls = name)) by congruence.
      cbn [andb]. ring.
    + rewrite (bool_decide_eq_false_2 (day cls = d)) by congruence.
      rewrite andb_false_r. ring.
  - apply getTeacherDaysOff_In.
  - intros d. rewrite !getTeacherDaysOff_In. split.
    + intros [Hd Hoff]. split; [split; [exact Hd|]|].
      * intros c Hc. apply Hoff. apply in_or_app. now left.
      * intros E. apply (Hoff cls); [apply in_or_app; right; now left|reflexivity|].
        now symmetry.
    + intros [[Hd Hoff] Hne]. split; [exact Hd|].
      intros c Hc Hn. apply in_app_or in Hc as [Hc|[<-|[]]]; [now apply Hoff|].
      congruence.
Qed.


(** ** The CSV import *)

Lemma space_isSpaceChar c : Ascii.eqb c " " = true -> isSpaceChar c = true.
Proof. intros H. apply Ascii.eqb_eq in H. now subst c. Qed.

Lemma trimEnd_endsWithSpace s : endsWithSpace (trimEnd s) = false.
Proof.
  induction s as [|c r IH]; [reflexivity|]. simpl.
  destruct (trimEnd r) as [|c' r'] eqn:E.
  - destruct (isSpaceChar c) eqn:Ec; [reflexivity|]. simpl.
    destruct (Ascii.eqb c " ") eqn:E'; [|reflexivity].
    apply space_isSpaceChar in E'. congruence.
  - exact IH.
Qed.

Lemma trim_endsWithSpace s : endsWithSpace (trim s) = false.
Proof. apply trimEnd_endsWithSpace. Qed.

Lemma trimEnd_idem s : trimEnd (trimEnd s) = trimEnd s.
Proof.
  induction s as [|c r IH]; [reflexivity|]. simpl.
  destruct (trimEnd r) as [|c' r'] eqn:E.
  - destruct (isSpaceChar c) eqn:Ec; [reflexivity|]. simpl. now rewrite Ec.
  - simpl in IH |- *. destruct (trimEnd r') as [|c2 r2] eqn:E2.
    + destruct (isSpaceChar c'); [discriminate|]. now rewrite IH.
    + now rewrite IH.
Qed.

(** Trimming the end keeps a first character that is no blank. *)
Lemma trimStart_trimEnd s : trimStart s = s -> trimStart (trimEnd s) = trimEnd s.
Proof.
  destruct s as [|c r]; [reflexivity|]. simpl.
  destruct (isSpaceChar c) eqn:Ec.
  - intros H. exfalso.
    assert (Hlen : forall x, (String.length (trimStart x) <= String.length x)%nat).
    { induction x as [|a x IHx]; simpl; [lia|]. destruct (isSpaceChar a); simpl; lia. }
    pose proof (Hlen r) as Hl. rewrite H in Hl. simpl in Hl. lia.
  - intros _. destruct (trimEnd r) as [|c' r']; simpl; now rewrite Ec.
Qed.

Lemma trimStart_idem s : trimStart (trimStart s) = trimStart s.
Proof.
  induction s as [|c r IH]; [reflexivity|]. simpl.
  destruct (isSpaceChar c) eqn:Ec; [exact IH|]. simpl. now rewrite Ec.
Qed.

Lemma trim_idem s : trim (trim s) = trim s.
Proof.
  unfold trim. rewrite (trimStart_trimEnd (trimStart s)) by apply trimStart_idem.
  apply trimEnd_idem.
Qed.

Lemma importRow_inv row r :
  importRow row = Some r ->
  isValidRow r = true
  /\ location (imp_item r) = cell row "Location"
  /\ cleanedClass (imp_item r) = cell row "Cleaned Class"
  /\ dayOfWeek (imp_item r) = cell row "Day of the Week"
  /\ classTime (imp_item r) = cell row "Class Time"
  /\ participants (imp_item r) = parseCount (row !! "Participants")
  /\ totalRevenue (imp_item r) = parseNumber (row !! "Total Revenue")
  /\ exists name, teacherName (imp_item r) = trim name.
Proof.
  unfold importRow.
  destruct (isEmptyString (cell row "Cleaned Class")) eqn:E1; [discriminate|].
  destruct (isEmptyString (cell row "Location")) eqn:E2; [discriminate|].
  destruct (isEmptyString (cell row "Day of the Week")) eqn:E3; [discriminate|].
  destruct (isEmptyString (cell row "Teacher First Name")) eqn:E4; [discriminate|].
  destruct (isEmptyString (cell row "Teacher Last Name")) eqn:E5; [discriminate|].
  cbn [orb]. intros H. injection H as <-.
  unfold isValidRow. cbn [imp_item imp_teacherFirstName imp_teacherLastName location
                            cleanedClass dayOfWeek classTime participants totalRevenue
                            teacherName].
  rewrite E1, E2, E3, E4, E5. repeat split; eauto.
Qed.

Lemma filter_all {A} (p : A -> bool) (l : list A) :
  (forall x, In x l -> p x = true) -> List.filter p l = l.
Proof.
  induction l as [|x l IH]; intros H; [reflexivity|]. simpl.
  rewrite (H x (or_introl eq_refl)). f_equal. apply IH. intros y Hy. apply H. now right.
Qed.

Lemma In_omap {A B} (f : A -> option B) (l : list A) y :
  In y (omap f l) <-> exists x, In x l /\ f x = Some y.
Proof.
  rewrite <- list_elem_of_In, list_elem_of_omap. split.
  - intros (x & Hx & E). exists x. split; [now apply list_elem_of_In|exact E].
  - intros (x & Hx & E). exists x. split; [now apply list_elem_of_In|exact E].
Qed.

Lemma processParsed_inv fields rows data :
  processParsed fields rows = Uploaded data ->
  incl requiredColumns fields
  /\ data <> []
  /\ data = map imp_item (omap importRow rows).
Proof.
  unfold processParsed. destruct (length rows =? 0)%nat; [discriminate|].
  destruct (0 <? length _)%nat eqn:Em; [discriminate|].
  assert (Hvalid : List.filter isValidRow (omap importRow rows) = omap importRow rows).
  { apply filter_all. intros r Hr. apply In_omap in Hr as (row & _ & Hrow).
    now apply importRow_inv in Hrow. }
  rewrite Hvalid.
  destruct (length (map imp_item (omap importRow rows)) =? 0)%nat eqn:El; [discriminate|].
  intros H. injection H as <-. split; [|split; [|reflexivity]].
  - apply Nat.ltb_ge in Em.
    destruct (List.filter _ requiredColumns) as [|c l] eqn:Ef; [|simpl in Em; lia].
    intros col Hcol. destruct (elemStr col fields) eqn:Ec; [now apply elemStr_In|].
    assert (Hin : In col (List.filter (fun col => negb (elemStr col fields))
                            requiredColumns)).
    { apply filter_In. split; [exact Hcol|]. now rewrite Ec. }
    rewrite Ef in Hin. destruct Hin.
  - intros E. rewrite E in El. discriminate.
Qed.

Lemma processParsed_item fields rows data item :
  processParsed fields rows = Uploaded data -> In item data ->
  exists row r, In row rows /\ importRow row = Some r /\ item = imp_item r.
Proof.
  intros H Hin. apply processParsed_inv in H as (_ & _ & ->).
  apply in_map_iff in Hin as (r & <- & Hr). apply In_omap in Hr as (row & Hrow & E).
  eauto.
Qed.


(** When the import accepts a file, the headers hold the ten required columns
    and the data are the mapped lines in order, at least one; the validation
    after the mapping removes none.  Every record has a location, a class and
    a day that are not empty; its location, class, day, class time and teacher
    name are trimmed, so the teacher name does not end with a blank; its
    participants and revenue are read from the cells by the two parsers, which
    give 0 for a missing, empty or unreadable cell. *)
Theorem processParsed_spec fields rows data :
  processParsed fields rows = Uploaded data ->
  incl requiredColumns fields
  /\ data <> []
  /\ data = map imp_item (omap importRow rows)
  /\ forall item, In item data ->
       location item <> "" /\ cleanedClass item <> "" /\ dayOfWeek item <> ""
       /\ trim (location item) = location item
       /\ trim (cleanedClass item) = cleanedClass item
       /\ trim (dayOfWeek item) = dayOfWeek item
       /\ trim (classTime item) = classTime item
       /\ trim (teacherName item) = teacherName item
       /\ endsWithSpace (teacherName item) = false
       /\ exists row, In row rows
            /\ participants item = parseCount (row !! "Participants")
            /\ totalRevenue item = parseNumber (row !! "Total Revenue").
Proof.
  intros H. pose proof (processParsed_inv _ _ _ H) as (H1 & H2 & H3).
  split; [exact H1|]. split; [exact H2|]. split; [exact H3|].
  intros item Hin.
  destruct (processParsed_item _ _ _ _ H Hin) as (row & r & Hrow & Hr & ->).
  apply importRow_inv in Hr as (Hv & E1 & E2 & E3 & E4 & E5 & E6 & name & E7).
  unfold isValidRow in Hv. rewrite !andb_true_iff, !negb_true_iff in Hv.
  destruct Hv as ((((V1 & V2) & V3) & _) & _).
  unfold isEmptyString in V1, V2, V3. apply bool_decide_eq_false in V1, V2, V3.
  split; [exact V2|]. split; [exact V1|]. split; [exact V3|].
  rewrite E1, E2, E3, E4, E7. unfold cell.
  rewrite !trim_idem, trim_endsWithSpace.
  repeat split; eauto.
Qed.

Lemma processParsed_spec_witness :
  exists data, processParsed requiredColumns sampleRows = Uploaded data
               /\ map teacherName data
                  = ["Karanvir Bhatia"; "Anisha Shah"; "Rohan Dahima"; "Pranjali Jain";
                     "Cauveri Vikrant"; "Atulan Purohit"; "Kabir Varma"]
               /\ incl requiredColumns requiredColumns.
Proof.
  destruct (processParsed requiredColumns sampleRows) as [m|data] eqn:E;
    [vm_compute in E; discriminate|].
  exists data. split; [reflexivity|]. split.
  - vm_compute in E. injection E as <-. reflexivity.
  - exact (proj1 (processParsed_spec requiredColumns sampleRows data E)).
Defined.


(** ** The schedule of the top performers *)

Lemma getTopPerformingClasses_In csvData minAverage includeTeacher c :
  In c (getTopPerformingClasses csvData minAverage includeTeacher) ->
  In c (map defaultToTop getDefaultTopClasses)
  \/ In c (topClasses csvData minAverage includeTeacher).
Proof.
  unfold getTopPerformingClasses. rewrite uniqueClasses_keepFirsts. intros H.
  apply in_app_or.
  apply list_elem_of_In. eapply elem_of_sublist; [|apply keepFirsts_sublist].
  apply list_elem_of_In. exact H.
Qed.

(** A group carries the cell and the teacher of one of its records. *)
Lemma accumulated_addToGroup_first includeTeacher items g :
  accumulated (addToGroup includeTeacher) items = Some g ->
  exists item, In item items
               /\ g_classFormat g = cleanedClass item
               /\ g_location g = location item
               /\ g_day g = dayOfWeek item
               /\ g_time g = slice0 5 (classTime item)
               /\ g_teacher g = if includeTeacher then teacherName item else "".
Proof.
  revert g. induction items as [|item items IH] using rev_ind; intros g H;
    [discriminate|].
  rewrite accumulated_snoc in H. injection H as <-.
  destruct (accumulated (addToGroup includeTeacher) items) as [g0|] eqn:E.
  - destruct (IH g0 eq_refl) as (x & Hx & Hf). exists x.
    split; [apply in_or_app; now left|exact Hf].
  - exists item. split; [apply in_or_app; right; now left|]. simpl. auto.
Qed.

Lemma defaults_trimmed :
  forallb (fun x => negb (endsWithSpace (dt_teacher x))) getDefaultTopClasses = true.
Proof. vm_compute. reflexivity. Qed.

(** What every top performer carries. *)
Lemma getTopPerformingClasses_regular csvData minAverage c :
  In c (getTopPerformingClasses csvData minAverage true) ->
  isHostedClass (tp_classFormat c) = false
  /\ isClassAllowedAtLocation (tp_classFormat c) (tp_location c) = true
  /\ (In (tp_teacher c) (map dt_teacher getDefaultTopClasses)
      \/ exists item, In item csvData /\ teacherName item = tp_teacher c).
Proof.
  intros H. apply getTopPerformingClasses_In in H as [H|H].
  - apply in_map_iff in H as (x & <- & Hx).
    pose proof defaults_regular as Hd. rewrite forallb_forall in Hd.
    specialize (Hd x Hx). rewrite !andb_true_iff, !negb_true_iff in Hd.
    destruct Hd as (((((H1 & H2) & _) & _) & _) & _).
    cbn [defaultToTop tp_classFormat tp_location tp_teacher].
    split; [exact H1|]. split; [exact H2|]. left. now apply in_map.
  - apply topClasses_In in H as (key & group & Hacc & -> & _).
    apply accumulated_addToGroup_first in Hacc as (item & Hitem & E1 & E2 & _ & _ & E5).
    apply filter_In in Hitem as [Hitem _]. unfold validClasses in Hitem.
    apply filter_In in Hitem as [Hin Hok]. apply andb_true_iff in Hok as [Hh Ha].
    apply negb_true_iff in Hh.
    cbn [groupToTop tp_classFormat tp_location tp_teacher]. rewrite E1, E2, E5.
    split; [exact Hh|]. split; [exact Ha|]. right. eauto.
Qed.


Lemma populateStep_populated l acc top :
  populated l acc -> populated (l ++ [top]) (populateStep acc top).
Proof.
  destruct acc as [classes tracker]. intros (Hlen & Hsrc & Hhours).
  assert (Hsrc' : forall c, In c classes ->
            exists top0 n, In top0 (l ++ [top]) /\ c = topToScheduled top0 n).
  { intros c Hc. destruct (Hsrc c Hc) as (top0 & n & Hin & E). exists top0, n.
    split; [apply in_or_app; now left|exact E]. }
  unfold populateStep.
  destruct (Qle_bool (default 0 (tracker !! tp_teacher top)
                      + getClassDuration (tp_classFormat top)) 15) eqn:E.
  - apply Qle_bool_iff in E. split; [|split]; cbn [fst snd] in *.
    + rewrite !length_app. simpl. lia.
    + intros c Hc. apply in_app_or in Hc as [Hc|[<-|[]]]; [now apply Hsrc'|].
      exists top, (length classes). split; [apply in_or_app; right; now left|reflexivity].
    + intros Htrim t Ht.
      assert (Htrim0 : forall top0, In top0 l -> endsWithSpace (tp_teacher top0) = false).
      { intros top0 Hin. apply Htrim. apply in_or_app. now left. }
      assert (HT : endsWithSpace (tp_teacher top) = false).
      { apply Htrim. apply in_or_app. right. now left. }
      destruct (Hhours Htrim0 t Ht) as [H1 H2].
      rewrite hoursSum_app. cbn [hoursSum fold_right]. unfold contribution at 1.
      change (fullName (topToScheduled top (length classes)))
        with (shownName (tp_teacher top)).
      change (duration (topToScheduled top (length classes)))
        with (getClassDuration (tp_classFormat top)).
      destruct (decide (tp_teacher top = t)) as [<-|Hne].
      * rewrite bool_decide_eq_true_2 by reflexivity. rewrite lookup_insert_eq.
        cbn [default from_option Datatypes.id]. split; lra.
      * rewrite bool_decide_eq_false_2.
        2:{ intros E'. apply Hne. now apply shownName_inj. }
        rewrite lookup_insert_ne by exact Hne. split; lra.
  - split; [|split]; cbn [fst snd] in *.
    + rewrite length_app. simpl. lia.
    + exact Hsrc'.
    + intros Htrim t Ht. apply Hhours; [|exact Ht].
      intros top0 Hin. apply Htrim. apply in_or_app. now left.
Qed.

Lemma fold_populated l : populated l (fold_left populateStep l ([], ∅)).
Proof.
  induction l as [|top l IH] using rev_ind.
  - split; [simpl; lia|]. split; [intros c []|]. intros _ t _. simpl.
    rewrite lookup_empty. simpl. split; lra.
  - rewrite fold_left_app. simpl. now apply populateStep_populated.
Qed.

Lemma populateTopClasses_facts data :
  (length (populateTopClasses data) <= 50)%nat
  /\ (forall cls, In cls (populateTopClasses data) ->
        isHostedClass (classFormat cls) = false
        /\ isClassAllowedAtLocation (classFormat cls) (sc_location cls) = true
        /\ duration cls = getClassDuration (classFormat cls)
        /\ exists top,
             In top (firstn 50 (getTopPerformingClasses data 5 true))
             /\ classFormat cls = tp_classFormat top
             /\ sc_location cls = tp_location top
             /\ day cls = tp_day top
             /\ time cls = tp_time top
             /\ fullName cls = shownName (tp_teacher top))
  /\ (forallb (fun item => negb (endsWithSpace (teacherName item))) data = true ->
      forall name, hoursOf (populateTopClasses data) name <= 15).
Proof.
  unfold populateTopClasses. cbv zeta.
  set (tops := firstn 50 (getTopPerformingClasses data 5 true)).
  destruct (fold_populated tops) as (Hlen & Hsrc & Hhours).
  set (acc := fold_left populateStep tops ([], ∅)) in *.
  split; [|split].
  - etransitivity; [exact Hlen|]. unfold tops. rewrite length_firstn. lia.
  - intros cls Hcls. destruct (Hsrc cls Hcls) as (top & n & Hin & ->).
    assert (Hreg := getTopPerformingClasses_regular data 5 top (In_firstn _ _ _ Hin)).
    destruct Hreg as (H1 & H2 & _).
    cbn [topToScheduled classFormat sc_location duration day time].
    split; [exact H1|]. split; [exact H2|]. split; [reflexivity|].
    exists top. repeat split; auto.
  - intros Htrim name. rewrite hoursOf_hoursSum.
    destruct (hoursSum_cases (fst acc) name) as [E|(c & Hc & <-)].
    + rewrite E. lra.
    + destruct (Hsrc c Hc) as (top & n & Hin & ->).
      change (fullName (topToScheduled top n)) with (shownName (tp_teacher top)).
      assert (Htops : forall top0, In top0 tops -> endsWithSpace (tp_teacher top0) = false).
      { intros top0 Hin0.
        destruct (getTopPerformingClasses_regular data 5 top0 (In_firstn _ _ _ Hin0))
          as (_ & _ & [Hd|(item & Hitem & <-)]).
        - apply in_map_iff in Hd as (x & <- & Hx).
          pose proof defaults_trimmed as Hdt. rewrite forallb_forall in Hdt.
          specialize (Hdt x Hx). now apply negb_true_iff in Hdt.
        - rewrite forallb_forall in Htrim. specialize (Htrim item Hitem).
          now apply negb_true_iff in Htrim. }
      destruct (Hhours Htops (tp_teacher top) (Htops top Hin)) as [H1 H2]. lra.
Qed.

(** [handleAutoPopulateTopClasses] schedules at most 50 classes, each made of
    one of the first 50 top performers with its cell and format, the duration
    of the format, and the teacher's name split at the first blank; none is a
    hosted class and each format is allowed at its location.  When no teacher
    name of the records ends with a blank, no instructor name gets more than
    15 hours. *)
Theorem populateTopClasses_spec data :
  (length (populateTopClasses data) <= 50)%nat
  /\ (forall cls, In cls (populateTopClasses data) ->
        isHostedClass (classFormat cls) = false
        /\ isClassAllowedAtLocation (classFormat cls) (sc_location cls) = true
        /\ duration cls = getClassDuration (classFormat cls)
        /\ exists top,
             In top (firstn 50 (getTopPerformingClasses data 5 true))
             /\ classFormat cls = tp_classFormat top
             /\ sc_location cls = tp_location top
             /\ day cls = tp_day top
             /\ time cls = tp_time top
             /\ fullName cls = shownName (tp_teacher top))
  /\ (forallb (fun item => negb (endsWithSpace (teacherName item))) data = true ->
      forall name, hoursOf (populateTopClasses data) name <= 15).
Proof. apply populateTopClasses_facts. Qed.


(** ** Applying and editing a schedule in [App] *)






(** ** From the import to the schedule *)




(** ** The enhanced optimizer: its loops as runs of placements *)

Lemma flexibleSlots_eq d loc :
  EO.generateFlexibleTimeSlots d loc
  = ["07:15"; "07:30"; "07:45"; "08:00"; "08:15"; "08:30"; "08:45"; "09:00"; "09:15";
     "09:30"; "09:45"; "10:00"; "10:15"; "10:30"; "10:45"; "11:00"; "11:15"; "11:30";
     "11:45"; "17:15"; "17:30"; "17:45"; "18:00"; "18:15"; "18:30"; "18:45"; "19:00";
     "19:15"; "19:30"; "19:45"; "20:00"].
Proof.
  unfold EO.generateFlexibleTimeSlots. cbv zeta.
  rewrite (filter_all _ _); [vm_compute; reflexivity|].
  intros t _. now destruct (_ && _).
Qed.

Lemma flexibleSlots_NoDup d loc : List.NoDup (EO.generateFlexibleTimeSlots d loc).
Proof.
  rewrite flexibleSlots_eq.
  repeat (constructor; [simpl; intuition discriminate|]). constructor.
Qed.

Section OptimizerLoops.
Variable csvData : list ClassData.

Lemma assignOptimalTeacher_inv format d t tracking sched teacher :
  EO.assignOptimalTeacher csvData format d t tracking sched = Some teacher ->
  EO.canAssignTeacher teacher d t format tracking sched = true
  /\ In teacher (map teacherName csvData).
Proof.
  unfold EO.assignOptimalTeacher. cbv zeta.
  destruct (List.find _ (map ts_teacher _)) as [x|] eqn:E1.
  - intros H. injection H as <-. apply find_some in E1 as [Hin Hcan].
    split; [exact Hcan|].
    apply in_map_iff in Hin as (r & <- & Hr).
    unfold EO.rankedTeachers in Hr.
    apply sortBy_In, in_map_iff in Hr as ([k st] & <- & Hin).
    apply reduceByKey_In_item in Hin as (item & Hitem & <-).
    apply filter_In in Hitem as [Hitem _]. simpl. now apply in_map.
  - intros H. apply find_some in H as [Hin Hcan]. split; [exact Hcan|].
    apply allTeachersOf_In in Hin as (item & Hitem & <-). now apply in_map.
Qed.

Lemma placeClass_inv validate score loc d t g s :
  (EO.classesScheduled s < EO.maxClasses g)%nat ->
  (validate = false -> EO.classesScheduled s = 0%nat) ->
  EO.placeClass validate csvData (EO.findBest score csvData loc d t (EO.schedule s) g)
    loc d t s = s
  \/ Placement csvData loc d t g s
       (EO.placeClass validate csvData
          (EO.findBest score csvData loc d t (EO.schedule s) g) loc d t s).
Proof.
  intros Hlt Hval. unfold EO.placeClass.
  destruct (EO.findBest score csvData loc d t (EO.schedule s) g) as [best|] eqn:Eb;
    [|now left].
  destruct (truthy _) as [teacher|] eqn:Et; [|now left].
  destruct (negb validate || _) eqn:Ev; [|now left]. right.
  assert (Hv : EO.validateTrainerAssignment teacher d t loc (EO.trainerTracking s)
                 (EO.schedule s) = true
               \/ EO.classesScheduled s = 0%nat).
  { destruct validate; [now left|right; now apply Hval]. }
  assert (Hne : teacher <> "").
  { unfold truthy in Et. destruct (EO.assignOptimalTeacher _ _ _ _ _ _) as [x|];
      [|discriminate].
    destruct (bool_decide (x = "")) eqn:Ex; [discriminate|].
    injection Et as <-. now apply bool_decide_eq_false in Ex. }
  apply truthy_Some, assignOptimalTeacher_inv in Et as [Hcan Hin].
  exact (placement csvData loc d t g s _ score best teacher Hlt Eb Hcan Hne Hin Hv
           eq_refl).
Qed.

Lemma SlotRun_mono loc d t g n m s s' :
  (n <= m)%nat -> SlotRun csvData loc d t g n s s' -> SlotRun csvData loc d t g m s s'.
Proof.
  intros Hle H. revert m Hle. induction H as [n s|n s s1 s2 Hp _ IH]; intros m Hle.
  - constructor.
  - destruct m as [|m]; [lia|]. econstructor; [exact Hp|]. apply IH. lia.
Qed.

Lemma DayRun_refl loc d g visits s : DayRun csvData loc d g visits s s.
Proof.
  induction visits as [|t visits IH]; [constructor|].
  econstructor; [constructor|exact IH].
Qed.

(** The inner loop of the revenue maximizer. *)
Lemma revenue_slot score loc d t g (l : list nat) s :
  SlotRun csvData loc d t g (length l) s
    (EO.forBreak l
       (fun i s =>
          if (EO.classesScheduled s <? EO.maxClasses g)%nat
          then Some (EO.placeClass true csvData
                       (EO.findBest score csvData loc d t (EO.schedule s) g) loc d t s)
          else None)
       s).
Proof.
  revert s. induction l as [|i l IH]; intros s; [constructor|]. simpl.
  destruct (EO.classesScheduled s <? EO.maxClasses g)%nat eqn:E; [|constructor].
  apply Nat.ltb_lt in E.
  destruct (placeClass_inv true score loc d t g s E ltac:(discriminate)) as [Hs|Hp].
  - rewrite Hs. apply SlotRun_mono with (length l); [lia|apply IH].
  - econstructor; [exact Hp|apply IH].
Qed.

(** The inner loop of the other two generators, with its bound on the
    counter. *)
Lemma fold_slot score loc d t g (l : list nat) s :
  (EO.classesScheduled s + length l <= EO.maxClasses g)%nat ->
  SlotRun csvData loc d t g (length l) s
    (fold_left
       (fun s i =>
          EO.placeClass true csvData
            (EO.findBest score csvData loc d t (EO.schedule s) g) loc d t s)
       l s).
Proof.
  revert s. induction l as [|i l IH]; intros s Hle; [constructor|]. simpl in *.
  destruct (placeClass_inv true score loc d t g s ltac:(lia) ltac:(discriminate))
    as [Hs|Hp].
  - rewrite Hs. apply SlotRun_mono with (length l); [lia|]. apply IH. lia.
  - econstructor; [exact Hp|]. apply IH.
    destruct Hp as [? ? ? _ _ _ _ _ _ ->]. simpl. lia.
Qed.

Lemma revenue_day loc d g slots s :
  DayRun csvData loc d g slots s
    (EO.forBreak slots
       (fun t s =>
          if (EO.maxClasses g <=? EO.classesScheduled s)%nat then None
          else
            let isPeak := EO.isPeakHour t in
            let maxParallel := EO.getMaxParallelClasses loc in
            let classesToSchedule :=
              if isPeak then maxParallel else Nat.min 2 maxParallel in
            Some (EO.forBreak (seq 0 classesToSchedule)
                    (fun i s =>
                       if (EO.classesScheduled s <? EO.maxClasses g)%nat
                       then Some (EO.placeClass true csvData
                                    (EO.findBestRevenueClass csvData loc d t
                                       (EO.schedule s) g)
                                    loc d t s)
                       else None)
                    s))
       s).
Proof.
  revert s. induction slots as [|t slots IH]; intros s; [constructor|]. simpl.
  destruct (EO.maxClasses g <=? EO.classesScheduled s)%nat; [apply DayRun_refl|].
  econstructor; [|apply IH].
  set (n := if EO.isPeakHour t then EO.getMaxParallelClasses loc
            else Nat.min 2 (EO.getMaxParallelClasses loc)).
  apply SlotRun_mono with (length (seq 0 n)).
  - rewrite length_seq. unfold n. destruct (EO.isPeakHour t); lia.
  - apply (revenue_slot rf_avgRevenue).
Qed.

Lemma attendance_day loc d g slots s :
  DayRun csvData loc d g slots s
    (EO.forBreak slots
       (fun t s =>
          if (EO.maxClasses g <=? EO.classesScheduled s)%nat then None
          else
            let maxParallel := EO.getMaxParallelClasses loc in
            let classesToSchedule :=
              Nat.min maxParallel (EO.maxClasses g - EO.classesScheduled s) in
            Some (fold_left
                    (fun s i =>
                       EO.placeClass true csvData
                         (EO.findBestAttendanceClass csvData loc d t (EO.schedule s) g)
                         loc d t s)
                    (seq 0 classesToSchedule) s))
       s).
Proof.
  revert s. induction slots as [|t slots IH]; intros s; [constructor|]. simpl.
  destruct (EO.maxClasses g <=? EO.classesScheduled s)%nat eqn:E; [apply DayRun_refl|].
  apply Nat.leb_gt in E. econstructor; [|apply IH].
  set (n := Nat.min (EO.getMaxParallelClasses loc)
              (EO.maxClasses g - EO.classesScheduled s)).
  apply SlotRun_mono with (length (seq 0 n)).
  - rewrite length_seq. unfold n. lia.
  - apply (fold_slot rf_avgParticipants). rewrite length_seq. unfold n. lia.
Qed.

(** The loop of the balanced schedule; [skip] holds of the slot the early
    class has taken. *)
Lemma balanced_day loc d g (early : bool) slots s :
  DayRun csvData loc d g
    (List.filter (fun t => negb (bool_decide (t = "07:30") && early)) slots) s
    (EO.forBreak slots
       (fun t s =>
          if (EO.maxClasses g <=? EO.classesScheduled s)%nat then None
          else if bool_decide (t = "07:30") && early then Some s
          else
            let maxParallel := EO.getMaxParallelClasses loc in
            let trainersInShift := EO.getTrainersInShift (EO.schedule s) loc d t in
            let maxTrainersPerShift :=
              if bool_decide (d = "Sunday") then 1%nat else 3%nat in
            if (maxTrainersPerShift <=? length trainersInShift)%nat then Some s
            else
              let classesToSchedule :=
                Nat.min maxParallel (EO.maxClasses g - EO.classesScheduled s) in
              Some (fold_left
                      (fun s i =>
                         EO.placeClass true csvData
                           (EO.findBestBalancedClass csvData loc d t (EO.schedule s) g)
                           loc d t s)
                      (seq 0 classesToSchedule) s))
       s).
Proof.
  revert s. induction slots as [|t slots IH]; intros s; [constructor|]. simpl.
  destruct (EO.maxClasses g <=? EO.classesScheduled s)%nat eqn:E; [apply DayRun_refl|].
  apply Nat.leb_gt in E.
  destruct (bool_decide (t = "07:30") && early) eqn:Es; cbn [negb]; [apply IH|].
  destruct (_ <=? length (EO.getTrainersInShift (EO.schedule s) loc d t))%nat.
  - econstructor; [constructor|apply IH].
  - econstructor; [|apply IH].
    set (n := Nat.min (EO.getMaxParallelClasses loc)
                (EO.maxClasses g - EO.classesScheduled s)).
    apply SlotRun_mono with (length (seq 0 n)).
    + rewrite length_seq. unfold n. lia.
    + apply (fold_slot EO.balanceScore). rewrite length_seq. unfold n. lia.
Qed.
End OptimizerLoops.


(** ** The generators as runs over the week *)

Lemma guidelines_In d (g : EO.DayGuideline) :
  lookupKey d EO.DAY_GUIDELINES = Some g -> In (d, g) EO.DAY_GUIDELINES.
Proof.
  unfold lookupKey. destruct (List.find _ _) as [[k v]|] eqn:E; [|discriminate].
  simpl. intros H. injection H as <-. apply find_some in E as [Hin Hk].
  apply bool_decide_eq_true in Hk. simpl in Hk. now subst k.
Qed.

Lemma guidelines_max d g :
  lookupKey d EO.DAY_GUIDELINES = Some g -> (0 < EO.maxClasses g)%nat.
Proof.
  intros H. apply guidelines_In in H. unfold EO.DAY_GUIDELINES in H.
  repeat (destruct H as [H|H]; [injection H as _ <-; cbn [EO.maxClasses]; lia|]). destruct H.
Qed.

Lemma guidelines_days d :
  In d EO.days -> exists g, lookupKey d EO.DAY_GUIDELINES = Some g.
Proof.
  unfold EO.days. intros H.
  repeat (destruct H as [<-|H]; [eexists; vm_compute; reflexivity|]). destruct H.
Qed.

Lemma getMaxParallelClasses_eq loc : EO.getMaxParallelClasses loc = maxParallel loc.
Proof.
  unfold EO.getMaxParallelClasses, maxParallel.
  destruct (bool_decide (loc = "Supreme HQ, Bandra")); [reflexivity|].
  now destruct (bool_decide _).
Qed.

Lemma fold_left_pairs {A B S} (f : A -> B -> S -> S) (ds : list B) (ls : list A) (o : S) :
  fold_left (fun o loc => fold_left (fun o d => f loc d o) ds o) ls o
  = fold_left (fun o (p : A * B) => f (fst p) (snd p) o)
      (flat_map (fun loc => map (fun d => (loc, d)) ds) ls) o.
Proof.
  revert o. induction ls as [|loc ls IH]; intros o; [reflexivity|]. simpl.
  rewrite fold_left_app, <- IH. f_equal.
  generalize o. clear. induction ds as [|d ds IH]; intros o; [reflexivity|].
  simpl. apply IH.
Qed.

Section OptimizerWeek.
Variable csvData : list ClassData.
Variable dayBody : string -> string -> EO.DayGuideline -> EO.OptState -> EO.OptState.

Hypothesis dayBody_run :
  forall loc d g s,
    lookupKey d EO.DAY_GUIDELINES = Some g -> EO.classesScheduled s = 0%nat ->
    exists visits,
      List.NoDup visits
      /\ (forall t, In t visits -> In t (EO.generateFlexibleTimeSlots d loc))
      /\ DayRun csvData loc d g visits s (dayBody loc d g s).

Lemma week_fold (pairs : list (string * string)) s :
  (forall p, In p pairs -> In (snd p) EO.days) ->
  exists s',
    fold_left
      (fun o (p : string * string) =>
         s ← o;
         guidelines ← lookupKey (snd p) EO.DAY_GUIDELINES;
         Some (dayBody (fst p) (snd p) guidelines
                 {| EO.schedule := EO.schedule s;
                    EO.trainerTracking := EO.trainerTracking s;
                    EO.classesScheduled := 0 |}))
      pairs (Some s)
    = Some s'
    /\ WeekRun csvData pairs s s'.
Proof.
  revert s. induction pairs as [|[loc d] pairs IH]; intros s Hd.
  - exists s. split; [reflexivity|constructor].
  - destruct (guidelines_days d) as [g Hg]; [apply (Hd (loc, d)); now left|].
    destruct (dayBody_run loc d g
                {| EO.schedule := EO.schedule s;
                   EO.trainerTracking := EO.trainerTracking s;
                   EO.classesScheduled := 0 |} Hg eq_refl)
      as (visits & Hnd & Hsub & Hrun).
    destruct (IH (dayBody loc d g
                    {| EO.schedule := EO.schedule s;
                       EO.trainerTracking := EO.trainerTracking s;
                       EO.classesScheduled := 0 |}))
      as (s' & Hf & Hw); [intros p Hp; apply Hd; now right|].
    exists s'. split.
    + simpl. rewrite Hg. simpl. exact Hf.
    + econstructor; eauto.
Qed.

Lemma overWeek_run :
  exists s', EO.overWeek dayBody csvData = Some (EO.schedule s')
             /\ WeekRun csvData weekPairs (startState csvData) s'.
Proof.
  unfold EO.overWeek. cbv zeta.
  rewrite (fold_left_pairs
             (fun loc d o =>
                s ← o;
                guidelines ← lookupKey d EO.DAY_GUIDELINES;
                Some (dayBody loc d guidelines
                        {| EO.schedule := EO.schedule s;
                           EO.trainerTracking := EO.trainerTracking s;
                           EO.classesScheduled := 0 |}))).
  destruct (week_fold weekPairs (startState csvData)) as (s' & Hf & Hw).
  - intros [loc d] Hp. unfold weekPairs in Hp. apply in_flat_map in Hp as (l & _ & Hp).
    apply in_map_iff in Hp as (d' & E & Hd). injection E as _ <-. exact Hd.
  - exists s'. split; [|exact Hw].
    unfold weekPairs, startState in Hf. rewrite Hf. reflexivity.
Qed.
End OptimizerWeek.

Lemma revenue_run csvData :
  exists s', EO.generateRevenueMaximizer csvData = Some (EO.schedule s')
             /\ WeekRun csvData weekPairs (startState csvData) s'.
Proof.
  unfold EO.generateRevenueMaximizer. apply overWeek_run. intros loc d g s _ _.
  exists (EO.generateFlexibleTimeSlots d loc).
  split; [apply flexibleSlots_NoDup|]. split; [auto|]. apply revenue_day.
Qed.

Lemma attendance_run csvData :
  exists s', EO.generateAttendanceMaximizer csvData = Some (EO.schedule s')
             /\ WeekRun csvData weekPairs (startState csvData) s'.
Proof.
  unfold EO.generateAttendanceMaximizer. apply overWeek_run. intros loc d g s _ _.
  exists (EO.generateFlexibleTimeSlots d loc).
  split; [apply flexibleSlots_NoDup|]. split; [auto|]. apply attendance_day.
Qed.

Lemma balanced_run csvData :
  exists s', EO.generateBalancedSchedule csvData = Some (EO.schedule s')
             /\ WeekRun csvData weekPairs (startState csvData) s'.
Proof.
  unfold EO.generateBalancedSchedule. apply overWeek_run. intros loc d g s Hg Hz. cbv zeta.
  set (early := bool_decide (loc = "Kwality House, Kemps Corner")
                && negb (elemStr d ["Saturday"; "Sunday"])).
  assert (Hfil : forall t,
             In t (List.filter (fun t => negb (bool_decide (t = "07:30") && early))
                     (EO.generateFlexibleTimeSlots d loc)) ->
             In t (EO.generateFlexibleTimeSlots d loc)).
  { intros t Ht. now apply filter_In in Ht. }
  destruct early eqn:Ee.
  - exists ("07:30" :: List.filter (fun t => negb (bool_decide (t = "07:30") && true))
                         (EO.generateFlexibleTimeSlots d loc)).
    split; [|split].
    + constructor; [|apply List.NoDup_filter, flexibleSlots_NoDup].
      intros Hin. apply filter_In in Hin as [_ Hin].
      rewrite bool_decide_eq_true_2 in Hin by reflexivity. discriminate.
    + intros t [<-|Ht]; [|now apply Hfil].
      rewrite flexibleSlots_eq. simpl. tauto.
    + econstructor; [|apply balanced_day].
      pose proof (guidelines_max d g Hg) as Hmax.
      destruct (placeClass_inv csvData false EO.balanceScore loc d "07:30" g s
                  ltac:(lia) (fun _ => Hz)) as [E|Hp].
      * unfold EO.findBestBalancedClass. rewrite E. constructor.
      * unfold EO.findBestBalancedClass.
        rewrite getMaxParallelClasses_eq.
        pose proof (maxParallel_ge_2 loc) as H2.
        destruct (maxParallel loc) as [|n]; [lia|].
        econstructor; [exact Hp|constructor].
  - exists (List.filter (fun t => negb (bool_decide (t = "07:30") && false))
              (EO.generateFlexibleTimeSlots d loc)).
    split; [apply List.NoDup_filter, flexibleSlots_NoDup|].
    split; [exact Hfil|]. apply balanced_day.
Qed.

(** A schedule of a generator is the schedule at the end of a run over the
    week. *)
Lemma optimizerSchedule_run csvData sched :
  optimizerSchedule csvData sched ->
  exists s', WeekRun csvData weekPairs (startState csvData) s' /\ EO.schedule s' = sched.
Proof.
  intros [H|[H|H]].
  - destruct (revenue_run csvData) as (s' & E & Hw). exists s'. split; [exact Hw|congruence].
  - destruct (attendance_run csvData) as (s' & E & Hw). exists s'. split; [exact Hw|congruence].
  - destruct (balanced_run csvData) as (s' & E & Hw). exists s'. split; [exact Hw|congruence].
Qed.

Lemma generateOptimizedSchedules_total csvData :
  exists revenue attendance balanced,
    EO.generateOptimizedSchedules csvData
    = Some [("revenue-maximizer", revenue); ("attendance-maximizer", attendance);
            ("balanced-schedule", balanced)]
    /\ EO.generateRevenueMaximizer csvData = Some revenue
    /\ EO.generateAttendanceMaximizer csvData = Some attendance
    /\ EO.generateBalancedSchedule csvData = Some balanced.
Proof.
  destruct (revenue_run csvData) as (s1 & E1 & _).
  destruct (attendance_run csvData) as (s2 & E2 & _).
  destruct (balanced_run csvData) as (s3 & E3 & _).
  exists (EO.schedule s1), (EO.schedule s2), (EO.schedule s3).
  unfold EO.generateOptimizedSchedules. rewrite E1, E2, E3. simpl. auto.
Qed.


(** ** The rules of the classes the enhanced optimizer places *)

Lemma findBest_inv score csvData loc d t sched g best :
  EO.findBest score csvData loc d t sched g = Some best ->
  (exists item, In item (EO.relevantData csvData loc d g)
                /\ cleanedClass item = rf_classFormat best)
  /\ ~ In (rf_classFormat best) (map classFormat (classesInSlot sched loc d t)).
Proof.
  unfold EO.findBest. destruct (_ =? _)%nat; [discriminate|]. intros H.
  assert (Hin : In best (EO.availableClasses score csvData loc d t sched g)).
  { destruct (EO.availableClasses score csvData loc d t sched g) as [|x r];
      [discriminate|]. injection H as <-. now left. }
  unfold EO.availableClasses in Hin. cbv zeta in Hin.
  apply sortBy_In, in_map_iff in Hin as ([k st] & <- & Hin).
  apply filter_In in Hin as [Hin Hex]. cbn [fst snd rf_classFormat] in *.
  split.
  - apply reduceByKey_In_item in Hin as (item & Hitem & Hk). eauto.
  - apply negb_true_iff, elemStr_false in Hex. exact Hex.
Qed.

Lemma relevantData_In csvData loc d g item :
  In item (EO.relevantData csvData loc d g) ->
  In item csvData /\ location item = loc /\ dayOfWeek item = d
  /\ (5 < participants item)%Z
  /\ ~ In (cleanedClass item) (EO.dg_avoid g)
  /\ EO.isClassAllowedAtLocation (cleanedClass item) loc = true.
Proof.
  unfold EO.relevantData. rewrite filter_In, !andb_true_iff.
  intros (Hin & (((Hl & Hd) & Hp) & Ha) & Hal).
  apply bool_decide_eq_true in Hl, Hd. apply Z.ltb_lt in Hp.
  apply negb_true_iff, elemStr_false in Ha. tauto.
Qed.

Lemma existsb_includes_shownName t names :
  (forall n, In n names -> noSpace n = true /\ n <> "") ->
  existsb (includes (shownName t)) names = existsb (includes t) names.
Proof.
  induction names as [|n names IH]; intros H; [reflexivity|]. simpl.
  rewrite IH by (intros m Hm; apply H; now right).
  destruct (H n (or_introl eq_refl)) as [H1 H2]. now rewrite includes_shownName.
Qed.

Lemma optimizer_canAssign_tier teacher d t format tracking sched :
  EO.canAssignTeacher teacher d t format tracking sched = true ->
  (existsb (includes teacher) EO.NEW_TRAINERS = true -> In format EO.allowedFormats)
  /\ (In format EO.ADVANCED_FORMATS ->
      existsb (includes teacher) EO.SENIOR_TRAINERS = true).
Proof.
  unfold EO.canAssignTeacher. cbv zeta.
  destruct (existsb (includes teacher) EO.NEW_TRAINERS) eqn:En; cbn [andb].
  - destruct (elemStr format EO.allowedFormats) eqn:Ef; [|discriminate]. cbn [negb].
    destruct (elemStr format EO.ADVANCED_FORMATS
              && negb (existsb (includes teacher) EO.SENIOR_TRAINERS)) eqn:Ea;
      [discriminate|].
    intros _. split; [intros _; now apply elemStr_In|].
    intros Hin. apply In_elemStr in Hin. rewrite Hin in Ea.
    now destruct (existsb (includes teacher) EO.SENIOR_TRAINERS).
  - destruct (elemStr format EO.ADVANCED_FORMATS
              && negb (existsb (includes teacher) EO.SENIOR_TRAINERS)) eqn:Ea;
      [discriminate|].
    intros _. split; [discriminate|].
    intros Hin. apply In_elemStr in Hin. rewrite Hin in Ea.
    now destruct (existsb (includes teacher) EO.SENIOR_TRAINERS).
Qed.

Lemma fullName_created best teacher d t loc n :
  fullName (EO.createScheduledClass best teacher d t loc n) = shownName teacher.
Proof. reflexivity. Qed.

Section OptimizerInvariants.
Variable csvData : list ClassData.

(** A property of the schedule and the tracking that every placement keeps
    holds at the end of every run. *)
Variable P : list ScheduledClass -> EO.Tracking -> Prop.
Hypothesis P_placement :
  forall loc d t g s s1,
    In loc EO.locations -> In d EO.days ->
    lookupKey d EO.DAY_GUIDELINES = Some g ->
    In t (EO.generateFlexibleTimeSlots d loc) ->
    Placement csvData loc d t g s s1 ->
    P (EO.schedule s) (EO.trainerTracking s) ->
    P (EO.schedule s1) (EO.trainerTracking s1).

Lemma SlotRun_keeps loc d t g n s s' :
  In loc EO.locations -> In d EO.days ->
  lookupKey d EO.DAY_GUIDELINES = Some g ->
  In t (EO.generateFlexibleTimeSlots d loc) ->
  SlotRun csvData loc d t g n s s' ->
  P (EO.schedule s) (EO.trainerTracking s) ->
  P (EO.schedule s') (EO.trainerTracking s').
Proof.
  intros Hl Hd Hg Ht H. induction H as [n s|n s s1 s2 Hp _ IH]; [auto|].
  intros HP. apply IH. eapply P_placement; eauto.
Qed.

Lemma DayRun_keeps loc d g visits s s' :
  In loc EO.locations -> In d EO.days ->
  lookupKey d EO.DAY_GUIDELINES = Some g ->
  (forall t, In t visits -> In t (EO.generateFlexibleTimeSlots d loc)) ->
  DayRun csvData loc d g visits s s' ->
  P (EO.schedule s) (EO.trainerTracking s) ->
  P (EO.schedule s') (EO.trainerTracking s').
Proof.
  intros Hl Hd Hg Hv H. induction H as [s|t visits s s1 s2 Hs _ IH]; [auto|].
  intros HP. apply IH; [intros x Hx; apply Hv; now right|].
  eapply SlotRun_keeps; eauto. apply Hv. now left.
Qed.

Lemma WeekRun_keeps pairs s s' :
  (forall p, In p pairs -> In (fst p) EO.locations /\ In (snd p) EO.days) ->
  WeekRun csvData pairs s s' ->
  P (EO.schedule s) (EO.trainerTracking s) ->
  P (EO.schedule s') (EO.trainerTracking s').
Proof.
  intros Hp H. induction H as [s|loc d g visits pairs s s1 s2 Hg Hnd Hv Hd _ IH];
    [auto|].
  intros HP. apply IH; [intros p Hin; apply Hp; now right|].
  destruct (Hp (loc, d) (or_introl eq_refl)) as [Hl Hdd].
  exact (DayRun_keeps loc d g visits _ _ Hl Hdd Hg Hv Hd HP).
Qed.
End OptimizerInvariants.

Lemma weekPairs_In p : In p weekPairs -> In (fst p) EO.locations /\ In (snd p) EO.days.
Proof.
  unfold weekPairs. intros H. apply in_flat_map in H as (loc & Hl & H).
  apply in_map_iff in H as (d & <- & Hd). now split.
Qed.

(** What holds of the empty schedule and is kept by every placement holds of
    the schedules of the three generators. *)
Lemma optimizerSchedule_keeps csvData (P : list ScheduledClass -> EO.Tracking -> Prop) :
  (forall loc d t g s s1,
      In loc EO.locations -> In d EO.days ->
      lookupKey d EO.DAY_GUIDELINES = Some g ->
      In t (EO.generateFlexibleTimeSlots d loc) ->
      Placement csvData loc d t g s s1 ->
      P (EO.schedule s) (EO.trainerTracking s) ->
      P (EO.schedule s1) (EO.trainerTracking s1)) ->
  P [] (EO.initializeTrainerTracking csvData) ->
  forall sched, optimizerSchedule csvData sched -> exists tracking, P sched tracking.
Proof.
  intros Hstep Hinit sched H.
  apply optimizerSchedule_run in H as (s' & Hw & <-).
  exists (EO.trainerTracking s').
  exact (WeekRun_keeps csvData P Hstep weekPairs _ _ weekPairs_In Hw Hinit).
Qed.

Lemma Placement_class csvData loc d t g s s1 :
  In loc EO.locations -> In d EO.days ->
  lookupKey d EO.DAY_GUIDELINES = Some g ->
  In t (EO.generateFlexibleTimeSlots d loc) ->
  Placement csvData loc d t g s s1 ->
  exists cls, EO.schedule s1 = EO.schedule s ++ [cls]
              /\ optimizerClass csvData cls /\ optimizerTiers cls
              /\ shownBy (map teacherName csvData) cls.
Proof.
  intros Hl Hd Hg Ht [score best teacher _ Hb Hcan Hne Hin _ ->].
  eexists. split; [reflexivity|].
  apply findBest_inv in Hb as [(item & Hrel & Hfmt) _].
  apply relevantData_In in Hrel as (Hitem & Hloc & Hday & Hp & Hav & Hal).
  split; [|split].
  - unfold optimizerClass.
    cbn [EO.createScheduledClass sc_location day time classFormat duration isPrivate].
    rewrite <- Hfmt.
    repeat split; auto.
    + intros g' Hg'. rewrite Hg in Hg'. injection Hg' as <-. exact Hav.
    + exists item. auto.
  - unfold optimizerTiers. rewrite fullName_created.
    rewrite !existsb_includes_shownName
      by (intros n Hn; simpl in Hn; intuition (subst; (reflexivity || discriminate))).
    cbn [EO.createScheduledClass classFormat].
    exact (optimizer_canAssign_tier _ _ _ _ _ _ Hcan).
  - exists teacher. auto.
Qed.

Lemma optimizer_rules csvData sched cls :
  optimizerSchedule csvData sched -> In cls sched ->
  optimizerClass csvData cls /\ optimizerTiers cls
  /\ shownBy (map teacherName csvData) cls.
Proof.
  intros H Hin.
  destruct (optimizerSchedule_keeps csvData
              (fun sched _ => forall cls, In cls sched ->
                                optimizerClass csvData cls /\ optimizerTiers cls
                                /\ shownBy (map teacherName csvData) cls))
    with (sched := sched) as [_ HP]; [| |exact H|now apply HP].
  - intros loc d t g s s1 Hl Hd Hg Ht Hp HP c Hc.
    destruct (Placement_class csvData loc d t g s s1 Hl Hd Hg Ht Hp)
      as (c0 & E & H1). rewrite E in Hc.
    apply in_app_or in Hc as [Hc|[<-|[]]]; [now apply HP|exact H1].
  - intros c [].
Qed.

Lemma flexibleSlots_open d loc t :
  In t (EO.generateFlexibleTimeSlots d loc) ->
  (forall d', isTimeRestricted t d' false = false)
  /\ (EO.getShift t = EO.morning \/ EO.getShift t = EO.evening).
Proof.
  rewrite flexibleSlots_eq. intros H.
  assert (Hr : match timeInMinutes t with
               | Some m => ((12 * 60 <=? m) && (m <? 17 * 60))%Z
               | None => false
               end = false).
  { simpl in H.
    repeat (destruct H as [<-|H]; [vm_compute; reflexivity|]). destruct H. }
  split; [|destruct (EO.getShift t); auto].
  intros d'. unfold isTimeRestricted. cbv zeta. cbn [andb]. exact Hr.
Qed.


(** ** Capacity of the schedules of the enhanced optimizer *)

Lemma dayClasses_app l1 l2 loc d :
  dayClasses (l1 ++ l2) loc d = dayClasses l1 loc d ++ dayClasses l2 loc d.
Proof. apply List.filter_app. Qed.

Lemma dayClasses_other added loc d loc' d' :
  (forall c, In c added -> sc_location c = loc /\ day c = d) ->
  (loc', d') <> (loc, d) -> dayClasses added loc' d' = [].
Proof.
  intros H Hne. unfold dayClasses.
  induction added as [|c l IH]; [reflexivity|]. simpl.
  destruct (H c (or_introl eq_refl)) as [E1 E2].
  destruct (bool_decide (sc_location c = loc') && bool_decide (day c = d')) eqn:E.
  - apply andb_true_iff in E as [H1 H2]. apply bool_decide_eq_true in H1, H2.
    exfalso. apply Hne. congruence.
  - apply IH. intros x Hx. apply H. now right.
Qed.

Lemma dayClasses_length added loc d : (length (dayClasses added loc d) <= length added)%nat.
Proof. apply List.filter_length_le. Qed.

Lemma classesInSlot_of_day sched loc d t :
  dayClasses sched loc d = [] -> classesInSlot sched loc d t = [].
Proof.
  intros H. apply classesInSlot_nil_of_cells. intros c Hc E.
  injection E as E1 E2 E3.
  assert (Hin : In c (dayClasses sched loc d)).
  { apply filter_In. split; [exact Hc|].
    now rewrite !bool_decide_eq_true_2. }
  rewrite H in Hin. destruct Hin.
Qed.

Section OptimizerCapacity.
Variable csvData : list ClassData.

Lemma Placement_added loc d t g s s1 :
  Placement csvData loc d t g s s1 ->
  exists cls, EO.schedule s1 = EO.schedule s ++ [cls]
              /\ sc_location cls = loc /\ day cls = d /\ time cls = t
              /\ ~ In (classFormat cls)
                      (map classFormat (classesInSlot (EO.schedule s) loc d t))
              /\ EO.classesScheduled s1 = S (EO.classesScheduled s)
              /\ (EO.classesScheduled s1 <= EO.maxClasses g)%nat.
Proof.
  intros [score best teacher Hlt Hb _ _ _ _ ->].
  apply findBest_inv in Hb as [_ Hfmt].
  eexists. split; [reflexivity|]. cbn. repeat split; auto.
Qed.

(** What a visit of a slot adds: classes of the cell, counted. *)
Lemma SlotRun_grow loc d t g n s s' :
  SlotRun csvData loc d t g n s s' ->
  exists added,
    EO.schedule s' = EO.schedule s ++ added
    /\ (forall c, In c added -> sc_location c = loc /\ day c = d /\ time c = t)
    /\ EO.classesScheduled s' = (EO.classesScheduled s + length added)%nat
    /\ ((EO.classesScheduled s <= EO.maxClasses g)%nat ->
        (EO.classesScheduled s' <= EO.maxClasses g)%nat).
Proof.
  intros H. induction H as [n s|n s s1 s2 Hp _ IH].
  - exists []. rewrite app_nil_r. simpl.
    split; [reflexivity|]. split; [intros c []|]. split; [lia|auto].
  - apply Placement_added in Hp as (cls & E & Hl & Hd & Ht & _ & Hc & Hm).
    destruct IH as (added & E2 & Hcell & Hc2 & Hm2).
    exists (cls :: added). rewrite E2, E, <- app_assoc. simpl.
    split; [reflexivity|]. split; [|split; [lia|auto]].
    intros c [<-|Hin]; [auto|now apply Hcell].
Qed.

Lemma SlotRun_cells loc d t g n s s' :
  SlotRun csvData loc d t g n s s' ->
  cellsOK (EO.schedule s) ->
  (length (classesInSlot (EO.schedule s) loc d t) + n <= maxParallel loc)%nat ->
  cellsOK (EO.schedule s').
Proof.
  intros H. induction H as [n s|n s s1 s2 Hp _ IH]; [auto|].
  intros Hok Hlen.
  apply Placement_added in Hp as (cls & E & Hl & Hd & Ht & Hfmt & _).
  apply IH.
  - rewrite E. apply cellsOK_snoc; rewrite ?Hl, ?Hd, ?Ht; [exact Hok|lia|exact Hfmt].
  - rewrite E, classesInSlot_app, length_app. unfold classesInSlot at 2. simpl.
    destruct (inCell loc d t cls); simpl; lia.
Qed.

Lemma DayRun_grow loc d g visits s s' :
  DayRun csvData loc d g visits s s' ->
  exists added,
    EO.schedule s' = EO.schedule s ++ added
    /\ (forall c, In c added -> sc_location c = loc /\ day c = d /\ In (time c) visits)
    /\ EO.classesScheduled s' = (EO.classesScheduled s + length added)%nat
    /\ ((EO.classesScheduled s <= EO.maxClasses g)%nat ->
        (EO.classesScheduled s' <= EO.maxClasses g)%nat).
Proof.
  intros H. induction H as [s|t visits s s1 s2 Hs _ IH].
  - exists []. rewrite app_nil_r. simpl.
    split; [reflexivity|]. split; [intros c []|]. split; [lia|auto].
  - apply SlotRun_grow in Hs as (a1 & E1 & Hc1 & Hn1 & Hm1).
    destruct IH as (a2 & E2 & Hc2 & Hn2 & Hm2).
    exists (a1 ++ a2). rewrite E2, E1, <- app_assoc, length_app.
    split; [reflexivity|]. split; [|split; [lia|auto]].
    intros c Hc. apply in_app_or in Hc as [Hc|Hc].
    + destruct (Hc1 c Hc) as (-> & -> & ->). simpl. auto.
    + destruct (Hc2 c Hc) as (-> & -> & Hin). simpl. auto.
Qed.

Lemma DayRun_cells loc d g visits s s' :
  DayRun csvData loc d g visits s s' ->
  List.NoDup visits ->
  cellsOK (EO.schedule s) ->
  (forall t, In t visits -> classesInSlot (EO.schedule s) loc d t = []) ->
  cellsOK (EO.schedule s').
Proof.
  intros H. induction H as [s|t visits s s1 s2 Hs _ IH]; [auto|].
  intros Hnd Hok Hempty. inversion Hnd as [|? ? Hnin Hnd']; subst.
  apply IH; [exact Hnd'| |].
  - refine (SlotRun_cells _ _ _ _ _ _ _ Hs Hok _).
    rewrite (Hempty t (or_introl eq_refl)), getMaxParallelClasses_eq. simpl. lia.
  - intros t' Ht'. apply SlotRun_grow in Hs as (added & E & Hcell & _).
    rewrite E, classesInSlot_app, (Hempty t' (or_intror Ht')). simpl.
    apply classesInSlot_nil_of_cells. intros c Hc Ec.
    destruct (Hcell c Hc) as (_ & _ & Hct). injection Ec as _ _ Ec.
    apply Hnin. congruence.
Qed.

Lemma WeekRun_capacity pairs s s' :
  WeekRun csvData pairs s s' ->
  List.NoDup pairs ->
  cellsOK (EO.schedule s) -> daysOK (EO.schedule s) ->
  (forall p, In p pairs -> dayClasses (EO.schedule s) (fst p) (snd p) = []) ->
  cellsOK (EO.schedule s') /\ daysOK (EO.schedule s').
Proof.
  intros H. induction H as [s|loc d g visits pairs s s1 s2 Hg Hv Hsub Hd _ IH];
    [auto|].
  intros Hnd Hok Hdays Hempty. inversion Hnd as [|? ? Hnin Hnd']; subst.
  pose proof (DayRun_grow _ _ _ _ _ _ Hd) as (added & E & Hcell & Hn & Hm).
  cbn [EO.schedule EO.classesScheduled] in E, Hn, Hm.
  assert (Hd0 : dayClasses (EO.schedule s) loc d = [])
    by exact (Hempty (loc, d) (or_introl eq_refl)).
  apply IH; [exact Hnd'| | |].
  - refine (DayRun_cells _ _ _ _ _ _ Hd Hv Hok _).
    intros t _. cbn [EO.schedule]. now apply classesInSlot_of_day.
  - intros loc' d' g' Hg'. rewrite E, dayClasses_app, length_app.
    destruct (decide ((loc', d') = (loc, d))) as [Ep|Hne].
    + injection Ep as -> ->. rewrite Hd0. simpl.
      rewrite Hg in Hg'. injection Hg' as <-.
      pose proof (dayClasses_length added loc d). lia.
    + rewrite (dayClasses_other added loc d loc' d'); [|intros c Hc|exact Hne].
      * simpl. rewrite Nat.add_0_r. now apply Hdays.
      * destruct (Hcell c Hc) as (H1 & H2 & _). auto.
  - intros [loc' d'] Hp. cbn [fst snd]. rewrite E, dayClasses_app.
    pose proof (Hempty (loc', d') (or_intror Hp)) as He. cbn [fst snd] in He.
    rewrite He. simpl.
    apply (dayClasses_other added loc d); [|intros Ep; apply Hnin; now rewrite <- Ep].
    intros c Hc. destruct (Hcell c Hc) as (H1 & H2 & _). auto.
Qed.
End OptimizerCapacity.

Lemma weekPairs_NoDup : List.NoDup weekPairs.
Proof. apply NoDup_ListNoDup, (bool_decide_unpack _). vm_compute. reflexivity. Qed.

Lemma optimizer_capacity csvData sched :
  optimizerSchedule csvData sched -> cellsOK sched /\ daysOK sched.
Proof.
  intros H. apply optimizerSchedule_run in H as (s' & Hw & <-).
  apply (WeekRun_capacity csvData weekPairs (startState csvData) s' Hw weekPairs_NoDup).
  - intros loc d t. simpl. split; [lia|constructor].
  - intros loc d g _. simpl. lia.
  - reflexivity.
Qed.


(** ** Hours of the tracked trainers of the enhanced optimizer *)

Lemma optimizer_duration_cases format :
  EO.getClassDuration format = 3 # 4 \/ EO.getClassDuration format = 1 # 2
  \/ EO.getClassDuration format = 1.
Proof.
  unfold EO.getClassDuration. cbv zeta.
  destruct (includes _ "express"); [now left|].
  destruct (_ || _); [right; now left|right; now right].
Qed.

Lemma optimizer_duration_bounds format :
  0 < EO.getClassDuration format /\ EO.getClassDuration format <= 1.
Proof.
  destruct (optimizer_duration_cases format) as [-> | [-> | ->]];
    split; (reflexivity || discriminate).
Qed.

Lemma optimizer_canAssign_hours teacher d t format tracking sched :
  EO.canAssignTeacher teacher d t format tracking sched = true ->
  default 0 (EO.totalHours <$> tracking !! teacher) < optimizerCap teacher
  /\ default 0 (tracking !! teacher ≫= fun track => EO.tk_dailyHours track !! d) < 4.
Proof.
  unfold EO.canAssignTeacher, optimizerCap. cbv zeta.
  destruct (_ && negb (elemStr format EO.allowedFormats)); [discriminate|].
  destruct (elemStr format EO.ADVANCED_FORMATS && _); [discriminate|].
  destruct (Qle_bool _ (default 0 (EO.totalHours <$> tracking !! teacher))) eqn:Ew;
    [discriminate|].
  destruct (Qle_bool 4 _) eqn:Ed; [discriminate|]. intros _.
  split; apply Qnot_le_lt; intros Hle; apply Qle_bool_iff in Hle; congruence.
Qed.

Lemma hoursSum_snoc classes cls name :
  hoursSum (classes ++ [cls]) name == hoursSum classes name + contribution name cls.
Proof. rewrite hoursSum_app. simpl. ring. Qed.

Lemma initializeTrainerTracking_lookup csvData teacher track :
  EO.initializeTrainerTracking csvData !! teacher = Some track ->
  In teacher (allTeachersOf csvData)
  /\ EO.totalHours track = 0
  /\ forall d, default 0 (EO.tk_dailyHours track !! d) = 0.
Proof.
  unfold EO.initializeTrainerTracking, EO.Tracking. intros H.
  split.
  - assert (Hs : is_Some (fold_left
                    (fun acc t =>
                       <[t := {| EO.totalHours := 0;
                                 EO.tk_dailyHours :=
                                   fold_left (fun m d => <[d := 0]> m) EO.days ∅;
                                 EO.tk_shifts :=
                                   fold_left (fun m d => <[d := []]> m) EO.days ∅;
                                 EO.tk_locations := [];
                                 EO.consecutiveClasses := 0 |}]> acc)
                    (allTeachersOf csvData) ∅ !! teacher)) by (rewrite H; eauto).
    apply (fold_insert_is_Some (fun _ => _)) in Hs as [Hs|Hs]; [exact Hs|].
    rewrite lookup_empty in Hs. now destruct Hs.
  - apply fold_insert_value in H as [->|H]; [|now rewrite lookup_empty in H].
    cbn [EO.totalHours EO.tk_dailyHours]. split; [reflexivity|]. intros d.
    destruct (fold_left (fun m d0 => <[d0 := 0]> m) EO.days ∅ !! d) as [h|] eqn:E;
      [|reflexivity].
    apply fold_insert_value in E as [->|E]; [reflexivity|].
    now rewrite lookup_empty in E.
Qed.

Lemma initializeTrainerTracking_tracked csvData teacher :
  In teacher (allTeachersOf csvData) ->
  is_Some (EO.initializeTrainerTracking csvData !! teacher).
Proof.
  intros H. unfold EO.initializeTrainerTracking, EO.Tracking.
  apply (fold_insert_is_Some (fun _ => _)). now left.
Qed.

Lemma updateTrainerTracking_is_Some teacher d t loc tracking dur name :
  is_Some (EO.updateTrainerTracking teacher d t loc tracking dur !! name)
  <-> is_Some (tracking !! name).
Proof.
  unfold EO.updateTrainerTracking.
  destruct (tracking !! teacher) as [track|] eqn:E; [|tauto]. cbv zeta.
  unfold EO.Tracking in *.
  destruct (decide (name = teacher)) as [->|Hne].
  - rewrite lookup_insert_eq, E. split; eauto.
  - now rewrite lookup_insert_ne by auto.
Qed.

Section OptimizerHours.
Variable csvData : list ClassData.
Hypothesis trimmed :
  forallb (fun item => negb (endsWithSpace (teacherName item))) csvData = true.

Lemma records_trimmed teacher :
  In teacher (map teacherName csvData) -> endsWithSpace teacher = false.
Proof.
  intros H. apply in_map_iff in H as (item & <- & Hin).
  rewrite forallb_forall in trimmed. apply trimmed in Hin.
  now apply negb_true_iff in Hin.
Qed.

Lemma Placement_tracking loc d t g s s1 :
  Placement csvData loc d t g s s1 ->
  (forall teacher, is_Some (EO.trainerTracking s !! teacher) <->
                   In teacher (allTeachersOf csvData)) ->
  trackingOK (EO.schedule s) (EO.trainerTracking s) ->
  (forall teacher, is_Some (EO.trainerTracking s1 !! teacher) <->
                   In teacher (allTeachersOf csvData))
  /\ trackingOK (EO.schedule s1) (EO.trainerTracking s1).
Proof.
  intros [score best t0 _ _ Hcan _ Hin _ ->] Hkeys Hok.
  cbn [EO.schedule EO.trainerTracking].
  split; [intros teacher; now rewrite updateTrainerTracking_is_Some|].
  apply optimizer_canAssign_hours in Hcan as [Hweek Hday].
  pose proof (optimizer_duration_bounds (rf_classFormat best)) as [Hpos Hle].
  set (dur := EO.getClassDuration (rf_classFormat best)) in *.
  set (cls := EO.createScheduledClass best t0 d t loc (length (EO.schedule s))).
  assert (Hdur : duration cls = dur) by reflexivity.
  assert (Hcd : day cls = d) by reflexivity.
  assert (Hother : forall t1, is_Some (EO.trainerTracking s !! t1) -> t1 <> t0 ->
            fullName cls <> shownName t1).
  { intros t1 Ht1 Hne E. apply Hne. symmetry.
    apply shownName_inj; [now apply records_trimmed| |exact E].
    apply (allTeachersOf_trimmed csvData trimmed). now apply Hkeys. }
  assert (Hsame : forall t1 track d',
            EO.trainerTracking s !! t1 = Some track -> t1 <> t0 ->
            hoursSum (EO.schedule s ++ [cls]) (shownName t1)
            == hoursSum (EO.schedule s) (shownName t1)
            /\ dailySum (EO.schedule s ++ [cls]) (shownName t1) d'
               == dailySum (EO.schedule s) (shownName t1) d').
  { intros t1 track d' Ht1 Hne.
    rewrite hoursSum_snoc, dailySum_snoc. unfold contribution, dailyContribution.
    rewrite (bool_decide_eq_false_2 (fullName cls = shownName t1))
      by (apply Hother; [rewrite Ht1; eauto|exact Hne]).
    cbn [andb]. split; ring. }
  unfold EO.updateTrainerTracking.
  destruct (EO.trainerTracking s !! t0) as [track0|] eqn:E0.
  - cbv zeta. intros t1 track1 H1. unfold EO.Tracking in *.
    destruct (decide (t1 = t0)) as [->|Hne].
    + rewrite lookup_insert_eq in H1. injection H1 as <-.
      cbn [EO.totalHours EO.tk_dailyHours].
      destruct (Hok t0 track0 E0) as (Hsum & _ & Hdaily).
      cbn in Hweek, Hday.
      split; [|split].
      * rewrite hoursSum_snoc. unfold contribution.
        rewrite (bool_decide_eq_true_2 (fullName cls = shownName t0)) by reflexivity.
        rewrite Hdur. lra.
      * lra.
      * intros d'. rewrite dailySum_snoc. unfold dailyContribution.
        rewrite (bool_decide_eq_true_2 (fullName cls = shownName t0)) by reflexivity.
        rewrite Hcd, Hdur. cbn [andb].
        destruct (Hdaily d') as [Hd1 Hd2].
        destruct (decide (d = d')) as [<-|Hnd].
        -- rewrite (bool_decide_eq_true_2 (d = d)) by reflexivity.
           rewrite lookup_insert_eq.
           change (default 0 (Some (default 0 (EO.tk_dailyHours track0 !! d) + dur)))
             with (default 0 (EO.tk_dailyHours track0 !! d) + dur).
           split; lra.
        -- rewrite (bool_decide_eq_false_2 (d = d')) by exact Hnd.
           rewrite lookup_insert_ne by exact Hnd. split; lra.
    + rewrite lookup_insert_ne in H1 by auto.
      destruct (Hok t1 track1 H1) as (Hsum & Hcap & Hdaily).
      split; [|split; [exact Hcap|]].
      * destruct (Hsame t1 track1 d H1 Hne) as [-> _]. exact Hsum.
      * intros d'. destruct (Hsame t1 track1 d' H1 Hne) as [_ ->]. apply Hdaily.
  - intros t1 track1 H1.
    assert (Hne : t1 <> t0) by (intros ->; congruence).
    destruct (Hok t1 track1 H1) as (Hsum & Hcap & Hdaily).
    split; [|split; [exact Hcap|]].
    + destruct (Hsame t1 track1 d H1 Hne) as [-> _]. exact Hsum.
    + intros d'. destruct (Hsame t1 track1 d' H1 Hne) as [_ ->]. apply Hdaily.
Qed.

Lemma optimizer_hours sched teacher :
  optimizerSchedule csvData sched ->
  In teacher (allTeachersOf csvData) ->
  hoursSum sched (shownName teacher) < optimizerCap teacher + 1
  /\ forall d, dailySum sched (shownName teacher) d < 5.
Proof.
  intros H Hin.
  destruct (optimizerSchedule_keeps csvData
              (fun sched tracking =>
                 (forall teacher, is_Some (tracking !! teacher) <->
                                  In teacher (allTeachersOf csvData))
                 /\ trackingOK sched tracking))
    with (sched := sched) as (tracking & Hkeys & Hok); [| |exact H|].
  - intros loc d t g s s1 _ _ _ _ Hp [Hk Ho].
    exact (Placement_tracking loc d t g s s1 Hp Hk Ho).
  - split.
    + intros t. split; [|apply initializeTrainerTracking_tracked].
      intros [track Ht]. now apply initializeTrainerTracking_lookup in Ht.
    + intros t track Ht.
      apply initializeTrainerTracking_lookup in Ht as (_ & Hz & Hd).
      rewrite Hz. simpl. split; [lra|]. split.
      * unfold optimizerCap. destruct (existsb _ _); reflexivity.
      * intros d. rewrite Hd. split; [lra|reflexivity].
  - destruct (proj2 (Hkeys teacher) Hin) as [track Ht].
    destruct (Hok teacher track Ht) as (Hsum & Hcap & Hdaily).
    split; [lra|]. intros d. destruct (Hdaily d). lra.
Qed.
End OptimizerHours.


(** ** The schedules of [generateOptimizedSchedules] *)

(** [generateOptimizedSchedules] always returns its three schedules, the
    revenue maximizer, the attendance maximizer and the balanced schedule (no
    day lacks guidelines). Every class of the three is at one of the three
    studios, on a week day and at one of the 31 quarter-hour slots of
    07:15-11:45 and 17:15-20:00, so never in the restricted period; its format
    is allowed at the location by the optimizer's own rule and is not among
    the formats the day avoids; it lasts what the optimizer's
    [getClassDuration] gives, is not private, and the records hold a class of
    that format at that location on that day with more than 5 participants. *)
Theorem generateOptimizedSchedules_rules csvData :
  exists revenue attendance balanced,
    EO.generateOptimizedSchedules csvData
    = Some [("revenue-maximizer", revenue); ("attendance-maximizer", attendance);
            ("balanced-schedule", balanced)]
    /\ forall sched cls,
         In sched [revenue; attendance; balanced] -> In cls sched ->
         optimizerClass csvData cls
         /\ isTimeRestricted (time cls) (day cls) false = false.
Proof.
  destruct (generateOptimizedSchedules_total csvData)
    as (revenue & attendance & balanced & E & E1 & E2 & E3).
  exists revenue, attendance, balanced. split; [exact E|].
  intros sched cls Hs Hc.
  assert (Ho : optimizerSchedule csvData sched).
  { unfold optimizerSchedule. simpl in Hs.
    destruct Hs as [<-|[<-|[<-|[]]]]; auto. }
  destruct (optimizer_rules csvData sched cls Ho Hc) as (Hr & _).
  split; [exact Hr|].
  destruct Hr as (_ & _ & Ht & _).
  exact (proj1 (flexibleSlots_open _ _ _ Ht) (day cls)).
Qed.

(** In a schedule of any of the three generators of the enhanced optimizer,
    a cell (location, day, time) holds at most [getMaxParallelClasses] classes
    (3 at Supreme HQ, 2 elsewhere), all of different formats, and a location
    has on a day at most the [maxClasses] of the day's guidelines. *)
Theorem optimizer_schedule_capacity csvData sched :
  optimizerSchedule csvData sched ->
  (forall loc d t,
      (length (classesInSlot sched loc d t) <= EO.getMaxParallelClasses loc)%nat
      /\ List.NoDup (map classFormat (classesInSlot sched loc d t)))
  /\ (forall loc d g,
         lookupKey d EO.DAY_GUIDELINES = Some g ->
         (length (dayClasses sched loc d) <= EO.maxClasses g)%nat).
Proof.
  intros H. destruct (optimizer_capacity csvData sched H) as [Hc Hd].
  split; [|exact Hd].
  intros loc d t. rewrite getMaxParallelClasses_eq. apply Hc.
Qed.

Lemma optimizer_schedule_capacity_witness :
  exists sched,
    EO.generateRevenueMaximizer optimizerRecords = Some sched
    /\ sched <> []
    /\ (forall loc d t,
           (length (classesInSlot sched loc d t) <= EO.getMaxParallelClasses loc)%nat
           /\ List.NoDup (map classFormat (classesInSlot sched loc d t)))
    /\ (forall loc d g,
           lookupKey d EO.DAY_GUIDELINES = Some g ->
           (length (dayClasses sched loc d) <= EO.maxClasses g)%nat).
Proof.
  destruct (EO.generateRevenueMaximizer optimizerRecords) as [sched|] eqn:E;
    [|vm_compute in E; discriminate].
  exists sched. split; [reflexivity|]. split.
  - intros ->. vm_compute in E. discriminate.
  - apply (optimizer_schedule_capacity optimizerRecords sched). left. exact E.
Defined.

(** In a schedule of any of the three generators, every class is shown under
    the name of a teacher of the records, split at the first blank; a class
    shown under a name that holds Kabir or Simonelle has one of the five
    formats open to new trainers, and a class of an advanced format (Studio
    HIIT, Studio Amped Up!) is shown under the name of a senior trainer. *)
Theorem optimizer_schedule_trainers csvData sched cls :
  optimizerSchedule csvData sched -> In cls sched ->
  shownBy (map teacherName csvData) cls /\ optimizerTiers cls.
Proof.
  intros H Hin. destruct (optimizer_rules csvData sched cls H Hin) as (_ & Ht & Hs).
  now split.
Qed.

Lemma optimizer_schedule_trainers_witness :
  exists sched cls,
    EO.generateBalancedSchedule optimizerRecords = Some sched
    /\ head sched = Some cls
    /\ shownBy (map teacherName optimizerRecords) cls /\ optimizerTiers cls.
Proof.
  destruct (EO.generateBalancedSchedule optimizerRecords) as [sched|] eqn:E;
    [|vm_compute in E; discriminate].
  destruct sched as [|cls l]; [vm_compute in E; discriminate|].
  exists (cls :: l), cls. split; [reflexivity|]. split; [reflexivity|].
  apply (optimizer_schedule_trainers optimizerRecords (cls :: l) cls).
  - right. right. exact E.
  - now left.
Defined.

(** When no teacher name of the records ends with a blank, a schedule of any
    of the three generators shows, under the name of every teacher of the
    records whose name holds neither Nishanth nor Saniya, less than one hour
    above the weekly cap of [canAssignTeacher] (15 hours, 10 for a name with
    Kabir or Simonelle) and less than 5 hours on any day: the caps are tested
    before a class is added, with [>=]. *)
Theorem optimizer_schedule_hours csvData sched teacher :
  forallb (fun item => negb (endsWithSpace (teacherName item))) csvData = true ->
  optimizerSchedule csvData sched ->
  In teacher (map teacherName csvData) ->
  includes teacher "Nishanth" = false -> includes teacher "Saniya" = false ->
  hoursSum sched (shownName teacher) < optimizerCap teacher + 1
  /\ forall d, dailySum sched (shownName teacher) d < 5.
Proof.
  intros Htrim H Hin Hn Hs. apply (optimizer_hours csvData Htrim sched teacher H).
  unfold allTeachersOf. apply filter_In. split; [now apply uniq_In|].
  now rewrite Hn, Hs.
Qed.

Lemma optimizer_schedule_hours_witness :
  exists sched,
    EO.generateAttendanceMaximizer optimizerRecords = Some sched
    /\ 0 < hoursSum sched (shownName "Anisha Shah")
    /\ hoursSum sched (shownName "Anisha Shah") < optimizerCap "Anisha Shah" + 1
    /\ forall d, dailySum sched (shownName "Anisha Shah") d < 5.
Proof.
  destruct (EO.generateAttendanceMaximizer optimizerRecords) as [sched|] eqn:E;
    [|vm_compute in E; discriminate].
  exists sched. split; [reflexivity|]. split.
  - vm_compute in E. injection E as <-. vm_compute. reflexivity.
  - apply (optimizer_schedule_hours optimizerRecords sched "Anisha Shah").
    + vm_compute. reflexivity.
    + right. left. exact E.
    + simpl. tauto.
    + vm_compute. reflexivity.
    + vm_compute. reflexivity.
Defined.


(** ** Trainers per shift in the schedules of the enhanced optimizer *)

Lemma uniq_snoc_length {A} `{EqDecision A} (l : list A) x :
  (length (uniq (l ++ [x])) <= S (length (uniq l)))%nat.
Proof.
  change (S (length (uniq l))) with (length (x :: uniq l)).
  apply NoDup_incl_length; [apply uniq_NoDup|].
  intros y Hy. apply uniq_In, in_app_or in Hy as [Hy|[<-|[]]]; [|now left].
  right. now apply uniq_In.
Qed.

Lemma uniq_snoc_known {A} `{EqDecision A} (l : list A) x :
  In x l -> (length (uniq (l ++ [x])) <= length (uniq l))%nat.
Proof.
  intros Hx. apply NoDup_incl_length; [apply uniq_NoDup|].
  intros y Hy. apply uniq_In, in_app_or in Hy as [Hy|[<-|[]]]; now apply uniq_In.
Qed.

Lemma getTrainersInShift_shift sched loc d t t' :
  EO.getShift t = EO.getShift t' ->
  EO.getTrainersInShift sched loc d t = EO.getTrainersInShift sched loc d t'.
Proof. intros E. unfold EO.getTrainersInShift. now rewrite E. Qed.

Lemma getTrainersInShift_In sched loc d t name :
  In name (EO.getTrainersInShift sched loc d t) ->
  exists cls, In cls (dayClasses sched loc d) /\ fullName cls = name.
Proof.
  unfold EO.getTrainersInShift. cbv zeta. rewrite uniq_In, in_map_iff.
  intros (cls & E & Hin). exists cls. split; [|exact E].
  apply filter_In in Hin as [Hin Hp]. apply filter_In. split; [exact Hin|].
  apply andb_true_iff in Hp as [Hp _]. exact Hp.
Qed.

Lemma getTrainersInShift_empty sched loc d t :
  dayClasses sched loc d = [] -> EO.getTrainersInShift sched loc d t = [].
Proof.
  intros H. destruct (EO.getTrainersInShift sched loc d t) as [|name r] eqn:E;
    [reflexivity|].
  destruct (getTrainersInShift_In sched loc d t name) as (cls & Hin & _);
    [rewrite E; now left|].
  rewrite H in Hin. destruct Hin.
Qed.

(** What a class added to the schedule does to the trainers of a shift. *)
Lemma getTrainersInShift_snoc sched cls loc d t :
  EO.getTrainersInShift (sched ++ [cls]) loc d t = EO.getTrainersInShift sched loc d t
  \/ (sc_location cls = loc /\ day cls = d
      /\ EO.getShift (time cls) = EO.getShift t
      /\ EO.getTrainersInShift (sched ++ [cls]) loc d t
         = uniq (map fullName
                   (List.filter
                      (fun c =>
                         bool_decide (sc_location c = loc) && bool_decide (day c = d)
                         && match hourOf (time c) with
                            | Some classHour =>
                                ((match EO.getShift t with
                                  | EO.morning => 7 | EO.evening => 17 end
                                  <=? classHour)
                                 && (classHour
                                     <? match EO.getShift t with
                                        | EO.morning => 14 | EO.evening => 22 end))%Z
                            | None => false
                            end)
                      sched)
                 ++ [fullName cls])).
Proof.
  unfold EO.getTrainersInShift. cbv zeta. rewrite List.filter_app. simpl.
  destruct (bool_decide (sc_location cls = loc) && bool_decide (day cls = d) && _) eqn:E.
  - right. apply andb_true_iff in E as [E Eh]. apply andb_true_iff in E as [El Ed].
    apply bool_decide_eq_true in El, Ed. rewrite map_app. simpl.
    split; [exact El|]. split; [exact Ed|]. split; [|reflexivity].
    unfold EO.getShift in *. destruct (hourOf (time cls)) as [h|]; [|discriminate].
    apply andb_true_iff in Eh as [E1 E2]. apply Z.leb_le in E1. apply Z.ltb_lt in E2.
    destruct (hourOf t) as [h'|]; [destruct (h' <? 14)%Z|];
      destruct (Z.ltb_spec h 14); try reflexivity; lia.
  - left. now rewrite app_nil_r.
Qed.

Lemma validateTrainerAssignment_room teacher d t loc tracking sched :
  EO.validateTrainerAssignment teacher d t loc tracking sched = true ->
  In teacher (EO.getTrainersInShift sched loc d t)
  \/ (length (EO.getTrainersInShift sched loc d t) < maxTrainersPerShift d)%nat.
Proof.
  unfold EO.validateTrainerAssignment, maxTrainersPerShift. cbv zeta.
  destruct (match List.filter _ sched with [] => false | _ => _ end); [discriminate|].
  destruct (_ && negb (bool_decide _)); [discriminate|].
  destruct (elemStr teacher (EO.getTrainersInShift sched loc d t)) eqn:Ei.
  - intros _. left. now apply elemStr_In.
  - cbn [negb andb].
    destruct (_ <=? length (EO.getTrainersInShift sched loc d t))%nat eqn:El;
      [discriminate|].
    intros _. right. now apply Nat.leb_gt in El.
Qed.

Lemma maxTrainersPerShift_pos d : (1 <= maxTrainersPerShift d)%nat.
Proof. unfold maxTrainersPerShift. destruct (bool_decide _); lia. Qed.

Section OptimizerShifts.
Variable csvData : list ClassData.

Lemma Placement_shifts loc d t g s s1 :
  Placement csvData loc d t g s s1 ->
  shiftsOK (EO.schedule s) ->
  length (dayClasses (EO.schedule s) loc d) = EO.classesScheduled s ->
  shiftsOK (EO.schedule s1)
  /\ length (dayClasses (EO.schedule s1) loc d) = EO.classesScheduled s1.
Proof.
  intros [score best teacher _ _ _ _ _ Hv ->] Hok Hcount.
  cbn [EO.schedule EO.classesScheduled].
  set (cls := EO.createScheduledClass best teacher d t loc (length (EO.schedule s))).
  split.
  - intros loc' d' t'.
    destruct (getTrainersInShift_snoc (EO.schedule s) cls loc' d' t')
      as [->|(El & Ed & Es & ->)]; [apply Hok|].
    change (sc_location cls) with loc in El. change (day cls) with d in Ed.
    change (time cls) with t in Es. subst loc' d'.
    change (fullName cls) with (shownName teacher).
    pose proof (Hok loc d t') as Hlen.
    unfold EO.getTrainersInShift in Hlen. cbv zeta in Hlen.
    destruct Hv as [Hv|Hz].
    + apply validateTrainerAssignment_room in Hv.
      rewrite (getTrainersInShift_shift _ _ _ _ _ Es) in Hv.
      destruct Hv as [Hin|Hlt].
      * assert (Hs : shownName teacher = teacher).
        { apply getTrainersInShift_In in Hin as (c & _ & <-). apply fullName_shown. }
        rewrite Hs. etransitivity; [apply uniq_snoc_known|exact Hlen].
        unfold EO.getTrainersInShift in Hin. cbv zeta in Hin.
        exact (proj1 (uniq_In _ _) Hin).
      * etransitivity; [apply uniq_snoc_length|].
        unfold EO.getTrainersInShift in Hlt. cbv zeta in Hlt. lia.
    + assert (He : dayClasses (EO.schedule s) loc d = []).
      { rewrite Hz in Hcount. now apply length_zero_iff_nil in Hcount. }
      pose proof (getTrainersInShift_empty _ _ _ t' He) as Hn.
      unfold EO.getTrainersInShift in Hn. cbv zeta in Hn.
      etransitivity; [apply uniq_snoc_length|]. rewrite Hn. simpl.
      apply maxTrainersPerShift_pos.
  - rewrite dayClasses_app, length_app, Hcount. unfold dayClasses at 1. simpl.
    rewrite !bool_decide_eq_true_2 by reflexivity. simpl. lia.
Qed.

Lemma SlotRun_shifts loc d t g n s s' :
  SlotRun csvData loc d t g n s s' ->
  shiftsOK (EO.schedule s) ->
  length (dayClasses (EO.schedule s) loc d) = EO.classesScheduled s ->
  shiftsOK (EO.schedule s')
  /\ length (dayClasses (EO.schedule s') loc d) = EO.classesScheduled s'.
Proof.
  intros H. induction H as [n s|n s s1 s2 Hp _ IH]; [auto|].
  intros Hok Hc. destruct (Placement_shifts _ _ _ _ _ _ Hp Hok Hc). auto.
Qed.

Lemma DayRun_shifts loc d g visits s s' :
  DayRun csvData loc d g visits s s' ->
  shiftsOK (EO.schedule s) ->
  length (dayClasses (EO.schedule s) loc d) = EO.classesScheduled s ->
  shiftsOK (EO.schedule s').
Proof.
  intros H. induction H as [s|t visits s s1 s2 Hs _ IH]; [auto|].
  intros Hok Hc. destruct (SlotRun_shifts _ _ _ _ _ _ _ Hs Hok Hc). auto.
Qed.

Lemma WeekRun_shifts pairs s s' :
  WeekRun csvData pairs s s' ->
  List.NoDup pairs ->
  shiftsOK (EO.schedule s) ->
  (forall p, In p pairs -> dayClasses (EO.schedule s) (fst p) (snd p) = []) ->
  shiftsOK (EO.schedule s').
Proof.
  intros H. induction H as [s|loc d g visits pairs s s1 s2 Hg Hv Hsub Hd _ IH];
    [auto|].
  intros Hnd Hok Hempty. inversion Hnd as [|? ? Hnin Hnd']; subst.
  pose proof (DayRun_grow _ _ _ _ _ _ _ Hd) as (added & E & Hcell & _).
  cbn [EO.schedule] in E.
  assert (Hd0 : dayClasses (EO.schedule s) loc d = [])
    by exact (Hempty (loc, d) (or_introl eq_refl)).
  apply IH; [exact Hnd'| |].
  - refine (DayRun_shifts _ _ _ _ _ _ Hd Hok _).
    cbn [EO.schedule EO.classesScheduled]. now rewrite Hd0.
  - intros [loc' d'] Hp. cbn [fst snd]. rewrite E, dayClasses_app.
    pose proof (Hempty (loc', d') (or_intror Hp)) as He. cbn [fst snd] in He.
    rewrite He. simpl.
    apply (dayClasses_other added loc d); [|intros Ep; apply Hnin; now rewrite <- Ep].
    intros c Hc. destruct (Hcell c Hc) as (H1 & H2 & _). auto.
Qed.
End OptimizerShifts.

Lemma optimizer_shifts csvData sched : optimizerSchedule csvData sched -> shiftsOK sched.
Proof.
  intros H. apply optimizerSchedule_run in H as (s' & Hw & <-).
  apply (WeekRun_shifts csvData weekPairs (startState csvData) s' Hw weekPairs_NoDup).
  - intros loc d t. simpl. lia.
  - reflexivity.
Qed.

(** In a schedule of any of the three generators, the classes of a location
    on a day within a shift (07:00 to 14:00, or 17:00 to 22:00) are shown
    under at most 3 different names, and under one name on a Sunday. *)
Theorem optimizer_schedule_shifts csvData sched loc d t :
  optimizerSchedule csvData sched ->
  (length (EO.getTrainersInShift sched loc d t) <= maxTrainersPerShift d)%nat.
Proof. intros H. exact (optimizer_shifts csvData sched H loc d t). Qed.

Lemma optimizer_schedule_shifts_witness :
  exists sched,
    EO.generateRevenueMaximizer optimizerRecords = Some sched
    /\ (0 < length (EO.getTrainersInShift sched "Supreme HQ, Bandra" "Sunday" "09:00"))%nat
    /\ (length (EO.getTrainersInShift sched "Supreme HQ, Bandra" "Sunday" "09:00")
        <= maxTrainersPerShift "Sunday")%nat.
Proof.
  destruct (EO.generateRevenueMaximizer optimizerRecords) as [sched|] eqn:E;
    [|vm_compute in E; discriminate].
  exists sched. split; [reflexivity|]. split.
  - vm_compute in E. injection E as <-. vm_compute. lia.
  - apply (optimizer_schedule_shifts optimizerRecords sched). left. exact E.
Defined.


(** ** The smart optimizer *)

Lemma accumulatedWith_map {I J V} (f : I -> J) (add : J -> option V -> V) (items : list I) :
  accumulatedWith (fun x => add (f x)) items = accumulatedWith add (map f items).
Proof.
  unfold accumulatedWith. generalize (@None V).
  induction items as [|x items IH]; intros o; [reflexivity|]. simpl. apply IH.
Qed.

Lemma accumulatedWith_accumulated {V} (add : ClassData -> option V -> V) items :
  accumulatedWith add items = accumulated add items.
Proof. reflexivity. Qed.

Lemma accumulatedWith_is_Some {I V} (add : I -> option V -> V) (items : list I) :
  items <> [] -> is_Some (accumulatedWith add items).
Proof.
  destruct items as [|x items] using rev_ind; [congruence|].
  intros _. rewrite accumulatedWith_snoc. eauto.
Qed.

Lemma ListNoDup_app {A} (l k : list A) :
  List.NoDup (l ++ k)
  <-> List.NoDup l /\ List.NoDup k /\ forall x, In x l -> In x k -> False.
Proof.
  rewrite <- !NoDup_ListNoDup, NoDup_app. setoid_rewrite list_elem_of_In.
  split; [intros (H1 & H2 & H3)|intros (H1 & H3 & H2)]; repeat split; auto;
    intros x Hx Hk; exact (H2 x Hx Hk).
Qed.

Lemma NoDup_pairs {A B} (ls : list A) (ds : list B) :
  List.NoDup ls -> List.NoDup ds ->
  List.NoDup (flat_map (fun l => map (fun d => (l, d)) ds) ls).
Proof.
  intros Hl Hd. induction Hl as [|l ls Hnin Hl IH]; [constructor|]. simpl.
  apply ListNoDup_app. split; [|split; [exact IH|]].
  - apply Finite.Injective_map_NoDup; [|exact Hd]. intros x y E. congruence.
  - intros [a b] H1 H2. apply in_map_iff in H1 as (d & E & _). injection E as <- _.
    apply in_flat_map in H2 as (l' & Hl' & H2).
    apply in_map_iff in H2 as (d' & E & _). injection E as -> _. contradiction.
Qed.

Lemma find_none_filter {A} (p : A -> bool) (l : list A) :
  List.find p l = None -> List.filter p l = [].
Proof.
  induction l as [|x l IH]; [reflexivity|]. simpl.
  destruct (p x); [discriminate|exact IH].
Qed.

Lemma participants_order_trans {A} (f : A -> Z) (a b c : A) :
  precedes (fun a b => inject_Z (f b) - inject_Z (f a)) a b ->
  precedes (fun a b => inject_Z (f b) - inject_Z (f a)) b c ->
  precedes (fun a b => inject_Z (f b) - inject_Z (f a)) a c.
Proof.
  unfold precedes. rewrite !Qle_bool_iff. lra.
Qed.

Lemma participants_order_total {A} (f : A -> Z) (a b : A) :
  precedes (fun a b => inject_Z (f b) - inject_Z (f a)) a b
  \/ precedes (fun a b => inject_Z (f b) - inject_Z (f a)) b a.
Proof.
  unfold precedes. rewrite !Qle_bool_iff.
  destruct (Qlt_le_dec (inject_Z (f a)) (inject_Z (f b))); [right|left]; lra.
Qed.

(** The head of an array sorted by [b.participants - a.participants] has the
    most participants. *)
Lemma sortBy_participants_head {A} (f : A -> Z) (l : list A) h t :
  sortBy (fun a b => inject_Z (f b) - inject_Z (f a)) l = h :: t ->
  In h l /\ forall y, In y l -> (f y <= f h)%Z.
Proof.
  intros H. split.
  - apply (sortBy_In (fun a b => inject_Z (f b) - inject_Z (f a))). rewrite H. now left.
  - intros y Hy.
    pose proof (sortBy_head_min _ l (participants_order_trans f)
                  (participants_order_total f) h t H y Hy) as Hp.
    unfold precedes in Hp. apply Qle_bool_iff in Hp.
    apply Qle_minus_iff in Hp. ring_simplify in Hp.
    rewrite Zle_Qle. lra.
Qed.

Lemma timePerformance_In data t st :
  In (t, st) (SO.timePerformance data) ->
  (exists item, In item data /\ slice0 5 (classTime (imp_item item)) = t)
  /\ st_participants st
     = totalParticipants
         (map imp_item
            (List.filter (fun item => bool_decide (slice0 5 (classTime (imp_item item)) = t))
                         data)).
Proof.
  unfold SO.timePerformance. rewrite reduceWith_In. intros H. split.
  - destruct (List.filter _ data) as [|item r] eqn:E; [discriminate|].
    assert (Hin : In item (item :: r)) by now left.
    rewrite <- E in Hin. apply filter_In in Hin as [Hin Hk].
    apply bool_decide_eq_true in Hk. eauto.
  - rewrite (accumulatedWith_map imp_item addStats) in H.
    now apply accumulated_addStats in H.
Qed.

Lemma timePerformance_item data item :
  In item data ->
  exists st, In (slice0 5 (classTime (imp_item item)), st) (SO.timePerformance data).
Proof.
  intros Hin. unfold SO.timePerformance.
  destruct (accumulatedWith_is_Some (fun item => addStats (imp_item item))
              (List.filter (fun x => bool_decide (slice0 5 (classTime (imp_item x))
                                                  = slice0 5 (classTime (imp_item item))))
                           data)) as [st Hst].
  - intros E. assert (H : In item []); [|destruct H].
    rewrite <- E. apply filter_In. split; [exact Hin|].
    now apply bool_decide_eq_true_2.
  - exists st. now apply reduceWith_In.
Qed.

Section SmartRuns.
Variable csvData : list ImportedRow.

Lemma addBest_inv loc d acc :
  In d SO.days ->
  SO.addBest csvData loc d acc = acc
  \/ exists cls,
       SO.addBest csvData loc d acc
       = (fst acc ++ [cls],
          snd acc ++ [{| SO.sg_type := format_change; SO.sg_originalClass := cls;
                         SO.sg_suggestedClass := cls |}])
       /\ sc_location cls = loc /\ day cls = d
       /\ classesInSlot (fst acc) loc d (time cls) = []
       /\ smartClass csvData cls.
Proof.
  intros Hd. unfold SO.addBest. cbv zeta.
  destruct (0 <? length (SO.dayData csvData loc d))%nat; [|now left].
  destruct (SO.bestTime (SO.dayData csvData loc d)) as [[t st]|] eqn:Et; [|now left].
  destruct (SO.bestClasses (SO.dayData csvData loc d) (fst (t, st)))
    as [|best rest] eqn:Eb; [now left|].
  destruct (List.find _ (fst acc)) eqn:Ef; [now left|].
  right. eexists. split; [reflexivity|]. cbn [fst] in *.
  split; [reflexivity|]. split; [reflexivity|].
  split; [exact (find_none_filter _ _ Ef)|].
  unfold SO.bestTime in Et.
  destruct (sortBy _ (SO.timePerformance (SO.dayData csvData loc d)))
    as [|h entries] eqn:Es; [discriminate|].
  injection Et as ->.
  apply (sortBy_participants_head (fun kv : string * Stats => st_participants (snd kv)))
    in Es as [Hin Hmax].
  pose proof (timePerformance_In _ _ _ Hin) as [Hitem Htotal].
  apply sortBy_participants_head in Eb as [Hbest Hbmax].
  apply filter_In in Hbest as [Hbest Hinc].
  unfold smartClass.
  cbn [SO.newClass day duration isPrivate sc_location time classFormat teacherFirstName
         teacherLastName].
  split; [exact Hd|]. split; [reflexivity|]. split; [reflexivity|].
  split; [exact Hitem|]. split.
  - intros item Hi. destruct (timePerformance_item _ _ Hi) as [st' Hst'].
    pose proof (Hmax _ Hst') as Hle. cbn [snd] in Hle.
    apply timePerformance_In in Hst' as [_ E']. unfold timeTotal.
    rewrite <- E', <- Htotal. exact Hle.
  - exists best. repeat split; auto.
    intros other Ho Hoi. apply Hbmax, filter_In. now split.
Qed.

(** The two nested loops, over the pairs they visit. *)
Lemma addBest_fold (pairs : list (string * string)) current :
  List.NoDup pairs ->
  (forall p, In p pairs -> In (snd p) SO.days) ->
  exists added,
    fold_left (fun acc (p : string * string) => SO.addBest csvData (fst p) (snd p) acc)
              pairs (current, [])
    = (current ++ added,
       map (fun cls => {| SO.sg_type := format_change; SO.sg_originalClass := cls;
                          SO.sg_suggestedClass := cls |}) added)
    /\ List.NoDup (map (fun cls => (sc_location cls, day cls)) added)
    /\ forall cls, In cls added ->
         In (sc_location cls, day cls) pairs
         /\ smartClass csvData cls
         /\ classesInSlot current (sc_location cls) (day cls) (time cls) = [].
Proof.
  induction pairs as [|[loc d] pairs IH] using rev_ind; intros Hnd Hdays.
  - exists []. rewrite app_nil_r. simpl. split; [reflexivity|].
    split; [constructor|intros cls []].
  - apply ListNoDup_app in Hnd as (Hnd & _ & Hdisj).
    destruct (IH Hnd) as (added & E & Hn & Hcls);
      [intros p Hp; apply Hdays, in_or_app; now left|].
    rewrite fold_left_app, E. cbn [fold_left fst snd].
    destruct (addBest_inv loc d
                (current ++ added,
                 map (fun cls => {| SO.sg_type := format_change;
                                    SO.sg_originalClass := cls;
                                    SO.sg_suggestedClass := cls |}) added))
      as [->|(cls & -> & Hl & Hd & Hcell & Hsmart)].
    + apply (Hdays (loc, d)), in_or_app. right. now left.
    + exists added. split; [reflexivity|]. split; [exact Hn|].
      intros cls Hc. destruct (Hcls cls Hc) as (H1 & H2 & H3).
      split; [apply in_or_app; now left|]. now split.
    + exists (added ++ [cls]). cbn [fst snd].
      rewrite map_app, <- app_assoc. split; [reflexivity|]. split.
      * rewrite map_app. simpl. apply NoDup_snoc; [exact Hn|].
        rewrite Hl, Hd. intros Hin. apply in_map_iff in Hin as (c & Ec & Hc).
        destruct (Hcls c Hc) as (Hp & _). rewrite Ec in Hp.
        apply (Hdisj (loc, d)); [exact Hp|now left].
      * intros c Hc. apply in_app_or in Hc as [Hc|[<-|[]]].
        -- destruct (Hcls c Hc) as (H1 & H2 & H3).
           split; [apply in_or_app; now left|]. now split.
        -- split; [rewrite Hl, Hd; apply in_or_app; right; now left|].
           split; [exact Hsmart|].
           rewrite Hl, Hd. cbn [fst] in Hcell. rewrite classesInSlot_app in Hcell.
           now apply app_eq_nil in Hcell as [Hcell _].
Qed.

Lemma suggestTeacher_inv suggestions cls :
  SO.suggestTeacher csvData suggestions cls = suggestions
  \/ exists s best,
       SO.suggestTeacher csvData suggestions cls = suggestions ++ [s]
       /\ SO.sg_type s = teacher_change
       /\ SO.sg_originalClass s = cls
       /\ In best (SO.dayData csvData (sc_location cls) (day cls))
       /\ includes (classTime (imp_item best)) (time cls) = true
       /\ teacherName (imp_item best) <> fullName cls
       /\ (forall other,
             In other (SO.dayData csvData (sc_location cls) (day cls)) ->
             includes (classTime (imp_item other)) (time cls) = true ->
             (participants (imp_item other) <= participants (imp_item best))%Z)
       /\ teacherFirstName (SO.sg_suggestedClass s) = imp_teacherFirstName best
       /\ teacherLastName (SO.sg_suggestedClass s) = imp_teacherLastName best
       /\ id (SO.sg_suggestedClass s) = id cls
       /\ sc_location (SO.sg_suggestedClass s) = sc_location cls
       /\ day (SO.sg_suggestedClass s) = day cls
       /\ time (SO.sg_suggestedClass s) = time cls
       /\ classFormat (SO.sg_suggestedClass s) = classFormat cls
       /\ duration (SO.sg_suggestedClass s) = duration cls.
Proof.
  unfold SO.suggestTeacher. cbv zeta.
  destruct (sortBy _ _) as [|best rest] eqn:Es; [now left|].
  destruct (bool_decide (teacherName (imp_item best) = fullName cls)) eqn:En; [now left|].
  right. eexists. exists best. split; [reflexivity|]. cbn.
  apply sortBy_participants_head in Es as [Hbest Hmax].
  apply filter_In in Hbest as [Hbest Hp].
  apply andb_true_iff in Hp as [Hp Hinc]. apply andb_true_iff in Hp as [Hl Hd].
  apply bool_decide_eq_false in En.
  repeat split; auto.
  - apply filter_In. split; [exact Hbest|]. now rewrite Hl, Hd.
  - intros other Ho Hoi. apply Hmax, filter_In.
    apply filter_In in Ho as [Ho Hc]. split; [exact Ho|]. now rewrite Hc, Hoi.
Qed.
End SmartRuns.

Lemma smart_days_NoDup : List.NoDup SO.days.
Proof. apply weekDays_NoDup. Qed.

(** [generateOptimization] only adds to the current schedule: the schedule it
    stores is the current one followed by at most one class for each location
    of the records and week day, no two for the same location and day. A class
    it adds is in a cell that is empty in the current schedule, lasts one
    hour, starts at a [classTime.slice(0, 5)] of the records of that location
    and day with the highest total of participants, and has the format and the
    two name parts of a record of that location and day whose class time
    holds that time, with the most participants among these. Its suggestions
    are one [format_change] for each class added, followed by
    [teacher_change]s for classes of the current schedule, each towards the
    names of the record with the most participants among those of the class's
    location and day whose class time holds its time, when that record's
    teacher name is not the name the class shows. No scheduling rule is
    tested: on the sample records it adds a hosted class at 13:00 on a week
    day under a name with Nishanth. *)
Theorem generateOptimization_spec csvData currentSchedule :
  (exists added changes,
      SO.generateOptimization csvData currentSchedule
      = (map (fun cls => {| SO.sg_type := format_change; SO.sg_originalClass := cls;
                            SO.sg_suggestedClass := cls |}) added
         ++ changes,
         currentSchedule ++ added)
      /\ List.NoDup (map (fun cls => (sc_location cls, day cls)) added)
      /\ (forall cls, In cls added ->
            In (sc_location cls) (SO.locationsOf csvData)
            /\ smartClass csvData cls
            /\ classesInSlot currentSchedule (sc_location cls) (day cls) (time cls) = [])
      /\ (forall s, In s changes ->
            SO.sg_type s = teacher_change
            /\ In (SO.sg_originalClass s) currentSchedule
            /\ exists best,
                 In best (SO.dayData csvData (sc_location (SO.sg_originalClass s))
                            (day (SO.sg_originalClass s)))
                 /\ includes (classTime (imp_item best)) (time (SO.sg_originalClass s))
                    = true
                 /\ teacherName (imp_item best) <> fullName (SO.sg_originalClass s)
                 /\ (forall other,
                       In other (SO.dayData csvData (sc_location (SO.sg_originalClass s))
                                   (day (SO.sg_originalClass s))) ->
                       includes (classTime (imp_item other))
                         (time (SO.sg_originalClass s)) = true ->
                       (participants (imp_item other) <= participants (imp_item best))%Z)
                 /\ teacherFirstName (SO.sg_suggestedClass s) = imp_teacherFirstName best
                 /\ teacherLastName (SO.sg_suggestedClass s) = imp_teacherLastName best
                 /\ id (SO.sg_suggestedClass s) = id (SO.sg_originalClass s)
                 /\ sc_location (SO.sg_suggestedClass s)
                    = sc_location (SO.sg_originalClass s)
                 /\ day (SO.sg_suggestedClass s) = day (SO.sg_originalClass s)
                 /\ time (SO.sg_suggestedClass s) = time (SO.sg_originalClass s)
                 /\ classFormat (SO.sg_suggestedClass s)
                    = classFormat (SO.sg_originalClass s)
                 /\ duration (SO.sg_suggestedClass s) = duration (SO.sg_originalClass s)))
  /\ (exists cls,
         snd (SO.generateOptimization smartRecords []) = [cls]
         /\ isHostedClass (classFormat cls) = true
         /\ isTimeRestricted (time cls) (day cls) false = true
         /\ includes (fullName cls) "Nishanth" = true).
Proof.
  split.
  - unfold SO.generateOptimization. cbv zeta.
    rewrite (fold_left_pairs (fun loc d acc => SO.addBest csvData loc d acc)).
    destruct (addBest_fold csvData
                (flat_map (fun loc => map (fun d => (loc, d)) SO.days)
                   (SO.locationsOf csvData))
                currentSchedule) as (added & E & Hn & Hcls).
    + apply NoDup_pairs; [apply uniq_NoDup|apply smart_days_NoDup].
    + intros [loc d] Hp. apply in_flat_map in Hp as (l & _ & Hp).
      apply in_map_iff in Hp as (d' & Ed & Hd). injection Ed as _ <-. exact Hd.
    + rewrite E. cbn [fst snd].
      assert (Hch : forall (l : list ScheduledClass) (sugs : list SO.Suggestion),
                 (forall c, In c l -> In c currentSchedule) ->
                 exists changes,
                   fold_left (SO.suggestTeacher csvData) l sugs = sugs ++ changes
                   /\ forall s, In s changes ->
                        SO.sg_type s = teacher_change
                        /\ In (SO.sg_originalClass s) currentSchedule
                        /\ exists best,
                             In best (SO.dayData csvData
                                        (sc_location (SO.sg_originalClass s))
                                        (day (SO.sg_originalClass s)))
                             /\ includes (classTime (imp_item best))
                                  (time (SO.sg_originalClass s)) = true
                             /\ teacherName (imp_item best)
                                <> fullName (SO.sg_originalClass s)
                             /\ (forall other,
                                   In other (SO.dayData csvData
                                               (sc_location (SO.sg_originalClass s))
                                               (day (SO.sg_originalClass s))) ->
                                   includes (classTime (imp_item other))
                                     (time (SO.sg_originalClass s)) = true ->
                                   (participants (imp_item other)
                                    <= participants (imp_item best))%Z)
                             /\ teacherFirstName (SO.sg_suggestedClass s)
                                = imp_teacherFirstName best
                             /\ teacherLastName (SO.sg_suggestedClass s)
                                = imp_teacherLastName best
                             /\ id (SO.sg_suggestedClass s) = id (SO.sg_originalClass s)
                             /\ sc_location (SO.sg_suggestedClass s)
                                = sc_location (SO.sg_originalClass s)
                             /\ day (SO.sg_suggestedClass s) = day (SO.sg_originalClass s)
                             /\ time (SO.sg_suggestedClass s)
                                = time (SO.sg_originalClass s)
                             /\ classFormat (SO.sg_suggestedClass s)
                                = classFormat (SO.sg_originalClass s)
                             /\ duration (SO.sg_suggestedClass s)
                                = duration (SO.sg_originalClass s)).
      { induction l as [|c l IHl] using rev_ind; intros sugs Hsub.
        - exists []. rewrite app_nil_r. split; [reflexivity|intros s []].
        - destruct (IHl sugs) as (changes & Ec & Hc);
            [intros x Hx; apply Hsub, in_or_app; now left|].
          rewrite fold_left_app, Ec. cbn [fold_left].
          destruct (suggestTeacher_inv csvData (sugs ++ changes) c)
            as [->|(s & best & -> & H1 & H2 & H3)].
          + exists changes. now split.
          + exists (changes ++ [s]). rewrite <- app_assoc. split; [reflexivity|].
            intros s' Hs'. apply in_app_or in Hs' as [Hs'|[<-|[]]]; [now apply Hc|].
            split; [exact H1|]. rewrite H2.
            split; [apply Hsub, in_or_app; right; now left|].
            exists best. exact H3. }
      destruct (Hch currentSchedule
                  (map (fun cls => {| SO.sg_type := format_change;
                                      SO.sg_originalClass := cls;
                                      SO.sg_suggestedClass := cls |}) added))
        as (changes & Ec & Hc); [auto|].
      exists added, changes. rewrite Ec. split; [reflexivity|]. split; [exact Hn|].
      split; [|exact Hc].
      intros cls Hin. destruct (Hcls cls Hin) as (Hp & Hs & He).
      split; [|now split].
      apply in_flat_map in Hp as (l & Hl & Hp).
      apply in_map_iff in Hp as (d' & Ed & _). injection Ed as <- _. exact Hl.
  - eexists. split; [vm_compute; reflexivity|]. vm_compute. auto.
Qed.


(** ** The class form *)

Lemma lookupKey_absent {V} k (l : list (string * V)) :
  ~ In k (map fst l) -> lookupKey k l = None.
Proof.
  unfold lookupKey. induction l as [|[k0 v] r IH]; intros H; [reflexivity|]. simpl in *.
  rewrite bool_decide_eq_false_2 by (intros E; apply H; now left).
  apply IH. intros Hin. apply H. now right.
Qed.

(** The hours [getTeacherValidation] finds under a name are the entry of the
    name, when the keys are names as the classes show them. *)
Lemma hoursOf_existing loc (teacherHours : list (string * Q)) name :
  List.NoDup (map fst teacherHours) ->
  (forall k, In k (map fst teacherHours) -> shownName k = k) ->
  hoursOf (map (CM.existingClass loc) teacherHours) name
  == default 0 (lookupKey name teacherHours).
Proof.
  rewrite hoursOf_hoursSum.
  induction teacherHours as [|[k v] r IH]; intros Hnd Hk; [reflexivity|].
  inversion Hnd as [|? ? Hnin Hnd']; subst.
  cbn [map hoursSum fold_right]. unfold contribution at 1.
  change (fullName (CM.existingClass loc (k, v))) with (shownName k).
  rewrite (Hk k (or_introl eq_refl)). cbn [CM.existingClass duration snd].
  change (fold_right (fun cls sum => contribution name cls + sum) 0
            (map (CM.existingClass loc) r))
    with (hoursSum (map (CM.existingClass loc) r) name).
  rewrite IH by (auto; intros k' Hk'; apply Hk; now right).
  unfold lookupKey. cbn [List.find fst].
  destruct (decide (k = name)) as [->|Hne].
  - rewrite !bool_decide_eq_true_2 by reflexivity. cbn.
    fold (lookupKey name r). rewrite (lookupKey_absent name r Hnin). cbn. ring.
  - rewrite !bool_decide_eq_false_2 by exact Hne. ring.
Qed.

Lemma calculateTeacherHours_keys sched :
  List.NoDup (map fst (calculateTeacherHours sched))
  /\ forall k, In k (map fst (calculateTeacherHours sched)) -> shownName k = k.
Proof.
  split; [apply reduceWith_NoDup|].
  intros k Hk. apply in_map_iff in Hk as ([k' v] & <- & Hin). cbn [fst].
  unfold calculateTeacherHours in Hin. apply reduceWith_In in Hin.
  destruct (List.filter _ sched) as [|c r] eqn:E; [discriminate|].
  assert (Hc : In c (c :: r)) by now left.
  rewrite <- E in Hc. apply filter_In in Hc as [_ Hc].
  apply bool_decide_eq_true in Hc. subst k'. apply fullName_shown.
Qed.

Lemma locationAlert_None format loc :
  CM.locationAlert format loc = None -> isClassAllowedAtLocation format loc = true.
Proof.
  unfold CM.locationAlert, isClassAllowedAtLocation. cbv zeta.
  destruct (bool_decide (loc = "Supreme HQ, Bandra"));
    destruct (_ || _); cbn; congruence.
Qed.

(** A class that [handleSchedule] gives to [onSchedule] is made of the form:
    the class, the teacher and the time are not empty, the day and the
    location are those of the slot, the name shown is the teacher's split at
    the first blank, and an edited class keeps its [id]. Its format is
    allowed at the location; under a name with Kabir or Simonelle it is one
    of the five formats open to new trainers; and the hours
    [getTeacherValidation] finds under the name in [teacherHours], with the
    duration of the class, are within the weekly cap of 15 hours (10 for such
    a name); when [teacherHours] is [calculateTeacherHours] of a schedule,
    these hours are the entry of the name shown. The time, the capacity of
    the cell and hosted classes are not tested: the form at noon gives a
    hosted class of two hours in the restricted period, under a name with
    Nishanth. *)
Theorem handleSchedule_spec :
  (forall slot csvData teacherHours editingClass form proceedHours proceedTeacher n cls,
      CM.handleSchedule slot csvData teacherHours editingClass form proceedHours
        proceedTeacher n = CM.Scheduled cls ->
      (CM.selectedClass form <> "" /\ CM.selectedTeacher form <> ""
       /\ CM.selectedTime form <> "")
      /\ (day cls = CM.slot_day slot /\ sc_location cls = CM.slot_location slot
          /\ time cls = CM.selectedTime form /\ classFormat cls = CM.selectedClass form
          /\ fullName cls = shownName (CM.selectedTeacher form)
          /\ duration cls = CM.form_duration form
          /\ isPrivate cls = CM.form_isPrivate form
          /\ forall edited, editingClass = Some edited -> id cls = id edited)
      /\ isClassAllowedAtLocation (classFormat cls) (sc_location cls) = true
      /\ (isNewTrainer (fullName cls) = true -> In (classFormat cls) newTrainerFormats)
      /\ hoursOf (map (CM.existingClass (sc_location cls)) teacherHours) (fullName cls)
         + duration cls <= maxWeekly (fullName cls)
      /\ (forall sched, teacherHours = calculateTeacherHours sched ->
            default 0 (lookupKey (fullName cls) teacherHours) + duration cls
            <= maxWeekly (fullName cls)))
  /\ (exists cls,
         CM.handleSchedule
           {| CM.slot_day := "Monday"; CM.slot_time := "12:00";
              CM.slot_location := "Kenkere House" |}
           [] [] None noonForm true true 0 = CM.Scheduled cls
         /\ isTimeRestricted (time cls) (day cls) false = true
         /\ isHostedClass (classFormat cls) = true
         /\ includes (fullName cls) "Nishanth" = true
         /\ duration cls = 2).
Proof.
  split.
  - intros slot csvData teacherHours editingClass form proceedHours proceedTeacher n cls.
    unfold CM.handleSchedule. cbv zeta.
    destruct (bool_decide (CM.selectedClass form = "")) eqn:E1; [discriminate|].
    destruct (bool_decide (CM.selectedTeacher form = "")) eqn:E2; [discriminate|].
    destruct (bool_decide (CM.selectedTime form = "")) eqn:E3; [discriminate|].
    cbn [orb].
    apply bool_decide_eq_false in E1, E2, E3.
    destruct (CM.locationAlert _ _) eqn:El; [discriminate|].
    apply locationAlert_None in El.
    destruct (existsb _ newTrainers && negb _) eqn:Et; [discriminate|].
    destruct (existsb _ newTrainers && Qltb 10 _); [discriminate|].
    destruct (negb (isValid _)) eqn:Ev; [discriminate|].
    destruct (match warning _ with Some _ => _ | None => _ end); [discriminate|].
    destruct (match getBestTeacherForClass _ _ _ _ _ with Some _ => _ | None => _ end);
      [discriminate|].
    intros H. injection H as <-.
    cbn [day sc_location time classFormat duration isPrivate id].
    change (fullName {| id := _; day := _; time := _; sc_location := _; classFormat := _;
                        teacherFirstName := hd "" (split " " (CM.selectedTeacher form));
                        teacherLastName := _; duration := _; sc_participants := _;
                        revenue := _; isTopPerformer := _; isPrivate := _ |})
      with (shownName (CM.selectedTeacher form)).
    assert (Hcap : hoursOf (map (CM.existingClass (CM.slot_location slot)) teacherHours)
                     (shownName (CM.selectedTeacher form))
                   + CM.form_duration form
                   <= maxWeekly (shownName (CM.selectedTeacher form))).
    { apply negb_false_iff in Ev. unfold CM.getTeacherValidation in Ev.
      unfold validateTeacherHours in Ev. cbv zeta in Ev.
      change (fullName {| id := _; day := _; time := _; sc_location := _;
                          classFormat := _;
                          teacherFirstName := hd "" (split " " (CM.selectedTeacher form));
                          teacherLastName := _; duration := _; sc_participants := _;
                          revenue := _; isTopPerformer := _; isPrivate := _ |})
        with (shownName (CM.selectedTeacher form)) in Ev.
      cbn [duration] in Ev. unfold maxWeekly, isNewTrainer.
      destruct (Qltb (inject_Z
                        (if existsb (includes (shownName (CM.selectedTeacher form)))
                              newTrainers
                         then 10%Z else 15%Z)) _) eqn:Eq;
        [discriminate|].
      unfold Qltb in Eq. apply negb_false_iff, Qle_bool_iff in Eq.
      revert Eq.
      destruct (existsb (includes (shownName (CM.selectedTeacher form))) newTrainers);
        intros Eq; exact Eq. }
    split; [auto|]. split.
    { repeat split; auto. intros edited ->. reflexivity. }
    split; [exact El|]. split; [|split; [exact Hcap|]].
    + rewrite isNewTrainer_shownName. unfold isNewTrainer. intros Hn.
      rewrite Hn in Et. cbn [andb] in Et. apply negb_false_iff in Et.
      now apply elemStr_In.
    + intros sched ->. destruct (calculateTeacherHours_keys sched) as [Hnd Hk].
      rewrite <- (hoursOf_existing (CM.slot_location slot) _ _ Hnd Hk). exact Hcap.
  - eexists. split; [vm_compute; reflexivity|]. vm_compute. auto.
Qed.
